(** * PyLink protocol engine: a shallow embedding of the P10 and TS6 modules

The development follows the source files
[protocols/p10.py], [protocols/ts6_common.py] and [plugins/relay.py].
Python values are modelled as follows: [int] as [Z], [bytes] as
[list N] (every element below 256), [str] as [string] (the text of the
wire, which is ASCII), a [dict] as a [gmap], a [set] as a [gset]; a call
that may raise returns a [result]. *)

From Stdlib Require Import ZArith NArith List String Ascii Bool Lia.
From stdpp Require Import base option gmap sets strings list.
Import ListNotations.
Local Open Scope string_scope.

(* ===================================================================== *)
(** * Part I: definitions                                                 *)
(* ===================================================================== *)

(** ** Python results and exceptions *)

Module Py.

Inductive exn : Type :=
| AttributeError | AssertionError | IndexError | KeyError | LookupError
| NotImplementedError | OSError | ProtocolError | RecursionError
| RuntimeError | StructError | TypeError | ValueError | BinasciiError.

Inductive result (A : Type) : Type :=
| Ok (a : A)
| Raise (e : exn).
Arguments Ok {A} a.
Arguments Raise {A} e.

Definition bind {A B} (r : result A) (k : A -> result B) : result B :=
  match r with
  | Ok a => k a
  | Raise e => Raise e
  end.

Definition is_ok {A} (r : result A) : bool :=
  match r with Ok _ => true | Raise _ => false end.

#[global] Instance exn_eq_dec : EqDecision exn.
Proof. solve_decision. Defined.

#[global] Instance result_eq_dec {A} `{EqDecision A} : EqDecision (result A).
Proof. solve_decision. Defined.

End Py.
Export Py.

Notation "x <-! r ; k" := (Py.bind r (fun x => k))
  (at level 100, r at next level, right associativity, only parsing).

(** ** Python [str] operations on [string] *)

Module Str.

Fixpoint take (n : nat) (s : string) : string :=
  match n, s with
  | S n', String c s' => String c (take n' s')
  | _, _ => ""
  end.

Fixpoint drop (n : nat) (s : string) : string :=
  match n, s with
  | S n', String _ s' => drop n' s'
  | _, _ => s
  end.

Definition len (s : string) : nat := String.length s.

(** [s[-n:]] for [n > 0]. *)
Definition lastn (n : nat) (s : string) : string := drop (len s - n) s.

(** [s[:i]] for an arbitrary Python integer [i]: a negative bound counts
    from the end. *)
Definition upto (i : Z) (s : string) : string :=
  if (0 <=? i)%Z then take (Z.to_nat i) s
  else take (len s - Z.to_nat (- i)) s.

Fixpoint mem (c : ascii) (s : string) : bool :=
  match s with
  | "" => false
  | String d s' => if Ascii.eqb c d then true else mem c s'
  end.

Fixpoint replace_char (a b : ascii) (s : string) : string :=
  match s with
  | "" => ""
  | String c s' => String (if Ascii.eqb c a then b else c) (replace_char a b s')
  end.

Fixpoint last_char (s : string) : option ascii :=
  match s with
  | "" => None
  | String c "" => Some c
  | String _ s' => last_char s'
  end.

(** [s.partition(sep)] for a one-character separator: the text before
    the first [sep], and the text after it when there is one. *)
Fixpoint partition (sep : ascii) (s : string) : string * option string :=
  match s with
  | "" => ("", None)
  | String c s' =>
      if Ascii.eqb c sep then ("", Some s')
      else let '(a, b) := partition sep s' in (String c a, b)
  end.

(** [s.split(sep)] for a one-character separator: never empty. *)
Fixpoint split (sep : ascii) (s : string) : list string :=
  match s with
  | "" => [""]
  | String c s' =>
      if Ascii.eqb c sep then "" :: split sep s'
      else match split sep s' with
           | w :: ws => String c w :: ws
           | [] => [String c ""]
           end
  end.

Fixpoint join (sep : string) (l : list string) : string :=
  match l with
  | [] => ""
  | [w] => w
  | w :: ws => w ++ sep ++ join sep ws
  end.

Definition startswith (p s : string) : bool := String.prefix p s.

Definition is_digit (c : ascii) : bool :=
  let n := N_of_ascii c in ((48 <=? n) && (n <=? 57))%N.

Definition is_upper (c : ascii) : bool :=
  let n := N_of_ascii c in ((65 <=? n) && (n <=? 90))%N.

Definition is_lower (c : ascii) : bool :=
  let n := N_of_ascii c in ((97 <=? n) && (n <=? 122))%N.

Fixpoint all (p : ascii -> bool) (s : string) : bool :=
  match s with
  | "" => true
  | String c s' => p c && all p s'
  end.

(** Decimal rendering of a non-negative number, as [str(n)] or ["%d" % n]. *)
Definition digit_char (d : N) : ascii := ascii_of_N (48 + d).

Fixpoint dec_digits (fuel : nat) (n : N) (acc : string) : string :=
  match fuel with
  | O => acc
  | S f =>
      let acc' := String (digit_char (n mod 10)) acc in
      if (n <? 10)%N then acc' else dec_digits f (n / 10) acc'
  end.

Definition of_N (n : N) : string := dec_digits (S (N.to_nat (N.log2 n))) n "".

Definition of_Z (z : Z) : string :=
  if (z <? 0)%Z then String "-" (of_N (Z.to_N (- z))) else of_N (Z.to_N z).

(** Number of characters of [s] that satisfy [p]. *)
Fixpoint count_if (p : ascii -> bool) (s : string) : nat :=
  match s with
  | "" => 0
  | String c s' => (if p c then 1 else 0) + count_if p s'
  end.

(** [s.count(c)] *)
Definition count (c : ascii) (s : string) : nat := count_if (Ascii.eqb c) s.

End Str.

(** ** The [base64] module of the Python standard library

[b64encode s altchars] and [b64decode s altchars] with the two
alternative characters replacing [+] and [/]. The decoder is the lenient
one ([validate=False]): characters outside the alphabet are discarded
and an incomplete quantum raises [binascii.Error]. *)

Module Base64.

Definition alphabet : string :=
  "ABCDEFGHIJKLMNOPQRSTUVWXYZabcdefghijklmnopqrstuvwxyz0123456789+/".

Definition std_char (v : N) : ascii :=
  match String.get (N.to_nat v) alphabet with
  | Some c => c
  | None => "A"%char
  end.

(** Translation applied by [b64encode] after encoding. *)
Definition enc_char (altchars : ascii * ascii) (v : N) : ascii :=
  let c := std_char v in
  if Ascii.eqb c "+" then fst altchars
  else if Ascii.eqb c "/" then snd altchars
  else c.

Definition quantum (a b c : N) : N :=
  N.lor (N.shiftl a 16) (N.lor (N.shiftl b 8) c).

Definition sextet (q : N) (i : N) : N := N.land (N.shiftr q (6 * i)) 63.

Fixpoint b64encode (altchars : ascii * ascii) (bs : list N) : string :=
  let ch := enc_char altchars in
  match bs with
  | [] => ""
  | [a] =>
      let q := quantum a 0 0 in
      String (ch (sextet q 3)) (String (ch (sextet q 2)) "==")
  | [a; b] =>
      let q := quantum a b 0 in
      String (ch (sextet q 3)) (String (ch (sextet q 2))
        (String (ch (sextet q 1)) "="))
  | a :: b :: c :: rest =>
      let q := quantum a b c in
      String (ch (sextet q 3)) (String (ch (sextet q 2))
        (String (ch (sextet q 1)) (String (ch (sextet q 0))
          (b64encode altchars rest))))
  end.

(** Value of a character of the standard alphabet ([table_a2b_base64]);
    the pad character is handled by the caller. *)
Definition std_val (c : ascii) : option N :=
  let n := N_of_ascii c in
  if Str.is_upper c then Some (n - 65)%N
  else if Str.is_lower c then Some (n - 97 + 26)%N
  else if Str.is_digit c then Some (n - 48 + 52)%N
  else if Ascii.eqb c "+" then Some 62%N
  else if Ascii.eqb c "/" then Some 63%N
  else None.

(** Translation applied by [b64decode] before decoding: the alternative
    characters become [+] and [/]; every other character is kept. *)
Definition translate (altchars : ascii * ascii) (c : ascii) : ascii :=
  if Ascii.eqb c (fst altchars) then "+"%char
  else if Ascii.eqb c (snd altchars) then "/"%char
  else c.

Definition is_pad (c : ascii) : bool := Ascii.eqb c "=".

Definition is_valid (c : ascii) : bool :=
  is_pad c || match std_val c with Some _ => true | None => false end.

(** A character that carries six bits of data. *)
Definition is_data (c : ascii) : bool :=
  negb (is_pad c) && match std_val c with Some _ => true | None => false end.

(** [binascii_find_valid s num]: the [(num+1)]-th valid character. *)
Fixpoint find_valid (s : string) (num : nat) : option ascii :=
  match s with
  | "" => None
  | String c s' =>
      if is_valid c then
        match num with
        | O => Some c
        | S n => find_valid s' n
        end
      else find_valid s' num
  end.

Record dstate : Type := {
  quad_pos : N;
  leftchar : N;
  leftbits : N;
  out : list N
}.

(** A data character of value [v] is shifted in on the low end; a byte
    is output once eight bits are there. *)
Definition feed (st : dstate) (v : N) : dstate :=
  let qp := N.land (quad_pos st + 1) 3 in
  let lc := N.lor (N.shiftl (leftchar st) 6) v in
  let lb := (leftbits st + 6)%N in
  if (8 <=? lb)%N then
    let lb' := (lb - 8)%N in
    {| quad_pos := qp;
       leftchar := N.land lc (N.shiftl 1 lb' - 1);
       leftbits := lb';
       out := out st ++ [N.land (N.shiftr lc lb') 255] |}
  else
    {| quad_pos := qp; leftchar := lc; leftbits := lb; out := out st |}.

(** The loop of [binascii.a2b_base64]. *)
Fixpoint a2b_loop (s : string) (st : dstate) : dstate :=
  match s with
  | "" => st
  | String c s' =>
      if is_pad c then
        if (quad_pos st <? 2)%N
           || ((quad_pos st =? 2)%N
               && negb match find_valid s 1 with
                       | Some d => is_pad d
                       | None => false
                       end)
        then a2b_loop s' st
        else {| quad_pos := quad_pos st; leftchar := leftchar st;
                leftbits := 0; out := out st |}
      else
        match std_val c with
        | None => a2b_loop s' st
        | Some v => a2b_loop s' (feed st v)
        end
  end.

Fixpoint map_string (f : ascii -> ascii) (s : string) : string :=
  match s with
  | "" => ""
  | String c s' => String (f c) (map_string f s')
  end.

Definition is_ascii (c : ascii) : bool := (N_of_ascii c <? 128)%N.

(** [b64decode(s, altchars)] on a [str]: a character outside ASCII is a
    [ValueError]; bits left over at the end are a [binascii.Error]. *)
Definition b64decode (altchars : ascii * ascii) (s : string)
  : result (list N) :=
  if negb (Str.all is_ascii s) then Raise ValueError
  else
    let st := a2b_loop (map_string (translate altchars) s)
                {| quad_pos := 0; leftchar := 0; leftbits := 0; out := [] |} in
    if (leftbits st =? 0)%N then Ok (out st) else Raise BinasciiError.

End Base64.

(** ** [p10.py]: SID generation *)

Module P10Sid.

Definition p10_altchars : ascii * ascii := ("["%char, "]"%char).

(** [struct.pack('>I', num)]: four big-endian bytes of an unsigned int. *)
Definition struct_pack_I (num : Z) : result (list N) :=
  if ((0 <=? num) && (num <? 2 ^ 32))%Z then
    let n := Z.to_N num in
    Ok [N.land (N.shiftr n 24) 255; N.land (N.shiftr n 16) 255;
        N.land (N.shiftr n 8) 255; N.land n 255]
  else Raise StructError.

(** [p10b64encode(num, length=2)]; the [length] argument is not used by
    the body. *)
Definition p10b64encode (num : Z) : result string :=
  packed <-! struct_pack_I num;
  let sidbytes := skipn 1 packed in
  let sid := Str.lastn 2 (Base64.b64encode p10_altchars sidbytes) in
  Ok sid.

Record P10SIDGenerator : Type := {
  minnum : Z;
  maxnum : Z;
  currentnum : Z
}.

(** The state [__init__] leaves once ["MINNUM-MAXNUM"] has been parsed. *)
Definition init (lo hi : Z) : P10SIDGenerator :=
  {| minnum := lo; maxnum := hi; currentnum := lo |}.

Definition next_sid (g : P10SIDGenerator) : result string * P10SIDGenerator :=
  if (maxnum g <? currentnum g)%Z then (Raise ProtocolError, g)
  else
    match p10b64encode (currentnum g) with
    | Raise e => (Raise e, g)
    | Ok sid =>
        (Ok sid, {| minnum := minnum g; maxnum := maxnum g;
                    currentnum := currentnum g + 1 |})
    end.

(** [k] successive calls, with their results in order. *)
Fixpoint calls (k : nat) (g : P10SIDGenerator)
  : list (result string) * P10SIDGenerator :=
  match k with
  | O => ([], g)
  | S k' =>
      let '(r, g') := next_sid g in
      let '(rs, g'') := calls k' g' in
      (r :: rs, g'')
  end.

(** The SID of a number: the two characters of its twelve low bits. *)
Definition sid_of (n : N) : string :=
  String (Base64.enc_char p10_altchars (N.land (N.shiftr n 6) 63))
    (String (Base64.enc_char p10_altchars (N.land n 63)) "").

(** The generator [k] successful calls later. *)
Definition advance (g : P10SIDGenerator) (k : Z) : P10SIDGenerator :=
  {| minnum := minnum g; maxnum := maxnum g; currentnum := currentnum g + k |}.

Definition sids_from (c : Z) (k : nat) : list string :=
  map (fun i => sid_of (Z.to_N (c + Z.of_nat i))) (seq 0 k).

(** The 64 characters of the alphabet are pairwise distinct. *)
Definition enc_injective_check : bool :=
  let dom := map N.of_nat (seq 0 64) in
  forallb (fun a => forallb (fun b =>
    implb (Ascii.eqb (Base64.enc_char p10_altchars a)
                     (Base64.enc_char p10_altchars b))
          (a =? b)%N) dom) dom.

(** The claim on the numeric-range generator as the specification words
    it: with [minnum <= maxnum], the first [maxnum - minnum + 1] calls
    succeed with pairwise distinct two-character SIDs and every later call
    fails with a protocol error. *)
Definition sid_range_claim (lo hi : Z) : Prop :=
  (lo <= hi)%Z ->
  forall j : nat,
  exists sids : list string,
    length sids = Z.to_nat (hi - lo + 1)
    /\ NoDup sids
    /\ Forall (fun s => String.length s = 2) sids
    /\ fst (calls (Z.to_nat (hi - lo + 1) + j) (init lo hi))
       = ((Ok <$> sids) ++ repeat (Raise ProtocolError) j)%list.

End P10Sid.

(** ** The state store shared by both protocol modules

[classes.py] of the protocol package is not part of the analysed
sources; the records below follow the data model of the specification
and the attributes the protocol modules read and write. *)

Module State.

(** A mode pair such as [('+o', 'ABAAA')] or [('z', None)]. *)
Abbreviation modepair := (string * option string)%type.

(** Modelled from the spec: the User entity (UID, nick, nick timestamp,
    ident, hosts, IP, real name, owning server, joined channels, modes,
    away text). *)
Record IrcUser : Type := {
  u_nick : string;
  u_ts : Z;
  u_uid : string;
  u_server : string;
  u_ident : string;
  u_host : string;
  u_realhost : string;
  u_ip : string;
  u_realname : string;
  u_channels : gset string;
  u_modes : gset modepair;
  u_away : string
}.

(** Modelled from the spec: the Server entity (uplink, name, description,
    owned users, [internal] flag). *)
Record IrcServer : Type := {
  s_uplink : string;
  s_name : string;
  s_internal : bool;
  s_users : gset string;
  s_desc : string
}.

(** Modelled from the spec: the Channel entity (creation timestamp, topic,
    member UIDs, modes, and per prefix-mode name the members holding it). *)
Record IrcChannel : Type := {
  c_users : gset string;
  c_modes : gset modepair;
  c_ts : Z;
  c_topic : string;
  c_topicset : bool;
  c_prefixmodes : gmap string (gset string)
}.

(** One network: the protocol object, with the lines sent so far and the
    value [int(time.time())] returns. *)
Record Irc : Type := {
  name : string;
  sid : string;
  serverdata : gmap string string;
  users : gmap string IrcUser;
  servers : gmap string IrcServer;
  channels : gmap string IrcChannel;
  cmodes : gmap string string;
  prefixmodes : gmap string string;
  clock : Z;
  sent : list string
}.

Definition set_users (f : gmap string IrcUser -> gmap string IrcUser)
  (st : Irc) : Irc :=
  {| name := name st; sid := sid st; serverdata := serverdata st;
     users := f (users st); servers := servers st;
     channels := channels st; cmodes := cmodes st;
     prefixmodes := prefixmodes st; clock := clock st; sent := sent st |}.

Definition set_servers (f : gmap string IrcServer -> gmap string IrcServer)
  (st : Irc) : Irc :=
  {| name := name st; sid := sid st; serverdata := serverdata st;
     users := users st; servers := f (servers st);
     channels := channels st; cmodes := cmodes st;
     prefixmodes := prefixmodes st; clock := clock st; sent := sent st |}.

Definition set_channels (f : gmap string IrcChannel -> gmap string IrcChannel)
  (st : Irc) : Irc :=
  {| name := name st; sid := sid st; serverdata := serverdata st;
     users := users st; servers := servers st;
     channels := f (channels st); cmodes := cmodes st;
     prefixmodes := prefixmodes st; clock := clock st; sent := sent st |}.

Definition set_sent (f : list string -> list string) (st : Irc) : Irc :=
  {| name := name st; sid := sid st; serverdata := serverdata st;
     users := users st; servers := servers st;
     channels := channels st; cmodes := cmodes st;
     prefixmodes := prefixmodes st; clock := clock st; sent := f (sent st) |}.

Definition set_u_channels (f : gset string -> gset string) (u : IrcUser)
  : IrcUser :=
  {| u_nick := u_nick u; u_ts := u_ts u; u_uid := u_uid u;
     u_server := u_server u; u_ident := u_ident u; u_host := u_host u;
     u_realhost := u_realhost u; u_ip := u_ip u; u_realname := u_realname u;
     u_channels := f (u_channels u); u_modes := u_modes u;
     u_away := u_away u |}.

Definition set_u_nick (n : string) (t : Z) (u : IrcUser) : IrcUser :=
  {| u_nick := n; u_ts := t; u_uid := u_uid u;
     u_server := u_server u; u_ident := u_ident u; u_host := u_host u;
     u_realhost := u_realhost u; u_ip := u_ip u; u_realname := u_realname u;
     u_channels := u_channels u; u_modes := u_modes u;
     u_away := u_away u |}.

Definition set_u_away (a : string) (u : IrcUser) : IrcUser :=
  {| u_nick := u_nick u; u_ts := u_ts u; u_uid := u_uid u;
     u_server := u_server u; u_ident := u_ident u; u_host := u_host u;
     u_realhost := u_realhost u; u_ip := u_ip u; u_realname := u_realname u;
     u_channels := u_channels u; u_modes := u_modes u; u_away := a |}.

Definition set_c_users (f : gset string -> gset string) (c : IrcChannel)
  : IrcChannel :=
  {| c_users := f (c_users c); c_modes := c_modes c; c_ts := c_ts c;
     c_topic := c_topic c; c_topicset := c_topicset c;
     c_prefixmodes := c_prefixmodes c |}.

Definition set_c_topic (t : string) (c : IrcChannel) : IrcChannel :=
  {| c_users := c_users c; c_modes := c_modes c; c_ts := c_ts c;
     c_topic := t; c_topicset := true;
     c_prefixmodes := c_prefixmodes c |}.

(** Modelled from the spec: a channel is created on first use of its
    name, empty, with the current time as its timestamp (the channel
    table is a default dictionary). *)
Definition new_channel (st : Irc) : IrcChannel :=
  {| c_users := ∅; c_modes := ∅; c_ts := clock st; c_topic := "";
     c_topicset := false; c_prefixmodes := ∅ |}.

(** Modelled from the spec: [IrcChannel.removeuser], a member that leaves
    loses its membership and every prefix mode it held. *)
Definition removeuser (target : string) (c : IrcChannel) : IrcChannel :=
  {| c_users := c_users c ∖ {[target]}; c_modes := c_modes c;
     c_ts := c_ts c; c_topic := c_topic c; c_topicset := c_topicset c;
     c_prefixmodes := (fun s : gset string => s ∖ {[target]}) <$> c_prefixmodes c |}.

(** Modelled from the spec: [IrcChannel.isOp] and [isHalfop], membership
    in the set of holders of the named prefix mode. *)
Definition holds (pmode : string) (c : IrcChannel) (uid : string) : bool :=
  match c_prefixmodes c !! pmode with
  | Some s => bool_decide (uid ∈ s)
  | None => false
  end.
Definition isOp := holds "op".
Definition isHalfop := holds "halfop".

(** Modelled from the spec: a server is internal when it is in the server
    table with its [internal] flag set; a client is internal when it is in
    the user table and its home server is internal. *)
Definition isInternalServer (st : Irc) (sid : string) : bool :=
  match servers st !! sid with
  | Some s => s_internal s
  | None => false
  end.

Definition getServer (st : Irc) (numeric : string) : option string :=
  u_server <$> users st !! numeric.

Definition isInternalClient (st : Irc) (numeric : string) : bool :=
  match getServer st numeric with
  | Some sid => isInternalServer st sid
  | None => false
  end.

(** Modelled from the spec: names are compared lower-cased. *)
Definition lower_char (c : ascii) : ascii :=
  if Str.is_upper c then ascii_of_N (N_of_ascii c + 32) else c.
Definition toLower (s : string) : string := Base64.map_string lower_char s.

(** *** The state-and-exception monad of a protocol method *)

Definition M (A : Type) : Type := Irc -> result A * Irc.

Definition ret {A} (a : A) : M A := fun st => (Ok a, st).
Definition raise {A} (e : exn) : M A := fun st => (Raise e, st).
Definition mbind {A B} (m : M A) (k : A -> M B) : M B :=
  fun st => match m st with
            | (Ok a, st') => k a st'
            | (Raise e, st') => (Raise e, st')
            end.
Definition get : M Irc := fun st => (Ok st, st).
Definition modify (f : Irc -> Irc) : M unit := fun st => (Ok tt, f st).
Definition lift {A} (r : result A) : M A := fun st => (r, st).

(** [self.send(line)]: the line goes out on the wire. *)
Definition send (line : string) : M unit :=
  modify (set_sent (fun l => (l ++ [line])%list)).

(** [self.channels[channel]]: looked up, and created when missing. *)
Definition channel_get (channel : string) : M IrcChannel :=
  fun st => match channels st !! channel with
            | Some c => (Ok c, st)
            | None => (Ok (new_channel st),
                       set_channels (insert channel (new_channel st)) st)
            end.

(** [self.users[uid]]: a plain dictionary. *)
Definition user_get (uid : string) : M IrcUser :=
  fun st => match users st !! uid with
            | Some u => (Ok u, st)
            | None => (Raise KeyError, st)
            end.

End State.
Export State.

Notation "x <- m ;; k" := (State.mbind m (fun x => k))
  (at level 100, m at next level, right associativity, only parsing).
Notation "m ;;; k" := (State.mbind m (fun _ => k))
  (at level 100, right associativity, only parsing).

(** ** [ts6_common.py]: the template-wildcard SID generator *)

Module TS6Sid.

Definition digits : string := "0123456789".
Definition ascii_uppercase : string := "ABCDEFGHIJKLMNOPQRSTUVWXYZ".

(** An entry of [self.iters]: the template character itself (a [str]), or
    an iterator over the allowed characters, given by what it has left. *)
Inductive slot : Type :=
| Fixed (c : ascii)
| Iter (rest : string).

Record TS6SIDGenerator : Type := {
  irc : Irc;
  query : list ascii;
  iters : list slot;
  output : list ascii;
  allowedchars : gmap nat string
}.

Definition with_pos (g : TS6SIDGenerator) (pos : nat) (c : ascii)
  (it : slot) : TS6SIDGenerator :=
  {| irc := irc g; query := query g;
     iters := <[pos := it]> (iters g);
     output := <[pos := c]> (output g);
     allowedchars := allowedchars g |}.

Definition with_allowed (g : TS6SIDGenerator) (pos : nat) (a : string)
  : TS6SIDGenerator :=
  {| irc := irc g; query := query g; iters := iters g; output := output g;
     allowedchars := <[pos := a]> (allowedchars g) |}.

(** The body of the [for idx, char in enumerate(query)] loop. *)
Definition init_step (acc : result TS6SIDGenerator) (ic : nat * ascii)
  : result TS6SIDGenerator :=
  g <-! acc;
  let '(idx, char) := ic in
  if negb (Str.mem char (digits ++ ascii_uppercase ++ "#")) then
    Raise AssertionError
  else if Ascii.eqb char "#" then
    let allowed := if Nat.eqb idx 0 then digits
                   else digits ++ ascii_uppercase in
    match allowed with
    | String c0 rest => Ok (with_pos (with_allowed g idx allowed) idx c0 (Iter rest))
    | "" => Raise IndexError
    end
  else Ok g.

(** [TS6SIDGenerator.__init__(irc)]. *)
Definition init (i : Irc) : result TS6SIDGenerator :=
  match serverdata i !! "sidrange" with
  | None => Raise RuntimeError
  | Some q =>
      let query := list_ascii_of_string q in
      let g := {| irc := i; query := query; iters := Fixed <$> query;
                  output := query; allowedchars := ∅ |} in
      if negb (Nat.eqb (length query) 3) then Raise AssertionError
      else if negb (Str.mem "#" q) then Raise AssertionError
      else fold_left init_step (combine (seq 0 (length query)) query) (Ok g)
  end.

(** [increment(pos)], with [n = pos + 1]: the recursion [increment(pos-1)]
    ends at [pos < 0]. State changes made before an exception stay. *)
Fixpoint increment_from (n : nat) (g : TS6SIDGenerator)
  : result unit * TS6SIDGenerator :=
  match n with
  | O => (Raise RuntimeError, g)
  | S pos =>
      match iters g !! pos with
      | None => (Raise IndexError, g)
      | Some (Fixed _) => increment_from pos g
      | Some (Iter (String c rest)) => (Ok tt, with_pos g pos c (Iter rest))
      | Some (Iter "") =>
          match allowedchars g !! pos with
          | Some (String c0 rest0) =>
              increment_from pos (with_pos g pos c0 (Iter rest0))
          | Some "" => (Raise IndexError, g)
          | None => (Raise KeyError, g)
          end
      end
  end.

Definition increment (g : TS6SIDGenerator) := increment_from 3 g.

(** The values an attribute of the generator object can hold. *)
Inductive pyval : Type :=
| VIrc (i : Irc)
| VChars (l : list ascii)
| VSlots (l : list slot)
| VAllowed (m : gmap nat string)
| VMethod (name : string).

(** Attribute lookup on a generator instance: the instance attributes set
    by [__init__], then the methods of the class, which has no base
    class. *)
Definition getattr (g : TS6SIDGenerator) (attr : string) : result pyval :=
  if String.eqb attr "irc" then Ok (VIrc (irc g))
  else if String.eqb attr "query" then Ok (VChars (query g))
  else if String.eqb attr "iters" then Ok (VSlots (iters g))
  else if String.eqb attr "output" then Ok (VChars (output g))
  else if String.eqb attr "allowedchars" then Ok (VAllowed (allowedchars g))
  else if String.eqb attr "increment" then Ok (VMethod attr)
  else if String.eqb attr "next_sid" then Ok (VMethod attr)
  else Raise AttributeError.

(** [key in v] for a string [key]. *)
Definition contains (v : pyval) (key : string) : result bool :=
  match v with
  | VChars l => Ok (existsb (fun c => String.eqb key (String c "")) l)
  | VSlots l =>
      Ok (existsb (fun s => match s with
                            | Fixed c => String.eqb key (String c "")
                            | Iter _ => false
                            end) l)
  | VAllowed _ => Ok false
  | VIrc _ | VMethod _ => Raise TypeError
  end.

Definition joined (g : TS6SIDGenerator) : string :=
  string_of_list_ascii (output g).

(** The [while] loop of [next_sid]; every round of it evaluates
    [self.servers]. The loop leaves through [increment] raising after at
    most [36 * 36 * 36] rounds. *)
Fixpoint next_sid_loop (fuel : nat) (g : TS6SIDGenerator)
  : result string * TS6SIDGenerator :=
  match getattr g "servers" with
  | Raise e => (Raise e, g)
  | Ok table =>
      match contains table (joined g) with
      | Raise e => (Raise e, g)
      | Ok false => (Ok (joined g), g)
      | Ok true =>
          match fuel with
          | O => (Raise RecursionError, g)
          | S fuel' =>
              match increment g with
              | (Raise e, g') => (Raise e, g')
              | (Ok _, g') => next_sid_loop fuel' g'
              end
          end
      end
  end.

Definition next_sid (g : TS6SIDGenerator) : result string * TS6SIDGenerator :=
  next_sid_loop (36 * 36 * 36) g.

(** A template as the class documents it: three characters among the
    digits, the uppercase letters and [#], one [#] at least. *)
Definition valid_template (q : string) : bool :=
  Nat.eqb (String.length q) 3
  && Str.mem "#" q
  && Str.all (fun c => Str.mem c (digits ++ ascii_uppercase ++ "#")) q.

(** A network configured with the template ["1#A"] and an empty server
    table. *)
Definition sid_example_irc : Irc :=
  {| name := "net"; sid := "1AA";
     serverdata := {[ "sidrange" := "1#A" ]};
     users := ∅; servers := ∅; channels := ∅; cmodes := ∅;
     prefixmodes := ∅; clock := 0; sent := [] |}.

End TS6Sid.

(** ** Addresses: [ipaddress.ip_address] and [socket.inet_*] *)

Module Inet.

Fixpoint dec_value (s : string) (acc : N) : N :=
  match s with
  | "" => acc
  | String c s' => dec_value s' (10 * acc + (N_of_ascii c - 48))
  end.

(** An octet as [ipaddress] accepts it: one to three decimal digits, no
    leading zero, at most 255. *)
Definition parse_octet (s : string) : option N :=
  let n := String.length s in
  if negb (Nat.leb 1 n && Nat.leb n 3) then None
  else if negb (Str.all Str.is_digit s) then None
  else if Nat.ltb 1 n && Str.startswith "0" s then None
  else let v := dec_value s 0 in
       if (v <=? 255)%N then Some v else None.

Definition parse_ipv4 (s : string) : option (list N) :=
  match Str.split "." s with
  | [a; b; c; d] =>
      match parse_octet a, parse_octet b, parse_octet c, parse_octet d with
      | Some x, Some y, Some z, Some w => Some [x; y; z; w]
      | _, _, _, _ => None
      end
  | _ => None
  end.

Definition is_hex (c : ascii) : bool :=
  let n := N_of_ascii c in
  Str.is_digit c || ((65 <=? n) && (n <=? 70))%N || ((97 <=? n) && (n <=? 102))%N.

Definition hex_digit (c : ascii) : N :=
  let n := N_of_ascii c in
  if Str.is_digit c then (n - 48)%N
  else if (n <=? 70)%N then (n - 55)%N else (n - 87)%N.

Fixpoint hex_value (s : string) (acc : N) : N :=
  match s with
  | "" => acc
  | String c s' => hex_value s' (16 * acc + hex_digit c)
  end.

Definition parse_hextet (s : string) : option N :=
  let n := String.length s in
  if Nat.leb 1 n && Nat.leb n 4 && Str.all is_hex s
  then Some (hex_value s 0) else None.

Fixpoint parse_hextets (l : list string) : option (list N) :=
  match l with
  | [] => Some []
  | x :: xs =>
      match parse_hextet x, parse_hextets xs with
      | Some v, Some vs => Some (v :: vs)
      | _, _ => None
      end
  end.

Definition is_empty (s : string) : bool := String.eqb s "".

Definition hex_char (d : N) : ascii :=
  if (d <? 10)%N then ascii_of_N (48 + d) else ascii_of_N (87 + d).

Fixpoint hex_digits (fuel : nat) (n : N) (acc : string) : string :=
  match fuel with
  | O => acc
  | S f =>
      let acc' := String (hex_char (n mod 16)) acc in
      if (n <? 16)%N then acc' else hex_digits f (n / 16) acc'
  end.

(** ["%x" % n]. *)
Definition to_hex (n : N) : string :=
  hex_digits (S (N.to_nat (N.log2 n))) n "".

(** [IPv6Address._split_scope_id]: the address and the zone after the
    first [%]; an empty zone and a zone with a [%] in it are refused. *)
Definition split_scope_id (s : string) : option (string * option string) :=
  match Str.partition "%" s with
  | (addr, None) => Some (addr, None)
  | (addr, Some scope) =>
      if is_empty scope || Str.mem "%" scope then None
      else Some (addr, Some scope)
  end.

(** The [IPv4]-style suffix of an address: when the last part has a dot
    in it, it is read as a dotted quad and replaced by its two 16-bit
    halves, written in hexadecimal. *)
Definition expand_v4_suffix (parts : list string) : option (list string) :=
  let last := List.last parts "" in
  if Str.mem "." last then
    match parse_ipv4 last with
    | Some [a; b; c; d] =>
        let ipv4_int := (((a * 256 + b) * 256 + c) * 256 + d)%N in
        Some (removelast parts
              ++ [to_hex (N.land (N.shiftr ipv4_int 16) 65535);
                  to_hex (N.land ipv4_int 65535)])%list
    | _ => None
    end
  else Some parts.

(** Indices [1 .. len-2] of [parts] holding an empty string. *)
Definition inner_empty (parts : list string) : list nat :=
  filter (fun i => is_empty (nth i parts "x")) (seq 1 (length parts - 2)).

(** The eight 16-bit groups of the parts of an address: at most one
    [::], which stands for the groups left out. *)
Definition groups_of (parts : list string) : option (list N) :=
  let n := length parts in
  if Nat.ltb 9 n then None
  else
    let first_empty := is_empty (nth 0 parts "x") in
    let last_empty := is_empty (nth (n - 1) parts "x") in
    match inner_empty parts with
    | [] =>
        if negb (Nat.eqb n 8) || first_empty || last_empty then None
        else parse_hextets parts
    | [skip] =>
        let hi := if first_empty then skip - 1 else skip in
        let lo := if last_empty then n - skip - 1 - 1 else n - skip - 1 in
        if first_empty && negb (Nat.eqb hi 0) then None
        else if last_empty && negb (Nat.eqb lo 0) then None
        else if Nat.ltb 7 (hi + lo) then None
        else
          match parse_hextets (firstn hi parts),
                parse_hextets (firstn lo (skipn (skip + 1) parts)) with
          | Some h, Some l => Some (h ++ repeat 0%N (8 - (hi + lo)) ++ l)%list
          | _, _ => None
          end
    | _ => None
    end.

(** [IPv6Address(s)]: no slash; an optional zone; at least three parts
    between colons, the last of which may be a dotted quad. The result is
    the eight groups and the zone. *)
Definition parse_ipv6 (s : string) : option (list N * option string) :=
  if Str.mem "/" s then None
  else
    match split_scope_id s with
    | None => None
    | Some (addr, scope) =>
        if is_empty addr then None
        else
          let parts := Str.split ":" addr in
          if Nat.ltb (length parts) 3 then None
          else
            match expand_v4_suffix parts with
            | None => None
            | Some parts =>
                match groups_of parts with
                | Some g => Some (g, scope)
                | None => None
                end
            end
    end.

(** An address object: the octets of an [IPv4Address], or the groups and
    the zone of an [IPv6Address]. *)
Inductive address : Type :=
| IPv4 (octets : list N)
| IPv6 (groups : list N) (scope_id : option string).

Definition version (a : address) : Z :=
  match a with IPv4 _ => 4 | IPv6 _ _ => 6 end.

(** [ip_address(ip)]: the IPv4 form is tried first, then the IPv6 one. *)
Definition ip_address (ip : string) : result address :=
  match parse_ipv4 ip with
  | Some o => Ok (IPv4 o)
  | None =>
      match parse_ipv6 ip with
      | Some (g, scope) => Ok (IPv6 g scope)
      | None => Raise ValueError
      end
  end.

(** [socket.inet_aton] on a dotted quad. *)
Definition inet_aton (ip : string) : result (list N) :=
  match parse_ipv4 ip with
  | Some o => Ok o
  | None => Raise OSError
  end.

(** [socket.inet_ntoa]: exactly four bytes, printed as a dotted quad. *)
Definition inet_ntoa (bs : list N) : result string :=
  match bs with
  | [a; b; c; d] =>
      Ok (Str.of_N a ++ "." ++ Str.of_N b ++ "." ++ Str.of_N c ++ "." ++ Str.of_N d)
  | _ => Raise OSError
  end.

Fixpoint words_of (bs : list N) : list N :=
  match bs with
  | a :: b :: rest => N.lor (N.shiftl a 8) b :: words_of rest
  | _ => []
  end.

(** The scan of [inet_ntop] for the longest run of zero groups: the run
    being read and the best one so far, each as [(base, len)]. *)
Definition run := option (nat * nat).

Definition better (cur best : run) : run :=
  match cur, best with
  | Some (cb, cl), Some (bb, bl) => if Nat.ltb bl cl then cur else best
  | Some _, None => cur
  | None, _ => best
  end.

Fixpoint scan_runs (i : nat) (ws : list N) (cur best : run) : run :=
  match ws with
  | [] => better cur best
  | w :: ws' =>
      if (w =? 0)%N then
        let cur' := match cur with
                    | None => Some (i, 1)
                    | Some (b, l) => Some (b, S l)
                    end in
        scan_runs (S i) ws' cur' best
      else scan_runs (S i) ws' None (better cur best)
  end.

Definition best_run (ws : list N) : run :=
  match scan_runs 0 ws None None with
  | Some (b, l) => if Nat.ltb l 2 then None else Some (b, l)
  | None => None
  end.

Definition in_run (r : run) (i : nat) : bool :=
  match r with
  | Some (b, l) => Nat.leb b i && Nat.ltb i (b + l)
  | None => false
  end.

Definition is_base (r : run) (i : nat) : bool :=
  match r with Some (b, _) => Nat.eqb i b | None => false end.

(** Whether group 6 starts an encapsulated IPv4 address. *)
Definition encapsulated (r : run) (ws : list N) : bool :=
  match r with
  | Some (0, 6) => true
  | Some (0, 5) => (nth 5 ws 0 =? 65535)%N
  | _ => false
  end.

Fixpoint render (r : run) (all : list N) (bs : list N) (i : nat)
  (ws : list N) : string :=
  match ws with
  | [] => ""
  | w :: ws' =>
      if in_run r i then
        (if is_base r i then ":" else "") ++ render r all bs (S i) ws'
      else
        (if Nat.eqb i 0 then "" else ":") ++
        (if Nat.eqb i 6 && encapsulated r all then
           match inet_ntoa (skipn 12 bs) with
           | Ok s => s
           | Raise _ => ""
           end
         else to_hex w ++ render r all bs (S i) ws')
  end.

(** [socket.inet_ntop(AF_INET6, packed)]. *)
Definition inet_ntop6 (bs : list N) : result string :=
  if negb (Nat.eqb (length bs) 16) then Raise ValueError
  else
    let ws := words_of bs in
    let r := best_run ws in
    let body := render r ws bs 0 ws in
    Ok (body ++ match r with
                | Some (b, l) => if Nat.eqb (b + l) 8 then ":" else ""
                | None => ""
                end).

(** Support for the proofs about octets: every string of [n] decimal
    digits, and the check that an accepted octet is below 256 and is
    printed by [Str.of_N] the way it was written. *)
Definition digit_chars : list ascii :=
  ["0"; "1"; "2"; "3"; "4"; "5"; "6"; "7"; "8"; "9"]%char.

Fixpoint digit_strings (n : nat) : list string :=
  match n with
  | O => [""]
  | S n' => flat_map (fun c => map (String c) (digit_strings n')) digit_chars
  end.

Definition octet_check (t : string) : bool :=
  match parse_octet t with
  | Some v => (v <? 256)%N && String.eqb (Str.of_N v) t
  | None => true
  end.

End Inet.

(** ** [p10.py]: the P10 encoding of addresses *)

Module P10IP.

Import P10Sid.

Fixpoint chunks3 (s : string) : list string :=
  match s with
  | "" => []
  | String a "" => [s]
  | String a (String b "") => [s]
  | String a (String b (String c rest)) =>
      String a (String b (String c "")) :: chunks3 rest
  end.

(** One of the two [for section in range(0, len(x), 3)] loops. *)
Fixpoint decode_sections (sections : list string) (acc : list N)
  : result (list N) :=
  match sections with
  | [] => Ok acc
  | sec :: rest =>
      bs <-! Base64.b64decode p10_altchars ("A" ++ sec);
      decode_sections rest (acc ++ skipn 1 bs)%list
  end.

(** [decode_p10_ip(ip)]; [Ok None] is the function ending without a
    [return]. *)
Definition decode_p10_ip (ip : string) : result (option string) :=
  if Nat.eqb (String.length ip) 6 then
    bs <-! Base64.b64decode p10_altchars ("AA" ++ ip);
    s <-! Inet.inet_ntoa (skipn 2 bs);
    Ok (Some s)
  else if Nat.leb (String.length ip) 24 || Str.mem "_" ip then
    ht <-! (if Str.mem "_" ip then
              match Str.split "_" ip with
              | [h; t] => Ok (h, t)
              | _ => Raise ValueError
              end
            else Ok (ip, ""));
    let '(head, tail) := ht in
    byteshead <-! decode_sections (chunks3 head) [];
    bytestail <-! decode_sections (chunks3 tail) [];
    let pad := (16 - Z.of_nat (length byteshead) - Z.of_nat (length bytestail))%Z in
    let ipbytes := (byteshead ++ repeat 0%N (Z.to_nat pad) ++ bytestail)%list in
    s <-! Inet.inet_ntop6 ipbytes;
    Ok (Some (if Str.startswith ":" s then "0" ++ s else s))
  else Ok None.

(** The "Encode IPs when sending" step of [spawnClient]: the value put in
    the [{ip}] field of the [N] line. *)
Definition spawn_b64ip (ip : string) : result string :=
  a <-! Inet.ip_address ip;
  if (Inet.version a =? 4)%Z then
    packed <-! Inet.inet_aton ip;
    Ok (Str.drop 2 (Base64.b64encode p10_altchars ([0; 0]%N ++ packed)%list))
  else Ok "AAAAAA".

(** Number of maximal runs of zero groups in an address. *)
Fixpoint zero_runs (in_run : bool) (groups : list N) : nat :=
  match groups with
  | [] => 0
  | g :: rest =>
      if (g =? 0)%N then (if in_run then 0 else 1) + zero_runs true rest
      else zero_runs false rest
  end.

Definition one_zero_run (a : Inet.address) : Prop :=
  match a with
  | Inet.IPv4 _ => True
  | Inet.IPv6 groups _ => zero_runs false groups <= 1
  end.

(** The round trip as the specification words it: the address a client is
    spawned with, encoded for the wire and decoded again, is the original
    address, for every IPv4 address and for every IPv6 address with at
    most one run of zero groups. *)
Definition ip_roundtrip_claim (ip : string) : Prop :=
  forall a, Inet.ip_address ip = Ok a -> one_zero_run a ->
  exists e s, spawn_b64ip ip = Ok e
              /\ decode_p10_ip e = Ok (Some s)
              /\ Inet.ip_address s = Ok a.

(** The characters of the P10 alphabet. *)
Definition p10_char (c : ascii) : bool :=
  Str.is_upper c || Str.is_lower c || Str.is_digit c
  || Ascii.eqb c "[" || Ascii.eqb c "]".

(** What the IPv6 branch of [decode_p10_ip] does with the bytes of the
    head and of the tail. *)
Definition pad_and_format (byteshead bytestail : list N)
  : result (option string) :=
  let pad := (16 - Z.of_nat (length byteshead) - Z.of_nat (length bytestail))%Z in
  s <-! Inet.inet_ntop6 (byteshead ++ repeat 0%N (Z.to_nat pad) ++ bytestail)%list;
  Ok (Some (if Str.startswith ":" s then "0" ++ s else s)).

(** A valid P10 encoding of an address: six characters of the alphabet
    (IPv4), or chunks of three characters of the alphabet, eight of them,
    or at most seven with one separator among them (IPv6). *)
Definition whole_chunks (s : string) : bool :=
  Str.all p10_char s && Nat.eqb (String.length s mod 3) 0.

Definition valid_encoding (ip : string) : bool :=
  (Nat.eqb (String.length ip) 6 && Str.all p10_char ip)
  || (Nat.eqb (String.length ip) 24 && Str.all p10_char ip)
  || match Str.split "_" ip with
     | [h; t] =>
         whole_chunks h && whole_chunks t
         && Nat.leb (String.length h / 3 + String.length t / 3) 7
     | _ => false
     end.

(** Totality as the specification words it: an input that is not a valid
    encoding makes the decoder fail with an error. *)
Definition decode_total_claim (ip : string) : Prop :=
  valid_encoding ip = false -> exists e, decode_p10_ip ip = Raise e.

(** A character the Base64 decoder takes as data once the alternative
    characters are translated. *)
Definition decoder_data (c : ascii) : bool :=
  Base64.is_data (Base64.translate p10_altchars c).

End P10IP.

(** ** Helpers of the protocol package that the protocol modules call

These functions live in modules that are not part of the analysed
sources ([classes.py] of the package, [utils.py], [ircs2s_common.py]);
the protocol methods below take them as an interface. *)

Module Ext.

Record Externals : Type := {
  (** [self.uidgen.setdefault(server, ...).next_uid()] *)
  next_uid : string -> M string;
  joinModes : list modepair -> string;
  applyModes : string -> list modepair -> M unit;
  wrapModes : list modepair -> Z -> list string;
  parseModes : Irc -> string -> list string -> result (list modepair);
  isChannel : string -> bool;
  removeClient : string -> M unit;
  getHostmask : Irc -> string -> string;
  getFriendlyName : Irc -> string -> result string;
  get_UID : Irc -> string -> string;
  updateTS : string -> string -> Z -> gset modepair -> M unit;
  conf_realname : string
}.

End Ext.
Export Ext.

(** ** More of Python's [str] and [int] *)

Module Text.

(** The characters [int] and [str.strip] take as blanks in ASCII text. *)
Definition is_space (c : ascii) : bool :=
  let n := N_of_ascii c in ((9 <=? n) && (n <=? 13))%N || (n =? 32)%N.

Fixpoint lstrip (s : string) : string :=
  match s with
  | String c s' => if is_space c then lstrip s' else s
  | "" => ""
  end.

(** [s.rstrip()]: the blanks of the end go; [None] stands for a string of
    blanks only. *)
Fixpoint rstrip_aux (s : string) : option string :=
  match s with
  | "" => None
  | String c s' =>
      match rstrip_aux s' with
      | Some r => Some (String c r)
      | None => if is_space c then None else Some (String c "")
      end
  end.

Definition rstrip (s : string) : string :=
  match rstrip_aux s with Some r => r | None => "" end.

Definition strip (s : string) : string := rstrip (lstrip s).

(** The digits of a decimal literal, underscores checked and dropped:
    one underscore may stand between two digits. [prev] tells whether the
    character before was a digit. *)
Fixpoint literal_digits (s : string) (prev : bool) : option string :=
  match s with
  | "" => if prev then Some "" else None
  | String c s' =>
      if Str.is_digit c then
        match literal_digits s' true with
        | Some d => Some (String c d)
        | None => None
        end
      else if Ascii.eqb c "_" && prev then
        match s' with
        | String d _ => if Str.is_digit d then literal_digits s' false else None
        | "" => None
        end
      else None
  end.

(** [int(s)] on ASCII text: blanks around, an optional sign, decimal
    digits with single underscores between them. *)
Definition int_of_str (s : string) : result Z :=
  let t := strip s in
  let '(neg, body) := match t with
                      | String "-" r => (true, r)
                      | String "+" r => (false, r)
                      | _ => (false, t)
                      end in
  match body with
  | "" => Raise ValueError
  | String c _ =>
      if negb (Str.is_digit c) then Raise ValueError
      else
        match literal_digits body false with
        | None => Raise ValueError
        | Some d =>
            let v := Z.of_N (Inet.dec_value d 0) in
            Ok (if neg then (- v)%Z else v)
        end
  end.

(** [s.split(sep, 1)] for a one-character separator. *)
Fixpoint split_once (sep : ascii) (s : string) : list string :=
  match s with
  | "" => [""]
  | String c s' =>
      if Ascii.eqb c sep then [""; s']
      else match split_once sep s' with
           | w :: ws => String c w :: ws
           | [] => [String c ""]
           end
  end.

(** [s.lower()] on ASCII text. *)
Definition lower (s : string) : string :=
  Base64.map_string
    (fun c => if Str.is_upper c then ascii_of_N (N_of_ascii c + 32) else c) s.

End Text.

(** ** Python idioms used by the protocol methods *)

Module Idiom.

(** [x or d] for an optional string: [None] and [''] are false. *)
Definition str_or (x : option string) (d : string) : string :=
  match x with
  | Some s => if String.eqb s "" then d else s
  | None => d
  end.

(** [x or d] for an optional integer: [None] and [0] are false. *)
Definition int_or (x : option Z) (d : Z) : Z :=
  match x with
  | Some z => if (z =? 0)%Z then d else z
  | None => d
  end.

(** ["%s" % x] where [x] may be [None]. *)
Definition fmt (x : option string) : string :=
  match x with Some s => s | None => "None" end.

(** [l[i]] on a Python list. *)
Definition item {A} (l : list A) (i : nat) : result A :=
  match nth_error l i with
  | Some a => Ok a
  | None => Raise IndexError
  end.

(** [l[2:-1]]. *)
Definition middle {A} (l : list A) : list A :=
  skipn 2 (firstn (length l - 1) l).

End Idiom.
Export Idiom.

(** ** Wire helpers of the package: argument wrapping and line parsing *)

Module Wire.

(** Modelled from the spec: [utils.wrapArguments(prefix, args, length,
    separator)] is missing from the analysed sources. A multi-value
    argument that would overflow is split across several lines, each
    starting with [prefix] and none longer than [length]; a line takes as
    many values as fit. A value that does not fit on a line of its own is
    an error. *)
Fixpoint wrap_loop (prefix separator : string) (length : Z)
  (args : list string) (buf : string) (fresh : bool)
  : result (list string) :=
  match args with
  | [] => Ok [buf]
  | a :: rest =>
      if (length <? Z.of_nat (String.length (prefix ++ a)))%Z then
        Raise AssertionError
      else if fresh then
        wrap_loop prefix separator length rest (buf ++ a) false
      else if (Z.of_nat (String.length (buf ++ separator ++ a)) <=? length)%Z then
        wrap_loop prefix separator length rest (buf ++ separator ++ a) false
      else
        lines <-! wrap_loop prefix separator length rest (prefix ++ a) false;
        Ok (buf :: lines)
  end.

Definition wrapArguments (prefix : string) (args : list string)
  (length : Z) (separator : string) : result (list string) :=
  match args with
  | [] => Raise AssertionError
  | _ => wrap_loop prefix separator length args prefix true
  end.

(** Modelled from the spec: [parseArgs(args)] is missing from the analysed
    sources. A line is a sequence of space-separated arguments, the last
    of which may start with a colon and then runs, spaces included, to the
    end of the line; empty words between arguments are skipped. *)
Fixpoint parse_from (idx : nat) (args : list string) : list string :=
  match args with
  | [] => []
  | arg :: rest =>
      if Str.startswith ":" arg && negb (Nat.eqb idx 0) then
        [Str.drop 1 (Str.join " " args)]
      else if String.eqb arg "" then parse_from (S idx) rest
      else arg :: parse_from (S idx) rest
  end.

Definition parseArgs (args : list string) : list string := parse_from 0 args.

End Wire.

(** ** [p10.py]: the protocol class *)

Module P10.

Section WithExternals.

Context (ext : Externals).

Definition S2S_BUFSIZE : Z := 510.

(** [_send_with_prefix(source, text)] *)
Definition send_with_prefix (source text : string) : M unit :=
  send (source ++ " " ++ text).

(** *** Handlers *)

(** The value a handler returns for PART and KICK. *)
Record part_event : Type := {
  pe_channels : list string;
  pe_text : string
}.

(** [self.users[source].channels.discard(channel)], the [KeyError] of a
    missing user being caught and logged. *)
Definition discard_channel (source channel : string) : M unit :=
  modify (set_users (fun us =>
    match us !! source with
    | Some u => <[source := set_u_channels (fun s => s ∖ {[channel]}) u]> us
    | None => us
    end)).

(** One round of the [for channel in channels] loop of [handle_part]. *)
Definition part_channel (source channel : string) : M unit :=
  c <- channel_get channel ;;
  modify (set_channels (insert channel (removeuser source c))) ;;;
  discard_channel source channel ;;;
  c' <- channel_get channel ;;
  if bool_decide (c_users c' = ∅)
  then modify (set_channels (delete channel))
  else ret tt.

Fixpoint part_channels (source : string) (chans : list string) : M unit :=
  match chans with
  | [] => ret tt
  | c :: cs => part_channel source c ;;; part_channels source cs
  end.

Definition handle_part (source command : string) (args : list string)
  : M part_event :=
  a0 <- lift (item args 0) ;;
  let chans := Str.split "," (toLower a0) in
  part_channels source chans ;;;
  ret {| pe_channels := chans;
         pe_text := match nth_error args 1 with Some r => r | None => "" end |}.

Record kick_event : Type := {
  ke_channel : string;
  ke_target : string;
  ke_text : string
}.

Definition handle_kick (source command : string) (args : list string)
  : M kick_event :=
  a0 <- lift (item args 0) ;;
  let channel := toLower a0 in
  kicked <- lift (item args 1) ;;
  a2 <- lift (item args 2) ;;
  handle_part kicked "KICK" [channel; a2] ;;;
  send_with_prefix kicked ("L " ++ channel ++ " :" ++ a2) ;;;
  ret {| ke_channel := channel; ke_target := kicked; ke_text := a2 |}.

(** The ban list of a BURST line, [args[-1][1:].split(' ')]. *)
Fixpoint burst_bans (hosts : list string) (exempts : bool) : list modepair :=
  match hosts with
  | [] => []
  | host :: rest =>
      if String.eqb host "" then burst_bans rest exempts
      else if String.eqb host "~" then burst_bans rest true
      else (if exempts then "+e" else "+b", Some host) :: burst_bans rest exempts
  end.

(** The ban list, when the last argument is one, and the arguments
    without it. *)
Definition strip_bans (args : list string) : list modepair * list string :=
  let final := List.last args "" in
  if Str.startswith "%" final
  then (burst_bans (Str.split " " (Str.drop 1 final)) false, removelast args)
  else ([], args).

(** [{('+%s' % mode, user) for mode in prefixes}] *)
Fixpoint prefix_modes (prefixes user : string) : gset modepair :=
  match prefixes with
  | "" => ∅
  | String m rest => {[ ("+" ++ String m "", Some user) ]} ∪ prefix_modes rest user
  end.

(** What the user loop of [handle_burst] carries from one entry to the
    next. *)
Record burst_acc : Type := {
  ba_prefixes : string;
  ba_namelist : list string;
  ba_changedmodes : gset modepair
}.

Definition add_member (channel user : string) : M unit :=
  modify (set_users (fun us =>
    match us !! user with
    | Some u => <[user := set_u_channels (fun s => s ∪ {[channel]}) u]> us
    | None => us
    end)) ;;;
  c <- channel_get channel ;;
  modify (set_channels (insert channel (set_c_users (fun s => s ∪ {[user]}) c))).

(** One round of [for userpair in userlist]. *)
Definition burst_user (channel userpair : string) (acc : burst_acc)
  : M burst_acc :=
  let '(user, prefixes) :=
    match Str.split ":" userpair with
    | [u; p] => (u, p)
    | _ => (userpair, ba_prefixes acc)
    end in
  st <- get ;;
  match users st !! user with
  | None =>
      ret {| ba_prefixes := prefixes; ba_namelist := ba_namelist acc;
             ba_changedmodes := ba_changedmodes acc |}
  | Some _ =>
      add_member channel user ;;;
      ret {| ba_prefixes := prefixes;
             ba_namelist := (ba_namelist acc ++ [user])%list;
             ba_changedmodes := ba_changedmodes acc ∪ prefix_modes prefixes user |}
  end.

Fixpoint burst_users (channel : string) (userlist : list string)
  (acc : burst_acc) : M burst_acc :=
  match userlist with
  | [] => ret acc
  | up :: rest =>
      acc' <- burst_user channel up acc ;;
      burst_users channel rest acc'
  end.

(** The UID an entry of the user list names, and the entries of a list
    that name a user of the user table. *)
Definition entry_user (userpair : string) : string :=
  match Str.split ":" userpair with
  | [u; _] => u
  | _ => userpair
  end.

Definition known_users (st : Irc) (userlist : list string) : list string :=
  filter (fun u => u ∈ dom (users st)) (entry_user <$> userlist).

(** What the user loop of [handle_burst] keeps and changes. *)
Record burst_loop_spec (channel : string) (known : list string)
    (st st' : Irc) (c : IrcChannel) (acc acc' : burst_acc) : Prop := {
  bl_dom : dom (users st') = dom (users st);
  bl_others : forall uid, uid ∉ known -> users st' !! uid = users st !! uid;
  bl_members : exists c', channels st' !! channel = Some c'
                          /\ c_users c' = c_users c ∪ list_to_set known;
  bl_channels : forall ch, ch <> channel -> channels st' !! ch = channels st !! ch;
  bl_namelist : ba_namelist acc' = (ba_namelist acc ++ known)%list;
  bl_sent : sent st' = sent st;
  bl_servers : servers st' = servers st;
  bl_modes : forall m x, x ∉ dom (users st) ->
               (m, Some x) ∈ ba_changedmodes acc' ->
               (m, Some x) ∈ ba_changedmodes acc
}.

Record burst_event : Type := {
  be_channel : string;
  be_users : list string;
  be_modes : list modepair;
  be_ts : Z;
  be_channeldata : IrcChannel
}.

Definition handle_burst (source command : string) (args : list string)
  : M (option burst_event) :=
  if Nat.ltb (length args) 3 then ret None
  else
    a0 <- lift (item args 0) ;;
    let channel := toLower a0 in
    chandata <- channel_get channel ;;
    let '(bans, args) := strip_bans args in
    let modestring := middle args in
    st <- get ;;
    parsedmodes <- lift (match modestring with
                         | [] => Ok []
                         | _ => parseModes ext st channel modestring
                         end) ;;
    let changedmodes : gset modepair := list_to_set (parsedmodes ++ bans)%list in
    let userarg := List.last args "" in
    let userlist := Str.split "," userarg in
    a1 <- lift (item args 1) ;;
    acc <- (if String.eqb userarg a1
            then ret {| ba_prefixes := ""; ba_namelist := [];
                        ba_changedmodes := changedmodes |}
            else burst_users channel userlist
                   {| ba_prefixes := ""; ba_namelist := [];
                      ba_changedmodes := changedmodes |}) ;;
    their_ts <- lift (Text.int_of_str a1) ;;
    updateTS ext source channel their_ts (ba_changedmodes acc) ;;;
    ret (Some {| be_channel := channel; be_users := ba_namelist acc;
                 be_modes := parsedmodes; be_ts := their_ts;
                 be_channeldata := chandata |}).

(** *** Outgoing commands *)

(** The test of the "prevent bounces" hack of [kick] and [mode]:
    [numeric not in self.servers and (not cobj.isOp(numeric)) and (not
    cobj.isHalfop(numeric))]. *)
Definition not_op_user (st : Irc) (cobj : IrcChannel) (numeric : string)
  : bool :=
  bool_decide (numeric ∉ dom (servers st))
  && negb (isOp cobj numeric) && negb (isHalfop cobj numeric).

Definition away (source text : string) : M unit :=
  st <- get ;;
  if negb (isInternalClient st source) then raise LookupError
  else
    (if String.eqb text "" then send_with_prefix source "A"
     else send_with_prefix source ("A :" ++ text)) ;;;
    u <- user_get source ;;
    modify (set_users (insert source (set_u_away text u))).

Definition kick (numeric channel target : string) (reason : option string)
  : M unit :=
  st <- get ;;
  if negb (isInternalClient st numeric) && negb (isInternalServer st numeric)
  then raise LookupError
  else
    let channel := toLower channel in
    let reason := str_or reason "No reason given" in
    cobj <- channel_get channel ;;
    st <- get ;;
    sr <- (if not_op_user st cobj numeric
           then
             fname <- lift (getFriendlyName ext st numeric) ;;
             ret (fmt (getServer st numeric), "(" ++ fname ++ ") " ++ reason)
           else ret (numeric, reason)) ;;
    let '(numeric, reason) := sr in
    send_with_prefix numeric ("K " ++ channel ++ " " ++ target ++ " :" ++ reason) ;;;
    handle_part target "KICK" [channel] ;;;
    ret tt.

Definition kill (numeric target reason : string) : M unit :=
  st <- get ;;
  if negb (isInternalClient st numeric) && negb (isInternalServer st numeric)
  then raise LookupError
  else
    send_with_prefix numeric ("D " ++ target ++ " :Killed (" ++ reason ++ ")") ;;;
    removeClient ext target.

Definition message (numeric target text : string) : M unit :=
  st <- get ;;
  if negb (isInternalClient st numeric) then raise LookupError
  else send_with_prefix numeric ("P " ++ target ++ " :" ++ text).

Definition notice (numeric target text : string) : M unit :=
  st <- get ;;
  if negb (isInternalClient st numeric) && negb (isInternalServer st numeric)
  then raise LookupError
  else send_with_prefix numeric ("O " ++ target ++ " :" ++ text).

(** [numeric(source, numeric, target, text)] *)
Definition numeric (source num target text : string) : M unit :=
  send_with_prefix source (num ++ " " ++ target ++ " " ++ text).

Definition nick (numeric newnick : string) : M unit :=
  st <- get ;;
  if negb (isInternalClient st numeric) then raise LookupError
  else
    send_with_prefix numeric ("N " ++ newnick ++ " " ++ Str.of_Z (clock st)) ;;;
    u <- user_get numeric ;;
    modify (set_users (insert numeric (set_u_nick newnick (clock st) u))).

Definition part (client channel : string) (reason : option string)
  : M unit :=
  let channel := toLower channel in
  st <- get ;;
  if negb (isInternalClient st client) then raise LookupError
  else
    let msg := "L " ++ channel in
    let msg := match reason with
               | Some r => if String.eqb r "" then msg else msg ++ " :" ++ r
               | None => msg
               end in
    send_with_prefix client msg ;;;
    handle_part client "PART" [channel] ;;;
    ret tt.

Definition quit (numeric reason : string) : M unit :=
  st <- get ;;
  if isInternalClient st numeric then
    send_with_prefix numeric ("Q :" ++ reason) ;;;
    removeClient ext numeric
  else raise LookupError.

Definition topic (numeric target text : string) : M unit :=
  st <- get ;;
  if negb (isInternalClient st numeric) then raise LookupError
  else
    let sendername := getHostmask ext st numeric in
    c <- channel_get target ;;
    send_with_prefix numeric
      ("T " ++ target ++ " " ++ sendername ++ " " ++ Str.of_Z (c_ts c) ++ " "
       ++ Str.of_Z (clock st) ++ " :" ++ text) ;;;
    c <- channel_get target ;;
    modify (set_channels (insert target (set_c_topic text c))).

(** The [while modes[:12]] loop of [mode]. *)
Fixpoint mode_lines (fuel : nat) (is_cmode : bool) (numeric real_target : string)
  (ts : Z) (bufsize : Z) (modes : list modepair) : M unit :=
  match fuel with
  | O => ret tt
  | S fuel' =>
      match firstn 12 modes with
      | [] => ret tt
      | batch =>
          (if is_cmode then
             fold_left (fun (m : M unit) wrapped =>
                          m ;;; send_with_prefix numeric
                                  ("M " ++ real_target ++ " " ++ wrapped ++ " " ++ Str.of_Z ts))
                       (wrapModes ext batch bufsize) (ret tt)
           else send_with_prefix numeric
                  ("M " ++ real_target ++ " " ++ joinModes ext batch)) ;;;
          mode_lines fuel' is_cmode numeric real_target ts bufsize (skipn 12 modes)
      end
  end.

Definition mode (numeric target : string) (modes : list modepair) (ts : option Z)
  : M unit :=
  st <- get ;;
  if negb (isInternalClient st numeric) && negb (isInternalServer st numeric)
  then raise LookupError
  else
    let is_cmode := isChannel ext target in
    hdr <- (if is_cmode then
              cobj <- channel_get (toLower target) ;;
              let ts := int_or ts (c_ts cobj) in
              st <- get ;;
              numeric' <- (if not_op_user st cobj numeric
                           then match getServer st numeric with
                                | Some s => ret s
                                | None => raise TypeError
                                end
                           else ret numeric) ;;
              let bufsize := (S2S_BUFSIZE - Z.of_nat (String.length numeric') - 4
                              - Z.of_nat (String.length target)
                              - Z.of_nat (String.length (Str.of_Z ts)))%Z in
              ret (numeric', target, ts, bufsize)
            else
              st <- get ;;
              match users st !! target with
              | None => raise AssertionError
              | Some u => ret (numeric, u_nick u, int_or ts 0, 0%Z)
              end) ;;
    let '(numeric', real_target, ts', bufsize) := hdr in
    applyModes ext target modes ;;;
    mode_lines (length modes) is_cmode numeric' real_target ts' bufsize modes.

Record spawn_args : Type := {
  sa_nick : string;
  sa_ident : string;
  sa_host : string;
  sa_realhost : option string;
  sa_modes : list modepair;
  sa_server : option string;
  sa_ip : string;
  sa_realname : option string;
  sa_ts : option Z
}.

Definition spawnClient (a : spawn_args) : M IrcUser :=
  st <- get ;;
  let server := str_or (sa_server a) (sid st) in
  if negb (isInternalServer st server) then raise ValueError
  else
    uid <- next_uid ext server ;;
    st <- get ;;
    let ts := int_or (sa_ts a) (clock st) in
    let realname := str_or (sa_realname a) (conf_realname ext) in
    let realhost := str_or (sa_realhost a) (sa_host a) in
    let raw_modes := joinModes ext (sa_modes a) in
    let u := {| u_nick := sa_nick a; u_ts := ts; u_uid := uid;
                u_server := server; u_ident := sa_ident a;
                u_host := sa_host a; u_realhost := realhost;
                u_ip := sa_ip a; u_realname := realname;
                u_channels := ∅; u_modes := ∅; u_away := "" |} in
    modify (set_users (insert uid u)) ;;;
    applyModes ext uid (sa_modes a) ;;;
    st <- get ;;
    match servers st !! server with
    | None => raise KeyError
    | Some s =>
        modify (set_servers (insert server
          {| s_uplink := s_uplink s; s_name := s_name s;
             s_internal := s_internal s; s_users := s_users s ∪ {[uid]};
             s_desc := s_desc s |})) ;;;
        b64ip <- lift (P10IP.spawn_b64ip (sa_ip a)) ;;
        send_with_prefix server
          ("N " ++ sa_nick a ++ " 1 " ++ Str.of_Z ts ++ " " ++ sa_ident a ++ " "
           ++ sa_host a ++ " " ++ raw_modes ++ " " ++ b64ip ++ " " ++ uid
           ++ " :" ++ realname) ;;;
        ret u
    end.

(** *** Bulk join *)

(** [access_sort(key)]: the weight of a [(prefixes, uid)] pair. *)
Definition access_of (prefix : ascii) : Z :=
  if Ascii.eqb prefix "o" then 100
  else if Ascii.eqb prefix "h" then 10
  else if Ascii.eqb prefix "v" then 1
  else 0.

Fixpoint access_sum (prefixes : string) (num : Z) : Z :=
  match prefixes with
  | "" => num
  | String p rest => access_sum rest (num + access_of p)
  end.

Definition access_sort (key : string * string) : Z := access_sum (fst key) 0.

(** [sorted(l, key=...)]: a stable sort, here by insertion. *)
Fixpoint insert_sorted {A} (key : A -> Z) (x : A) (l : list A) : list A :=
  match l with
  | [] => [x]
  | y :: l' =>
      if (key x <? key y)%Z then x :: l
      else y :: insert_sorted key x l'
  end.

Definition sorted {A} (key : A -> Z) (l : list A) : list A :=
  fold_left (fun acc x => insert_sorted key x acc) l [].

(** The classification of the modes of [sjoin] into ban masks, exempt
    masks and the other modes. *)
Record sjoin_modes : Type := {
  sm_bans : list (option string);
  sm_exempts : list (option string);
  sm_regular : list modepair
}.

Definition classify_mode (listmodes : string) (c : IrcChannel)
  (acc : result sjoin_modes) (m : modepair) : result sjoin_modes :=
  a <-! acc;
  match Str.last_char (fst m) with
  | None => Raise IndexError
  | Some modechar =>
      if Str.mem modechar listmodes then
        if bool_decide ((String modechar "", snd m) ∈ c_modes c) then Ok a
        else if Ascii.eqb modechar "b" then
          Ok {| sm_bans := (sm_bans a ++ [snd m])%list;
                sm_exempts := sm_exempts a; sm_regular := sm_regular a |}
        else if Ascii.eqb modechar "e" then
          Ok {| sm_bans := sm_bans a;
                sm_exempts := (sm_exempts a ++ [snd m])%list;
                sm_regular := sm_regular a |}
        else Ok a
      else
        Ok {| sm_bans := sm_bans a; sm_exempts := sm_exempts a;
              sm_regular := (sm_regular a ++ [m])%list |}
  end.

(** What the [for userpair in users] loop of [sjoin] builds; [sj_prefixes]
    is the loop variable [prefixes], which keeps its last value once the
    loop is over. *)
Record sjoin_acc : Type := {
  sj_namelist : list string;
  sj_changedusers : list string;
  sj_changedmodes : gset modepair;
  sj_last_prefixes : string;
  sj_prefixes : string
}.

Definition sjoin_user (channel : string) (acc : sjoin_acc)
  (userpair : string * string) : M sjoin_acc :=
  let '(prefixes, user) := userpair in
  let entry := if negb (String.eqb prefixes "")
                  && negb (String.eqb prefixes (sj_last_prefixes acc))
               then user ++ ":" ++ prefixes else user in
  u <- user_get user ;;
  modify (set_users (insert user (set_u_channels (fun s => s ∪ {[channel]}) u))) ;;;
  ret {| sj_namelist := (sj_namelist acc ++ [entry])%list;
         sj_changedusers := (sj_changedusers acc ++ [user])%list;
         sj_changedmodes := sj_changedmodes acc ∪ prefix_modes prefixes user;
         sj_last_prefixes := prefixes;
         sj_prefixes := prefixes |}.

Fixpoint sjoin_users (channel : string) (users : list (string * string))
  (acc : sjoin_acc) : M sjoin_acc :=
  match users with
  | [] => ret acc
  | up :: rest =>
      acc' <- sjoin_user channel acc up ;;
      sjoin_users channel rest acc'
  end.

(** The UIDs on a BURST line, in order: the entries of its last argument
    without their annotations. *)
Definition line_uids (line : string) : list string :=
  entry_user <$> Str.split "," (List.last (Str.split " " line) "").

(** [dict([(uid, prefixes) for prefixes, uid in users])]: a later pair
    replaces an earlier one with the same UID. *)
Definition names_dict (users : list (string * string)) : gmap string string :=
  fold_left (fun d (up : string * string) => <[snd up := fst up]> d) users ∅.

(** The post-wrap fixing of a continuation line ([linenum > 0]). *)
Definition fix_wrapped (names : gmap string string) (prefixes : string)
  (wrapped_msg : string) : result string :=
  let wrapped_args := Wire.parseArgs (Str.split " " wrapped_msg) in
  match wrapped_args with
  | [] => Raise IndexError
  | _ =>
      let wrapped_namelist := Str.split "," (List.last wrapped_args "") in
      match wrapped_namelist with
      | [] => Raise IndexError
      | first_uid :: others =>
          let first_prefix :=
            match names !! first_uid with Some p => p | None => "" end in
          if negb (Str.mem ":" first_uid) && negb (String.eqb first_prefix "")
          then
            Ok (Str.join " " (removelast wrapped_args) ++ " "
                ++ Str.join "," ((first_uid ++ ":" ++ prefixes) :: others))
          else Ok wrapped_msg
      end
  end.

Fixpoint send_wrapped (names : gmap string string) (prefixes : string)
  (linenum : nat) (lines : list string) : M unit :=
  match lines with
  | [] => ret tt
  | wrapped_msg :: rest =>
      msg <- (if Nat.eqb linenum 0 then ret wrapped_msg
              else lift (fix_wrapped names prefixes wrapped_msg)) ;;
      send msg ;;;
      send_wrapped names prefixes (S linenum) rest
  end.

Fixpoint send_all (lines : list string) : M unit :=
  match lines with
  | [] => ret tt
  | l :: rest => send l ;;; send_all rest
  end.

Definition mask_of (m : option string) : string := fmt m.

Definition sjoin (server : option string) (channel : string)
  (users : list (string * string)) (ts : option Z) (modes : list modepair)
  : M unit :=
  let channel := toLower channel in
  st <- get ;;
  let server := str_or server (sid st) in
  match users with
  | [] => raise AssertionError
  | _ =>
    if String.eqb server "" then raise LookupError
    else
      c <- channel_get channel ;;
      let modes := match modes with
                   | [] => elements (c_modes c)
                   | _ => modes
                   end in
      let orig_ts := c_ts c in
      let ts := int_or ts orig_ts in
      st <- get ;;
      listmodes <- match cmodes st !! "*A" with
                   | Some a => ret a
                   | None => match modes with
                             | [] => ret ""
                             | _ => raise KeyError
                             end
                   end ;;
      cls <- lift (fold_left (classify_mode listmodes c) modes
                     (Ok {| sm_bans := []; sm_exempts := []; sm_regular := [] |})) ;;
      let users := sorted access_sort users in
      let msgprefix := server ++ " B " ++ channel ++ " " ++ Str.of_Z ts ++ " " in
      let msgprefix := match sm_regular cls with
                       | [] => msgprefix
                       | r => msgprefix ++ joinModes ext r ++ " "
                       end in
      acc <- sjoin_users channel users
               {| sj_namelist := []; sj_changedusers := [];
                  sj_changedmodes := list_to_set modes;
                  sj_last_prefixes := ""; sj_prefixes := "" |} ;;
      st <- get ;;
      (match sj_namelist acc with
       | [] => ret tt
       | namelist =>
           lines <- lift (Wire.wrapArguments msgprefix namelist
                            (S2S_BUFSIZE - 1 - Z.of_nat (size (prefixmodes st)))
                            ",") ;;
           send_wrapped (names_dict users) (sj_prefixes acc) 0 lines
       end) ;;;
      c <- channel_get channel ;;
      modify (set_channels (insert channel
        (set_c_users (fun s => s ∪ list_to_set (sj_changedusers acc)) c))) ;;;
      (match sm_bans cls, sm_exempts cls with
       | [], [] => ret tt
       | bans, exempts =>
           let msgprefix := msgprefix ++ ":%" in
           (match bans with
            | [] => ret tt
            | _ =>
                lines <- lift (Wire.wrapArguments msgprefix (mask_of <$> bans)
                                 S2S_BUFSIZE " ") ;;
                send_all lines
            end) ;;;
           (match exempts with
            | [] => ret tt
            | _ =>
                lines <- lift (Wire.wrapArguments (msgprefix ++ " ~ ")
                                 (mask_of <$> exempts) S2S_BUFSIZE " ") ;;
                send_all lines
            end)
       end) ;;;
      updateTS ext server channel ts (sj_changedmodes acc)
  end.

End WithExternals.

End P10.

(** ** [ts6_common.py]: the base class of the TS6 family *)

Module TS6.

Section WithExternals.

Context (ext : Externals).

(** [_send_with_prefix(source, msg)] *)
Definition send_with_prefix (source msg : string) : M unit :=
  send (":" ++ source ++ " " ++ msg).

(** [_expandPUID(uid)]: the base implementation returns its argument. *)
Definition expandPUID (uid : string) : string := uid.

(** *** Handlers *)

(** [(self.cmodes.get('permanent'), None) in self.channels[channel].modes] *)
Definition is_permanent (st : Irc) (c : IrcChannel) : bool :=
  match cmodes st !! "permanent" with
  | Some letter => bool_decide ((letter, None) ∈ c_modes c)
  | None => false
  end.

(** One round of the [for channel in channels] loop of [handle_part]. *)
Definition part_channel (source channel : string) : M unit :=
  c <- channel_get channel ;;
  modify (set_channels (insert channel (removeuser source c))) ;;;
  P10.discard_channel source channel ;;;
  c' <- channel_get channel ;;
  st <- get ;;
  if negb (negb (bool_decide (c_users c' = ∅)) || is_permanent st c')
  then modify (set_channels (delete channel))
  else ret tt.

Fixpoint part_channels (source : string) (chans : list string) : M unit :=
  match chans with
  | [] => ret tt
  | c :: cs => part_channel source c ;;; part_channels source cs
  end.

Definition handle_part (source command : string) (args : list string)
  : M P10.part_event :=
  a0 <- lift (item args 0) ;;
  let chans := Str.split "," (toLower a0) in
  part_channels source chans ;;;
  ret {| P10.pe_channels := chans;
         P10.pe_text := match nth_error args 1 with Some r => r | None => "" end |}.

Definition handle_kick (source command : string) (args : list string)
  : M P10.kick_event :=
  a0 <- lift (item args 0) ;;
  let channel := toLower a0 in
  a1 <- lift (item args 1) ;;
  st <- get ;;
  let kicked := get_UID ext st a1 in
  let reason := match nth_error args 2 with Some r => r | None => "" end in
  handle_part kicked "KICK" [channel; reason] ;;;
  ret {| P10.ke_channel := channel; P10.ke_target := kicked;
         P10.ke_text := reason |}.

(** *** Outgoing commands *)

(** [numeric(source, numeric, target, text)] *)
Definition numeric (source num target text : string) : M unit :=
  let target := expandPUID target in
  send_with_prefix source (num ++ " " ++ target ++ " " ++ text).

Definition kick (numeric channel target : string) (reason : option string)
  : M unit :=
  st <- get ;;
  if negb (isInternalClient st numeric) && negb (isInternalServer st numeric)
  then raise LookupError
  else
    let channel := toLower channel in
    let reason := str_or reason "No reason given" in
    let real_target := expandPUID target in
    send_with_prefix numeric
      ("KICK " ++ channel ++ " " ++ real_target ++ " :" ++ reason) ;;;
    handle_part target "KICK" [channel] ;;;
    ret tt.

Definition kill (numeric target reason : string) : M unit :=
  st <- get ;;
  if negb (isInternalClient st numeric) && negb (isInternalServer st numeric)
  then raise LookupError
  else if negb (bool_decide (target ∈ dom (users st))) then raise AssertionError
  else
    killpath <- match users st !! numeric with
                | Some userobj => ret (u_host userobj ++ "!" ++ u_nick userobj)
                | None =>
                    match servers st !! numeric with
                    | Some s => ret (s_name s)
                    | None =>
                        match servers st !! sid st with
                        | Some s => ret (s_name s)
                        | None => raise KeyError
                        end
                    end
                end ;;
    send_with_prefix numeric
      ("KILL " ++ target ++ " :" ++ killpath ++ " (" ++ reason ++ ")") ;;;
    removeClient ext target.

Definition nick (numeric newnick : string) : M unit :=
  st <- get ;;
  if negb (isInternalClient st numeric) then raise LookupError
  else
    send_with_prefix numeric ("NICK " ++ newnick ++ " " ++ Str.of_Z (clock st)) ;;;
    u <- user_get numeric ;;
    modify (set_users (insert numeric (set_u_nick newnick (clock st) u))).

Definition part (client channel : string) (reason : option string)
  : M unit :=
  let channel := toLower channel in
  st <- get ;;
  if negb (isInternalClient st client) then raise LookupError
  else
    let msg := "PART " ++ channel in
    let msg := match reason with
               | Some r => if String.eqb r "" then msg else msg ++ " :" ++ r
               | None => msg
               end in
    send_with_prefix client msg ;;;
    handle_part client "PART" [channel] ;;;
    ret tt.

Definition quit (numeric reason : string) : M unit :=
  st <- get ;;
  if isInternalClient st numeric then
    send_with_prefix numeric ("QUIT :" ++ reason) ;;;
    removeClient ext numeric
  else raise LookupError.

Definition message (numeric target text : string) : M unit :=
  st <- get ;;
  if negb (isInternalClient st numeric) then raise LookupError
  else
    let target := expandPUID target in
    send_with_prefix numeric ("PRIVMSG " ++ target ++ " :" ++ text).

Definition notice (numeric target text : string) : M unit :=
  st <- get ;;
  if negb (isInternalClient st numeric) && negb (isInternalServer st numeric)
  then raise LookupError
  else
    let target := expandPUID target in
    send_with_prefix numeric ("NOTICE " ++ target ++ " :" ++ text).

Definition topic (numeric target text : string) : M unit :=
  st <- get ;;
  if negb (isInternalClient st numeric) then raise LookupError
  else
    send_with_prefix numeric ("TOPIC " ++ target ++ " :" ++ text) ;;;
    c <- channel_get target ;;
    modify (set_channels (insert target (set_c_topic text c))).

Definition away (source text : string) : M unit :=
  (if String.eqb text "" then send_with_prefix source "AWAY"
   else send_with_prefix source ("AWAY :" ++ text)) ;;;
  u <- user_get source ;;
  modify (set_users (insert source (set_u_away text u))).

End WithExternals.

End TS6.

(** ** The outgoing commands of both modules, as one family *)

Module Outbound.

Inductive dialect : Type := Numeric_P10 | Text_TS6.

Inductive command : Type :=
| SpawnClient (a : P10.spawn_args)
| Away (source text : string)
| Message (numeric target text : string)
| Notice (numeric target text : string)
| Mode (numeric target : string) (modes : list modepair) (ts : option Z)
| Nick (numeric newnick : string)
| Kick (numeric channel target : string) (reason : option string)
| Kill (numeric target reason : string)
| Part (client channel : string) (reason : option string)
| Quit (numeric reason : string)
| Topic (numeric target text : string)
| NumericReply (source num target text : string).

(** The client or server the command acts as. *)
Definition actor (st : Irc) (c : command) : string :=
  match c with
  | SpawnClient a => str_or (P10.sa_server a) (sid st)
  | Away source _ => source
  | Message numeric _ _ | Notice numeric _ _ | Mode numeric _ _ _
  | Nick numeric _ | Kick numeric _ _ _ | Kill numeric _ _
  | Quit numeric _ | Topic numeric _ _ => numeric
  | Part client _ _ => client
  | NumericReply source _ _ _ => source
  end.

(** The method a command calls; [spawnClient] and [mode] of the text
    dialect are defined by the modules that build on [ts6_common.py]. *)
Definition run (ext : Externals) (d : dialect) (c : command)
  : option (M unit) :=
  match d, c with
  | Numeric_P10, SpawnClient a => Some (_ <- P10.spawnClient ext a ;; ret tt)
  | Numeric_P10, Away s t => Some (P10.away s t)
  | Numeric_P10, Message n t x => Some (P10.message n t x)
  | Numeric_P10, Notice n t x => Some (P10.notice n t x)
  | Numeric_P10, Mode n t m ts => Some (P10.mode ext n t m ts)
  | Numeric_P10, Nick n nn => Some (P10.nick n nn)
  | Numeric_P10, Kick n ch t r => Some (P10.kick ext n ch t r)
  | Numeric_P10, Kill n t r => Some (P10.kill ext n t r)
  | Numeric_P10, Part cl ch r => Some (P10.part cl ch r)
  | Numeric_P10, Quit n r => Some (P10.quit ext n r)
  | Numeric_P10, Topic n t x => Some (P10.topic ext n t x)
  | Numeric_P10, NumericReply s n t x => Some (P10.numeric s n t x)
  | Text_TS6, SpawnClient _ => None
  | Text_TS6, Away s t => Some (TS6.away s t)
  | Text_TS6, Message n t x => Some (TS6.message n t x)
  | Text_TS6, Notice n t x => Some (TS6.notice n t x)
  | Text_TS6, Mode _ _ _ _ => None
  | Text_TS6, Nick n nn => Some (TS6.nick n nn)
  | Text_TS6, Kick n ch t r => Some (TS6.kick n ch t r)
  | Text_TS6, Kill n t r => Some (TS6.kill ext n t r)
  | Text_TS6, Part cl ch r => Some (TS6.part cl ch r)
  | Text_TS6, Quit n r => Some (TS6.quit ext n r)
  | Text_TS6, Topic n t x => Some (TS6.topic n t x)
  | Text_TS6, NumericReply s n t x => Some (TS6.numeric s n t x)
  end.

(** The precondition failure as the specification words it: a command
    whose actor is neither an internal client nor an internal server
    raises a lookup or value error, and no line is sent. *)
Definition precondition_claim (ext : Externals) (d : dialect) (c : command)
  (st : Irc) : Prop :=
  forall m, run ext d c = Some m ->
  isInternalClient st (actor st c) = false ->
  isInternalServer st (actor st c) = false ->
  exists e st', m st = (Raise e, st')
                /\ (e = LookupError \/ e = ValueError)
                /\ sent st' = sent st.

(** The commands that begin with the check. *)
Definition checks_actor (d : dialect) (c : command) : bool :=
  match d, c with
  | _, NumericReply _ _ _ _ => false
  | Text_TS6, Away _ _ => false
  | _, _ => true
  end.

(** The line of a numeric reply. *)
Definition numeric_line (d : dialect) (source num target text : string)
  : string :=
  match d with
  | Numeric_P10 => source ++ " " ++ num ++ " " ++ target ++ " " ++ text
  | Text_TS6 => ":" ++ source ++ " " ++ num ++ " " ++ target ++ " " ++ text
  end.

End Outbound.

(** ** [plugins/relay.py]: nick normalisation *)

Module Relay.

(** What [normalizeNick] reads of the target network: the name of its
    protocol module, its maximum nick length, and [utils.nickToUid(irc,
    nick)], the UID of the user holding a nick if there is one. *)
Record Network : Type := {
  protoname : string;
  maxnicklen : Z;
  nickToUid : string -> option string
}.

(** Truth value of what [nickToUid] returns. *)
Definition truthy (o : option string) : bool :=
  match o with
  | Some uid => negb (String.eqb uid "")
  | None => false
  end.

Definition starts_with_digit (s : string) : bool :=
  match s with
  | String c _ => Str.is_digit c
  | "" => false
  end.

(** The separator and the nick after the [charybdis] replacement. *)
Definition effective (irc : Network) (s : string) : string :=
  if String.eqb (protoname irc) "charybdis"
  then Str.replace_char "/" "|" s else s.

(** From the digit test to [nick += suffix]. *)
Definition tag_with (irc : Network) (netname separator nick : string)
  : string :=
  let nick := if starts_with_digit nick then "_" ++ nick else nick in
  let suffix := separator ++ netname in
  let nick := Str.upto (maxnicklen irc) nick in
  let allowedlength := (maxnicklen irc - Z.of_nat (String.length suffix))%Z in
  let nick := Str.upto allowedlength nick in
  nick ++ suffix.

(** The separator in use and the nick built before the [while] loop. *)
Definition tagged (irc : Network) (netname nick separator : string)
  : string * string :=
  let separator := effective irc separator in
  let nick := effective irc nick in
  (separator, tag_with irc netname separator nick).

(** The [while utils.nickToUid(irc, nick)] loop; [again] is the nested
    call [normalizeNick(irc, netname, orig_nick, separator=...)] and [n]
    bounds the number of rounds. *)
Fixpoint retry_loop (irc : Network) (separator : string)
  (again : string -> result string) (n : nat) (nick : string)
  : result string :=
  if truthy (nickToUid irc nick) then
    match n with
    | O => Raise RecursionError
    | S n' =>
        match Str.last_char separator with
        | None => Raise IndexError
        | Some c =>
            let new_sep := separator ++ String c "" in
            match again new_sep with
            | Ok nick' => retry_loop irc separator again n' nick'
            | Raise e => Raise e
            end
        end
    end
  else if (Z.of_nat (String.length nick) <=? maxnicklen irc)%Z
       then Ok nick
       else Raise AssertionError.

(** [normalizeNick(irc, netname, nick, separator)]; [fuel] bounds the
    depth of the recursion, as the interpreter does. *)
Fixpoint normalizeNick (fuel : nat) (irc : Network)
  (netname nick separator : string) : result string :=
  match fuel with
  | O => Raise RecursionError
  | S fuel' =>
      let orig_nick := nick in
      let '(separator, nick) := tagged irc netname nick separator in
      retry_loop irc separator (normalizeNick fuel' irc netname orig_nick)
        fuel' nick
  end.

(** The separator the [k]-th nested call is given, and the nick that call
    tries first. *)
Definition next_separator (irc : Network) (separator : string) : string :=
  let e := effective irc separator in
  match Str.last_char e with
  | Some c => e ++ String c ""
  | None => e
  end.

Fixpoint separator_at (irc : Network) (separator : string) (k : nat)
  : string :=
  match k with
  | O => separator
  | S k' => separator_at irc (next_separator irc separator) k'
  end.

Definition candidate (irc : Network) (netname nick : string) (k : nat)
  : string :=
  snd (tagged irc netname nick (separator_at irc "/" k)).

(** The separator character of the target network. *)
Definition sepchar (irc : Network) : ascii :=
  if String.eqb (protoname irc) "charybdis" then "|"%char else "/"%char.

Fixpoint rep (c : ascii) (n : nat) : string :=
  match n with
  | O => ""
  | S n' => String c (rep c n')
  end.

Definition ends_with (suffix s : string) : Prop :=
  exists front, s = front ++ suffix.

(** The claim as the specification words it: whenever the maximum nick
    length is at least the length of the separator and the network name,
    the call returns a nick within that length, ending in the separator
    and the network name, not starting with a digit, and not in use. *)
Definition normalize_claim (irc : Network) (netname nick : string) : Prop :=
  (Z.of_nat (String.length ("/" ++ netname)) <= maxnicklen irc)%Z ->
  exists fuel r,
    normalizeNick fuel irc netname nick "/" = Ok r
    /\ (Z.of_nat (String.length r) <= maxnicklen irc)%Z
    /\ ends_with (String (sepchar irc) netname) r
    /\ starts_with_digit r = false
    /\ truthy (nickToUid irc r) = false.

(** A network with nicks of at most five characters on which two relay
    nicks are taken. *)
Definition crowded : Network :=
  {| protoname := "inspircd"; maxnicklen := 5;
     nickToUid := fun n =>
       if String.eqb n "a/net" then Some "10XAAAAAA"
       else if String.eqb n "//net" then Some "10XAAAAAB"
       else None |}.

(** A network with nicks of at most nine characters on which the first
    relay nick of [abc] is taken. *)
Definition busy : Network :=
  {| protoname := "inspircd"; maxnicklen := 9;
     nickToUid := fun n =>
       if String.eqb n "abc/net" then Some "10XAAAAAA" else None |}.

End Relay.

(** ** Concrete networks used to run the methods *)

Module Examples.

Definition empty_irc : Irc :=
  {| name := "net"; sid := "AB"; serverdata := ∅; users := ∅; servers := ∅;
     channels := ∅; cmodes := ∅; prefixmodes := ∅; clock := 0; sent := [] |}.

Definition user_on (server uid nick : string) (chans : gset string) : IrcUser :=
  {| u_nick := nick; u_ts := 0; u_uid := uid; u_server := server;
     u_ident := "ident"; u_host := "host"; u_realhost := "host";
     u_ip := "0.0.0.0"; u_realname := "name"; u_channels := chans;
     u_modes := ∅; u_away := "" |}.

Definition server_named (nm : string) (internal : bool) (us : gset string)
  : IrcServer :=
  {| s_uplink := ""; s_name := nm; s_internal := internal; s_users := us;
     s_desc := "" |}.

(** A Nefarious network (permanent channels are [+z]) whose channel
    [#c] is permanent and has [ABAAA], a user of the remote server [AB],
    as its only member; [XYAAA] is a client of the internal server
    [XY]. *)
Definition permanent_channel : IrcChannel :=
  {| c_users := {[ "ABAAA" ]}; c_modes := {[ ("z", None) ]}; c_ts := 100;
     c_topic := ""; c_topicset := false; c_prefixmodes := ∅ |}.

Definition nefarious_irc : Irc :=
  {| name := "net"; sid := "XY"; serverdata := ∅;
     users := {[ "ABAAA" := user_on "AB" "ABAAA" "alice" {[ "#c" ]};
                 "XYAAA" := user_on "XY" "XYAAA" "pylink" ∅ ]};
     servers := {[ "AB" := server_named "remote.example" false {[ "ABAAA" ]};
                   "XY" := server_named "pylink.example" true {[ "XYAAA" ]} ]};
     channels := {[ "#c" := permanent_channel ]};
     cmodes := {[ "permanent" := "z"; "*A" := "be" ]};
     prefixmodes := {[ "o" := "@"; "v" := "+" ]};
     clock := 1000; sent := [] |}.

(** An interface whose functions do nothing; the methods run below do not
    depend on what the missing helpers compute. *)
Definition idle_ext : Externals :=
  {| next_uid := fun server => ret (server ++ "AAB");
     joinModes := fun _ => "+";
     applyModes := fun _ _ => ret tt;
     wrapModes := fun _ _ => [];
     parseModes := fun _ _ _ => Ok [];
     isChannel := fun s => Str.startswith "#" s;
     removeClient := fun _ => ret tt;
     getHostmask := fun _ uid => uid;
     getFriendlyName := fun st uid =>
       match users st !! uid with
       | Some u => Ok (u_nick u)
       | None => Raise KeyError
       end;
     get_UID := fun _ s => s;
     updateTS := fun _ _ _ _ => ret tt;
     conf_realname := "PyLink" |}.

(** Synthetic users of the server [AB] for a bulk join: the [i]-th UID is
    [AB] followed by [i] in three characters of the P10 alphabet. *)
Definition synthetic_uid (i : nat) : string :=
  let n := N.of_nat i in
  "AB" ++ String (Base64.enc_char P10Sid.p10_altchars (N.land (N.shiftr n 12) 63))
            (P10Sid.sid_of n).

Definition synthetic_users (first count : nat) (prefixes : string)
  : list (string * string) :=
  (fun i => (prefixes, synthetic_uid i)) <$> seq first count.

(** A network that knows the first [n] synthetic users, with the prefix
    modes [o] and [v] and an empty channel [#c]. *)
Definition burst_irc (n : nat) : Irc :=
  {| name := "net"; sid := "AB"; serverdata := ∅;
     users := list_to_map
                ((fun i => (synthetic_uid i,
                            user_on "AB" (synthetic_uid i) (synthetic_uid i) ∅))
                 <$> seq 0 n);
     servers := {[ "AB" := server_named "pylink.example" true ∅ ]};
     channels := {[ "#c" := {| c_users := ∅; c_modes := ∅; c_ts := 1;
                               c_topic := ""; c_topicset := false;
                               c_prefixmodes := ∅ |} ]};
     cmodes := {[ "*A" := "be" ]};
     prefixmodes := {[ "o" := "@"; "v" := "+" ]};
     clock := 1000; sent := [] |}.

(** A bulk join of one hundred voiced users and one operator. *)
Definition voiced_then_op : list (string * string) :=
  (synthetic_users 0 100 "v" ++ synthetic_users 100 1 "o")%list.

End Examples.

(** ** More helpers of the protocol package, taken as an interface *)

Module Pkg.

Record Helpers : Type := {
  (** [utils.isServerName(name)] *)
  isServerName : string -> bool;
  (** [conf.conf['bot']['serverdesc']] *)
  conf_serverdesc : string;
  (** [self.updateTS(sender, channel, ts)], the call without modes *)
  updateTS3 : string -> string -> Z -> M unit
}.

End Pkg.
Export Pkg.

(** ** Reading the channel table *)

Module StateMore.

(** The value of [self.channels[channel]]: the entry of the table, or the
    empty channel the table makes on first use of the name. *)
Definition channel_of (st : Irc) (channel : string) : IrcChannel :=
  default (new_channel st) (channels st !! channel).

End StateMore.
Export StateMore.

(** ** [p10.py]: more methods of the protocol class *)

Module P10More.

Section WithHelpers.

Context (ext : Externals) (h : Helpers).

(** *** Outgoing commands *)

Definition join (client channel : string) : M unit :=
  let channel := toLower channel in
  c <- channel_get channel ;;
  let ts := c_ts c in
  st <- get ;;
  if negb (isInternalClient st client) then raise LookupError
  else
    c <- channel_get channel ;;
    (if bool_decide (c_users c = ∅)
     then P10.send_with_prefix client ("C " ++ channel ++ " " ++ Str.of_Z ts)
     else P10.send_with_prefix client ("J " ++ channel ++ " " ++ Str.of_Z ts)) ;;;
    c <- channel_get channel ;;
    modify (set_channels (insert channel
      (set_c_users (fun s => s ∪ {[client]}) c))) ;;;
    u <- user_get client ;;
    modify (set_users (insert client
      (set_u_channels (fun s => s ∪ {[channel]}) u))).

(** *** Handlers *)

(** What [handle_join] returns: the channels left on [JOIN 0], or the
    channel joined with its modes and timestamp. *)
Inductive join_event : Type :=
| LeftAll (channels : gset string)
| Joined (channel : string) (users : list string) (modes : gset modepair)
    (ts : Z).

(** One round of [for channel in oldchans]. *)
Definition leave (source channel : string) : M unit :=
  c <- channel_get channel ;;
  modify (set_channels (insert channel
    (set_c_users (fun s => s ∖ {[source]}) c))) ;;;
  u <- user_get source ;;
  modify (set_users (insert source
    (set_u_channels (fun s => s ∖ {[channel]}) u))).

Fixpoint leave_all (source : string) (chans : list string) : M unit :=
  match chans with
  | [] => ret tt
  | c :: cs => leave source c ;;; leave_all source cs
  end.

(** [handle_join], which is [handle_create] too. *)
Definition handle_join (source command : string) (args : list string)
  : M join_event :=
  ts <- lift (match nth_error args 1 with
              | None => Ok None
              | Some a => z <-! Text.int_of_str a; Ok (Some z)
              end) ;;
  a0 <- lift (item args 0) ;;
  if String.eqb a0 "0" && String.eqb command "JOIN" then
    u <- user_get source ;;
    let oldchans := u_channels u in
    leave_all source (elements oldchans) ;;;
    ret (LeftAll oldchans)
  else
    let channel := toLower a0 in
    (match ts with
     | Some z => if (z =? 0)%Z then ret tt else updateTS3 h source channel z
     | None => ret tt
     end) ;;;
    u <- user_get source ;;
    modify (set_users (insert source
      (set_u_channels (fun s => s ∪ {[channel]}) u))) ;;;
    c <- channel_get channel ;;
    modify (set_channels (insert channel
      (set_c_users (fun s => s ∪ {[source]}) c))) ;;;
    c <- channel_get channel ;;
    st <- get ;;
    ret (Joined channel [source] (c_modes c) (int_or ts (clock st))).

Record topic_event : Type := {
  te_channel : string;
  te_setter : string;
  te_text : string;
  te_oldtopic : string
}.

Definition handle_topic (source command : string) (args : list string)
  : M topic_event :=
  a0 <- lift (item args 0) ;;
  let channel := toLower a0 in
  let topic := List.last args "" in
  c <- channel_get channel ;;
  let oldtopic := c_topic c in
  c <- channel_get channel ;;
  modify (set_channels (insert channel (set_c_topic topic c))) ;;;
  setter <- lift (item args 1) ;;
  ret {| te_channel := channel; te_setter := setter; te_text := topic;
         te_oldtopic := oldtopic |}.

End WithHelpers.

End P10More.

(** ** [p10.py]: the SID generator's constructor and [spawnServer] *)

Module P10Server.

Import P10Sid.

(** [P10SIDGenerator.__init__(irc)]: the bounds are read from
    ["MINNUM-MAXNUM"]; a missing option and a [ValueError] of the parsing
    both end in a [RuntimeError]. *)
Definition sid_init (i : Irc) : result P10SIDGenerator :=
  match serverdata i !! "sidrange" with
  | None => Raise RuntimeError
  | Some query =>
      match Text.split_once "-" query with
      | [a; b] =>
          match Text.int_of_str a with
          | Raise _ => Raise RuntimeError
          | Ok lo =>
              match Text.int_of_str b with
              | Raise _ => Raise RuntimeError
              | Ok hi => Ok (init lo hi)
              end
          end
      | _ => Raise RuntimeError
      end
  end.

(** The protocol object: the network state, the SID generator and the
    time the link was started. *)
Record Protocol : Type := {
  irc : Irc;
  sidgen : P10SIDGenerator;
  start_ts : Z
}.

Definition name_taken (st : Irc) (name : string) : bool :=
  existsb (fun s => String.eqb name (s_name s)) (snd <$> map_to_list (servers st)).

(** No two entries of the server table carry the same name. *)
Definition names_unique (st : Irc) : Prop :=
  forall (a b : string) (x y : IrcServer),
    servers st !! a = Some x -> servers st !! b = Some y ->
    s_name x = s_name y -> a = b.

Definition new_server (uplink name desc : string) : IrcServer :=
  {| s_uplink := uplink; s_name := name; s_internal := true; s_users := ∅;
     s_desc := desc |}.

Definition spawnServer (h : Helpers) (name : string)
  (sid uplink desc : option string) (p : Protocol)
  : result string * Protocol :=
  let st := irc p in
  let uplink := str_or uplink (State.sid st) in
  let name := Text.lower name in
  let desc := str_or desc (str_or (serverdata st !! "serverdesc")
                             (conf_serverdesc h)) in
  let '(generated, g) := match sid with
                         | None => next_sid (sidgen p)
                         | Some s => (Ok s, sidgen p)
                         end in
  let p := {| irc := st; sidgen := g; start_ts := start_ts p |} in
  match generated with
  | Raise e => (Raise e, p)
  | Ok sid =>
      if negb (Nat.eqb (String.length sid) 2) then (Raise AssertionError, p)
      else if bool_decide (sid ∈ dom (servers st)) then (Raise ValueError, p)
      else if name_taken st name then (Raise ValueError, p)
      else if negb (isInternalServer st uplink) then (Raise ValueError, p)
      else if negb (isServerName h name) then (Raise ValueError, p)
      else
        let line := "SERVER " ++ name ++ " 1 " ++ Str.of_Z (start_ts p) ++ " "
                    ++ Str.of_Z (clock st) ++ " P10 " ++ sid ++ "]]] +h6 :"
                    ++ desc in
        let st := set_sent (fun l => List.app l [uplink ++ " " ++ line]) st in
        let st := set_servers (insert sid (new_server uplink name desc)) st in
        (Ok sid, {| irc := st; sidgen := g; start_ts := start_ts p |})
  end.

End P10Server.

(** ** [ts6_common.py]: more handlers, and [spawnServer] *)

Module TS6More.

Record nick_event : Type := {
  ne_newnick : string;
  ne_oldnick : string;
  ne_ts : Z
}.

Definition handle_nick (numeric command : string) (args : list string)
  : M nick_event :=
  u <- user_get numeric ;;
  let oldnick := u_nick u in
  newnick <- lift (item args 0) ;;
  modify (set_users (insert numeric (set_u_nick newnick (u_ts u) u))) ;;;
  a1 <- lift (item args 1) ;;
  ts <- lift (Text.int_of_str a1) ;;
  u <- user_get numeric ;;
  modify (set_users (insert numeric (set_u_nick (u_nick u) ts u))) ;;;
  ret {| ne_newnick := newnick; ne_oldnick := oldnick; ne_ts := ts |}.

Record save_event : Type := {
  se_target : string;
  se_ts : Z;
  se_oldnick : string
}.

Definition handle_save (numeric command : string) (args : list string)
  : M save_event :=
  user <- lift (item args 0) ;;
  u <- user_get user ;;
  let oldnick := u_nick u in
  modify (set_users (insert user (set_u_nick user (u_ts u) u))) ;;;
  u <- user_get user ;;
  modify (set_users (insert user (set_u_nick (u_nick u) 100 u))) ;;;
  ret {| se_target := user; se_ts := 100; se_oldnick := oldnick |}.

Definition handle_topic (numeric command : string) (args : list string)
  : M P10More.topic_event :=
  a0 <- lift (item args 0) ;;
  let channel := toLower a0 in
  topic <- lift (item args 1) ;;
  c <- channel_get channel ;;
  let oldtopic := c_topic c in
  c <- channel_get channel ;;
  modify (set_channels (insert channel (set_c_topic topic c))) ;;;
  ret {| P10More.te_channel := channel; P10More.te_setter := numeric;
         P10More.te_text := topic; P10More.te_oldtopic := oldtopic |}.

(** The protocol object: the network state and the SID generator. *)
Record Protocol : Type := {
  irc : Irc;
  sidgen : TS6Sid.TS6SIDGenerator
}.

Definition spawnServer (h : Helpers) (name : string)
  (sid uplink desc : option string) (p : Protocol)
  : result string * Protocol :=
  let st := irc p in
  let uplink := str_or uplink (State.sid st) in
  let name := Text.lower name in
  let desc := str_or desc (str_or (serverdata st !! "serverdesc")
                             (conf_serverdesc h)) in
  let '(generated, g) := match sid with
                         | None => TS6Sid.next_sid (sidgen p)
                         | Some s => (Ok s, sidgen p)
                         end in
  let p := {| irc := st; sidgen := g |} in
  match generated with
  | Raise e => (Raise e, p)
  | Ok sid =>
      if negb (Nat.eqb (String.length sid) 3) then (Raise AssertionError, p)
      else if bool_decide (sid ∈ dom (servers st)) then (Raise ValueError, p)
      else if P10Server.name_taken st name then (Raise ValueError, p)
      else if negb (isInternalServer st uplink) then (Raise ValueError, p)
      else if negb (isServerName h name) then (Raise ValueError, p)
      else
        let line := "SID " ++ name ++ " 1 " ++ sid ++ " :" ++ desc in
        let st := set_sent (fun l => List.app l [":" ++ uplink ++ " " ++ line]) st in
        let st := set_servers (insert sid (P10Server.new_server uplink name desc)) st in
        (Ok sid, {| irc := st; sidgen := g |})
  end.

End TS6More.

(** ** [ts6_common.py]: the SIDs of a template, in the order [increment]
    visits them *)

Module TS6Odometer.

Import TS6Sid.

Definition template_chars : string := digits ++ ascii_uppercase ++ "#".

(** [self.allowedchars[idx]] for a wildcard at [idx]. *)
Definition allowed (pos : nat) : string :=
  if Nat.eqb pos 0 then digits else digits ++ ascii_uppercase.

(** The number of characters a position runs through. *)
Definition radix (pos : nat) (c : ascii) : nat :=
  if Ascii.eqb c "#" then String.length (allowed pos) else 1.

(** The number of SIDs of a template (the "total results" of the class
    docstring). *)
Definition sid_count (q : string) : nat :=
  match q with
  | String a (String b (String c "")) => radix 0 a * radix 1 b * radix 2 c
  | _ => 0
  end.

(** The character a position shows when its wildcard stands at the
    [d]-th allowed character. *)
Definition char_at (pos : nat) (c : ascii) (d : nat) : ascii :=
  if Ascii.eqb c "#" then
    match String.get d (allowed pos) with
    | Some x => x
    | None => c
    end
  else c.

(** The [k]-th SID of a template, counting from 0: the rightmost wildcard
    runs fastest. *)
Definition nth_sid (q : string) (k : nat) : string :=
  match q with
  | String a (String b (String c "")) =>
      String (char_at 0 a (k / (radix 1 b * radix 2 c)))
        (String (char_at 1 b ((k / radix 2 c) mod radix 1 b))
          (String (char_at 2 c (k mod radix 2 c)) ""))
  | _ => ""
  end.

(** [k] calls of [increment()], each one followed by reading
    [''.join(self.output)]; a call that raises gives its exception. *)
Fixpoint increments (k : nat) (g : TS6SIDGenerator)
  : list (result string) * TS6SIDGenerator :=
  match k with
  | O => ([], g)
  | S k' =>
      let '(r, g') := increment g in
      let '(rs, g'') := increments k' g' in
      (match r with Ok _ => Ok (joined g') | Raise e => Raise e end :: rs, g'')
  end.

(** The entry of [self.iters] for a position whose wildcard stands at the
    [d]-th allowed character. *)
Definition slot_at (pos : nat) (c : ascii) (d : nat) : slot :=
  if Ascii.eqb c "#" then Iter (Str.drop (S d) (allowed pos)) else Fixed c.

Definition allowed_at (pos : nat) (c : ascii) (m : gmap nat string)
  : gmap nat string :=
  if Ascii.eqb c "#" then <[pos := allowed pos]> m else m.

(** The generator of the template [a b c] whose wildcards stand at the
    digits [d0], [d1] and [d2]. *)
Definition state_of (i : Irc) (a b c : ascii) (d0 d1 d2 : nat)
  : TS6SIDGenerator :=
  {| irc := i; query := [a; b; c];
     iters := [slot_at 0 a d0; slot_at 1 b d1; slot_at 2 c d2];
     output := [char_at 0 a d0; char_at 1 b d1; char_at 2 c d2];
     allowedchars := allowed_at 2 c (allowed_at 1 b (allowed_at 0 a ∅)) |}.

End TS6Odometer.

(** ** The text of a decoded address *)

Module AddressText.

(** The characters of a printed address: the digits, the lower-case
    hexadecimal letters, the colon and the dot. *)
Definition addr_char (c : ascii) : bool :=
  let n := N_of_ascii c in
  Str.is_digit c || ((97 <=? n) && (n <=? 102))%N
  || Ascii.eqb c ":" || Ascii.eqb c ".".

End AddressText.

(** ** Assumptions on the helpers of the package *)

Module ExtLaws.

(** [applyModes] as the theorems on [spawnClient] assume it: it does not
    raise, sends nothing, leaves the server table alone and keeps every
    user with its server. *)
Definition quiet_apply (ext : Externals) : Prop :=
  forall (x : string) (m : list modepair) (st : Irc), exists st',
    applyModes ext x m st = (Ok tt, st')
    /\ sent st' = sent st /\ servers st' = servers st
    /\ forall y, u_server <$> users st' !! y = u_server <$> users st !! y.

End ExtLaws.

(** ** Concrete links used to run [spawnServer] *)

Module Links.

Import Examples.

(** Helpers that accept every server name and leave timestamps alone. *)
Definition plain_helpers : Helpers :=
  {| isServerName := fun _ => true; conf_serverdesc := "PyLink Server";
     updateTS3 := fun _ _ _ => ret tt |}.

(** A P10 link of the Nefarious network with the whole SID range. *)
Definition p10_link : P10Server.Protocol :=
  {| P10Server.irc := nefarious_irc; P10Server.sidgen := P10Sid.init 0 4095;
     P10Server.start_ts := 900 |}.

(** A TS6 link of the same network, with the generator of the template
    [1#A] as [__init__] leaves it. *)
Definition ts6_link : TS6More.Protocol :=
  {| TS6More.irc := nefarious_irc;
     TS6More.sidgen := TS6Odometer.state_of nefarious_irc "1" "#" "A" 0 0 0 |}.

End Links.

(** ** A network of the relay running charybdis *)

Module RelayNets.

Import Relay.

(** A charybdis network with nicks of at most thirty characters on which
    the first relay nick of [a/b] is taken. *)
Definition charybdis_net : Network :=
  {| protoname := "charybdis"; maxnicklen := 30;
     nickToUid := fun n =>
       if String.eqb n "a|b|net" then Some "10XAAAAAA" else None |}.

End RelayNets.

(** ** [relay.py]: the links database and its commands *)

Module RelayDB.

(** A channel of a network: [(netname, channel)]. *)
Definition chanpair : Type := string * string.

(** An entry of [db]: [{'claim': ..., 'links': ..., 'blocked_nets': ...}]. *)
Record dbentry : Type := {
  claim : list string;
  links : gset chanpair;
  blocked_nets : gset string
}.

(** [db], a dictionary from channel pairs to entries, in the order of
    insertion of its keys. *)
Definition database : Type := list (chanpair * dbentry).

(** [key in db] *)
Definition has_key (db : database) (key : chanpair) : bool :=
  bool_decide (key ∈ db.*1).

(** [db.get(key)] *)
Fixpoint lookup (db : database) (key : chanpair) : option dbentry :=
  match db with
  | [] => None
  | (k, e) :: rest => if bool_decide (k = key) then Some e else lookup rest key
  end.

(** [db[key] = e]: the value of a key the dictionary has is replaced where
    it stands, a new key goes to the end. *)
Fixpoint store (db : database) (key : chanpair) (e : dbentry) : database :=
  match db with
  | [] => [(key, e)]
  | (k, e') :: rest =>
      if bool_decide (k = key) then (k, e) :: rest
      else (k, e') :: store rest key e
  end.

(** [del db[key]] for a key the dictionary has. *)
Fixpoint delete (db : database) (key : chanpair) : database :=
  match db with
  | [] => []
  | (k, e) :: rest =>
      if bool_decide (k = key) then rest else (k, e) :: delete rest key
  end.

Definition with_links (f : gset chanpair -> gset chanpair) (e : dbentry)
  : dbentry :=
  {| claim := claim e; links := f (links e); blocked_nets := blocked_nets e |}.

(** The entry of a key changed where it stands: [db[key]['links']...]. *)
Fixpoint change (db : database) (key : chanpair) (f : dbentry -> dbentry)
  : database :=
  match db with
  | [] => []
  | (k, e) :: rest =>
      if bool_decide (k = key) then (k, f e) :: rest
      else (k, e) :: change rest key f
  end.

(** The first entry whose links hold the pair, by its key. *)
Fixpoint first_holder (db : database) (pair : chanpair) : option chanpair :=
  match db with
  | [] => None
  | (k, e) :: rest =>
      if bool_decide (pair ∈ links e) then Some k else first_holder rest pair
  end.

(** [findRelay(chanpair)]; [None] is what the function returns when it
    falls off its end. *)
Definition findRelay (db : database) (pair : chanpair) : option chanpair :=
  if has_key db pair then Some pair else first_holder db pair.

(** What the commands read outside the database. *)
Record World : Type := {
  (** [utils.isChannel(name)] *)
  w_isChannel : string -> bool;
  (** [utils.isOper(irc, uid)], by the name of the network *)
  w_isOper : string -> string -> bool;
  (** the keys of [utils.networkobjects] *)
  w_networks : gset string;
  (** [irc.channels[channel].users], by the name of the network *)
  w_members : string -> string -> gset string;
  (** [irc.serverdata['channels']], by the name of the network; [None]
      when the key is missing *)
  w_autojoin : string -> option (list string);
  (** the order in which a set of links is iterated *)
  w_iter : gset chanpair -> list chanpair
}.

(** What a command does outside the database. *)
Inductive event : Type :=
| Msg (net source format : string) (args : list string)
    (** [utils.msg(irc, source, format % args)] *)
| JoinClient (net channel : string)
    (** [irc.proto.joinClient(irc, irc.pseudoclient.uid, channel)] *)
| PartClient (net channel : string).
    (** [irc.proto.partClient(irc, irc.pseudoclient.uid, channel)] *)

#[global] Instance event_eq_dec : EqDecision event.
Proof. solve_decision. Defined.

Inductive error : Type :=
| Exn (e : exn)
| UnboundLocalError.

(** The run of a command: the exception it ended with, if any, the
    database it leaves and what it did outside, in order. *)
Record run : Type := {
  raised : option error;
  db_after : database;
  events : list event
}.

Definition reply (db : database) (net source format : string)
  (args : list string) : run :=
  {| raised := None; db_after := db;
     events := [Msg net source format args] |}.

(** [initializeChannel(homeirc, channel)] *)
Definition initializeChannel (net channel : string) : list event :=
  [JoinClient net channel].

(** [removeChannel(irc, channel)] *)
Definition removeChannel (w : World) (net channel : string)
  : result (list event) :=
  match w_autojoin w net with
  | None => Raise KeyError
  | Some chans =>
      Ok (if bool_decide (channel ∈ Text.lower <$> chans) then []
          else [PartClient net channel])
  end.

Definition fresh_entry (net : string) : dbentry :=
  {| claim := [net]; links := ∅; blocked_nets := ∅ |}.

(** [create(irc, source, args)], with [net] for [irc.name]. *)
Definition create (w : World) (net source : string) (args : list string)
  (db : database) : run :=
  match args with
  | [] => reply db net source
            "Error: not enough arguments. Needs 1: channel." []
  | a0 :: _ =>
      let channel := Text.lower a0 in
      if negb (w_isChannel w channel) then
        reply db net source "Error: invalid channel %r." [channel]
      else if negb (bool_decide (source ∈ w_members w net channel)) then
        reply db net source
          "Error: you must be in %r to complete this operation." [channel]
      else if negb (w_isOper w net source) then
        reply db net source
          "Error: you must be opered in order to complete this operation." []
      else
        {| raised := None;
           db_after := store db (net, channel) (fresh_entry net);
           events := List.app (initializeChannel net channel)
                       [Msg net source "Done." []] |}
  end.

(** [destroy(irc, source, args)] *)
Definition destroy (w : World) (net source : string) (args : list string)
  (db : database) : run :=
  match args with
  | [] => reply db net source
            "Error: not enough arguments. Needs 1: channel." []
  | a0 :: _ =>
      let channel := Text.lower a0 in
      if negb (w_isChannel w channel) then
        reply db net source "Error: invalid channel %r." [channel]
      else if negb (w_isOper w net source) then
        reply db net source
          "Error: you must be opered in order to complete this operation." []
      else if has_key db (net, channel) then
        let db' := delete db (net, channel) in
        match removeChannel w net channel with
        | Raise e => {| raised := Some (Exn e); db_after := db'; events := [] |}
        | Ok evs =>
            {| raised := None; db_after := db';
               events := List.app evs [Msg net source "Done." []] |}
        end
      else
        reply db net source "Error: no such relay %r exists." [channel]
  end.

(** [link(irc, source, args)] *)
Definition link (w : World) (net source : string) (args : list string)
  (db : database) : run :=
  match args with
  | a0 :: a1 :: more =>
      let channel := Text.lower a1 in
      let remotenet := Text.lower a0 in
      let localchan := match more with
                       | a2 :: _ => Text.lower a2
                       | [] => channel
                       end in
      if negb (w_isChannel w channel) then
        reply db net source "Error: invalid channel %r." [channel]
      else if negb (w_isChannel w localchan) then
        reply db net source "Error: invalid channel %r." [localchan]
      else if negb (bool_decide (source ∈ w_members w net localchan)) then
        reply db net source
          "Error: you must be in %r to complete this operation." [localchan]
      else if negb (w_isOper w net source) then
        reply db net source
          "Error: you must be opered in order to complete this operation." []
      else if negb (bool_decide (remotenet ∈ w_networks w)) then
        reply db net source "Error: no network named %r exists." [remotenet]
      else if has_key db (net, localchan) then
        reply db net source
          "Error: channel %r is already part of a relay." [localchan]
      else
        match first_holder db (net, localchan) with
        | Some _ =>
            reply db net source
              "Error: channel %r is already part of a relay." [localchan]
        | None =>
            match lookup db (remotenet, channel) with
            | None =>
                reply db net source "Error: no such relay %r exists." [channel]
            | Some _ =>
                {| raised := None;
                   db_after := change db (remotenet, channel)
                                 (with_links (fun s => s ∪ {[(net, localchan)]}));
                   events := List.app (initializeChannel net localchan)
                               [Msg net source "Done." []] |}
            end
        end
  | _ => reply db net source
           "Error: not enough arguments. Needs 2-3: remote netname, channel, local channel name (optional)."
           []
  end.

(** The inner loop of the owner's [delink]: the links of [remotenet] are
    taken out of one entry, each followed by [removeChannel] on that
    network. *)
Fixpoint delink_links (w : World) (remotenet : string)
  (todo : list chanpair) (e : dbentry)
  : option error * dbentry * list event :=
  match todo with
  | [] => (None, e, [])
  | l :: rest =>
      if String.eqb (fst l) remotenet then
        let e1 := with_links (fun s => s ∖ {[l]}) e in
        if bool_decide (remotenet ∈ w_networks w) then
          match removeChannel w remotenet (snd l) with
          | Raise x => (Some (Exn x), e1, [])
          | Ok evs =>
              let '(o, e2, evs2) := delink_links w remotenet rest e1 in
              (o, e2, List.app evs evs2)
          end
        else (Some (Exn KeyError), e1, [])
      else delink_links w remotenet rest e
  end.

(** The outer loop, over [db.values()]. *)
Fixpoint delink_all (w : World) (remotenet : string) (db : database)
  : option error * database * list event :=
  match db with
  | [] => (None, [], [])
  | (k, e) :: rest =>
      let '(o, e', evs) :=
        delink_links w remotenet (w_iter w (links e)) e in
      match o with
      | Some err => (Some err, (k, e') :: rest, evs)
      | None =>
          let '(o2, rest', evs2) := delink_all w remotenet rest in
          (o2, (k, e') :: rest', List.app evs evs2)
      end
  end.

(** The first loop of [delink] and the removal that follows it: the first
    entry whose links hold the pair loses it; [None] when no entry holds
    the pair, which leaves the variable [entry] unbound. *)
Fixpoint unlink_first (db : database) (pair : chanpair) : option database :=
  match db with
  | [] => None
  | (k, e) :: rest =>
      if bool_decide (pair ∈ links e)
      then Some ((k, with_links (fun s => s ∖ {[pair]}) e) :: rest)
      else (fun r => (k, e) :: r) <$> unlink_first rest pair
  end.

(** [delink(irc, source, args)] *)
Definition delink (w : World) (net source : string) (args : list string)
  (db : database) : run :=
  match args with
  | [] => reply db net source
            "Error: not enough arguments. Needs 1-2: channel, remote netname (optional)."
            []
  | a0 :: more =>
      let channel := Text.lower a0 in
      let remotenet := match more with
                       | a1 :: _ => Some (Text.lower a1)
                       | [] => None
                       end in
      if negb (w_isOper w net source) then
        reply db net source
          "Error: you must be opered in order to complete this operation." []
      else if negb (w_isChannel w channel) then
        reply db net source "Error: invalid channel %r." [channel]
      else
        if has_key db (net, channel) then
          match remotenet with
          | None =>
              reply db net source
                "Error: you must select a network to delink, or use the 'destroy' command no remove this relay entirely."
                []
          | Some remote =>
              let '(o, db', evs) := delink_all w remote db in
              match o with
              | Some err => {| raised := Some err; db_after := db'; events := evs |}
              | None =>
                  {| raised := None; db_after := db';
                     events := List.app evs [Msg net source "Done." []] |}
              end
          end
        else
          match unlink_first db (net, channel) with
          | None =>
              {| raised := Some UnboundLocalError; db_after := db; events := [] |}
          | Some db' =>
              match removeChannel w net channel with
              | Raise e =>
                  {| raised := Some (Exn e); db_after := db'; events := [] |}
              | Ok evs =>
                  {| raised := None; db_after := db';
                     events := List.app evs [Msg net source "Done." []] |}
              end
          end
  end.

(** The entries whose links hold a pair. *)
Definition holders (db : database) (pair : chanpair) : database :=
  List.filter (fun kv => bool_decide (pair ∈ links (snd kv))) db.

(** Every channel belongs to one relay at most, as the channel the relay
    is named after or as one of its links. *)
Definition exclusive (db : database) : Prop :=
  forall pair : chanpair,
    length (holders db pair) + (if has_key db pair then 1 else 0) <= 1.

(** One database under another: the same keys in the same order, with
    links that have only been taken away. *)
Definition below (db' db : database) : Prop :=
  Forall2 (fun kv' kv => fst kv' = fst kv /\ links (snd kv') ⊆ links (snd kv))
    db' db.

End RelayDB.

(** ** A relay between two networks *)

Module RelayExamples.

Import RelayDB.

(** Two networks on which everyone is an operator and a member of every
    channel, and which join no channel by configuration. *)
Definition two_nets : World :=
  {| w_isChannel := Str.startswith "#";
     w_isOper := fun _ _ => true;
     w_networks := {[ "neta"; "netb" ]};
     w_members := fun _ _ => {[ "42XAAAAAA" ]};
     w_autojoin := fun _ => Some [];
     w_iter := elements |}.

(** The relay [#home] of [neta], without links. *)
Definition home_db : database := [(("neta", "#home"), fresh_entry "neta")].

(** The relay [#home] of [neta] with the channel [#guest] of [netb] linked
    to it, and the relay [#other] of [neta] with the channel [#far] of
    [netb]. *)
Definition linked_db : database :=
  [(("neta", "#home"),
    {| claim := ["neta"]; links := {[ ("netb", "#guest") ]};
       blocked_nets := ∅ |});
   (("neta", "#other"),
    {| claim := ["neta"]; links := {[ ("netb", "#far") ]};
       blocked_nets := ∅ |})].

End RelayExamples.

(* ===================================================================== *)
(** * Part II: theorems                                                   *)
(* ===================================================================== *)

Module P10SidFacts.
  Import P10Sid Base64.

Lemma testbit_byte_mask m : N.testbit 255 m = (m <? 8)%N.
Proof.
  change 255%N with (N.ones 8).
  destruct (N.ltb_spec m 8).
  - by apply N.ones_spec_low.
  - by apply N.ones_spec_high.
Qed.

Lemma testbit_sextet_mask m : N.testbit 63 m = (m <? 6)%N.
Proof.
  change 63%N with (N.ones 6).
  destruct (N.ltb_spec m 6).
  - by apply N.ones_spec_low.
  - by apply N.ones_spec_high.
Qed.

(** Below bit 24 the quantum built from the three low bytes of [n] has the
    bits of [n]. *)
Lemma quantum_low_bits (n m : N) :
  (m < 24)%N ->
  N.testbit (quantum (N.land (N.shiftr n 16) 255) (N.land (N.shiftr n 8) 255)
               (N.land n 255)) m = N.testbit n m.
Proof.
  intros Hm. unfold quantum.
  rewrite !N.lor_spec.
  destruct (N.ltb_spec m 8) as [H8|H8].
  - rewrite !N.shiftl_spec_low by lia.
    rewrite N.land_spec, testbit_byte_mask.
    apply N.ltb_lt in H8. rewrite H8. simpl. by rewrite andb_true_r.
  - destruct (N.ltb_spec m 16) as [H16|H16].
    + rewrite (N.shiftl_spec_low _ 16) by lia.
      rewrite N.shiftl_spec_high' by lia.
      rewrite !N.land_spec, !testbit_byte_mask, N.shiftr_spec'.
      replace (m - 8 + 8)%N with m by lia.
      replace (m - 8 <? 8)%N with true by (symmetry; apply N.ltb_lt; lia).
      replace (m <? 8)%N with false by (symmetry; apply N.ltb_ge; lia).
      simpl. by rewrite !andb_true_r, andb_false_r, orb_false_r.
    + rewrite !N.shiftl_spec_high' by lia.
      rewrite !N.land_spec, !testbit_byte_mask, !N.shiftr_spec'.
      replace (m - 16 + 16)%N with m by lia.
      replace (m - 16 <? 8)%N with true by (symmetry; apply N.ltb_lt; lia).
      replace (m - 8 <? 8)%N with false by (symmetry; apply N.ltb_ge; lia).
      replace (m <? 8)%N with false by (symmetry; apply N.ltb_ge; lia).
      simpl. by rewrite !andb_true_r, !andb_false_r, !orb_false_r.
Qed.

Lemma sextet_of_low_bytes (n i : N) :
  (i < 4)%N ->
  sextet (quantum (N.land (N.shiftr n 16) 255) (N.land (N.shiftr n 8) 255)
            (N.land n 255)) i
  = N.land (N.shiftr n (6 * i)) 63.
Proof.
  intros Hi. unfold sextet. apply N.bits_inj. intros k.
  rewrite !N.land_spec, !N.shiftr_spec', testbit_sextet_mask.
  destruct (N.ltb_spec k 6); [|by rewrite !andb_false_r].
  rewrite quantum_low_bits by lia. done.
Qed.

Lemma p10b64encode_in_range (num : Z) :
  (0 <= num < 2 ^ 32)%Z -> p10b64encode num = Ok (sid_of (Z.to_N num)).
Proof.
  intros [H0 H1]. unfold p10b64encode, struct_pack_I.
  replace ((0 <=? num)%Z && (num <? 2 ^ 32)%Z) with true
    by (symmetry; apply andb_true_iff; split; [apply Z.leb_le|apply Z.ltb_lt]; done).
  cbn [Py.bind skipn b64encode].
  set (n := Z.to_N num).
  rewrite (sextet_of_low_bytes n 1), (sextet_of_low_bytes n 0) by lia.
  reflexivity.
Qed.


Lemma enc_char_inj (a b : N) :
  (a < 64)%N -> (b < 64)%N ->
  enc_char p10_altchars a = enc_char p10_altchars b -> a = b.
Proof.
  intros Ha Hb Heq.
  assert (Hc : enc_injective_check = true) by (vm_compute; reflexivity).
  unfold enc_injective_check in Hc.
  rewrite forallb_forall in Hc.
  assert (Hin : forall x, (x < 64)%N -> In x (map N.of_nat (seq 0 64))).
  { intros x Hx. apply in_map_iff. exists (N.to_nat x). split; [lia|].
    apply in_seq. lia. }
  specialize (Hc a (Hin a Ha)). rewrite forallb_forall in Hc.
  specialize (Hc b (Hin b Hb)).
  rewrite Heq, Ascii.eqb_refl in Hc. simpl in Hc. by apply N.eqb_eq.
Qed.

Lemma sid_of_inj_mod (n m : N) :
  sid_of n = sid_of m -> (n mod 4096 = m mod 4096)%N.
Proof.
  unfold sid_of. intros Heq. injection Heq as H1 H0.
  change 63%N with (N.ones 6) in H1, H0.
  rewrite !N.land_ones, !N.shiftr_div_pow2 in H1.
  rewrite !N.land_ones in H0.
  apply enc_char_inj in H1; [|apply N.mod_lt; discriminate..].
  apply enc_char_inj in H0; [|apply N.mod_lt; discriminate..].
  change 4096%N with (2 ^ 6 * 2 ^ 6)%N.
  rewrite !N.Div0.mod_mul_r. congruence.
Qed.

Lemma sid_of_length (n : N) : String.length (sid_of n) = 2.
Proof. reflexivity. Qed.

(** SIDs of two numbers less than 4096 apart differ. *)
Lemma sid_of_window (a b : Z) :
  (0 <= a)%Z -> (0 <= b)%Z -> (Z.abs (a - b) < 4096)%Z ->
  sid_of (Z.to_N a) = sid_of (Z.to_N b) -> a = b.
Proof.
  intros Ha Hb Hd Heq. apply sid_of_inj_mod in Heq.
  pose proof (N.div_mod (Z.to_N a) 4096 ltac:(discriminate)) as Da.
  pose proof (N.div_mod (Z.to_N b) 4096 ltac:(discriminate)) as Db.
  pose proof (N.mod_lt (Z.to_N a) 4096 ltac:(discriminate)).
  pose proof (N.mod_lt (Z.to_N b) 4096 ltac:(discriminate)).
  lia.
Qed.

Lemma next_sid_ok (g : P10SIDGenerator) :
  (0 <= currentnum g <= maxnum g)%Z -> (maxnum g < 2 ^ 32)%Z ->
  next_sid g = (Ok (sid_of (Z.to_N (currentnum g))), advance g 1).
Proof.
  intros Hc Hm. unfold next_sid.
  replace (maxnum g <? currentnum g)%Z with false
    by (symmetry; apply Z.ltb_ge; lia).
  rewrite p10b64encode_in_range by lia. reflexivity.
Qed.

Lemma next_sid_exhausted (g : P10SIDGenerator) :
  (maxnum g < currentnum g)%Z -> next_sid g = (Raise ProtocolError, g).
Proof.
  intros H. unfold next_sid.
  by replace (maxnum g <? currentnum g)%Z with true
    by (symmetry; apply Z.ltb_lt; lia).
Qed.

Lemma sids_from_S (c : Z) (k : nat) :
  sids_from c (S k) = sid_of (Z.to_N c) :: sids_from (c + 1) k.
Proof.
  unfold sids_from. cbn [seq map]. rewrite Z.add_0_r. f_equal.
  rewrite <- seq_shift, map_map. apply map_ext. intros i. do 2 f_equal. lia.
Qed.

Lemma calls_exhausted (j : nat) (g : P10SIDGenerator) :
  (maxnum g < currentnum g)%Z ->
  calls j g = (repeat (Raise ProtocolError) j, g).
Proof.
  intros H. induction j as [|j IH]; [done|].
  cbn [calls]. rewrite next_sid_exhausted, IH by done. reflexivity.
Qed.

Lemma calls_in_range (k j : nat) (g : P10SIDGenerator) :
  (0 <= currentnum g)%Z -> (maxnum g < 2 ^ 32)%Z ->
  (currentnum g + Z.of_nat k = maxnum g + 1)%Z ->
  calls (k + j) g
  = ((Ok <$> sids_from (currentnum g) k) ++ repeat (Raise ProtocolError) j,
     advance g (Z.of_nat k))%list.
Proof.
  revert g. induction k as [|k IH]; intros g H0 Hm Hk.
  - cbn [Nat.add]. rewrite calls_exhausted by lia.
    destruct g; unfold advance; cbn. by rewrite Z.add_0_r.
  - cbn [Nat.add calls]. rewrite next_sid_ok by lia.
    rewrite (IH (advance g 1)) by (cbn; lia).
    rewrite sids_from_S. cbn [fmap list_fmap app currentnum advance].
    f_equal. unfold advance. cbn [minnum maxnum currentnum]. f_equal. lia.
Qed.

Lemma sids_from_NoDup (c : Z) (k : nat) :
  (0 <= c)%Z -> (Z.of_nat k <= 4096)%Z -> NoDup (sids_from c k).
Proof.
  intros Hc Hk. unfold sids_from.
  apply NoDup_fmap_2_strong; [|apply NoDup_seq].
  intros i j Hi Hj Heq.
  apply list_elem_of_In, in_seq in Hi. apply list_elem_of_In, in_seq in Hj.
  apply sid_of_window in Heq; lia.
Qed.

End P10SidFacts.

Section SidRange.
Import P10Sid P10SidFacts.

(** C5 (amended). A numeric-range generator whose bounds lie between 0 and
    [2^32 - 1] and span at most 4096 numbers succeeds on its first
    [maxnum - minnum + 1] calls, with pairwise distinct SIDs of two
    characters, and raises a protocol error on every later call. (A SID is
    the two characters of the twelve low bits of the number: wider ranges
    repeat SIDs, and numbers outside 32 bits are refused by the packing.) *)
Theorem p10_sid_range_exhaustion (lo hi : Z) :
  (0 <= lo)%Z -> (hi < 2 ^ 32)%Z -> (hi - lo < 4096)%Z ->
  sid_range_claim lo hi.
Proof.
  intros Hlo Hhi Hw Hle j.
  exists (sids_from lo (Z.to_nat (hi - lo + 1))).
  split; [|split; [|split]].
  - unfold sids_from. by rewrite length_map, length_seq.
  - apply sids_from_NoDup; lia.
  - unfold sids_from. apply Forall_forall. intros s Hs.
    apply list_elem_of_In, in_map_iff in Hs. destruct Hs as (i & <- & _).
    apply sid_of_length.
  - rewrite (calls_in_range _ _ (init lo hi)); cbn; [done|lia..].
Qed.

Lemma p10_sid_range_exhaustion_witness : sid_range_claim 0 4095.
Proof. apply p10_sid_range_exhaustion; lia. Defined.

Lemma p10_sid_range_repeats : ~ sid_range_claim 0 4096.
Proof.
  intros H. destruct (H ltac:(lia) 0%nat) as (sids & _ & Hnd & _ & Hcalls).
  rewrite app_nil_r in Hcalls.
  assert (Hnd' : NoDup (Ok <$> sids)).
  { apply NoDup_fmap_2; [|done]. intros x y Hxy. by injection Hxy. }
  rewrite <- Hcalls in Hnd'.
  assert (H0 : fst (calls (Z.to_nat (4096 - 0 + 1) + 0) (init 0 4096)) !! 0%nat
               = Some (Ok "AA")) by (vm_compute; reflexivity).
  assert (H1 : fst (calls (Z.to_nat (4096 - 0 + 1) + 0) (init 0 4096)) !! 4096%nat
               = Some (Ok "AA")) by (vm_compute; reflexivity).
  pose proof (NoDup_lookup _ _ _ _ Hnd' H0 H1). discriminate.
Qed.

End SidRange.

Module TS6SidFacts.
  Import TS6Sid.

(** No generator instance has an attribute called [servers]. *)
Lemma getattr_servers (g : TS6SIDGenerator) :
  getattr g "servers" = Raise AttributeError.
Proof. reflexivity. Qed.

Lemma next_sid_loop_raises (fuel : nat) (g : TS6SIDGenerator) :
  next_sid_loop fuel g = (Raise AttributeError, g).
Proof. destruct fuel; cbn [next_sid_loop]; by rewrite getattr_servers. Qed.

Lemma init_step_ok (g : TS6SIDGenerator) (idx : nat) (c : ascii) :
  Str.mem c (digits ++ ascii_uppercase ++ "#") = true ->
  exists g', init_step (Ok g) (idx, c) = Ok g'.
Proof.
  intros Hc. unfold init_step. cbn [Py.bind]. rewrite Hc. cbn [negb].
  destruct (Ascii.eqb c "#"); [|by eexists].
  destruct (Nat.eqb idx 0); by eexists.
Qed.

(** [__init__] accepts every documented template. *)
Lemma init_valid_template (i : Irc) (q : string) :
  serverdata i !! "sidrange" = Some q -> valid_template q = true ->
  exists g, init i = Ok g.
Proof.
  intros Hq Hv. unfold init. rewrite Hq.
  unfold valid_template in Hv.
  apply andb_true_iff in Hv as [Hv Hall].
  apply andb_true_iff in Hv as [Hlen Hmem].
  destruct q as [|a [|b [|c [|d q]]]]; try discriminate Hlen.
  cbn [Str.all] in Hall.
  apply andb_true_iff in Hall as [Ha Hall].
  apply andb_true_iff in Hall as [Hb Hall].
  apply andb_true_iff in Hall as [Hc _].
  rewrite Hmem.
  cbn [list_ascii_of_string length Nat.eqb negb seq combine fold_left].
  edestruct (init_step_ok) as [g1 ->]; [exact Ha|].
  edestruct (init_step_ok) as [g2 ->]; [exact Hb|].
  edestruct (init_step_ok) as [g3 ->]; [exact Hc|].
  by eexists.
Qed.

End TS6SidFacts.

Section SidTemplate.
Import TS6Sid TS6SidFacts.

(** C2. Whatever the template and the server table, [next_sid] on the
    generator [__init__] builds returns no SID: the loop condition reads
    [self.servers], an attribute the generator does not have (the server
    table is [self.irc.servers]), so the call raises [AttributeError] and
    leaves the generator as it was. *)
Theorem ts6_next_sid_raises_attribute_error (i : Irc) (q : string) :
  serverdata i !! "sidrange" = Some q ->
  valid_template q = true ->
  exists g, init i = Ok g /\ next_sid g = (Raise AttributeError, g).
Proof.
  intros Hq Hv. destruct (init_valid_template i q Hq Hv) as [g Hg].
  exists g. split; [done|]. apply next_sid_loop_raises.
Qed.

Lemma ts6_next_sid_raises_attribute_error_witness :
  exists g, init sid_example_irc = Ok g /\ next_sid g = (Raise AttributeError, g).
Proof.
  apply (ts6_next_sid_raises_attribute_error sid_example_irc "1#A");
    vm_compute; reflexivity.
Defined.

End SidTemplate.

Module Base64Facts.
  Import Base64 P10Sid.

Lemma testbit_shiftl (a n m : N) :
  N.testbit (N.shiftl a n) m = (n <=? m)%N && N.testbit a (m - n).
Proof.
  destruct (N.leb_spec n m).
  - by rewrite N.shiftl_spec_high'.
  - by rewrite N.shiftl_spec_low.
Qed.

Lemma testbit_ones (n m : N) : N.testbit (N.ones n) m = (m <? n)%N.
Proof.
  destruct (N.ltb_spec m n).
  - by apply N.ones_spec_low.
  - by apply N.ones_spec_high.
Qed.

Lemma byte_is_masked (a : N) : (a < 256)%N -> a = N.land a 255.
Proof.
  intros H. change 255%N with (N.ones 8). rewrite N.land_ones.
  symmetry. by apply N.mod_small.
Qed.

(** Two numbers that agree on their eight low bits have the same low
    byte. *)
Lemma low_byte_ext (x y : N) :
  (forall k, (k < 8)%N -> N.testbit x k = N.testbit y k) ->
  N.land x 255 = N.land y 255.
Proof.
  intros H. apply N.bits_inj. intros k.
  rewrite !N.land_spec. change 255%N with (N.ones 8). rewrite testbit_ones.
  destruct (N.ltb_spec k 8); [|by rewrite !andb_false_r].
  by rewrite H.
Qed.

Lemma below_8_cases (P : N -> Prop) :
  P 0%N -> P 1%N -> P 2%N -> P 3%N -> P 4%N -> P 5%N -> P 6%N -> P 7%N ->
  forall k, (k < 8)%N -> P k.
Proof.
  intros ? ? ? ? ? ? ? ? k Hk.
  assert (k = 0 \/ k = 1 \/ k = 2 \/ k = 3 \/ k = 4 \/ k = 5 \/ k = 6 \/ k = 7)%N
    as Hc by lia.
  repeat (destruct Hc as [->|Hc]; [assumption|]). by subst.
Qed.

Ltac bits_at :=
  repeat first
    [ rewrite N.land_spec | rewrite N.lor_spec | rewrite N.shiftr_spec'
    | rewrite testbit_shiftl | rewrite testbit_ones ];
  repeat match goal with
         | |- context [N.testbit ?a ?k] =>
             is_var a;
             let k' := eval vm_compute in k in
             tryif constr_eq k k' then fail
             else change (N.testbit a k) with (N.testbit a k')
         end;
  repeat match goal with
         | |- context [N.testbit ?a ?k] =>
             is_var a; let t := fresh "t" in
             generalize (N.testbit a k); intro t
         end;
  vm_compute;
  repeat match goal with
         | t : bool |- _ => first [clear t | destruct t]
         end;
  reflexivity.

Ltac low_byte :=
  apply low_byte_ext; apply below_8_cases; bits_at.

Lemma enc_then_val (v : N) :
  (v < 64)%N ->
  is_pad (translate p10_altchars (enc_char p10_altchars v)) = false
  /\ std_val (translate p10_altchars (enc_char p10_altchars v)) = Some v.
Proof.
  intros Hv.
  assert (H : forall n : nat, (n < 64)%nat ->
            is_pad (translate p10_altchars (enc_char p10_altchars (N.of_nat n))) = false
            /\ std_val (translate p10_altchars (enc_char p10_altchars (N.of_nat n)))
               = Some (N.of_nat n)).
  { intros n Hn.
    do 64 (destruct n as [|n]; [vm_compute; split; reflexivity|]). lia. }
  specialize (H (N.to_nat v) ltac:(lia)). by rewrite N2Nat.id in H.
Qed.

Lemma a2b_loop_data (v : N) (s : string) (st : dstate) :
  (v < 64)%N ->
  a2b_loop (String (translate p10_altchars (enc_char p10_altchars v)) s) st
  = a2b_loop s (feed st v).
Proof.
  intros Hv. destruct (enc_then_val v Hv) as [Hp Hs].
  cbn [a2b_loop]. by rewrite Hp, Hs.
Qed.

Lemma sextet_bound (q i : N) : (sextet q i < 64)%N.
Proof.
  unfold sextet. change 63%N with (N.ones 6). rewrite N.land_ones.
  by apply N.mod_lt.
Qed.

Lemma feed_bits_0 (qp lc v : N) (o : list N) :
  feed {| quad_pos := qp; leftchar := lc; leftbits := 0; out := o |} v
  = {| quad_pos := N.land (qp + 1) 3; leftchar := N.lor (N.shiftl lc 6) v;
       leftbits := 6; out := o |}.
Proof. reflexivity. Qed.

Lemma feed_bits_6 (qp lc v : N) (o : list N) :
  feed {| quad_pos := qp; leftchar := lc; leftbits := 6; out := o |} v
  = {| quad_pos := N.land (qp + 1) 3;
       leftchar := N.land (N.lor (N.shiftl lc 6) v) (N.ones 4);
       leftbits := 4;
       out := o ++ [N.land (N.shiftr (N.lor (N.shiftl lc 6) v) 4) 255] |}.
Proof. reflexivity. Qed.

Lemma feed_bits_4 (qp lc v : N) (o : list N) :
  feed {| quad_pos := qp; leftchar := lc; leftbits := 4; out := o |} v
  = {| quad_pos := N.land (qp + 1) 3;
       leftchar := N.land (N.lor (N.shiftl lc 6) v) (N.ones 2);
       leftbits := 2;
       out := o ++ [N.land (N.shiftr (N.lor (N.shiftl lc 6) v) 2) 255] |}.
Proof. reflexivity. Qed.

Lemma feed_bits_2 (qp lc v : N) (o : list N) :
  feed {| quad_pos := qp; leftchar := lc; leftbits := 2; out := o |} v
  = {| quad_pos := N.land (qp + 1) 3;
       leftchar := 0;
       leftbits := 0;
       out := o ++ [N.land (N.shiftr (N.lor (N.shiftl lc 6) v) 0) 255] |}.
Proof. unfold feed. cbn. by rewrite N.land_0_r. Qed.

Lemma feed_quantum (a b c : N) (o : list N) :
  let q := quantum (N.land a 255) (N.land b 255) (N.land c 255) in
  feed (feed (feed (feed {| quad_pos := 0; leftchar := 0; leftbits := 0; out := o |}
                      (sextet q 3)) (sextet q 2)) (sextet q 1)) (sextet q 0)
  = {| quad_pos := 0; leftchar := 0; leftbits := 0;
       out := o ++ [N.land a 255; N.land b 255; N.land c 255] |}.
Proof.
  intros q. rewrite feed_bits_0, feed_bits_6, feed_bits_4, feed_bits_2.
  rewrite <- !app_assoc. cbn [app].
  f_equal. f_equal. subst q. unfold sextet, quantum.
  change 63%N with (N.ones 6). change 255%N with (N.ones 8).
  change (6 * 3)%N with 18%N. change (6 * 2)%N with 12%N.
  change (6 * 1)%N with 6%N. change (6 * 0)%N with 0%N.
  f_equal; [|f_equal; [|f_equal]].
  - rewrite <- (N.land_diag (N.ones 8)) at 4. rewrite N.land_assoc.
    change (N.ones 8) with 255%N at 1 5. low_byte.
  - rewrite <- (N.land_diag (N.ones 8)) at 7. rewrite N.land_assoc.
    change (N.ones 8) with 255%N at 1 8. low_byte.
  - rewrite <- (N.land_diag (N.ones 8)) at 10. rewrite N.land_assoc.
    change (N.ones 8) with 255%N at 1 11. low_byte.
Qed.

Lemma append_cons (c : ascii) (s r : string) :
  String c s ++ r = String c (s ++ r).
Proof. reflexivity. Qed.

Lemma append_nil_l (r : string) : "" ++ r = r.
Proof. reflexivity. Qed.

Lemma append_nil_r (s : string) : s ++ "" = s.
Proof. induction s as [|c s IH]; [done|]. by rewrite append_cons, IH. Qed.

Lemma enc_char_ascii (v : N) :
  (v < 64)%N -> is_ascii (enc_char p10_altchars v) = true.
Proof.
  intros Hv.
  assert (H : forall n : nat, (n < 64)%nat ->
            is_ascii (enc_char p10_altchars (N.of_nat n)) = true).
  { intros n Hn. do 64 (destruct n as [|n]; [reflexivity|]). lia. }
  specialize (H (N.to_nat v) ltac:(lia)). by rewrite N2Nat.id in H.
Qed.

Lemma b64encode_quantum_ascii (a b c : N) :
  Str.all is_ascii (b64encode p10_altchars [a; b; c]) = true.
Proof.
  cbn [b64encode Str.all]. by rewrite !enc_char_ascii by apply sextet_bound.
Qed.

Lemma all_append (p : ascii -> bool) (s t : string) :
  Str.all p (s ++ t) = Str.all p s && Str.all p t.
Proof.
  induction s as [|c s IH]; [done|].
  rewrite append_cons. cbn [Str.all]. by rewrite IH, andb_assoc.
Qed.

Lemma a2b_loop_quantum (a b c : N) (rest : string) (o : list N) :
  a2b_loop (map_string (translate p10_altchars)
              (b64encode p10_altchars [N.land a 255; N.land b 255; N.land c 255] ++ rest))
    {| quad_pos := 0; leftchar := 0; leftbits := 0; out := o |}
  = a2b_loop (map_string (translate p10_altchars) rest)
      {| quad_pos := 0; leftchar := 0; leftbits := 0;
         out := o ++ [N.land a 255; N.land b 255; N.land c 255] |}.
Proof.
  cbn [b64encode]. rewrite !append_cons, append_nil_l. cbn [map_string].
  rewrite !a2b_loop_data by apply sextet_bound.
  by rewrite feed_quantum.
Qed.

Lemma b64encode_quantum (a b c : N) (rest : list N) :
  b64encode p10_altchars (a :: b :: c :: rest)
  = b64encode p10_altchars [a; b; c] ++ b64encode p10_altchars rest.
Proof. reflexivity. Qed.

(** Decoding what [b64encode] makes of six bytes gives them back. *)
Lemma b64_roundtrip_6 (x1 x2 x3 x4 x5 x6 : N) :
  (x1 < 256)%N -> (x2 < 256)%N -> (x3 < 256)%N ->
  (x4 < 256)%N -> (x5 < 256)%N -> (x6 < 256)%N ->
  b64decode p10_altchars (b64encode p10_altchars [x1; x2; x3; x4; x5; x6])
  = Ok [x1; x2; x3; x4; x5; x6].
Proof.
  intros H1 H2 H3 H4 H5 H6.
  rewrite (byte_is_masked x1 H1), (byte_is_masked x2 H2), (byte_is_masked x3 H3),
          (byte_is_masked x4 H4), (byte_is_masked x5 H5), (byte_is_masked x6 H6).
  unfold b64decode.
  rewrite b64encode_quantum, all_append, !b64encode_quantum_ascii.
  cbn [andb negb]. rewrite a2b_loop_quantum.
  rewrite <- (append_nil_r (b64encode _ [_; _; _])).
  rewrite a2b_loop_quantum. reflexivity.
Qed.

(** The encoding of two zero bytes and four more begins with ["AA"]. *)
Lemma b64encode_zero_padded (a b c d : N) :
  (a < 256)%N ->
  b64encode p10_altchars [0; 0; a; b; c; d]%N
  = "AA" ++ Str.drop 2 (b64encode p10_altchars [0; 0; a; b; c; d]%N).
Proof.
  intros Ha. cbn [b64encode Str.drop]. rewrite !append_cons, append_nil_l.
  assert (H3 : (sextet (quantum 0 0 a) 3 = 0)%N).
  { unfold sextet, quantum. rewrite !N.shiftl_0_l, !N.lor_0_l.
    rewrite N.shiftr_eq_0; [done|].
    destruct (N.eq_dec a 0%N) as [->|Hnz]; [done|].
    apply N.log2_lt_pow2; [lia|]. change (2 ^ (6 * 3))%N with 262144%N. lia. }
  assert (H2 : (sextet (quantum 0 0 a) 2 = 0)%N).
  { unfold sextet, quantum. rewrite !N.shiftl_0_l, !N.lor_0_l.
    rewrite N.shiftr_eq_0; [done|].
    destruct (N.eq_dec a 0%N) as [->|Hnz]; [done|].
    apply N.log2_lt_pow2; [lia|]. change (2 ^ (6 * 2))%N with 4096%N. lia. }
  rewrite H3, H2. reflexivity.
Qed.

Lemma b64encode_6_length (x1 x2 x3 x4 x5 x6 : N) :
  String.length (b64encode p10_altchars [x1; x2; x3; x4; x5; x6]) = 8.
Proof. reflexivity. Qed.

End Base64Facts.

Module StrFacts.
  Import Str Base64Facts.

Lemma split_nonempty (sep : ascii) (s : string) : split sep s <> [].
Proof.
  induction s as [|c s IH]; cbn [split]; [done|].
  destruct (Ascii.eqb c sep); [done|]. by destruct (split sep s).
Qed.

Lemma join_cons (sep w : string) (ws : list string) :
  ws <> [] -> join sep (w :: ws) = w ++ sep ++ join sep ws.
Proof. by destruct ws. Qed.

(** Joining what [split] cut gives the string back. *)
Lemma join_split (sep : ascii) (s : string) :
  join (String sep "") (split sep s) = s.
Proof.
  induction s as [|c s IH]; [done|].
  cbn [split]. destruct (Ascii.eqb_spec c sep) as [->|Hne].
  - rewrite join_cons by apply split_nonempty.
    by rewrite IH.
  - pose proof (split_nonempty sep s) as Hs.
    destruct (split sep s) as [|w ws]; [done|].
    destruct ws as [|w' ws].
    + cbn [join] in *. by rewrite IH.
    + rewrite join_cons by done. rewrite join_cons in IH by done.
      by rewrite append_cons, IH.
Qed.

Lemma split_without (sep : ascii) (s : string) :
  mem sep s = false -> split sep s = [s].
Proof.
  induction s as [|c s IH]; [done|].
  cbn [mem split]. rewrite Ascii.eqb_sym.
  destruct (Ascii.eqb c sep); [done|].
  intros H. by rewrite IH.
Qed.

Lemma split_at (sep : ascii) (h t : string) :
  mem sep h = false -> split sep (h ++ String sep t) = h :: split sep t.
Proof.
  induction h as [|c h IH].
  - intros _. rewrite append_nil_l. cbn [split]. by rewrite Ascii.eqb_refl.
  - cbn [mem]. rewrite Ascii.eqb_sym, append_cons. cbn [split].
    destruct (Ascii.eqb c sep); [done|].
    intros H. by rewrite IH.
Qed.

Lemma mem_at (sep : ascii) (h t : string) :
  mem sep (h ++ String sep t) = true.
Proof.
  induction h as [|c h IH].
  - rewrite append_nil_l. cbn [mem]. by rewrite Ascii.eqb_refl.
  - rewrite append_cons. cbn [mem]. by destruct (Ascii.eqb sep c).
Qed.

Lemma length_append (s t : string) :
  String.length (s ++ t) = String.length s + String.length t.
Proof.
  induction s as [|c s IH]; [done|].
  rewrite append_cons. cbn [String.length]. by rewrite IH.
Qed.

Lemma digit_cases (c : ascii) :
  is_digit c = true ->
  forall P : ascii -> Prop,
    P "0"%char -> P "1"%char -> P "2"%char -> P "3"%char -> P "4"%char ->
    P "5"%char -> P "6"%char -> P "7"%char -> P "8"%char -> P "9"%char ->
    P c.
Proof.
  intros H P.
  destruct c as [[] [] [] [] [] [] [] []];
    vm_compute in H; try discriminate H; tauto.
Qed.

End StrFacts.

Module InetFacts.
  Import Inet Str StrFacts Base64Facts.

Lemma digit_in_chars (c : ascii) : is_digit c = true -> In c digit_chars.
Proof.
  intros H. apply (digit_cases c H); cbn; tauto.
Qed.

Lemma in_digit_strings (t : string) :
  all is_digit t = true -> In t (digit_strings (String.length t)).
Proof.
  induction t as [|c t IH]; [intros _; by left|].
  cbn [all String.length digit_strings]. intros H.
  apply andb_true_iff in H as [Hc Ht].
  apply in_flat_map. exists c. split; [by apply digit_in_chars|].
  apply in_map. by apply IH.
Qed.

Lemma octet_check_digits :
  forallb octet_check (digit_strings 1 ++ digit_strings 2 ++ digit_strings 3)%list
  = true.
Proof. vm_compute. reflexivity. Qed.

(** An octet that [parse_octet] accepts is below 256 and is printed the
    way it was written. *)
Lemma parse_octet_print (t : string) (v : N) :
  parse_octet t = Some v -> (v < 256)%N /\ of_N v = t.
Proof.
  intros H.
  assert (Hin : In t (digit_strings 1 ++ digit_strings 2 ++ digit_strings 3)%list).
  { unfold parse_octet in H.
    destruct (Nat.leb 1 (String.length t) && Nat.leb (String.length t) 3) eqn:Hl;
      [|discriminate].
    destruct (all is_digit t) eqn:Hd; [|discriminate].
    apply in_digit_strings in Hd.
    apply andb_true_iff in Hl as [H1 H3].
    apply Nat.leb_le in H1, H3.
    destruct (String.length t) as [|[|[|[|n]]]]; try lia;
      rewrite !in_app_iff; tauto. }
  pose proof octet_check_digits as Hc. rewrite forallb_forall in Hc.
  specialize (Hc t Hin). unfold octet_check in Hc. rewrite H in Hc.
  apply andb_true_iff in Hc as [Hlt Heq].
  split; [by apply N.ltb_lt|by apply String.eqb_eq].
Qed.

Lemma parse_ipv4_print (ip : string) (o : list N) :
  parse_ipv4 ip = Some o ->
  exists a b c d, o = [a; b; c; d]
    /\ (a < 256)%N /\ (b < 256)%N /\ (c < 256)%N /\ (d < 256)%N
    /\ inet_ntoa o = Ok ip.
Proof.
  unfold parse_ipv4. intros H.
  pose proof (join_split "." ip) as Hj.
  destruct (split "." ip) as [|ta [|tb [|tc [|td [|? ?]]]]]; try discriminate.
  destruct (parse_octet ta) as [a|] eqn:Ea; [|discriminate].
  destruct (parse_octet tb) as [b|] eqn:Eb; [|discriminate].
  destruct (parse_octet tc) as [c|] eqn:Ec; [|discriminate].
  destruct (parse_octet td) as [d|] eqn:Ed; [|discriminate].
  injection H as <-.
  apply parse_octet_print in Ea as [Ha Pa], Eb as [Hb Pb], Ec as [Hc Pc],
    Ed as [Hd Pd].
  exists a, b, c, d. repeat split; try done.
  cbn [inet_ntoa]. rewrite Pa, Pb, Pc, Pd. f_equal.
  rewrite <- Hj. reflexivity.
Qed.

End InetFacts.

Module P10IPFacts.
  Import P10IP P10Sid Inet Str StrFacts Base64 Base64Facts InetFacts.

Lemma spawn_b64ip_v4 (ip : string) (a b c d : N) :
  parse_ipv4 ip = Some [a; b; c; d] ->
  spawn_b64ip ip
  = Ok (Str.drop 2 (b64encode p10_altchars [0; 0; a; b; c; d]%N)).
Proof.
  intros H. unfold spawn_b64ip, ip_address, inet_aton. by rewrite H.
Qed.

Lemma spawn_b64ip_v6 (ip : string) (g : list N) (zone : option string) :
  ip_address ip = Ok (IPv6 g zone) -> spawn_b64ip ip = Ok "AAAAAA".
Proof. intros H. unfold spawn_b64ip. by rewrite H. Qed.

Lemma decode_v4 (a b c d : N) :
  (a < 256)%N -> (b < 256)%N -> (c < 256)%N -> (d < 256)%N ->
  decode_p10_ip (Str.drop 2 (b64encode p10_altchars [0; 0; a; b; c; d]%N))
  = (s <-! inet_ntoa [a; b; c; d]; Ok (Some s)).
Proof.
  intros Ha Hb Hc Hd. unfold decode_p10_ip.
  replace (String.length (Str.drop 2 (b64encode p10_altchars [0; 0; a; b; c; d]%N)))
    with 6 by reflexivity.
  cbn [Nat.eqb].
  rewrite <- b64encode_zero_padded by done.
  rewrite b64_roundtrip_6 by (done || lia).
  reflexivity.
Qed.

Lemma decode_with_separator (head tail : string) (bh bt : list N) :
  mem "_" head = false -> mem "_" tail = false ->
  String.length (head ++ "_" ++ tail) <> 6 ->
  decode_sections (chunks3 head) [] = Ok bh ->
  decode_sections (chunks3 tail) [] = Ok bt ->
  decode_p10_ip (head ++ "_" ++ tail) = pad_and_format bh bt.
Proof.
  intros Hh Ht Hlen Dh Dt. unfold decode_p10_ip.
  apply Nat.eqb_neq in Hlen. rewrite Hlen.
  change ("_" ++ tail) with (String "_" tail).
  rewrite mem_at, orb_true_r, split_at, (split_without _ tail) by done.
  cbn [Py.bind]. rewrite Dh. cbn [Py.bind]. rewrite Dt. reflexivity.
Qed.

End P10IPFacts.

Section AddressRoundTrip.
Import P10IP P10IPFacts Inet.

(** C3 (amended). The address of a spawned client goes through [N] lines
    encoded; decoding that field gives back the address exactly when it is
    an IPv4 address. For an IPv6 address [spawnClient] sends the
    placeholder ["AAAAAA"], which decodes to ["0.0.0.0"]. The decoder itself
    handles an encoded IPv6 address with one separator: the separator stands
    for [16 - len(head bytes) - len(tail bytes)] zero bytes. An IPv6
    address is whatever [ipaddress] reads as one: the forms with a dotted
    quad at the end and with a zone after [%] included. *)
Theorem p10_ip_roundtrip (ip : string) (a : address)
    (head tail : string) (bh bt : list N) :
  ip_address ip = Ok a ->
  Str.mem "_" head = false -> Str.mem "_" tail = false ->
  String.length (head ++ "_" ++ tail) <> 6 ->
  decode_sections (chunks3 head) [] = Ok bh ->
  decode_sections (chunks3 tail) [] = Ok bt ->
  match a with
  | IPv4 _ =>
      exists e, spawn_b64ip ip = Ok e /\ String.length e = 6
                /\ decode_p10_ip e = Ok (Some ip)
  | IPv6 _ _ =>
      spawn_b64ip ip = Ok "AAAAAA"
      /\ decode_p10_ip "AAAAAA" = Ok (Some "0.0.0.0")
  end
  /\ decode_p10_ip (head ++ "_" ++ tail)
     = (s <-! inet_ntop6
                (bh ++ repeat 0%N (Z.to_nat (16 - Z.of_nat (length bh)
                                             - Z.of_nat (length bt)))
                    ++ bt)%list;
        Ok (Some (if Str.startswith ":" s then "0" ++ s else s))).
Proof.
  intros Hip Hh Ht Hlen Dh Dt. split.
  - destruct a as [o|g zone].
    + unfold ip_address in Hip.
      destruct (parse_ipv4 ip) as [o'|] eqn:Hp.
      * injection Hip as ->.
        destruct (InetFacts.parse_ipv4_print ip o Hp)
          as (x & y & z & w & -> & Hx & Hy & Hz & Hw & Hprint).
        eexists. split; [by apply spawn_b64ip_v4|]. split; [reflexivity|].
        rewrite decode_v4 by done. by rewrite Hprint.
      * by destruct (parse_ipv6 ip) as [[? ?]|].
    + split; [by eapply spawn_b64ip_v6|reflexivity].
  - by apply decode_with_separator.
Qed.

Lemma p10_ip_roundtrip_witness :
  ((exists e, spawn_b64ip "127.0.0.1" = Ok e /\ String.length e = 6
              /\ decode_p10_ip e = Ok (Some "127.0.0.1"))
   /\ decode_p10_ip "AABAAC_AAD" = Ok (Some "1:2::3"))
  /\ (spawn_b64ip "::ffff:1.2.3.4" = Ok "AAAAAA"
      /\ decode_p10_ip "AAAAAA" = Ok (Some "0.0.0.0"))
  /\ (spawn_b64ip "fe80::1%eth0" = Ok "AAAAAA"
      /\ decode_p10_ip "AAAAAA" = Ok (Some "0.0.0.0")).
Proof.
  split; [|split].
  - exact (p10_ip_roundtrip "127.0.0.1" (IPv4 [127; 0; 0; 1]%N) "AABAAC" "AAD"
             [0; 1; 0; 2]%N [0; 3]%N
             eq_refl eq_refl eq_refl ltac:(discriminate) eq_refl eq_refl).
  - exact (proj1 (p10_ip_roundtrip "::ffff:1.2.3.4"
                    (IPv6 [0; 0; 0; 0; 0; 65535; 258; 772]%N None)
                    "AABAAC" "AAD" [0; 1; 0; 2]%N [0; 3]%N
                    eq_refl eq_refl eq_refl ltac:(discriminate) eq_refl
                    eq_refl)).
  - exact (proj1 (p10_ip_roundtrip "fe80::1%eth0"
                    (IPv6 [65152; 0; 0; 0; 0; 0; 0; 1]%N (Some "eth0"))
                    "AABAAC" "AAD" [0; 1; 0; 2]%N [0; 3]%N
                    eq_refl eq_refl eq_refl ltac:(discriminate) eq_refl
                    eq_refl)).
Defined.

Lemma p10_ipv6_not_propagated : ~ ip_roundtrip_claim "1:2::3".
Proof.
  intros H.
  destruct (H (IPv6 [1; 2; 0; 0; 0; 0; 0; 3]%N None) eq_refl ltac:(cbn; lia))
    as (e & s & He & Hd & Hs).
  vm_compute in He. injection He as <-.
  vm_compute in Hd. injection Hd as <-.
  vm_compute in Hs. discriminate Hs.
Qed.

End AddressRoundTrip.

Module DecoderFacts.
  Import Base64 P10Sid P10IP Inet Str StrFacts Base64Facts.

Lemma count_if_le (p : ascii -> bool) (s : string) :
  count_if p s <= String.length s.
Proof.
  induction s as [|c s IH]; [done|]. cbn [count_if String.length].
  destruct (p c); lia.
Qed.

Lemma count_if_lt (p : ascii -> bool) (s : string) :
  all p s = false -> count_if p s < String.length s.
Proof.
  induction s as [|c s IH]; [done|]. cbn [all count_if String.length].
  pose proof (count_if_le p s) as Hle. destruct (p c); cbn [andb]; [|lia].
  intros H. specialize (IH H). lia.
Qed.

Lemma feed_measure (st : dstate) (v : N) :
  (N.of_nat (length (out (feed st v))) * 8 + leftbits (feed st v)
   = N.of_nat (length (out st)) * 8 + leftbits st + 6)%N.
Proof.
  unfold feed. destruct (N.leb_spec 8 (leftbits st + 6)) as [H|H];
    cbn [out leftbits].
  - rewrite length_app. cbn [length]. lia.
  - lia.
Qed.

(** Every output byte takes eight of the six bits a data character
    brings. *)
Lemma a2b_loop_measure (s : string) (st : dstate) :
  (N.of_nat (length (out (a2b_loop s st))) * 8 + leftbits (a2b_loop s st)
   <= N.of_nat (length (out st)) * 8 + leftbits st
      + 6 * N.of_nat (count_if is_data s))%N.
Proof.
  revert st. induction s as [|c s IH]; intros st.
  - cbn [a2b_loop count_if]. lia.
  - cbn [a2b_loop count_if]. unfold is_data at 1.
    destruct (is_pad c); cbn [negb andb].
    + match goal with |- context [if ?b then _ else _] => destruct b end.
      * specialize (IH st). lia.
      * cbn [out leftbits]. lia.
    + destruct (std_val c) as [v|].
      * specialize (IH (feed st v)). pose proof (feed_measure st v). lia.
      * specialize (IH st). lia.
Qed.

Lemma count_if_map (p : ascii -> bool) (f : ascii -> ascii) (s : string) :
  count_if p (map_string f s) = count_if (fun c => p (f c)) s.
Proof.
  induction s as [|c s IH]; [done|]. cbn [map_string count_if]. by rewrite IH.
Qed.

Lemma b64decode_length (s : string) (bs : list N) :
  b64decode p10_altchars s = Ok bs ->
  length bs * 8 <= 6 * count_if decoder_data s.
Proof.
  unfold b64decode. intros H.
  destruct (all is_ascii s); [|discriminate]. cbn [negb] in H.
  pose proof (a2b_loop_measure (map_string (translate p10_altchars) s)
                {| quad_pos := 0; leftchar := 0; leftbits := 0; out := [] |}) as Hm.
  destruct (N.eqb_spec (leftbits (a2b_loop (map_string (translate p10_altchars) s)
              {| quad_pos := 0; leftchar := 0; leftbits := 0; out := [] |})) 0)
    as [Hz|]; [|discriminate].
  injection H as <-. rewrite count_if_map in Hm. cbn [out leftbits length] in Hm.
  unfold decoder_data. lia.
Qed.

Lemma inet_ntoa_wrong_length (bs : list N) :
  length bs <> 4 -> inet_ntoa bs = Raise OSError.
Proof. by destruct bs as [|a [|b [|c [|d [|e bs]]]]]. Qed.

(** A six-character input with a character that is no Base64 data makes
    the IPv4 branch fail. *)
Lemma decode_six_invalid (ip : string) :
  String.length ip = 6 -> all decoder_data ip = false ->
  exists e, decode_p10_ip ip = Raise e.
Proof.
  intros Hlen Hall. unfold decode_p10_ip. rewrite Hlen. cbn [Nat.eqb].
  destruct (b64decode p10_altchars ("AA" ++ ip)) as [bs|e] eqn:Hd;
    [|by exists e].
  cbn [Py.bind]. apply b64decode_length in Hd.
  rewrite !append_cons, append_nil_l in Hd. cbn [count_if] in Hd.
  pose proof (count_if_lt _ _ Hall) as Hc.
  rewrite inet_ntoa_wrong_length; [by eexists|].
  rewrite length_skipn. destruct (decoder_data "A"); lia.
Qed.

Lemma split_length (sep : ascii) (s : string) :
  length (split sep s) = S (count sep s).
Proof.
  induction s as [|c s IH]; [done|].
  cbn [split]. unfold count in *. cbn [count_if]. rewrite (Ascii.eqb_sym sep c).
  destruct (Ascii.eqb c sep); cbn [length]; [by rewrite IH|].
  pose proof (split_nonempty sep s). destruct (split sep s); [done|].
  cbn [length] in *. lia.
Qed.

Lemma mem_count (sep : ascii) (s : string) :
  1 <= count sep s -> mem sep s = true.
Proof.
  unfold count. induction s as [|c s IH]; cbn [count_if mem]; [lia|].
  destruct (Ascii.eqb sep c); [done|]. cbn. apply IH.
Qed.

(** More than one separator: the unpacking of [ip.split('_')] fails. *)
Lemma decode_two_separators (ip : string) :
  String.length ip <> 6 -> 2 <= count "_" ip ->
  decode_p10_ip ip = Raise ValueError.
Proof.
  intros Hlen Hc. unfold decode_p10_ip.
  apply Nat.eqb_neq in Hlen. rewrite Hlen.
  rewrite (mem_count "_" ip) by lia. rewrite orb_true_r.
  pose proof (split_length "_" ip) as Hs.
  destruct (split "_" ip) as [|h [|t [|x l]]]; cbn [length] in Hs; try lia.
  reflexivity.
Qed.


Lemma p10_char_data (c : ascii) :
  p10_char c = true ->
  is_pad (translate p10_altchars c) = false
  /\ is_ascii c = true
  /\ exists v, std_val (translate p10_altchars c) = Some v.
Proof.
  intros H.
  destruct c as [[] [] [] [] [] [] [] []];
    vm_compute in H; try discriminate H; vm_compute; eauto.
Qed.

Lemma p10_chars_ascii (s : string) :
  all p10_char s = true -> all is_ascii s = true.
Proof.
  induction s as [|c s IH]; [done|]. cbn [all]. intros H.
  apply andb_true_iff in H as [Hc Hs].
  destruct (p10_char_data c Hc) as (_ & -> & _). by rewrite IH.
Qed.

Lemma a2b_loop_p10 (c : ascii) (s : string) (st : dstate) :
  p10_char c = true ->
  exists v, a2b_loop (String (translate p10_altchars c) s) st
            = a2b_loop s (feed st v).
Proof.
  intros H. destruct (p10_char_data c H) as (Hp & _ & v & Hv).
  exists v. cbn [a2b_loop]. by rewrite Hp, Hv.
Qed.

Lemma p10_char_not_separator (s : string) :
  all p10_char s = true -> mem "_" s = false.
Proof.
  induction s as [|c s IH]; [done|]. cbn [all mem]. intros H.
  apply andb_true_iff in H as [Hc Hs].
  destruct (Ascii.eqb_spec "_" c) as [<-|]; [discriminate Hc|]. by apply IH.
Qed.

(** A whole chunk gives two bytes. *)
Lemma decode_chunk_whole (a b c : ascii) :
  p10_char a = true -> p10_char b = true -> p10_char c = true ->
  exists x y z,
    b64decode p10_altchars ("A" ++ String a (String b (String c "")))
    = Ok [x; y; z].
Proof.
  intros Ha Hb Hc. unfold b64decode.
  rewrite append_cons, append_nil_l.
  rewrite (p10_chars_ascii (String "A" (String a (String b (String c "")))))
    by (cbn [all]; by rewrite Ha, Hb, Hc).
  cbn [negb map_string].
  edestruct (a2b_loop_p10 "A") as [v0 ->]; [reflexivity|].
  edestruct (a2b_loop_p10 a) as [v1 ->]; [done|].
  edestruct (a2b_loop_p10 b) as [v2 ->]; [done|].
  edestruct (a2b_loop_p10 c) as [v3 ->]; [done|].
  rewrite feed_bits_0, feed_bits_6, feed_bits_4, feed_bits_2.
  cbn [a2b_loop leftbits out N.eqb app]. by eexists _, _, _.
Qed.

(** A truncated chunk leaves bits over, which the decoder refuses. *)
Lemma decode_chunk_one (a : ascii) :
  p10_char a = true ->
  b64decode p10_altchars ("A" ++ String a "") = Raise BinasciiError.
Proof.
  intros Ha. unfold b64decode.
  rewrite append_cons, append_nil_l.
  rewrite (p10_chars_ascii (String "A" (String a "")))
    by (cbn [all]; by rewrite Ha).
  cbn [negb map_string].
  edestruct (a2b_loop_p10 "A") as [v0 ->]; [reflexivity|].
  edestruct (a2b_loop_p10 a) as [v1 ->]; [done|].
  rewrite feed_bits_0, feed_bits_6. reflexivity.
Qed.

Lemma decode_chunk_two (a b : ascii) :
  p10_char a = true -> p10_char b = true ->
  b64decode p10_altchars ("A" ++ String a (String b "")) = Raise BinasciiError.
Proof.
  intros Ha Hb. unfold b64decode.
  rewrite append_cons, append_nil_l.
  rewrite (p10_chars_ascii (String "A" (String a (String b ""))))
    by (cbn [all]; by rewrite Ha, Hb).
  cbn [negb map_string].
  edestruct (a2b_loop_p10 "A") as [v0 ->]; [reflexivity|].
  edestruct (a2b_loop_p10 a) as [v1 ->]; [done|].
  edestruct (a2b_loop_p10 b) as [v2 ->]; [done|].
  rewrite feed_bits_0, feed_bits_6, feed_bits_4. reflexivity.
Qed.

Lemma string_ind3 (P : string -> Prop) :
  P "" ->
  (forall a, P (String a "")) ->
  (forall a b, P (String a (String b ""))) ->
  (forall a b c r, P r -> P (String a (String b (String c r)))) ->
  forall s, P s.
Proof.
  intros H0 H1 H2 H3. fix IH 1.
  intros [|a [|b [|c r]]]; [exact H0|apply H1|apply H2|apply H3; apply IH].
Qed.

Lemma length_3_more (a b c : ascii) (r : string) :
  String.length (String a (String b (String c r))) mod 3 = String.length r mod 3
  /\ String.length (String a (String b (String c r))) / 3 = S (String.length r / 3).
Proof.
  cbn [String.length].
  replace (S (S (S (String.length r)))) with (1 * 3 + String.length r) by lia.
  rewrite Nat.Div0.add_mod, Nat.Div0.mod_mul, Nat.add_0_l, Nat.Div0.mod_mod.
  rewrite Nat.div_add_l by lia. done.
Qed.

Lemma decode_sections_whole (s : string) :
  all p10_char s = true -> String.length s mod 3 = 0 ->
  forall acc, exists bs,
    decode_sections (chunks3 s) acc = Ok (acc ++ bs)%list
    /\ length bs = 2 * (String.length s / 3).
Proof.
  induction s as [|a|a b|a b c r IH] using string_ind3; try discriminate.
  - intros _ _ acc. exists []. by rewrite app_nil_r.
  - intros Hall Hmod acc. cbn [all] in Hall.
    apply andb_true_iff in Hall as [Ha Hall].
    apply andb_true_iff in Hall as [Hb Hall].
    apply andb_true_iff in Hall as [Hc Hr].
    destruct (length_3_more a b c r) as [Em Ed]. rewrite Em in Hmod.
    destruct (decode_chunk_whole a b c Ha Hb Hc) as (x & y & z & Hd).
    cbn [chunks3 decode_sections]. rewrite Hd. cbn [Py.bind skipn].
    destruct (IH Hr Hmod (acc ++ [y; z])%list) as (bs & -> & Hlen).
    exists (y :: z :: bs). rewrite <- app_assoc. split; [done|].
    cbn [length]. rewrite Ed, Hlen. lia.
Qed.

Lemma decode_sections_truncated (s : string) :
  all p10_char s = true -> String.length s mod 3 <> 0 ->
  forall acc, decode_sections (chunks3 s) acc = Raise BinasciiError.
Proof.
  induction s as [|a|a b|a b c r IH] using string_ind3.
  - done.
  - intros Hall _ acc. cbn [all] in Hall.
    apply andb_true_iff in Hall as [Ha _].
    cbn [chunks3 decode_sections]. by rewrite decode_chunk_one.
  - intros Hall _ acc. cbn [all] in Hall.
    apply andb_true_iff in Hall as [Ha Hall].
    apply andb_true_iff in Hall as [Hb _].
    cbn [chunks3 decode_sections]. by rewrite decode_chunk_two.
  - intros Hall Hmod acc. cbn [all] in Hall.
    apply andb_true_iff in Hall as [Ha Hall].
    apply andb_true_iff in Hall as [Hb Hall].
    apply andb_true_iff in Hall as [Hc Hr].
    destruct (length_3_more a b c r) as [Em Ed]. rewrite Em in Hmod.
    destruct (decode_chunk_whole a b c Ha Hb Hc) as (x & y & z & Hd).
    cbn [chunks3 decode_sections]. rewrite Hd. cbn [Py.bind skipn].
    by apply IH.
Qed.

Lemma inet_ntop6_length (bs : list N) :
  (length bs = 16 -> exists s, inet_ntop6 bs = Ok s)
  /\ (length bs <> 16 -> inet_ntop6 bs = Raise ValueError).
Proof.
  unfold inet_ntop6. split; intros H.
  - rewrite H. cbn [Nat.eqb negb]. by eexists.
  - apply Nat.eqb_neq in H. by rewrite H.
Qed.

Lemma pad_and_format_fits (bh bt : list N) :
  length bh + length bt <= 16 -> exists s, pad_and_format bh bt = Ok (Some s).
Proof.
  intros H. unfold pad_and_format.
  destruct (proj1 (inet_ntop6_length
    (bh ++ repeat 0%N (Z.to_nat (16 - Z.of_nat (length bh) - Z.of_nat (length bt)))
        ++ bt)%list)) as [s ->].
  - rewrite !length_app, repeat_length. lia.
  - by eexists.
Qed.

Lemma pad_and_format_overlong (bh bt : list N) :
  16 < length bh + length bt -> pad_and_format bh bt = Raise ValueError.
Proof.
  intros H. unfold pad_and_format.
  rewrite (proj2 (inet_ntop6_length _)); [done|].
  rewrite !length_app, repeat_length. lia.
Qed.

(** The IPv6 branch on an input without separator. *)
Lemma decode_without_separator (ip : string) (bh : list N) :
  mem "_" ip = false -> String.length ip <> 6 -> String.length ip <= 24 ->
  decode_sections (chunks3 ip) [] = Ok bh ->
  decode_p10_ip ip = pad_and_format bh [].
Proof.
  intros Hm Hlen H24 Dh. unfold decode_p10_ip.
  apply Nat.eqb_neq in Hlen. rewrite Hlen.
  apply Nat.leb_le in H24. rewrite H24, Hm. cbn [orb Py.bind].
  rewrite Dh. reflexivity.
Qed.

Lemma decode_section_error (ip head tail : string) (e : exn) :
  String.length ip <> 6 ->
  (String.length ip <= 24 \/ mem "_" ip = true) ->
  (if mem "_" ip then split "_" ip = [head; tail]
   else head = ip /\ tail = "") ->
  (decode_sections (chunks3 head) [] = Raise e
   \/ (exists bh, decode_sections (chunks3 head) [] = Ok bh)
       /\ decode_sections (chunks3 tail) [] = Raise e) ->
  decode_p10_ip ip = Raise e.
Proof.
  intros Hlen Hbr Hsp He. unfold decode_p10_ip.
  apply Nat.eqb_neq in Hlen. rewrite Hlen.
  replace (Nat.leb (String.length ip) 24 || mem "_" ip) with true
    by (symmetry; apply orb_true_iff; destruct Hbr; [left; by apply Nat.leb_le|by right]).
  destruct (mem "_" ip).
  - rewrite Hsp. cbn [Py.bind].
    destruct He as [->|[[bh ->] ->]]; reflexivity.
  - destruct Hsp as [-> ->]. cbn [Py.bind].
    destruct He as [->|[[bh ->] He]]; [reflexivity|]. discriminate He.
Qed.

End DecoderFacts.

Section DecoderTotality.
Import P10IP Inet Str DecoderFacts StrFacts P10IPFacts.

(** C6 (amended). [decode_p10_ip] checks nothing itself; it fails exactly
    where Base64 decoding or address formatting fails. A six-character
    input fails unless all six characters are Base64 data. Any other input
    fails with more than one separator. For an input of alphabet characters
    with one separator, or none and at most 24 characters, a truncated chunk
    (head or tail length not a multiple of three) fails and so do whole
    chunks that decode to more than 16 bytes; any smaller number of whole
    chunks is zero-padded and returned as an address. An input of more than
    24 alphabet characters without separator returns no address and raises
    nothing. *)
Theorem decode_p10_ip_failures (ip head tail : string) :
  all p10_char head = true -> all p10_char tail = true ->
  (String.length ip = 6 -> all decoder_data ip = false ->
   exists e, decode_p10_ip ip = Raise e)
  /\ (String.length ip <> 6 -> 2 <= count "_" ip ->
      decode_p10_ip ip = Raise ValueError)
  /\ (String.length (head ++ "_" ++ tail) <> 6 ->
      String.length head mod 3 <> 0 \/ String.length tail mod 3 <> 0 ->
      decode_p10_ip (head ++ "_" ++ tail) = Raise BinasciiError)
  /\ (String.length head mod 3 = 0 -> String.length tail mod 3 = 0 ->
      8 < String.length head / 3 + String.length tail / 3 ->
      decode_p10_ip (head ++ "_" ++ tail) = Raise ValueError)
  /\ (String.length head mod 3 = 0 -> String.length tail mod 3 = 0 ->
      String.length head / 3 + String.length tail / 3 <= 8 ->
      exists s, decode_p10_ip (head ++ "_" ++ tail) = Ok (Some s))
  /\ (String.length head <> 6 -> String.length head <= 24 ->
      String.length head mod 3 <> 0 ->
      decode_p10_ip head = Raise BinasciiError)
  /\ (String.length head <> 6 -> String.length head <= 24 ->
      String.length head mod 3 = 0 ->
      exists s, decode_p10_ip head = Ok (Some s))
  /\ (24 < String.length head -> decode_p10_ip head = Ok None).
Proof.
  intros Hh Ht.
  pose proof (p10_char_not_separator head Hh) as Mh.
  pose proof (p10_char_not_separator tail Ht) as Mt.
  assert (Hsplit : split "_" (head ++ "_" ++ tail) = [head; tail]).
  { change ("_" ++ tail) with (String "_" tail).
    by rewrite split_at, (split_without _ tail). }
  assert (Hmem : mem "_" (head ++ "_" ++ tail) = true) by apply mem_at.
  assert (Hlen : String.length (head ++ "_" ++ tail)
                 = String.length head + 1 + String.length tail).
  { rewrite !length_append. cbn [String.length]. lia. }
  pose proof (Nat.div_mod_eq (String.length head) 3) as Eh.
  pose proof (Nat.div_mod_eq (String.length tail) 3) as Et.
  repeat split.
  - apply decode_six_invalid.
  - apply decode_two_separators.
  - intros H6 Htr.
    apply (decode_section_error _ head tail); [done|by right|by rewrite Hmem|].
    destruct (Nat.eq_dec (String.length head mod 3) 0) as [Hz|Hnz].
    + right. split.
      * destruct (decode_sections_whole head Hh Hz []) as (bs & -> & _). by eexists.
      * apply decode_sections_truncated; [done|]. destruct Htr; [done|done].
    + left. by apply decode_sections_truncated.
  - intros Hz1 Hz2 Hbig.
    destruct (decode_sections_whole head Hh Hz1 []) as (bh & Dh & Lh).
    destruct (decode_sections_whole tail Ht Hz2 []) as (bt & Dt & Lt).
    rewrite (decode_with_separator head tail bh bt); try done; [|lia].
    apply pad_and_format_overlong. lia.
  - intros Hz1 Hz2 Hfit.
    destruct (decode_sections_whole head Hh Hz1 []) as (bh & Dh & Lh).
    destruct (decode_sections_whole tail Ht Hz2 []) as (bt & Dt & Lt).
    rewrite (decode_with_separator head tail bh bt); try done; [|lia].
    apply pad_and_format_fits. lia.
  - intros H6 H24 Hnz.
    apply (decode_section_error _ head ""); [done|by left|by rewrite Mh|].
    left. by apply decode_sections_truncated.
  - intros H6 H24 Hz.
    destruct (decode_sections_whole head Hh Hz []) as (bh & Dh & Lh).
    rewrite (decode_without_separator head bh); try done.
    apply pad_and_format_fits. cbn [length]. lia.
  - intros H24. unfold decode_p10_ip.
    replace (Nat.eqb (String.length head) 6) with false
      by (symmetry; apply Nat.eqb_neq; lia).
    replace (Nat.leb (String.length head) 24) with false
      by (symmetry; apply Nat.leb_gt; lia).
    by rewrite Mh.
Qed.

Lemma decode_p10_ip_failures_witness :
  decode_p10_ip "AABAAC_AA" = Raise BinasciiError
  /\ decode_p10_ip "A_B_C_D" = Raise ValueError
  /\ exists s, decode_p10_ip "AABAAC_" = Ok (Some s).
Proof.
  pose proof (decode_p10_ip_failures "A_B_C_D" "AABAAC" "AA" eq_refl eq_refl)
    as (_ & H2 & H3 & _).
  pose proof (decode_p10_ip_failures "" "AABAAC" "" eq_refl eq_refl)
    as (_ & _ & _ & _ & H5 & _).
  split; [apply H3; [discriminate|right; discriminate]|].
  split; [apply H2; [discriminate|vm_compute; lia]|].
  apply H5; [reflexivity|reflexivity|vm_compute; lia].
Defined.

Lemma decode_p10_ip_accepts_empty : ~ decode_total_claim "".
Proof.
  intros H. destruct (H eq_refl) as [e He]. vm_compute in He. discriminate He.
Qed.

End DecoderTotality.

Module StateFacts.

Lemma channel_get_some (st : Irc) (channel : string) (c : IrcChannel) :
  channels st !! channel = Some c -> channel_get channel st = (Ok c, st).
Proof. intros H. unfold channel_get. by rewrite H. Qed.

Lemma channels_set_channels f st : channels (set_channels f st) = f (channels st).
Proof. reflexivity. Qed.

Lemma channels_set_users f st : channels (set_users f st) = channels st.
Proof. reflexivity. Qed.

Lemma channels_set_sent f st : channels (set_sent f st) = channels st.
Proof. reflexivity. Qed.

Lemma removeuser_last (source : string) (c : IrcChannel) :
  c_users c = {[source]} -> c_users (removeuser source c) = ∅.
Proof. intros H. cbn. rewrite H. apply difference_diag_L. Qed.

End StateFacts.

Module PartFacts.
  Import StateFacts.

(** What one round of the P10 loop leaves of a channel whose last
    member parts: nothing, whatever its modes. *)
Lemma p10_part_channel_last (st : Irc) (source channel : string) (c : IrcChannel) :
  channels st !! channel = Some c -> c_users c = {[source]} ->
  exists st', P10.part_channel source channel st = (Ok tt, st')
              /\ channels st' !! channel = None
              /\ sent st' = sent st.
Proof.
  intros Hc Hu. unfold P10.part_channel, State.mbind. cbv beta.
  rewrite (channel_get_some _ _ _ Hc).
  unfold modify at 1. unfold P10.discard_channel, modify at 1.
  rewrite (channel_get_some _ _ (removeuser source c))
    by (cbn [channels set_users set_channels]; apply lookup_insert_eq).
  rewrite bool_decide_eq_true_2 by by apply removeuser_last.
  unfold modify. eexists. split; [reflexivity|].
  split; [|reflexivity].
  cbn [channels set_users set_channels]. apply lookup_delete_eq.
Qed.

(** The TS6 loop keeps the emptied channel when it is permanent and
    deletes it otherwise. *)
Lemma ts6_part_channel_last (st : Irc) (source channel : string) (c : IrcChannel) :
  channels st !! channel = Some c -> c_users c = {[source]} ->
  exists st', TS6.part_channel source channel st = (Ok tt, st')
              /\ channels st' !! channel
                 = (if TS6.is_permanent st c then Some (removeuser source c)
                    else None).
Proof.
  intros Hc Hu. unfold TS6.part_channel, State.mbind. cbv beta.
  rewrite (channel_get_some _ _ _ Hc).
  unfold modify at 1. unfold P10.discard_channel, modify at 1.
  rewrite (channel_get_some _ _ (removeuser source c))
    by (cbn [channels set_users set_channels]; apply lookup_insert_eq).
  unfold State.get. cbv beta iota.
  rewrite bool_decide_eq_true_2 by by apply removeuser_last.
  cbn [negb orb].
  replace (TS6.is_permanent _ (removeuser source c)) with (TS6.is_permanent st c)
    by reflexivity.
  destruct (TS6.is_permanent st c); cbn [negb]; unfold modify, ret;
    eexists; (split; [reflexivity|]); cbn [channels set_users set_channels].
  - apply lookup_insert_eq.
  - apply lookup_delete_eq.
Qed.

End PartFacts.

Section PermanentChannels.
Import PartFacts StateFacts StrFacts Examples.

(** C7. In the P10 module [handle_part] deletes the channel its last member
    leaves even when the channel carries the permanent mode: the loop tests
    the member set alone, under a comment that says "Clear empty
    non-permanent channels". (The TS6 module tests both.) *)
Theorem p10_part_deletes_permanent_channel
    (st : Irc) (source channel letter : string) (c : IrcChannel) :
  cmodes st !! "permanent" = Some letter ->
  (letter, None) ∈ c_modes c ->
  channels st !! channel = Some c ->
  c_users c = {[source]} ->
  toLower channel = channel ->
  Str.mem "," channel = false ->
  exists ev st',
    P10.handle_part source "PART" [channel] st = (Ok ev, st')
    /\ channels st' !! channel = None.
Proof.
  intros _ _ Hc Hu Hlow Hcomma.
  destruct (p10_part_channel_last st source channel c Hc Hu) as (st' & Hp & Hgone & _).
  unfold P10.handle_part, State.mbind, lift. cbn [item nth_error].
  rewrite Hlow, (split_without _ _ Hcomma). cbn [P10.part_channels].
  unfold State.mbind. rewrite Hp. unfold ret. by eexists _, _.
Qed.

Lemma p10_part_deletes_permanent_channel_witness :
  exists ev st',
    P10.handle_part "ABAAA" "PART" ["#c"] nefarious_irc = (Ok ev, st')
    /\ channels st' !! "#c" = None.
Proof.
  apply (p10_part_deletes_permanent_channel nefarious_irc "ABAAA" "#c" "z"
           permanent_channel);
    first [reflexivity | by apply elem_of_singleton].
Defined.

(** The sibling module keeps the permanent channel. *)
Lemma ts6_part_keeps_permanent_channel
    (st : Irc) (source channel letter : string) (c : IrcChannel) :
  cmodes st !! "permanent" = Some letter ->
  (letter, None) ∈ c_modes c ->
  channels st !! channel = Some c ->
  c_users c = {[source]} ->
  toLower channel = channel ->
  Str.mem "," channel = false ->
  exists ev st',
    TS6.handle_part source "PART" [channel] st = (Ok ev, st')
    /\ channels st' !! channel = Some (removeuser source c).
Proof.
  intros Hperm Hmode Hc Hu Hlow Hcomma.
  destruct (ts6_part_channel_last st source channel c Hc Hu) as (st' & Hp & Hkept).
  assert (Hp' : TS6.is_permanent st c = true).
  { unfold TS6.is_permanent. rewrite Hperm. by apply bool_decide_eq_true_2. }
  rewrite Hp' in Hkept.
  unfold TS6.handle_part, State.mbind, lift. cbn [item nth_error].
  rewrite Hlow, (split_without _ _ Hcomma). cbn [TS6.part_channels].
  unfold State.mbind. rewrite Hp. unfold ret. by eexists _, _.
Qed.

End PermanentChannels.

Module LowerFacts.
  Import Str StrFacts Base64Facts.

Lemma lower_char_idem (c : ascii) : lower_char (lower_char c) = lower_char c.
Proof. destruct c as [[] [] [] [] [] [] [] []]; reflexivity. Qed.

Lemma lower_char_comma (c : ascii) :
  Ascii.eqb "," (lower_char c) = Ascii.eqb "," c.
Proof. destruct c as [[] [] [] [] [] [] [] []]; reflexivity. Qed.

Lemma toLower_idem (s : string) : toLower (toLower s) = toLower s.
Proof.
  unfold toLower. induction s as [|c s IH]; [done|].
  cbn [Base64.map_string]. by rewrite lower_char_idem, IH.
Qed.

Lemma toLower_comma (s : string) : mem "," (toLower s) = mem "," s.
Proof.
  unfold toLower. induction s as [|c s IH]; [done|].
  cbn [Base64.map_string mem]. by rewrite lower_char_comma, IH.
Qed.

End LowerFacts.

Module KickFacts.
  Import StateFacts PartFacts StrFacts LowerFacts.

(** One round of the part loop leaves the parting user out of the
    channel, and sends nothing. *)
Lemma p10_part_channel_removes (st : Irc) (source channel : string) :
  exists st', P10.part_channel source channel st = (Ok tt, st')
    /\ sent st' = sent st
    /\ forall c', channels st' !! channel = Some c' -> source ∉ c_users c'.
Proof.
  unfold P10.part_channel, State.mbind. cbv beta.
  assert (Hget : exists c st1, channel_get channel st = (Ok c, st1)
                               /\ sent st1 = sent st).
  { unfold channel_get. destruct (channels st !! channel); by eexists _, _. }
  destruct Hget as (c & st1 & -> & Hs1).
  unfold modify at 1. unfold P10.discard_channel, modify at 1.
  rewrite (channel_get_some _ _ (removeuser source c))
    by (cbn [channels set_users set_channels]; apply lookup_insert_eq).
  destruct (bool_decide (c_users (removeuser source c) = ∅)); unfold modify, ret;
    eexists; (split; [reflexivity|]); (split; [done|]);
    cbn [channels set_users set_channels]; intros c'.
  - by rewrite lookup_delete_eq.
  - rewrite lookup_insert_eq. intros [= <-]. cbn [c_users removeuser].
    intros [_ Hn]%elem_of_difference. apply Hn. by apply elem_of_singleton.
Qed.

Lemma p10_handle_part_removes (st : Irc) (source channel : string) :
  toLower channel = channel -> Str.mem "," channel = false ->
  exists ev st', P10.handle_part source "KICK" [channel] st = (Ok ev, st')
    /\ sent st' = sent st
    /\ forall c', channels st' !! channel = Some c' -> source ∉ c_users c'.
Proof.
  intros Hlow Hcomma.
  destruct (p10_part_channel_removes st source channel) as (st' & Hp & Hs & Hm).
  unfold P10.handle_part, State.mbind, lift. cbn [item nth_error].
  rewrite Hlow, (split_without _ _ Hcomma). cbn [P10.part_channels].
  unfold State.mbind. rewrite Hp. unfold ret. by eexists _, _.
Qed.

End KickFacts.

Section Kick.
Import StateFacts KickFacts LowerFacts Examples.

(** C10. A kick by an internal user that holds neither op nor halfop in the
    channel goes out with the user's server as source and with the user's
    name, in parentheses, in front of the reason. Whoever the sender is, the
    rest of the call is [handle_part] for the target: the target is no
    member of the channel afterwards. *)
Theorem p10_kick_through_server (ext : Externals) (st : Irc)
    (numeric channel target : string) (reason : option string)
    (cobj : IrcChannel) (fname : string) :
  isInternalClient st numeric || isInternalServer st numeric = true ->
  channels st !! toLower channel = Some cobj ->
  Str.mem "," channel = false ->
  (P10.not_op_user st cobj numeric = true ->
   getFriendlyName ext st numeric = Ok fname) ->
  exists source text,
    (if P10.not_op_user st cobj numeric
     then (exists u, users st !! numeric = Some u /\ source = u_server u)
          /\ text = "(" ++ fname ++ ") " ++ str_or reason "No reason given"
     else source = numeric /\ text = str_or reason "No reason given")
    /\ P10.kick ext numeric channel target reason st
       = State.mbind (P10.handle_part target "KICK" [toLower channel])
           (fun _ => State.ret tt)
           (set_sent (fun l => List.app l [source ++ " K " ++ toLower channel ++ " "
                                      ++ target ++ " :" ++ text]) st)
    /\ exists ev st',
         P10.kick ext numeric channel target reason st = (Ok ev, st')
         /\ sent st' = List.app (sent st) [source ++ " K " ++ toLower channel ++ " "
                                     ++ target ++ " :" ++ text]
         /\ forall c', channels st' !! toLower channel = Some c' ->
                       target ∉ c_users c'.
Proof.
  intros Hint Hc Hcomma Hname.
  assert (Hkick : forall source text,
    (if P10.not_op_user st cobj numeric
     then fmt (getServer st numeric) = source
          /\ "(" ++ fname ++ ") " ++ str_or reason "No reason given" = text
     else numeric = source /\ str_or reason "No reason given" = text) ->
    P10.kick ext numeric channel target reason st
    = State.mbind (P10.handle_part target "KICK" [toLower channel])
        (fun _ => State.ret tt)
        (set_sent (fun l => List.app l [source ++ " K " ++ toLower channel ++ " "
                                   ++ target ++ " :" ++ text]) st)).
  { intros source text Hst.
    unfold P10.kick, State.mbind, State.get. cbv beta iota.
    replace (negb (isInternalClient st numeric) && negb (isInternalServer st numeric))
      with false by (destruct (isInternalClient st numeric),
                       (isInternalServer st numeric); done).
    rewrite (channel_get_some _ _ _ Hc).
    destruct (P10.not_op_user st cobj numeric) eqn:Hvia.
    - destruct Hst as [<- <-]. unfold lift. rewrite (Hname eq_refl).
      reflexivity.
    - destruct Hst as [<- <-]. reflexivity. }
  destruct (P10.not_op_user st cobj numeric) eqn:Hvia.
  - assert (Hu : exists u, users st !! numeric = Some u).
    { unfold P10.not_op_user in Hvia.
      apply andb_true_iff in Hvia as [Hvia _].
      apply andb_true_iff in Hvia as [Hns _].
      apply bool_decide_eq_true in Hns.
      assert (isInternalServer st numeric = false) as Hsrv.
      { unfold isInternalServer. apply not_elem_of_dom in Hns. by rewrite Hns. }
      rewrite Hsrv, orb_false_r in Hint.
      unfold isInternalClient, getServer in Hint.
      destruct (users st !! numeric) as [u|]; [by exists u|discriminate]. }
    destruct Hu as [u Hu].
    exists (u_server u), ("(" ++ fname ++ ") " ++ str_or reason "No reason given").
    assert (Hsrc : fmt (getServer st numeric) = u_server u)
      by (unfold getServer; by rewrite Hu).
    split; [split; [by exists u|done]|].
    rewrite (Hkick _ _ (conj Hsrc eq_refl)). split; [done|].
    destruct (p10_handle_part_removes
                (set_sent (fun l => List.app l [u_server u ++ " K " ++ toLower channel ++ " "
                   ++ target ++ " :" ++ "(" ++ fname ++ ") "
                   ++ str_or reason "No reason given"]) st)
                target (toLower channel) (toLower_idem _))
      as (ev & st' & Hp & Hs & Hm); [by rewrite toLower_comma|].
    exists tt, st'. unfold State.mbind at 1. rewrite Hp. done.
  - exists numeric, (str_or reason "No reason given").
    split; [done|].
    rewrite (Hkick _ _ (conj eq_refl eq_refl)). split; [done|].
    destruct (p10_handle_part_removes
                (set_sent (fun l => List.app l [numeric ++ " K " ++ toLower channel ++ " "
                   ++ target ++ " :" ++ str_or reason "No reason given"]) st)
                target (toLower channel) (toLower_idem _))
      as (ev & st' & Hp & Hs & Hm); [by rewrite toLower_comma|].
    exists tt, st'. unfold State.mbind at 1. rewrite Hp. done.
Qed.

Lemma p10_kick_through_server_witness :
  exists ev st',
    P10.kick idle_ext "XYAAA" "#C" "ABAAA" (Some "bye") nefarious_irc = (Ok ev, st')
    /\ sent st' = ["XY K #c ABAAA :(pylink) bye"]
    /\ forall c', channels st' !! "#c" = Some c' -> "ABAAA" ∉ c_users c'.
Proof.
  destruct (p10_kick_through_server idle_ext nefarious_irc "XYAAA" "#C" "ABAAA"
              (Some "bye") permanent_channel "pylink"
              eq_refl eq_refl eq_refl (fun _ => eq_refl))
    as (source & text & Hline & _ & ev & st' & Hk & Hs & Hm).
  change (P10.not_op_user nefarious_irc permanent_channel "XYAAA") with true in Hline.
  destruct Hline as [[u [Hu ->]] ->].
  injection Hu as <-.
  exists ev, st'. split; [exact Hk|]. split; [exact Hs|exact Hm].
Defined.

End Kick.

Module BurstFacts.
  Import StateFacts.

Lemma prefix_modes_user (prefixes user : string) (m : string) (x : string) :
  (m, Some x) ∈ P10.prefix_modes prefixes user -> x = user.
Proof.
  induction prefixes as [|p rest IH]; cbn [P10.prefix_modes].
  - intros H. by apply not_elem_of_empty in H.
  - intros [H|H]%elem_of_union; [|by apply IH].
    apply elem_of_singleton in H. by injection H.
Qed.

Lemma add_member_spec (channel user : string) (st : Irc) (u : IrcUser)
    (c : IrcChannel) :
  users st !! user = Some u -> channels st !! channel = Some c ->
  exists st', P10.add_member channel user st = (Ok tt, st')
    /\ dom (users st') = dom (users st)
    /\ (forall uid, uid <> user -> users st' !! uid = users st !! uid)
    /\ channels st' !! channel
       = Some (set_c_users (fun s => s ∪ {[user]}) c)
    /\ (forall ch, ch <> channel -> channels st' !! ch = channels st !! ch)
    /\ sent st' = sent st /\ servers st' = servers st.
Proof.
  intros Hu Hc. unfold P10.add_member, State.mbind, State.modify. cbv beta iota.
  rewrite (channel_get_some _ _ c) by done.
  eexists. split; [reflexivity|].
  cbn [users channels sent servers set_users set_channels]. rewrite Hu.
  repeat split.
  - rewrite dom_insert_L. apply elem_of_dom_2 in Hu.
    apply subseteq_union_1_L. by apply singleton_subseteq_l.
  - intros uid Hne. by rewrite lookup_insert_ne.
  - apply lookup_insert_eq.
  - intros ch Hne. by rewrite lookup_insert_ne.
Qed.


Lemma known_users_cons (st : Irc) (up : string) (rest : list string) :
  P10.known_users st (up :: rest)
  = ((if decide (P10.entry_user up ∈ dom (users st))
      then [P10.entry_user up] else []) ++ P10.known_users st rest)%list.
Proof.
  unfold P10.known_users. rewrite fmap_cons, filter_cons.
  by destruct (decide (P10.entry_user up ∈ dom (users st))).
Qed.

Lemma known_users_dom (st st' : Irc) (l : list string) :
  dom (users st') = dom (users st) -> P10.known_users st' l = P10.known_users st l.
Proof. intros H. unfold P10.known_users. by rewrite H. Qed.

Lemma burst_loop_refl (channel : string) (st : Irc) (c : IrcChannel)
    (acc acc' : P10.burst_acc) :
  channels st !! channel = Some c ->
  P10.ba_namelist acc' = P10.ba_namelist acc ->
  P10.ba_changedmodes acc' = P10.ba_changedmodes acc ->
  P10.burst_loop_spec channel [] st st c acc acc'.
Proof.
  intros Hc Hn Hm. split; try done.
  - exists c. split; [done|]. cbn. by rewrite union_empty_r_L.
  - by rewrite Hn, app_nil_r.
  - intros m x _. by rewrite Hm.
Qed.

Lemma burst_loop_trans (channel : string) (k1 k2 : list string)
    (st st1 st2 : Irc) (c c1 : IrcChannel) (acc acc1 acc2 : P10.burst_acc) :
  P10.burst_loop_spec channel k1 st st1 c acc acc1 ->
  channels st1 !! channel = Some c1 ->
  P10.burst_loop_spec channel k2 st1 st2 c1 acc1 acc2 ->
  P10.burst_loop_spec channel (k1 ++ k2) st st2 c acc acc2.
Proof.
  intros [D1 O1 (c1' & M1 & U1) C1 N1 S1 V1 X1] Hc1
         [D2 O2 (c2 & M2 & U2) C2 N2 S2 V2 X2].
  rewrite Hc1 in M1. injection M1 as <-.
  split.
  - by rewrite D2.
  - intros uid Hn. rewrite not_elem_of_app in Hn. destruct Hn.
    rewrite O2, O1; done.
  - exists c2. split; [done|]. rewrite U2, U1, list_to_set_app_L.
    by rewrite union_assoc_L.
  - intros ch Hne. by rewrite C2, C1.
  - by rewrite N2, N1, app_assoc.
  - by rewrite S2.
  - by rewrite V2.
  - intros m x Hx Hin. apply X1; [done|]. apply X2; [by rewrite D1|done].
Qed.

Lemma burst_user_spec (channel up : string) (st : Irc) (c : IrcChannel)
    (acc : P10.burst_acc) :
  channels st !! channel = Some c ->
  exists st' acc',
    P10.burst_user channel up acc st = (Ok acc', st')
    /\ P10.burst_loop_spec channel (P10.known_users st [up]) st st' c acc acc'.
Proof.
  intros Hc. rewrite known_users_cons.
  unfold P10.known_users at 1. cbn [fmap list_fmap]. rewrite filter_nil, app_nil_r.
  unfold P10.burst_user, P10.entry_user.
  set (parsed := match Str.split ":" up with
                 | [u; p] => (u, p)
                 | _ => (up, P10.ba_prefixes acc)
                 end).
  assert (Hfst : match Str.split ":" up with [u; _] => u | _ => up end = fst parsed).
  { subst parsed. by destruct (Str.split ":" up) as [|? [|? [|? ?]]]. }
  rewrite Hfst. destruct parsed as [user prefixes]. cbn [fst].
  unfold State.mbind, State.get. cbv beta iota.
  destruct (users st !! user) as [u|] eqn:Hu.
  - destruct (add_member_spec channel user st u c Hu Hc)
      as (st' & -> & Hd & Ho & Hm & Hch & Hs & Hsv).
    unfold State.ret. eexists _, _. split; [reflexivity|].
    rewrite decide_True by by apply elem_of_dom_2 in Hu.
    split; cbn [P10.ba_namelist P10.ba_changedmodes]; try done.
    + intros uid Hn. apply Ho. intros ->. apply Hn. by apply list_elem_of_singleton.
    + eexists. split; [exact Hm|]. cbn [c_users set_c_users list_to_set].
      by rewrite union_empty_r_L.
    + intros m x Hx [H|H]%elem_of_union; [done|].
      apply prefix_modes_user in H as ->. by apply elem_of_dom_2 in Hu.
  - unfold State.ret. eexists _, _. split; [reflexivity|].
    rewrite decide_False by by apply not_elem_of_dom.
    by apply burst_loop_refl.
Qed.

Lemma burst_users_spec (channel : string) (userlist : list string) :
  forall (st : Irc) (c : IrcChannel) (acc : P10.burst_acc),
  channels st !! channel = Some c ->
  exists st' acc',
    P10.burst_users channel userlist acc st = (Ok acc', st')
    /\ P10.burst_loop_spec channel (P10.known_users st userlist) st st' c acc acc'.
Proof.
  induction userlist as [|up rest IH]; intros st c acc Hc.
  - cbn [P10.burst_users]. unfold State.ret. eexists _, _.
    split; [reflexivity|]. by apply burst_loop_refl.
  - cbn [P10.burst_users]. unfold State.mbind.
    destruct (burst_user_spec channel up st c acc Hc) as (st1 & acc1 & -> & H1).
    destruct (P10.bl_members _ _ _ _ _ _ _ H1) as (c1 & Hc1 & _).
    destruct (IH st1 c1 acc1 Hc1) as (st2 & acc2 & -> & H2).
    eexists _, _. split; [reflexivity|].
    rewrite known_users_cons.
    rewrite (known_users_dom st st1) in H2 by apply (P10.bl_dom _ _ _ _ _ _ _ H1).
    rewrite known_users_cons in H1.
    unfold P10.known_users at 1 in H1. cbn [fmap list_fmap] in H1.
    rewrite filter_nil, app_nil_r in H1.
    by eapply burst_loop_trans.
Qed.

End BurstFacts.

Module BurstTop.
  Import StateFacts BurstFacts.

Lemma channel_get_exists (st : Irc) (channel : string) :
  exists c, channel_get channel st = (Ok c, snd (channel_get channel st))
    /\ channels (snd (channel_get channel st)) !! channel = Some c
    /\ users (snd (channel_get channel st)) = users st
    /\ sent (snd (channel_get channel st)) = sent st.
Proof.
  unfold channel_get. destruct (channels st !! channel) as [c|] eqn:Hc.
  - by exists c.
  - exists (new_channel st). cbn [snd channels users sent set_channels].
    by rewrite lookup_insert_eq.
Qed.

Lemma known_users_in_table (st : Irc) (l : list string) (x : string) :
  x ∈ P10.known_users st l -> x ∈ dom (users st).
Proof. unfold P10.known_users. by intros [H _]%list_elem_of_filter. Qed.

End BurstTop.

Section Burst.
Import StateFacts BurstFacts BurstTop Examples.

(** C9. A BURST line is handled to its end whatever UIDs its user list
    names. An entry whose UID is not in the user table changes nothing for
    that UID: it is not added to the user table, to the members of the
    channel or to the users the event reports, and no prefix mode is
    recorded for it. Every entry whose UID is in the user table is added to
    the members, and [updateTS] runs on the state so reached, with the
    timestamp of the line. No line is sent. *)
Theorem p10_burst_skips_unknown_users (ext : Externals) (st : Irc)
    (source command : string) (args args' : list string)
    (bans pm : list modepair) (a0 a1 : string) (ts : Z) :
  3 <= length args ->
  nth_error args 0 = Some a0 ->
  P10.strip_bans args = (bans, args') ->
  nth_error args' 1 = Some a1 ->
  List.last args' "" <> a1 ->
  (match middle args' with
   | [] => Ok []
   | _ => parseModes ext (snd (channel_get (toLower a0) st)) (toLower a0)
            (middle args')
   end) = Ok pm ->
  (Text.int_of_str a1 = Ok ts) ->
  exists (st1 : Irc) (cm : gset modepair) (c0 c1 : IrcChannel),
    let known := P10.known_users st (Str.split "," (List.last args' "")) in
    P10.handle_burst ext source command args st
    = State.mbind (updateTS ext source (toLower a0) ts cm)
        (fun _ => State.ret (Some {| P10.be_channel := toLower a0;
                                     P10.be_users := known;
                                     P10.be_modes := pm;
                                     P10.be_ts := ts;
                                     P10.be_channeldata := c0 |})) st1
    /\ sent st1 = sent st
    /\ dom (users st1) = dom (users st)
    /\ channels (snd (channel_get (toLower a0) st)) !! toLower a0 = Some c0
    /\ channels st1 !! toLower a0 = Some c1
    /\ c_users c1 = c_users c0 ∪ list_to_set known
    /\ forall x, x ∉ dom (users st) ->
         users st1 !! x = None
         /\ (x ∉ known)
         /\ (x ∈ c_users c1 <-> x ∈ c_users c0)
         /\ forall m, (m, Some x) ∈ cm ->
                      (m, Some x) ∈ (list_to_set (pm ++ bans) : gset modepair).
Proof.
  intros Hlen Ha0 Hstrip Ha1 Hne Hpm Hts.
  destruct (channel_get_exists st (toLower a0)) as (c0 & Hget & Hc0 & Hu0 & Hs0).
  set (st0 := snd (channel_get (toLower a0) st)) in *.
  destruct (burst_users_spec (toLower a0) (Str.split "," (List.last args' "")) st0 c0
              {| P10.ba_prefixes := ""; P10.ba_namelist := [];
                 P10.ba_changedmodes := list_to_set (pm ++ bans) |} Hc0)
    as (st1 & acc1 & Hloop & Hspec).
  destruct Hspec as [D O (c1 & M & U) C N S V X].
  assert (Hk : P10.known_users st0 (Str.split "," (List.last args' ""))
               = P10.known_users st (Str.split "," (List.last args' "")))
    by (apply known_users_dom; by rewrite Hu0).
  rewrite Hk in *. cbn [P10.ba_namelist P10.ba_changedmodes app] in N, X.
  exists st1, (P10.ba_changedmodes acc1), c0, c1. cbv zeta.
  repeat split.
  - unfold P10.handle_burst.
    replace (Nat.ltb (length args) 3) with false
      by (symmetry; apply Nat.ltb_ge; lia).
    unfold State.mbind at 1. unfold lift at 1, item. rewrite Ha0.
    unfold State.mbind at 1. rewrite Hget. rewrite Hstrip.
    unfold State.mbind at 1. unfold State.get at 1.
    unfold State.mbind at 1. unfold lift at 1. fold st0. rewrite Hpm.
    unfold State.mbind at 1. unfold lift at 1, item. rewrite Ha1.
    apply String.eqb_neq in Hne. rewrite Hne.
    unfold State.mbind at 1. rewrite Hloop.
    unfold State.mbind at 1. unfold lift at 1. rewrite Hts.
    by rewrite N.
  - by rewrite S.
  - by rewrite D, Hu0.
  - done.
  - done.
  - done.
  - apply not_elem_of_dom. by rewrite D, Hu0.
  - intros Hin. by apply known_users_in_table in Hin.
  - rewrite U. intros [Hin|Hin]%elem_of_union; [done|].
    apply elem_of_list_to_set, known_users_in_table in Hin. done.
  - rewrite U. intros Hin. by apply elem_of_union_l.
  - intros m. apply X. by rewrite Hu0.
Qed.

Lemma p10_burst_skips_unknown_users_witness :
  exists ev st',
    P10.handle_burst idle_ext "AB" "BURST" ["#c"; "100"; "ABAAA,ZZZZZ:o,XYAAA"]
      nefarious_irc = (Ok (Some ev), st')
    /\ P10.be_users ev = ["ABAAA"; "XYAAA"]
    /\ users st' !! "ZZZZZ" = None
    /\ sent st' = [].
Proof.
  destruct (p10_burst_skips_unknown_users idle_ext nefarious_irc "AB" "BURST"
              ["#c"; "100"; "ABAAA,ZZZZZ:o,XYAAA"]
              ["#c"; "100"; "ABAAA,ZZZZZ:o,XYAAA"] [] [] "#c" "100" 100
              ltac:(cbn; lia) eq_refl eq_refl eq_refl ltac:(discriminate)
              eq_refl eq_refl)
    as (st1 & cm & c0 & c1 & Hrun & Hsent & Hdom & _ & _ & _ & Hx).
  eexists _, st1. split; [exact Hrun|].
  split; [vm_compute; reflexivity|].
  split; [|exact Hsent].
  apply Hx. apply not_elem_of_dom. reflexivity.
Defined.

End Burst.

Section OutboundPreconditions.
Import Outbound Examples.

(** C4 (amended). The outgoing commands spawnClient, message, notice, mode,
    nick, kick, kill, part, quit and topic, and away of the numeric dialect,
    begin with a check of the actor: when it is neither an internal client
    nor an internal server the call raises [LookupError] ([ValueError] for
    spawnClient) and the state, the lines sent included, is what it was. The
    numeric reply has no such check in either dialect: it sends its line
    for any source. *)
Theorem outbound_precondition (ext : Externals) (d : dialect) (c : command)
    (st : Irc) (m : M unit) :
  run ext d c = Some m ->
  (checks_actor d c = true ->
   isInternalClient st (actor st c) = false ->
   isInternalServer st (actor st c) = false ->
   exists e, m st = (Raise e, st) /\ (e = LookupError \/ e = ValueError))
  /\ (forall source num target text,
        c = NumericReply source num target text ->
        m st = (Ok tt, set_sent (fun l => List.app l [numeric_line d source num target text]) st)).
Proof.
  intros Hrun. split.
  - intros Hchk Hcl Hsv.
    destruct d, c; try discriminate Hchk; try discriminate Hrun;
      cbn [run] in Hrun; injection Hrun as <-; cbn [actor] in Hcl, Hsv.
    all: try (exists LookupError; split; [|by left];
              unfold P10.away, P10.message, P10.notice, P10.mode, P10.nick,
                P10.kick, P10.kill, P10.part, P10.quit, P10.topic,
                TS6.message, TS6.notice, TS6.nick, TS6.kick, TS6.kill,
                TS6.part, TS6.quit, TS6.topic;
              unfold State.mbind, State.get; cbv beta iota;
              rewrite ?Hcl, ?Hsv; reflexivity).
    exists ValueError. split; [|by right].
    unfold P10.spawnClient, State.mbind, State.get. cbv beta iota.
    by rewrite Hsv.
  - intros source num target text ->.
    destruct d; cbn [run] in Hrun; injection Hrun as <-; reflexivity.
Qed.

Lemma outbound_precondition_witness :
  (exists e, P10.kick idle_ext "ZZAAA" "#c" "ABAAA" None nefarious_irc
             = (Raise e, nefarious_irc)
             /\ (e = LookupError \/ e = ValueError))
  /\ P10.kick idle_ext "ZZAAA" "#c" "ABAAA" None nefarious_irc
     = (Raise LookupError, nefarious_irc).
Proof.
  split; [|reflexivity].
  exact (proj1 (outbound_precondition idle_ext Numeric_P10
                  (Kick "ZZAAA" "#c" "ABAAA" None) nefarious_irc _ eq_refl)
           eq_refl eq_refl eq_refl).
Defined.

Lemma numeric_reply_sends_unchecked :
  ~ precondition_claim idle_ext Numeric_P10
      (NumericReply "ZZ" "311" "ABAAA" "alice") nefarious_irc.
Proof.
  intros H. destruct (H _ eq_refl eq_refl eq_refl) as (e & st' & Hm & _).
  discriminate Hm.
Qed.

End OutboundPreconditions.

Module RelayFacts.
  Import Relay Str StrFacts Base64Facts.

Lemma take_length (n : nat) (s : string) :
  String.length (take n s) = Nat.min n (String.length s).
Proof.
  revert s. induction n as [|n IH]; intros [|c s]; cbn [take String.length]; try done.
  by rewrite IH.
Qed.

Lemma take_take (n m : nat) (s : string) :
  take n (take m s) = take (Nat.min n m) s.
Proof.
  revert m s. induction n as [|n IH]; intros [|m] [|c s]; cbn [take Nat.min]; try done.
  by rewrite IH.
Qed.

Lemma replace_char_length (a b : ascii) (s : string) :
  String.length (replace_char a b s) = String.length s.
Proof. induction s as [|c s IH]; [done|]. cbn. by rewrite IH. Qed.

Lemma effective_length (irc : Network) (s : string) :
  String.length (effective irc s) = String.length s.
Proof.
  unfold effective. destruct (String.eqb _ _); [|done].
  apply replace_char_length.
Qed.

Lemma last_char_nonempty (s : string) :
  s <> "" -> exists c, last_char s = Some c.
Proof.
  induction s as [|a s IH]; [done|]. intros _.
  destruct s as [|b s]; [by exists a|].
  destruct IH as [c Hc]; [done|]. exists c. exact Hc.
Qed.

Lemma retry_loop_free (irc : Network) (sep : string)
    (again : string -> result string) (n : nat) (nick : string) :
  truthy (nickToUid irc nick) = false ->
  retry_loop irc sep again n nick
  = if (Z.of_nat (String.length nick) <=? maxnicklen irc)%Z
    then Ok nick else Raise AssertionError.
Proof. intros H. destruct n; cbn [retry_loop]; by rewrite H. Qed.

(** What the loop returns is not in use and fits. *)
Lemma retry_loop_post (irc : Network) (sep : string)
    (again : string -> result string) (n : nat) :
  forall nick r,
  retry_loop irc sep again n nick = Ok r ->
  truthy (nickToUid irc r) = false
  /\ (Z.of_nat (String.length r) <= maxnicklen irc)%Z.
Proof.
  induction n as [|n IH]; intros nick r; cbn [retry_loop];
    destruct (truthy (nickToUid irc nick)) eqn:Hu.
  - discriminate.
  - destruct (Z.leb_spec (Z.of_nat (String.length nick)) (maxnicklen irc));
      [|discriminate].
    by intros [= <-].
  - destruct (last_char sep); [|discriminate].
    destruct (again _) as [nick'|]; [|discriminate]. apply IH.
  - destruct (Z.leb_spec (Z.of_nat (String.length nick)) (maxnicklen irc));
      [|discriminate].
    by intros [= <-].
Qed.

Lemma normalizeNick_post (fuel : nat) (irc : Network)
    (netname nick sep r : string) :
  normalizeNick fuel irc netname nick sep = Ok r ->
  truthy (nickToUid irc r) = false
  /\ (Z.of_nat (String.length r) <= maxnicklen irc)%Z.
Proof.
  destruct fuel as [|fuel]; [discriminate|].
  cbn [normalizeNick]. unfold tagged. apply retry_loop_post.
Qed.

Lemma normalizeNick_free (fuel : nat) (irc : Network) (netname nick sep : string) :
  truthy (nickToUid irc (snd (tagged irc netname nick sep))) = false ->
  (Z.of_nat (String.length (snd (tagged irc netname nick sep))) <= maxnicklen irc)%Z ->
  normalizeNick (S fuel) irc netname nick sep = Ok (snd (tagged irc netname nick sep)).
Proof.
  intros Hfree Hfit. cbn [normalizeNick]. unfold tagged in *. cbn [snd] in *.
  rewrite retry_loop_free by done.
  by apply Z.leb_le in Hfit as ->.
Qed.

Lemma normalizeNick_taken (fuel : nat) (irc : Network)
    (netname nick sep r : string) :
  truthy (nickToUid irc (snd (tagged irc netname nick sep))) = true ->
  effective irc sep <> "" ->
  normalizeNick (S fuel) irc netname nick (next_separator irc sep) = Ok r ->
  normalizeNick (S (S fuel)) irc netname nick sep = Ok r.
Proof.
  intros Htaken Hne Hrec.
  destruct (normalizeNick_post _ _ _ _ _ _ Hrec) as [Hfree Hfit].
  unfold next_separator in Hrec.
  destruct (last_char_nonempty _ Hne) as [c Hc]. rewrite Hc in Hrec.
  change (normalizeNick (S (S fuel)) irc netname nick sep)
    with (retry_loop irc (effective irc sep)
            (normalizeNick (S fuel) irc netname nick) (S fuel)
            (snd (tagged irc netname nick sep))).
  cbn [retry_loop]. rewrite Htaken, Hc, Hrec.
  rewrite retry_loop_free by done.
  by apply Z.leb_le in Hfit as ->.
Qed.

Lemma next_separator_nonempty (irc : Network) (sep : string) :
  effective irc sep <> "" -> effective irc (next_separator irc sep) <> "".
Proof.
  intros Hne Hempty. apply (f_equal String.length) in Hempty.
  rewrite effective_length in Hempty. unfold next_separator in Hempty.
  destruct (last_char_nonempty _ Hne) as [c Hc]. rewrite Hc in Hempty.
  rewrite length_append in Hempty. cbn in Hempty. lia.
Qed.

(** The nested calls stop at the first candidate that is not in use. *)
Lemma normalizeNick_first_free (irc : Network) (netname nick : string) (k : nat) :
  forall (fuel : nat) (sep : string),
  effective irc sep <> "" ->
  k < fuel ->
  (forall i, i < k ->
     truthy (nickToUid irc (snd (tagged irc netname nick (separator_at irc sep i))))
     = true) ->
  truthy (nickToUid irc (snd (tagged irc netname nick (separator_at irc sep k))))
  = false ->
  (Z.of_nat (String.length (snd (tagged irc netname nick (separator_at irc sep k))))
   <= maxnicklen irc)%Z ->
  normalizeNick fuel irc netname nick sep
  = Ok (snd (tagged irc netname nick (separator_at irc sep k))).
Proof.
  induction k as [|k IH]; intros fuel sep Hne Hfuel Htaken Hfree Hfit.
  - destruct fuel as [|fuel]; [lia|]. by apply normalizeNick_free.
  - destruct fuel as [|[|fuel]]; [lia..|].
    apply normalizeNick_taken; [apply (Htaken 0); lia|done|].
    cbn [separator_at] in *.
    apply IH; [by apply next_separator_nonempty|lia| |done|done].
    intros i Hi. apply (Htaken (S i)). lia.
Qed.


(** A candidate that is not in use and is too long fails the assertion. *)
Lemma normalizeNick_free_long (fuel : nat) (irc : Network)
    (netname nick sep : string) :
  truthy (nickToUid irc (snd (tagged irc netname nick sep))) = false ->
  (maxnicklen irc
   < Z.of_nat (String.length (snd (tagged irc netname nick sep))))%Z ->
  normalizeNick (S fuel) irc netname nick sep = Raise AssertionError.
Proof.
  intros Hfree Hlong. cbn [normalizeNick]. unfold tagged in *. cbn [snd] in *.
  rewrite retry_loop_free by done.
  by apply Z.leb_gt in Hlong as ->.
Qed.

(** An exception of the nested call ends the calling one. *)
Lemma normalizeNick_taken_raise (fuel : nat) (irc : Network)
    (netname nick sep : string) (e : exn) :
  truthy (nickToUid irc (snd (tagged irc netname nick sep))) = true ->
  effective irc sep <> "" ->
  normalizeNick (S fuel) irc netname nick (next_separator irc sep) = Raise e ->
  normalizeNick (S (S fuel)) irc netname nick sep = Raise e.
Proof.
  intros Htaken Hne Hrec.
  unfold next_separator in Hrec.
  destruct (last_char_nonempty _ Hne) as [c Hc]. rewrite Hc in Hrec.
  change (normalizeNick (S (S fuel)) irc netname nick sep)
    with (retry_loop irc (effective irc sep)
            (normalizeNick (S fuel) irc netname nick) (S fuel)
            (snd (tagged irc netname nick sep))).
  cbn [retry_loop]. by rewrite Htaken, Hc, Hrec.
Qed.

(** The nested calls end in the failed assertion of the first candidate
    that is not in use, when that candidate is too long. *)
Lemma normalizeNick_first_free_long (irc : Network) (netname nick : string)
    (k : nat) :
  forall (fuel : nat) (sep : string),
  effective irc sep <> "" ->
  k < fuel ->
  (forall i, i < k ->
     truthy (nickToUid irc (snd (tagged irc netname nick (separator_at irc sep i))))
     = true) ->
  truthy (nickToUid irc (snd (tagged irc netname nick (separator_at irc sep k))))
  = false ->
  (maxnicklen irc
   < Z.of_nat (String.length
                 (snd (tagged irc netname nick (separator_at irc sep k)))))%Z ->
  normalizeNick fuel irc netname nick sep = Raise AssertionError.
Proof.
  induction k as [|k IH]; intros fuel sep Hne Hfuel Htaken Hfree Hlong.
  - destruct fuel as [|fuel]; [lia|]. by apply normalizeNick_free_long.
  - destruct fuel as [|[|fuel]]; [lia..|].
    apply normalizeNick_taken_raise; [apply (Htaken 0); lia|done|].
    cbn [separator_at] in *.
    apply IH; [by apply next_separator_nonempty|lia| |done|done].
    intros i Hi. apply (Htaken (S i)). lia.
Qed.

Lemma append_assoc (a b c : string) : (a ++ b) ++ c = a ++ (b ++ c).
Proof. induction a as [|x a IH]; [done|]. by rewrite !append_cons, IH. Qed.

Lemma rep_snoc (c : ascii) (n : nat) : rep c n ++ String c "" = rep c (S n).
Proof.
  induction n as [|n IH]; [done|].
  cbn [rep]. rewrite append_cons, IH. done.
Qed.

Lemma last_char_rep (c : ascii) (n : nat) : last_char (rep c (S n)) = Some c.
Proof. induction n as [|n IH]; [done|]. cbn [rep last_char] in *. exact IH. Qed.

Lemma rep_length (c : ascii) (n : nat) : String.length (rep c n) = n.
Proof. induction n as [|n IH]; [done|]. cbn. by rewrite IH. Qed.

Lemma effective_rep_slash (irc : Network) (n : nat) :
  effective irc (rep "/" n) = rep (sepchar irc) n.
Proof.
  unfold effective, sepchar. destruct (String.eqb _ _); [|done].
  induction n as [|n IH]; [done|]. cbn. by rewrite IH.
Qed.

Lemma effective_rep_sepchar (irc : Network) (n : nat) :
  effective irc (rep (sepchar irc) n) = rep (sepchar irc) n.
Proof.
  unfold effective, sepchar. destruct (String.eqb _ _); [|done].
  induction n as [|n IH]; [done|]. cbn. by rewrite IH.
Qed.

Lemma separator_at_rep (irc : Network) (k : nat) :
  forall (s : string) (n : nat),
  effective irc s = rep (sepchar irc) (S n) ->
  effective irc (separator_at irc s k) = rep (sepchar irc) (S (n + k)).
Proof.
  induction k as [|k IH]; intros s n Hs.
  - by rewrite Nat.add_0_r.
  - cbn [separator_at]. replace (S (n + S k)) with (S (S n + k)) by lia.
    apply IH. unfold next_separator. rewrite Hs, last_char_rep, rep_snoc.
    apply effective_rep_sepchar.
Qed.

(** The separator of the [k]-th candidate: [k + 1] separator characters. *)
Lemma separator_at_default (irc : Network) (k : nat) :
  effective irc (separator_at irc "/" k) = rep (sepchar irc) (S k).
Proof. apply (separator_at_rep irc k "/" 0). apply (effective_rep_slash irc 1). Qed.

Lemma upto_nonneg (i : Z) (s : string) :
  (0 <= i)%Z -> upto i s = take (Z.to_nat i) s.
Proof. intros H. unfold upto. by apply Z.leb_le in H as ->. Qed.

Lemma tag_with_length (irc : Network) (netname sep nick : string) :
  (Z.of_nat (String.length (sep ++ netname)) <= maxnicklen irc)%Z ->
  (Z.of_nat (String.length (tag_with irc netname sep nick)) <= maxnicklen irc)%Z.
Proof.
  intros H. unfold tag_with.
  rewrite (upto_nonneg (maxnicklen irc - _)) by lia.
  rewrite length_append, take_length. lia.
Qed.

(** The tag is never shortened: a tag that does not fit makes the nick
    too long. *)
Lemma tag_with_long (irc : Network) (netname sep nick : string) :
  (maxnicklen irc < Z.of_nat (String.length (sep ++ netname)))%Z ->
  (maxnicklen irc
   < Z.of_nat (String.length (tag_with irc netname sep nick)))%Z.
Proof. intros H. unfold tag_with. rewrite length_append. lia. Qed.

Lemma tag_with_ends (irc : Network) (netname sep nick : string) :
  ends_with (sep ++ netname) (tag_with irc netname sep nick).
Proof. unfold tag_with. by eexists. Qed.

Lemma starts_with_digit_take (n : nat) (s : string) :
  starts_with_digit s = false -> starts_with_digit (take n s) = false.
Proof. by destruct n, s. Qed.

Lemma starts_with_digit_append (s t : string) :
  starts_with_digit s = false -> starts_with_digit t = false ->
  starts_with_digit (s ++ t) = false.
Proof. by destruct s. Qed.

Lemma tag_with_no_digit (irc : Network) (netname sep nick : string) :
  (Z.of_nat (String.length (sep ++ netname)) <= maxnicklen irc)%Z ->
  starts_with_digit (sep ++ netname) = false ->
  starts_with_digit (tag_with irc netname sep nick) = false.
Proof.
  intros Hfit Hsuffix. unfold tag_with.
  rewrite (upto_nonneg (maxnicklen irc - _)) by lia.
  rewrite (upto_nonneg (maxnicklen irc)) by lia.
  apply starts_with_digit_append; [|done].
  do 2 apply starts_with_digit_take.
  destruct (starts_with_digit nick) eqn:Hd; [reflexivity|done].
Qed.

Lemma sepchar_no_digit (irc : Network) (n : nat) (netname : string) :
  starts_with_digit (rep (sepchar irc) (S n) ++ netname) = false.
Proof. unfold sepchar. by destruct (String.eqb _ _). Qed.

End RelayFacts.

Section NickNormalisation.
Import Relay RelayFacts StrFacts.

(** C8 (amended). [normalizeNick] tries the nick tagged with one separator
    and the network name, then with two separators, and so on. When the
    [k]-th candidate is the first that is not in use and the maximum nick
    length is at least the length of the network name and of the [k + 1]
    separator characters of that candidate, the call returns it (with
    recursion depth [k + 1]): a nick within the maximum length that ends
    with the separator character of the target network and the network
    name, does not start with a digit, and is not in use. When the maximum
    nick length is less than that, the tag of the [k]-th candidate does not
    fit, and the call ends in the [AssertionError] of the nested call that
    built it. *)
Theorem normalizeNick_first_free_candidate (irc : Network)
    (netname nick : string) (k fuel : nat) :
  k < fuel ->
  (forall i, i < k ->
     truthy (nickToUid irc (candidate irc netname nick i)) = true) ->
  truthy (nickToUid irc (candidate irc netname nick k)) = false ->
  ((Z.of_nat (S k + String.length netname) <= maxnicklen irc)%Z ->
   normalizeNick fuel irc netname nick "/" = Ok (candidate irc netname nick k)
   /\ (Z.of_nat (String.length (candidate irc netname nick k)) <= maxnicklen irc)%Z
   /\ ends_with (String (sepchar irc) netname) (candidate irc netname nick k)
   /\ starts_with_digit (candidate irc netname nick k) = false
   /\ truthy (nickToUid irc (candidate irc netname nick k)) = false)
  /\ ((maxnicklen irc < Z.of_nat (S k + String.length netname))%Z ->
      normalizeNick fuel irc netname nick "/" = Raise AssertionError).
Proof.
  intros Hfuel Htaken Hfree. split; intros Hmax.
  2: { apply (normalizeNick_first_free_long irc netname nick k); try done.
       - unfold effective. by destruct (String.eqb _ _).
       - unfold candidate, tagged. cbn [snd]. apply tag_with_long.
         rewrite separator_at_default, length_append, rep_length. lia. }
  assert (Hsuffix : (Z.of_nat (String.length
             (effective irc (separator_at irc "/" k) ++ netname))
           <= maxnicklen irc)%Z).
  { rewrite separator_at_default, length_append, rep_length. lia. }
  assert (Hfit : (Z.of_nat (String.length (candidate irc netname nick k))
                  <= maxnicklen irc)%Z).
  { unfold candidate, tagged. cbn [snd]. by apply tag_with_length. }
  split; [|split; [done|split; [|split; [|done]]]].
  - apply normalizeNick_first_free; try done.
    unfold effective. by destruct (String.eqb _ _).
  - unfold candidate, tagged. cbn [snd].
    destruct (tag_with_ends irc netname (effective irc (separator_at irc "/" k))
                (effective irc nick)) as [front ->].
    rewrite separator_at_default, <- rep_snoc.
    exists (front ++ rep (sepchar irc) k).
    by rewrite !append_assoc.
  - unfold candidate, tagged. cbn [snd].
    apply tag_with_no_digit; [done|].
    rewrite separator_at_default. apply sepchar_no_digit.
Qed.

Lemma normalizeNick_first_free_candidate_witness :
  normalizeNick 2 crowded "net" "1" "/" = Ok "_/net"
  /\ normalizeNick 2 busy "net" "abc" "/" = Ok "abc//net"
  /\ normalizeNick 3 crowded "net" "abc" "/" = Raise AssertionError.
Proof.
  split; [|split].
  - apply (normalizeNick_first_free_candidate crowded "net" "1" 0 2);
      [lia|intros i Hi; lia|reflexivity|cbn; lia].
  - apply (normalizeNick_first_free_candidate busy "net" "abc" 1 2);
      [lia| |reflexivity|cbn; lia].
    intros [|i] Hi; [reflexivity|lia].
  - apply (normalizeNick_first_free_candidate crowded "net" "abc" 2 3);
      [lia| |reflexivity|cbn; lia].
    intros [|[|i]] Hi; [reflexivity|reflexivity|lia].
Defined.

Lemma normalizeNick_overflows : ~ normalize_claim crowded "net" "abc".
Proof.
  intros H.
  assert (Hfit : (Z.of_nat (String.length ("/" ++ "net")) <= maxnicklen crowded)%Z)
    by (vm_compute; discriminate).
  destruct (H Hfit) as (fuel & r & Hr & _).
  destruct fuel as [|[|[|[|fuel]]]]; vm_compute in Hr; discriminate Hr.
Qed.

End NickNormalisation.

Section BulkJoin.
  Import Examples.

(** C1. A bulk join of one hundred voiced users followed by one operator
    is sent in two lines, both within 510 characters, that name the
    users in sorted order. The second line
    starts with the user [ABABS], who was given [v]; the post-wrap fixing
    re-attaches a prefix to it, and what it attaches is the loop variable
    [prefixes], left at the prefixes of the last user of the list, [o]:
    the line says [ABABS:o]. *)
Theorem p10_sjoin_wrap_relabels_first_entry :
  let run := P10.sjoin idle_ext (Some "AB") "#c" voiced_then_op (Some 1%Z) []
               (burst_irc 101) in
  fst run = Ok tt
  /\ length (sent (snd run)) = 2
  /\ forallb (fun line => Nat.leb (String.length line) 510) (sent (snd run)) = true
  /\ Str.startswith "AB B #c 1 ABABS:o,ABABT," (nth 1 (sent (snd run)) "") = true
  /\ concat (P10.line_uids <$> sent (snd run))
     = snd <$> P10.sorted P10.access_sort voiced_then_op
  /\ bool_decide (("v", "ABABS") ∈ voiced_then_op) = true
  /\ bool_decide (("o", "ABABS") ∈ voiced_then_op) = false
  /\ P10.names_dict (P10.sorted P10.access_sort voiced_then_op) !! "ABABS"
     = Some "v".
Proof. cbv zeta. repeat split; vm_compute; reflexivity. Qed.

End BulkJoin.

Module SidEncodingFacts.
  Import P10Sid P10SidFacts Base64.

Lemma below_64_in (x : N) : (x < 64)%N -> In x (map N.of_nat (seq 0 64)).
Proof.
  intros Hx. apply in_map_iff. exists (N.to_nat x). split; [lia|].
  apply in_seq. lia.
Qed.

Lemma enc_char_p10 (v : N) :
  (v < 64)%N -> P10IP.p10_char (enc_char p10_altchars v) = true.
Proof.
  intros Hv.
  assert (Hc : forallb (fun v => P10IP.p10_char (enc_char p10_altchars v))
                 (map N.of_nat (seq 0 64)) = true) by (vm_compute; reflexivity).
  rewrite forallb_forall in Hc. apply Hc, below_64_in, Hv.
Qed.

Lemma sextet_mask_lt (x : N) : (N.land x 63 < 64)%N.
Proof. change 63%N with (N.ones 6). rewrite N.land_ones. by apply N.mod_lt. Qed.

Lemma sid_of_p10 (n : N) : Str.all P10IP.p10_char (sid_of n) = true.
Proof.
  unfold sid_of. cbn [Str.all].
  rewrite !enc_char_p10 by apply sextet_mask_lt. reflexivity.
Qed.

Lemma sid_of_mod (n : N) : sid_of (n mod 4096) = sid_of n.
Proof.
  unfold sid_of. change 63%N with (N.ones 6).
  rewrite !N.land_ones, !N.shiftr_div_pow2.
  change 4096%N with (2 ^ 6 * 2 ^ 6)%N.
  f_equal; [f_equal|f_equal; f_equal].
  - rewrite N.Div0.mod_mul_r.
    rewrite (N.mul_comm (2 ^ 6) ((n / 2 ^ 6) mod 2 ^ 6)), N.div_add by discriminate.
    rewrite N.div_small by (by apply N.mod_lt).
    rewrite N.add_0_l. by rewrite N.Div0.mod_mod.
  - rewrite N.Div0.mod_mul_r.
    rewrite (N.mul_comm (2 ^ 6) ((n / 2 ^ 6) mod 2 ^ 6)), N.Div0.mod_add.
    by rewrite N.Div0.mod_mod.
Qed.

End SidEncodingFacts.

Section SidEncoding.
Import P10Sid P10SidFacts SidEncodingFacts.

(** X1. [p10b64encode] packs its argument as an unsigned 32-bit integer:
    a number from 0 to 2^32-1 is encoded as exactly two characters of
    the P10 alphabet, and any other number makes [struct.pack] raise. *)
Theorem p10b64encode_shape (num : Z) :
  if ((0 <=? num) && (num <? 2 ^ 32))%Z
  then exists s, p10b64encode num = Ok s
                 /\ String.length s = 2
                 /\ Str.all P10IP.p10_char s = true
  else p10b64encode num = Raise StructError.
Proof.
  destruct ((0 <=? num) && (num <? 2 ^ 32))%Z eqn:Hr.
  - apply andb_true_iff in Hr as [H0%Z.leb_le H1%Z.ltb_lt].
    exists (sid_of (Z.to_N num)).
    rewrite p10b64encode_in_range by done.
    split; [done|]. split; [apply sid_of_length|apply sid_of_p10].
  - unfold p10b64encode, struct_pack_I. by rewrite Hr.
Qed.

(** X2. The encoding keeps the twelve low bits of the number and nothing
    else: two numbers from 0 to 2^32-1 have the same two-character
    encoding exactly when they are congruent modulo 4096. *)
Theorem p10b64encode_same_iff_congruent (a b : Z) :
  (0 <= a < 2 ^ 32)%Z -> (0 <= b < 2 ^ 32)%Z ->
  p10b64encode a = p10b64encode b <-> (a mod 4096 = b mod 4096)%Z.
Proof.
  intros Ha Hb. rewrite !p10b64encode_in_range by done.
  assert (Hmod : forall z, (0 <= z)%Z ->
            (Z.to_N z mod 4096)%N = Z.to_N (z mod 4096)).
  { intros z Hz. rewrite Z2N.inj_mod by lia. done. }
  split.
  - intros Heq. assert (Heq' : sid_of (Z.to_N a) = sid_of (Z.to_N b)) by congruence.
    clear Heq. rename Heq' into Heq. apply sid_of_inj_mod in Heq.
    rewrite !Hmod in Heq by lia.
    apply Z2N.inj in Heq; [done|apply Z.mod_pos_bound; lia..].
  - intros Heq. f_equal.
    rewrite <- (sid_of_mod (Z.to_N a)), <- (sid_of_mod (Z.to_N b)).
    rewrite !Hmod by lia. by rewrite Heq.
Qed.

Lemma p10b64encode_same_iff_congruent_witness :
  p10b64encode 1 = p10b64encode 4097 <-> (1 mod 4096 = 4097 mod 4096)%Z.
Proof. apply (p10b64encode_same_iff_congruent 1 4097); lia. Defined.

End SidEncoding.

Module DecimalFacts.
  Import Str StrFacts Base64Facts.

Lemma dec_value_app (s t : string) (a : N) :
  Inet.dec_value (s ++ t) a = Inet.dec_value t (Inet.dec_value s a).
Proof.
  revert a. induction s as [|c s IH]; intros a; [done|].
  rewrite append_cons. cbn [Inet.dec_value]. apply IH.
Qed.

Lemma digit_char_value (d : N) :
  (d < 10)%N ->
  (N_of_ascii (digit_char d) - 48 = d)%N /\ is_digit (digit_char d) = true.
Proof.
  intros Hd. rewrite <- (N2Nat.id d).
  assert (Hk : N.to_nat d < 10) by lia.
  revert Hk. generalize (N.to_nat d). intros k Hk.
  do 10 (destruct k as [|k]; [by vm_compute|]). lia.
Qed.

Lemma dec_digits_last (f : nat) (n : N) (acc : string) :
  (n < 10)%N ->
  dec_digits (S f) n acc = String (digit_char n) acc.
Proof.
  intros Hn. cbn [dec_digits].
  rewrite N.mod_small by done.
  by rewrite (proj2 (N.ltb_lt n 10) Hn).
Qed.

Lemma dec_digits_spec (f : nat) :
  forall (n : N) (acc : string), (n < 2 ^ N.of_nat (S f))%N ->
  exists s, dec_digits (S f) n acc = s ++ acc
            /\ s <> ""
            /\ all is_digit s = true
            /\ forall a, Inet.dec_value s a
                         = (a * 10 ^ N.of_nat (String.length s) + n)%N.
Proof.
  induction f as [|f IH]; intros n acc Hn.
  - assert (Hlt : (n < 10)%N) by (change (2 ^ N.of_nat 1)%N with 2%N in Hn; lia).
    destruct (digit_char_value n Hlt) as [Hv Hd].
    exists (String (digit_char n) ""). rewrite dec_digits_last by done.
    split; [done|]. split; [done|]. split; [cbn [all]; by rewrite Hd|].
    intros a. cbn [Inet.dec_value String.length]. rewrite Hv.
    change (10 ^ N.of_nat 1)%N with 10%N. lia.
  - destruct (N.ltb_spec n 10) as [Hlt|Hge].
    + destruct (digit_char_value n Hlt) as [Hv Hd].
      exists (String (digit_char n) ""). rewrite dec_digits_last by done.
      split; [done|]. split; [done|]. split; [cbn [all]; by rewrite Hd|].
      intros a. cbn [Inet.dec_value String.length]. rewrite Hv.
      change (10 ^ N.of_nat 1)%N with 10%N. lia.
    + assert (Hdiv : (n / 10 < 2 ^ N.of_nat (S f))%N).
      { apply N.Div0.div_lt_upper_bound.
        rewrite Nat2N.inj_succ, N.pow_succ_r' in Hn.
        rewrite Nat2N.inj_succ in Hn |- *. lia. }
      assert (Hm : (n mod 10 < 10)%N) by (by apply N.mod_lt).
      destruct (digit_char_value _ Hm) as [Hv Hd].
      destruct (IH (n / 10)%N (String (digit_char (n mod 10)) acc) Hdiv)
        as (s & Hs & Hne & Hall & Hval).
      exists (s ++ String (digit_char (n mod 10)) "").
      split.
      { change (dec_digits (S (S f)) n acc)
          with (let acc' := String (digit_char (n mod 10)) acc in
                if (n <? 10)%N then acc' else dec_digits (S f) (n / 10) acc').
        cbv zeta. rewrite (proj2 (N.ltb_ge n 10) Hge), Hs.
        by rewrite RelayFacts.append_assoc. }
      split; [by destruct s|].
      split; [rewrite all_append, Hall; cbn [all]; by rewrite Hd|].
      intros a. rewrite dec_value_app, Hval. cbn [Inet.dec_value].
      rewrite Hv, length_append. cbn [String.length].
      replace (N.of_nat (String.length s + 1)) with (N.succ (N.of_nat (String.length s))) by lia.
      rewrite N.pow_succ_r'.
      pose proof (N.div_mod n 10 ltac:(discriminate)). nia.
Qed.

Lemma of_N_spec (n : N) :
  of_N n <> ""
  /\ all is_digit (of_N n) = true
  /\ Inet.dec_value (of_N n) 0 = n.
Proof.
  unfold of_N.
  assert (Hn : (n < 2 ^ N.of_nat (S (N.to_nat (N.log2 n))))%N).
  { rewrite Nat2N.inj_succ, N2Nat.id.
    destruct (N.eq_dec n 0%N) as [->|Hpos]; [done|].
    apply N.log2_spec. lia. }
  destruct (dec_digits_spec _ n "" Hn) as (s & Hs & Hne & Hall & Hval).
  rewrite Hs, append_nil_r. split; [done|]. split; [done|].
  rewrite Hval. lia.
Qed.

Lemma digit_not_space (c : ascii) :
  is_digit c = true ->
  Text.is_space c = false /\ Ascii.eqb c "-" = false
  /\ Ascii.eqb c "+" = false /\ Ascii.eqb c "_" = false.
Proof. intros H. by apply (digit_cases c H). Qed.

Lemma rstrip_digits (s : string) :
  s <> "" -> all is_digit s = true -> Text.rstrip_aux s = Some s.
Proof.
  induction s as [|c s IH]; [done|]. intros _.
  cbn [all]. intros [Hc Hs]%andb_true_iff.
  cbn [Text.rstrip_aux]. destruct s as [|d s].
  - cbn [Text.rstrip_aux]. by rewrite (proj1 (digit_not_space c Hc)).
  - by rewrite IH.
Qed.

Lemma strip_digits (s : string) :
  all is_digit s = true -> Text.strip s = s.
Proof.
  intros Hs. unfold Text.strip, Text.rstrip.
  destruct s as [|c s]; [done|].
  pose proof Hs as Hs'. cbn [all] in Hs'. apply andb_true_iff in Hs' as [Hc _].
  cbn [Text.lstrip]. rewrite (proj1 (digit_not_space c Hc)).
  by rewrite rstrip_digits.
Qed.

Lemma literal_digits_all (s : string) :
  all is_digit s = true -> Text.literal_digits s true = Some s.
Proof.
  induction s as [|c s IH]; [done|].
  cbn [all]. intros [Hc Hs]%andb_true_iff.
  cbn [Text.literal_digits]. by rewrite Hc, IH.
Qed.

Lemma int_of_digits (s : string) :
  s <> "" -> all is_digit s = true ->
  Text.int_of_str s = Ok (Z.of_N (Inet.dec_value s 0)).
Proof.
  intros Hne Hs. unfold Text.int_of_str. rewrite strip_digits by done.
  destruct s as [|c s]; [done|].
  pose proof Hs as Hs'. cbn [all] in Hs'. apply andb_true_iff in Hs' as [Hc Hr].
  destruct (digit_not_space c Hc) as (_ & Hminus & Hplus & _).
  assert (Hbody : match String c s with
                  | String "-" r => (true, r)
                  | String "+" r => (false, r)
                  | _ => (false, String c s)
                  end = (false, String c s)).
  { destruct c as [[] [] [] [] [] [] [] []]; try reflexivity;
      vm_compute in Hminus, Hplus; discriminate. }
  rewrite Hbody. rewrite Hc. cbn [negb].
  cbn [Text.literal_digits]. rewrite Hc, literal_digits_all by done.
  reflexivity.
Qed.

Lemma int_of_neg_digits (s : string) :
  s <> "" -> all is_digit s = true ->
  Text.int_of_str (String "-" s) = Ok (- Z.of_N (Inet.dec_value s 0))%Z.
Proof.
  intros Hne Hs. unfold Text.int_of_str.
  assert (Hstrip : Text.strip (String "-" s) = String "-" s).
  { unfold Text.strip, Text.rstrip. cbn [Text.lstrip].
    change (Text.is_space "-") with false. cbv iota.
    cbn [Text.rstrip_aux]. by rewrite rstrip_digits. }
  rewrite Hstrip.
  destruct s as [|c s]; [done|].
  pose proof Hs as Hs'. cbn [all] in Hs'. apply andb_true_iff in Hs' as [Hc Hr].
  rewrite Hc. cbn [negb].
  cbn [Text.literal_digits]. rewrite Hc, literal_digits_all by done.
  reflexivity.
Qed.

(** [int(str(z))] is [z]. *)
Lemma int_of_str_of_Z (z : Z) : Text.int_of_str (of_Z z) = Ok z.
Proof.
  unfold of_Z. destruct (Z.ltb_spec z 0) as [Hneg|Hpos].
  - destruct (of_N_spec (Z.to_N (- z))) as (Hne & Hall & Hval).
    rewrite int_of_neg_digits, Hval by done. f_equal. lia.
  - destruct (of_N_spec (Z.to_N z)) as (Hne & Hall & Hval).
    rewrite int_of_digits, Hval by done. f_equal. lia.
Qed.

Lemma digits_without (sep : ascii) (s : string) :
  is_digit sep = false -> all is_digit s = true -> mem sep s = false.
Proof.
  intros Hsep. induction s as [|c s IH]; [done|].
  cbn [all mem]. intros [Hc Hs]%andb_true_iff.
  destruct (Ascii.eqb_spec sep c) as [->|_]; [congruence|by apply IH].
Qed.

Lemma split_once_at (sep : ascii) (h t : string) :
  mem sep h = false -> Text.split_once sep (h ++ String sep t) = [h; t].
Proof.
  induction h as [|c h IH].
  - intros _. rewrite append_nil_l. cbn [Text.split_once].
    by rewrite Ascii.eqb_refl.
  - cbn [mem]. rewrite Ascii.eqb_sym, append_cons. cbn [Text.split_once].
    destruct (Ascii.eqb c sep); [done|].
    intros H. by rewrite IH.
Qed.

Lemma split_once_without (sep : ascii) (s : string) :
  mem sep s = false -> Text.split_once sep s = [s].
Proof.
  induction s as [|c s IH]; [done|].
  cbn [mem Text.split_once]. rewrite Ascii.eqb_sym.
  destruct (Ascii.eqb c sep); [done|].
  intros H. by rewrite IH.
Qed.

End DecimalFacts.

Section SidRangeOption.
Import P10Sid P10Server DecimalFacts P10SidFacts.

(** X3. The constructor of the P10 SID generator reads its bounds from
    the [sidrange] option: for ["MIN-MAX"] written in decimal (MIN not
    negative) the generator starts at MIN with the bounds MIN and MAX,
    and when MIN <= MAX < 2^32 the first SID it hands out is the encoding of MIN. A
    missing option, and a value without a dash, raise [RuntimeError], which
    is the only exception the constructor raises. *)
Theorem p10_sidgen_init_reads_range (i : Irc) :
  (forall lo hi : Z,
     (0 <= lo)%Z ->
     serverdata i !! "sidrange" = Some (Str.of_Z lo ++ "-" ++ Str.of_Z hi) ->
     sid_init i = Ok (init lo hi)
     /\ ((lo <= hi < 2 ^ 32)%Z ->
         fst (next_sid (init lo hi)) = p10b64encode lo))
  /\ (match serverdata i !! "sidrange" with
      | None => True
      | Some q => Str.mem "-" q = false
      end -> sid_init i = Raise RuntimeError)
  /\ (forall e, sid_init i = Raise e -> e = RuntimeError).
Proof.
  split; [|split].
  - intros lo hi Hlo Hq. split.
    + unfold sid_init. rewrite Hq.
      assert (Hno : Str.mem "-" (Str.of_Z lo) = false).
      { unfold Str.of_Z. rewrite (proj2 (Z.ltb_ge lo 0) Hlo).
        apply digits_without; [done|]. apply of_N_spec. }
      change ("-" ++ Str.of_Z hi) with (String "-" (Str.of_Z hi)).
      rewrite (split_once_at _ _ _ Hno).
      by rewrite !int_of_str_of_Z.
    + intros Hr. rewrite next_sid_ok by (cbn; lia).
      cbn [fst init currentnum]. by rewrite p10b64encode_in_range by lia.
  - unfold sid_init. destruct (serverdata i !! "sidrange") as [q|]; [|done].
    intros Hq. by rewrite split_once_without.
  - unfold sid_init. intros e.
    repeat case_match; congruence.
Qed.

Lemma p10_sidgen_init_reads_range_witness :
  sid_init {| name := "net"; sid := "AB";
              serverdata := {[ "sidrange" := "0-4095" ]};
              users := ∅; servers := ∅; channels := ∅; cmodes := ∅;
              prefixmodes := ∅; clock := 0; sent := [] |}
  = Ok (init 0 4095).
Proof.
  refine (proj1 (proj1 (p10_sidgen_init_reads_range _) 0%Z 4095%Z _ _));
    [lia|reflexivity].
Defined.

End SidRangeOption.

Module TemplateFacts.
  Import TS6Sid TS6Odometer.

Lemma init_step_raise (e : exn) (ic : nat * ascii) :
  init_step (Raise e) ic = Raise e.
Proof. reflexivity. Qed.

Lemma init_step_bad (g : TS6SIDGenerator) (idx : nat) (c : ascii) :
  Str.mem c template_chars = false ->
  init_step (Ok g) (idx, c) = Raise AssertionError.
Proof. intros H. unfold init_step. cbn [Py.bind]. fold template_chars. by rewrite H. Qed.

Lemma init_step_fixed (g : TS6SIDGenerator) (idx : nat) (c : ascii) :
  Str.mem c template_chars = true -> c <> "#"%char ->
  init_step (Ok g) (idx, c) = Ok g.
Proof.
  intros H Hne. unfold init_step. cbn [Py.bind]. fold template_chars.
  rewrite H. cbn [negb].
  by destruct (Ascii.eqb_spec c "#").
Qed.

Lemma init_step_wild (g : TS6SIDGenerator) (idx : nat) :
  init_step (Ok g) (idx, "#"%char)
  = Ok (with_pos
          (with_allowed g idx
             (if Nat.eqb idx 0 then digits else digits ++ ascii_uppercase))
          idx "0"
          (Iter (if Nat.eqb idx 0 then "123456789"
                 else "123456789" ++ ascii_uppercase))).
Proof. unfold init_step. cbn [Py.bind]. by destruct (Nat.eqb idx 0). Qed.

End TemplateFacts.


Module OdometerFacts.
  Import TS6Sid TS6Odometer TemplateFacts.

Lemma step_end (g : TS6SIDGenerator) :
  increment_from 0 g = (Raise RuntimeError, g).
Proof. reflexivity. Qed.

Lemma step_fixed (g : TS6SIDGenerator) (pos : nat) (c : ascii) :
  iters g !! pos = Some (Fixed c) ->
  increment_from (S pos) g = increment_from pos g.
Proof. intros H. cbn [increment_from]. by rewrite H. Qed.

Lemma step_advance (g : TS6SIDGenerator) (pos : nat) (x : ascii) (rest : string) :
  iters g !! pos = Some (Iter (String x rest)) ->
  increment_from (S pos) g = (Ok tt, with_pos g pos x (Iter rest)).
Proof. intros H. cbn [increment_from]. by rewrite H. Qed.

Lemma step_reset (g : TS6SIDGenerator) (pos : nat) (x : ascii) (rest : string) :
  iters g !! pos = Some (Iter "") ->
  allowedchars g !! pos = Some (String x rest) ->
  increment_from (S pos) g = increment_from pos (with_pos g pos x (Iter rest)).
Proof. intros H Ha. cbn [increment_from]. by rewrite H, Ha. Qed.

Lemma drop_get (s : string) (d : nat) (x : ascii) :
  String.get d s = Some x -> Str.drop d s = String x (Str.drop (S d) s).
Proof.
  revert d. induction s as [|c s IH]; intros d; [by destruct d|].
  destruct d as [|d]; cbn [String.get Str.drop].
  - intros [= ->]. by destruct s.
  - apply IH.
Qed.

Lemma get_lt (s : string) (d : nat) :
  d < String.length s -> exists x, String.get d s = Some x.
Proof.
  revert d. induction s as [|c s IH]; intros d; cbn [String.length]; [lia|].
  destruct d as [|d]; cbn [String.get]; [by eexists|].
  intros H. apply IH. lia.
Qed.

Lemma drop_all (s : string) (d : nat) :
  String.length s <= d -> Str.drop d s = "".
Proof.
  revert d. induction s as [|c s IH]; intros d; [by destruct d|].
  cbn [String.length]. destruct d as [|d]; [lia|].
  cbn [Str.drop]. intros H. apply IH. lia.
Qed.

(** A wildcard that is not at its last character moves on by one. *)
Lemma slot_at_more (pos d : nat) :
  S d < String.length (allowed pos) ->
  slot_at pos "#" d
  = Iter (String (char_at pos "#" (S d)) (Str.drop (S (S d)) (allowed pos))).
Proof.
  intros H. unfold slot_at, char_at. cbn [Ascii.eqb Bool.eqb].
  destruct (get_lt _ _ H) as [x Hx]. rewrite Hx.
  by rewrite (drop_get _ _ _ Hx).
Qed.

(** A wildcard at its last character has nothing left. *)
Lemma slot_at_last (pos d : nat) :
  String.length (allowed pos) <= S d -> slot_at pos "#" d = Iter "".
Proof.
  intros H. unfold slot_at. cbn [Ascii.eqb Bool.eqb].
  by rewrite drop_all.
Qed.

Lemma slot_at_fixed (pos d : nat) (c : ascii) :
  c <> "#"%char -> slot_at pos c d = Fixed c.
Proof. intros H. unfold slot_at. by destruct (Ascii.eqb_spec c "#"). Qed.

Lemma char_at_fixed (pos d : nat) (c : ascii) :
  c <> "#"%char -> char_at pos c d = c.
Proof. intros H. unfold char_at. by destruct (Ascii.eqb_spec c "#"). Qed.

Lemma radix_fixed (pos : nat) (c : ascii) : c <> "#"%char -> radix pos c = 1.
Proof. intros H. unfold radix. by destruct (Ascii.eqb_spec c "#"). Qed.

Lemma allowed_at_fixed (pos : nat) (c : ascii) (m : gmap nat string) :
  c <> "#"%char -> allowed_at pos c m = m.
Proof. intros H. unfold allowed_at. by destruct (Ascii.eqb_spec c "#"). Qed.

Ltac fixed_chars :=
  repeat match goal with
         | H : ?x <> "#"%char |- _ =>
             rewrite ?(fun p d => slot_at_fixed p d x H),
               ?(fun p d => char_at_fixed p d x H),
               ?(fun p m => allowed_at_fixed p x m H),
               ?(fun p => radix_fixed p x H);
             revert H
         end;
  intros.

(** [__init__] leaves the generator of the template at its first SID. *)
Lemma init_state (i : Irc) (a b c : ascii) :
  serverdata i !! "sidrange" = Some (String a (String b (String c ""))) ->
  valid_template (String a (String b (String c ""))) = true ->
  init i = Ok (state_of i a b c 0 0 0).
Proof.
  intros Hq Hv. unfold init. rewrite Hq. unfold valid_template in Hv.
  cbn [String.length Nat.eqb andb list_ascii_of_string length negb] in Hv |- *.
  apply andb_true_iff in Hv as [Hm Hall]. rewrite Hm. cbn [negb].
  cbn [Str.all] in Hall. fold template_chars in Hall.
  apply andb_true_iff in Hall as [Ha Hall].
  apply andb_true_iff in Hall as [Hb Hall].
  apply andb_true_iff in Hall as [Hc _].
  cbn [seq combine fold_left]. unfold state_of.
  destruct (Ascii.eqb_spec a "#") as [->|Hna];
    [rewrite init_step_wild|rewrite init_step_fixed by done];
  (destruct (Ascii.eqb_spec b "#") as [->|Hnb];
    [rewrite init_step_wild|rewrite init_step_fixed by done]);
  (destruct (Ascii.eqb_spec c "#") as [->|Hnc];
    [rewrite init_step_wild|rewrite init_step_fixed by done]);
  fixed_chars; reflexivity.
Qed.

Lemma allowed_lookup_2 (a b : ascii) :
  allowed_at 2 "#" (allowed_at 1 b (allowed_at 0 a ∅)) !! 2 = Some (allowed 2).
Proof. unfold allowed_at at 1. cbn [Ascii.eqb Bool.eqb]. apply lookup_insert_eq. Qed.

Lemma allowed_lookup_1 (a c : ascii) :
  allowed_at 2 c (allowed_at 1 "#" (allowed_at 0 a ∅)) !! 1 = Some (allowed 1).
Proof.
  unfold allowed_at at 1 2. cbn [Ascii.eqb Bool.eqb].
  destruct (Ascii.eqb c "#"); [rewrite lookup_insert_ne by done|];
    apply lookup_insert_eq.
Qed.

Lemma allowed_lookup_0 (b c : ascii) :
  allowed_at 2 c (allowed_at 1 b (allowed_at 0 "#" ∅)) !! 0 = Some (allowed 0).
Proof.
  unfold allowed_at. cbn [Ascii.eqb Bool.eqb].
  destruct (Ascii.eqb c "#"), (Ascii.eqb b "#");
    rewrite ?lookup_insert_ne by done; apply lookup_insert_eq.
Qed.

Lemma radix_wild (pos : nat) : radix pos "#" = String.length (allowed pos).
Proof. reflexivity. Qed.

(** The rightmost position: it moves on, or starts again and hands
    over to the position on its left. *)
Lemma increment_pos_2 (i : Irc) (a b c : ascii) (d0 d1 d2 : nat) :
  d2 < radix 2 c ->
  increment_from 3 (state_of i a b c d0 d1 d2)
  = if Nat.ltb (S d2) (radix 2 c) then (Ok tt, state_of i a b c d0 d1 (S d2))
    else increment_from 2 (state_of i a b c d0 d1 0).
Proof.
  intros Hd. destruct (Ascii.eqb_spec c "#") as [->|Hc].
  - rewrite radix_wild in *.
    destruct (Nat.ltb_spec (S d2) (String.length (allowed 2))) as [Hlt|Hge].
    + rewrite (step_advance _ 2 (char_at 2 "#" (S d2))
                 (Str.drop (S (S d2)) (allowed 2)))
        by (cbn [iters state_of lookup list_lookup]; f_equal; by apply slot_at_more).
      reflexivity.
    + rewrite (step_reset _ 2 "0" (Str.drop 1 (allowed 2))).
      * reflexivity.
      * cbn [iters state_of lookup list_lookup]. f_equal. by apply slot_at_last.
      * cbn [allowedchars state_of]. by rewrite allowed_lookup_2.
  - rewrite radix_fixed in * by done.
    replace d2 with 0 by lia. cbn [Nat.ltb Nat.leb].
    apply (step_fixed _ 2 c). cbn [iters state_of lookup list_lookup].
    f_equal. by apply slot_at_fixed.
Qed.

Lemma increment_pos_1 (i : Irc) (a b c : ascii) (d0 d1 d2 : nat) :
  d1 < radix 1 b ->
  increment_from 2 (state_of i a b c d0 d1 d2)
  = if Nat.ltb (S d1) (radix 1 b) then (Ok tt, state_of i a b c d0 (S d1) d2)
    else increment_from 1 (state_of i a b c d0 0 d2).
Proof.
  intros Hd. destruct (Ascii.eqb_spec b "#") as [->|Hb].
  - rewrite radix_wild in *.
    destruct (Nat.ltb_spec (S d1) (String.length (allowed 1))) as [Hlt|Hge].
    + rewrite (step_advance _ 1 (char_at 1 "#" (S d1))
                 (Str.drop (S (S d1)) (allowed 1)))
        by (cbn [iters state_of lookup list_lookup]; f_equal; by apply slot_at_more).
      reflexivity.
    + rewrite (step_reset _ 1 "0" (Str.drop 1 (allowed 1))).
      * reflexivity.
      * cbn [iters state_of lookup list_lookup]. f_equal. by apply slot_at_last.
      * cbn [allowedchars state_of]. by rewrite allowed_lookup_1.
  - rewrite radix_fixed in * by done.
    replace d1 with 0 by lia. cbn [Nat.ltb Nat.leb].
    apply (step_fixed _ 1 b). cbn [iters state_of lookup list_lookup].
    f_equal. by apply slot_at_fixed.
Qed.

(** The leftmost position: when it has nothing left the generator has
    wrapped around, which is the error. *)
Lemma increment_pos_0 (i : Irc) (a b c : ascii) (d0 d1 d2 : nat) :
  d0 < radix 0 a ->
  increment_from 1 (state_of i a b c d0 d1 d2)
  = if Nat.ltb (S d0) (radix 0 a) then (Ok tt, state_of i a b c (S d0) d1 d2)
    else (Raise RuntimeError, state_of i a b c 0 d1 d2).
Proof.
  intros Hd. destruct (Ascii.eqb_spec a "#") as [->|Ha].
  - rewrite radix_wild in *.
    destruct (Nat.ltb_spec (S d0) (String.length (allowed 0))) as [Hlt|Hge].
    + rewrite (step_advance _ 0 (char_at 0 "#" (S d0))
                 (Str.drop (S (S d0)) (allowed 0)))
        by (cbn [iters state_of lookup list_lookup]; f_equal; by apply slot_at_more).
      reflexivity.
    + rewrite (step_reset _ 0 "0" (Str.drop 1 (allowed 0))).
      * reflexivity.
      * cbn [iters state_of lookup list_lookup]. f_equal. by apply slot_at_last.
      * cbn [allowedchars state_of]. by rewrite allowed_lookup_0.
  - rewrite radix_fixed in * by done.
    replace d0 with 0 by lia. cbn [Nat.ltb Nat.leb].
    rewrite (step_fixed _ 0 a)
      by (cbn [iters state_of lookup list_lookup]; f_equal; by apply slot_at_fixed).
    reflexivity.
Qed.

(** One call of [increment()] on the generator of a template. *)
Lemma increment_state (i : Irc) (a b c : ascii) (d0 d1 d2 : nat) :
  d0 < radix 0 a -> d1 < radix 1 b -> d2 < radix 2 c ->
  increment (state_of i a b c d0 d1 d2)
  = if Nat.ltb (S d2) (radix 2 c) then (Ok tt, state_of i a b c d0 d1 (S d2))
    else if Nat.ltb (S d1) (radix 1 b) then (Ok tt, state_of i a b c d0 (S d1) 0)
    else if Nat.ltb (S d0) (radix 0 a) then (Ok tt, state_of i a b c (S d0) 0 0)
    else (Raise RuntimeError, state_of i a b c 0 0 0).
Proof.
  intros H0 H1 H2. unfold increment.
  rewrite increment_pos_2 by done.
  destruct (Nat.ltb (S d2) (radix 2 c)); [done|].
  rewrite increment_pos_1 by done.
  destruct (Nat.ltb (S d1) (radix 1 b)); [done|].
  by rewrite increment_pos_0.
Qed.

(** Anything that is not a template fails an assertion. *)
Lemma init_invalid (i : Irc) (q : string) :
  serverdata i !! "sidrange" = Some q -> valid_template q = false ->
  init i = Raise AssertionError.
Proof.
  intros Hq. unfold init. rewrite Hq. unfold valid_template.
  destruct q as [|a [|b [|c [|d q]]]]; try reflexivity.
  cbn [String.length Nat.eqb andb list_ascii_of_string length negb].
  destruct (Str.mem "#" (String a (String b (String c "")))) eqn:Hm;
    cbn [negb andb]; [|reflexivity].
  cbn [seq combine fold_left Str.all]. fold template_chars.
  destruct (Str.mem a template_chars) eqn:Hma;
    [|rewrite init_step_bad, !init_step_raise by done; reflexivity].
  destruct (TS6SidFacts.init_step_ok {| irc := i; query := [a; b; c];
               iters := Fixed <$> [a; b; c]; output := [a; b; c];
               allowedchars := ∅ |} 0 a Hma) as [g1 ->].
  destruct (Str.mem b template_chars) eqn:Hmb;
    [|rewrite init_step_bad, !init_step_raise by done; reflexivity].
  destruct (TS6SidFacts.init_step_ok g1 1 b Hmb) as [g2 ->].
  destruct (Str.mem c template_chars) eqn:Hmc;
    [|rewrite init_step_bad by done; reflexivity].
  discriminate.
Qed.

Lemma valid_template_length (q : string) :
  valid_template q = true ->
  exists a b c, q = String a (String b (String c "")).
Proof.
  unfold valid_template. intros [[Hl _]%andb_true_iff _]%andb_true_iff.
  destruct q as [|a [|b [|c [|d q]]]]; try discriminate Hl. by eexists _, _, _.
Qed.

Lemma joined_state (i : Irc) (a b c : ascii) (d0 d1 d2 : nat) :
  joined (state_of i a b c d0 d1 d2)
  = String (char_at 0 a d0) (String (char_at 1 b d1)
      (String (char_at 2 c d2) "")).
Proof. reflexivity. Qed.

Lemma radix_pos (pos : nat) (c : ascii) : 0 < radix pos c.
Proof.
  unfold radix, allowed.
  destruct (Ascii.eqb c "#"); [|lia]. destruct (Nat.eqb pos 0); vm_compute; lia.
Qed.

(** The SID of the rank [(d0 * r1 + d1) * r2 + d2] is made of the
    characters at the digits [d0], [d1] and [d2]. *)
Lemma nth_sid_rank (a b c : ascii) (d0 d1 d2 : nat) :
  d1 < radix 1 b -> d2 < radix 2 c ->
  nth_sid (String a (String b (String c "")))
    ((d0 * radix 1 b + d1) * radix 2 c + d2)
  = String (char_at 0 a d0) (String (char_at 1 b d1)
      (String (char_at 2 c d2) "")).
Proof.
  intros H1 H2. unfold nth_sid.
  set (r1 := radix 1 b) in *. set (r2 := radix 2 c) in *.
  assert (Hmod2 : ((d0 * r1 + d1) * r2 + d2) mod r2 = d2).
  { symmetry. apply (Nat.mod_unique _ _ (d0 * r1 + d1)); [done|lia]. }
  assert (Hdiv2 : ((d0 * r1 + d1) * r2 + d2) / r2 = d0 * r1 + d1).
  { symmetry. apply (Nat.div_unique _ _ _ d2); [done|lia]. }
  assert (Hmod1 : (d0 * r1 + d1) mod r1 = d1).
  { symmetry. apply (Nat.mod_unique _ _ d0); [done|lia]. }
  assert (Hdiv : ((d0 * r1 + d1) * r2 + d2) / (r1 * r2) = d0).
  { symmetry. apply (Nat.div_unique _ _ _ (d1 * r2 + d2)); nia. }
  by rewrite Hmod2, Hdiv2, Hmod1, Hdiv.
Qed.

(** [n] calls of [increment()] that stay below the number of SIDs. *)
Lemma increments_run (i : Irc) (a b c : ascii) (n : nat) :
  forall d0 d1 d2,
  d0 < radix 0 a -> d1 < radix 1 b -> d2 < radix 2 c ->
  (d0 * radix 1 b + d1) * radix 2 c + d2 + n
    < radix 0 a * radix 1 b * radix 2 c ->
  exists e0 e1 e2,
    e0 < radix 0 a /\ e1 < radix 1 b /\ e2 < radix 2 c
    /\ (e0 * radix 1 b + e1) * radix 2 c + e2
       = (d0 * radix 1 b + d1) * radix 2 c + d2 + n
    /\ increments n (state_of i a b c d0 d1 d2)
       = ((fun k => Ok (nth_sid (String a (String b (String c ""))) k))
            <$> seq (S ((d0 * radix 1 b + d1) * radix 2 c + d2)) n,
          state_of i a b c e0 e1 e2).
Proof.
  induction n as [|n IH]; intros d0 d1 d2 H0 H1 H2 Hn.
  - exists d0, d1, d2. repeat split; try done; lia.
  - cbn [increments]. rewrite increment_state by done.
    set (r0 := radix 0 a) in *. set (r1 := radix 1 b) in *.
    set (r2 := radix 2 c) in *.
    assert (Hnext : exists f0 f1 f2,
              f0 < r0 /\ f1 < r1 /\ f2 < r2
              /\ (f0 * r1 + f1) * r2 + f2 = S ((d0 * r1 + d1) * r2 + d2)
              /\ (if Nat.ltb (S d2) r2 then (Ok tt, state_of i a b c d0 d1 (S d2))
                  else if Nat.ltb (S d1) r1 then (Ok tt, state_of i a b c d0 (S d1) 0)
                  else if Nat.ltb (S d0) r0 then (Ok tt, state_of i a b c (S d0) 0 0)
                  else (Raise RuntimeError, state_of i a b c 0 0 0))
                 = (Ok tt, state_of i a b c f0 f1 f2)).
    { destruct (Nat.ltb_spec (S d2) r2) as [L2|G2].
      { exists d0, d1, (S d2). repeat split; try done; lia. }
      destruct (Nat.ltb_spec (S d1) r1) as [L1|G1].
      { exists d0, (S d1), 0. repeat split; try done; nia. }
      destruct (Nat.ltb_spec (S d0) r0) as [L0|G0].
      { exists (S d0), 0, 0. repeat split; try done; nia. }
      exfalso.
      assert (R2 : r2 = S d2) by lia. assert (R1 : r1 = S d1) by lia.
      assert (R0 : r0 = S d0) by lia.
      clearbody r0 r1 r2. subst r0 r1 r2. nia. }
    destruct Hnext as (f0 & f1 & f2 & F0 & F1 & F2 & Hrank & ->).
    destruct (IH f0 f1 f2 F0 F1 F2) as (e0 & e1 & e2 & E0 & E1 & E2 & Hr & ->);
      [lia|].
    exists e0, e1, e2. split; [done|]. split; [done|]. split; [done|].
    split; [lia|].
    rewrite joined_state, <- nth_sid_rank by done.
    fold r1 r2. rewrite Hrank. cbn [seq fmap list_fmap]. reflexivity.
Qed.

(** The generator at the last SID: the next call wraps around. *)
Lemma increment_wraps (i : Irc) (a b c : ascii) (d0 d1 d2 : nat) :
  d0 < radix 0 a -> d1 < radix 1 b -> d2 < radix 2 c ->
  S ((d0 * radix 1 b + d1) * radix 2 c + d2)
    = radix 0 a * radix 1 b * radix 2 c ->
  increment (state_of i a b c d0 d1 d2)
  = (Raise RuntimeError, state_of i a b c 0 0 0).
Proof.
  intros H0 H1 H2 Hlast. rewrite increment_state by done.
  set (r0 := radix 0 a) in *. set (r1 := radix 1 b) in *.
  set (r2 := radix 2 c) in *. clearbody r0 r1 r2.
  assert (Hhi : (d0 * r1 + d1) + 1 <= r0 * r1) by nia.
  assert (Hmid : ((d0 * r1 + d1) + 1) * r2 <= r0 * r1 * r2) by nia.
  destruct (Nat.ltb_spec (S d2) r2); [nia|].
  destruct (Nat.ltb_spec (S d1) r1).
  { assert ((d0 * r1 + d1) + 2 <= r0 * r1) by nia.
    assert (((d0 * r1 + d1) + 2) * r2 <= r0 * r1 * r2) by nia. nia. }
  destruct (Nat.ltb_spec (S d0) r0).
  { assert ((d0 + 2) * r1 <= r0 * r1) by nia.
    assert ((d0 + 2) * r1 * r2 <= r0 * r1 * r2) by nia. nia. }
  done.
Qed.

Lemma increments_app (n m : nat) (g : TS6SIDGenerator) :
  increments (n + m) g
  = (List.app (fst (increments n g)) (fst (increments m (snd (increments n g)))),
     snd (increments m (snd (increments n g)))).
Proof.
  revert g. induction n as [|n IH]; intros g.
  - cbn [increments Nat.add fst snd app]. by destruct (increments m g).
  - cbn [Nat.add increments]. destruct (increment g) as [r g'].
    rewrite IH. destruct (increments n g') as [rs g'']. cbn [fst snd].
    reflexivity.
Qed.

Lemma get_allowed_inj (pos d d' : nat) :
  d < String.length (allowed pos) -> d' < String.length (allowed pos) ->
  String.get d (allowed pos) = String.get d' (allowed pos) -> d = d'.
Proof.
  assert (Hc : forall s : string,
             forallb (fun x => forallb (fun y =>
               implb (bool_decide (String.get x s = String.get y s))
                     (Nat.eqb x y)) (seq 0 (String.length s)))
               (seq 0 (String.length s)) = true ->
             forall x y, x < String.length s -> y < String.length s ->
                         String.get x s = String.get y s -> x = y).
  { intros s Hs x y Hx Hy Heq. rewrite forallb_forall in Hs.
    specialize (Hs x ltac:(apply in_seq; lia)). rewrite forallb_forall in Hs.
    specialize (Hs y ltac:(apply in_seq; lia)).
    rewrite bool_decide_eq_true_2 in Hs by done. by apply Nat.eqb_eq. }
  unfold allowed. destruct (Nat.eqb pos 0); apply Hc; vm_compute; reflexivity.
Qed.

Lemma char_at_inj (pos : nat) (c : ascii) (d d' : nat) :
  d < radix pos c -> d' < radix pos c ->
  char_at pos c d = char_at pos c d' -> d = d'.
Proof.
  unfold radix, char_at. destruct (Ascii.eqb c "#"); [|lia].
  intros Hd Hd' Heq. apply (get_allowed_inj pos); [done..|].
  destruct (get_lt _ _ Hd) as [x Hx], (get_lt _ _ Hd') as [y Hy].
  rewrite Hx, Hy in Heq |- *. by rewrite Heq.
Qed.

(** Two ranks below the number of SIDs give different SIDs. *)
Lemma nth_sid_inj (a b c : ascii) (k k' : nat) :
  k < radix 0 a * radix 1 b * radix 2 c ->
  k' < radix 0 a * radix 1 b * radix 2 c ->
  nth_sid (String a (String b (String c ""))) k
  = nth_sid (String a (String b (String c ""))) k' -> k = k'.
Proof.
  intros Hk Hk'. unfold nth_sid.
  pose proof (radix_pos 0 a) as P0. pose proof (radix_pos 1 b) as P1.
  pose proof (radix_pos 2 c) as P2.
  set (r0 := radix 0 a) in *. set (r1 := radix 1 b) in *.
  set (r2 := radix 2 c) in *.
  intros [= E0 E1 E2].
  assert (Hdig : forall x, x < r0 * r1 * r2 ->
            x / (r1 * r2) < r0 /\ (x / r2) mod r1 < r1 /\ x mod r2 < r2
            /\ x = (x / (r1 * r2) * r1 + (x / r2) mod r1) * r2 + x mod r2).
  { intros x Hx. split; [apply Nat.Div0.div_lt_upper_bound; lia|].
    split; [apply Nat.mod_upper_bound; lia|].
    split; [apply Nat.mod_upper_bound; lia|].
    rewrite (Nat.mul_comm r1 r2), <- Nat.Div0.div_div.
    pose proof (Nat.div_mod x r2 ltac:(lia)).
    pose proof (Nat.div_mod (x / r2) r1 ltac:(lia)). nia. }
  destruct (Hdig k Hk) as (A0 & A1 & A2 & Ak).
  destruct (Hdig k' Hk') as (B0 & B1 & B2 & Bk).
  apply char_at_inj in E0; [|done..].
  apply char_at_inj in E1; [|done..].
  apply char_at_inj in E2; [|done..].
  rewrite Ak, Bk. by rewrite E0, E1, E2.
Qed.

End OdometerFacts.

Section SidTemplateInit.
Import TS6Sid TS6SidFacts TS6Odometer TemplateFacts OdometerFacts.

(** X4. The constructor of the TS6 SID generator accepts exactly the
    templates its docstring describes: three characters among the
    digits, the uppercase letters and [#], with one [#] at least. For such
    a template the first SID is the template with every [#] replaced by
    [0]; any other value fails an assertion. *)
Theorem ts6_sidgen_init_accepts_templates (i : Irc) (q : string) :
  serverdata i !! "sidrange" = Some q ->
  if valid_template q
  then exists g, init i = Ok g /\ joined g = Str.replace_char "#" "0" q
  else init i = Raise AssertionError.
Proof.
  intros Hq. destruct (valid_template q) eqn:Hv; [|by apply (init_invalid i q)].
  destruct (valid_template_length q Hv) as (a & b & c & ->).
  rewrite (init_state i a b c Hq Hv). eexists. split; [reflexivity|].
  rewrite joined_state. cbn [Str.replace_char]. unfold char_at.
  by destruct (Ascii.eqb a "#"), (Ascii.eqb b "#"), (Ascii.eqb c "#").
Qed.

Lemma ts6_sidgen_init_accepts_templates_witness :
  exists g, init sid_example_irc = Ok g /\ joined g = "10A".
Proof.
  exact (ts6_sidgen_init_accepts_templates sid_example_irc "1#A" eq_refl).
Defined.

(** X5. [increment()] runs through the SIDs of a template like an
    odometer whose rightmost wildcard turns fastest: a leading [#] takes
    the ten digits, any other [#] the digits and then the uppercase
    letters. From a new generator the calls give the SIDs of rank 1, 2,
    ... in turn, all of them different from each other and from the first
    one; the call after the last SID raises [RuntimeError] and leaves
    the generator back at the first SID. *)
Theorem ts6_increment_enumerates (i : Irc) (q : string) (g : TS6SIDGenerator) :
  serverdata i !! "sidrange" = Some q ->
  init i = Ok g ->
  joined g = nth_sid q 0
  /\ fst (increments (sid_count q) g)
     = List.app ((fun k => Ok (nth_sid q k)) <$> seq 1 (sid_count q - 1))
         [Raise RuntimeError]
  /\ joined (snd (increments (sid_count q) g)) = nth_sid q 0
  /\ NoDup (nth_sid q <$> seq 0 (sid_count q)).
Proof.
  intros Hq Hg.
  destruct (valid_template q) eqn:Hv;
    [|rewrite (init_invalid i q Hq Hv) in Hg; discriminate].
  destruct (valid_template_length q Hv) as (a & b & c & ->).
  rewrite (init_state i a b c Hq Hv) in Hg. injection Hg as <-.
  pose proof (radix_pos 0 a) as P0. pose proof (radix_pos 1 b) as P1.
  pose proof (radix_pos 2 c) as P2.
  assert (Hfirst : joined (state_of i a b c 0 0 0)
                   = nth_sid (String a (String b (String c ""))) 0).
  { rewrite joined_state.
    by rewrite <- (nth_sid_rank a b c 0 0 0) by done. }
  cbn [sid_count].
  set (N := radix 0 a * radix 1 b * radix 2 c) in *.
  assert (HN : 0 < N) by (unfold N; nia).
  destruct (increments_run i a b c (N - 1) 0 0 0 P0 P1 P2)
    as (e0 & e1 & e2 & E0 & E1 & E2 & Hr & Hrun); [fold N; lia|].
  cbn [Nat.mul Nat.add] in Hr, Hrun.
  assert (Hlast : increment (state_of i a b c e0 e1 e2)
                  = (Raise RuntimeError, state_of i a b c 0 0 0)).
  { apply increment_wraps; try done. fold N. lia. }
  assert (Hall : increments N (state_of i a b c 0 0 0)
                 = (List.app ((fun k => Ok (nth_sid (String a (String b (String c ""))) k))
                       <$> seq 1 (N - 1)) [Raise RuntimeError],
                    state_of i a b c 0 0 0)).
  { replace N with ((N - 1) + 1) at 1 by lia.
    rewrite increments_app, Hrun. cbn [fst snd increments].
    by rewrite Hlast. }
  split; [done|]. rewrite Hall. cbn [fst snd]. split; [done|]. split; [done|].
  apply NoDup_fmap_2_strong; [|apply NoDup_seq].
  intros k k' Hk Hk'. apply elem_of_seq in Hk, Hk'.
  apply nth_sid_inj; fold N; lia.
Qed.

Lemma ts6_increment_enumerates_witness :
  exists g, init sid_example_irc = Ok g
    /\ fst (increments 36 g)
       = List.app ((fun k => Ok (nth_sid "1#A" k)) <$> seq 1 35)
           [Raise RuntimeError].
Proof.
  destruct (TS6SidFacts.init_valid_template sid_example_irc "1#A" eq_refl eq_refl)
    as [g Hg].
  exists g. split; [exact Hg|].
  exact (proj1 (proj2 (ts6_increment_enumerates sid_example_irc "1#A" g eq_refl Hg))).
Defined.

End SidTemplateInit.

Module PartMoreFacts.
  Import StateFacts PartFacts StrFacts LowerFacts.

(** What one round of the TS6 loop does to a channel of the table. *)
Lemma ts6_part_channel_spec (st : Irc) (source channel : string) (c : IrcChannel) :
  channels st !! channel = Some c ->
  exists st', TS6.part_channel source channel st = (Ok tt, st')
    /\ sent st' = sent st
    /\ channels st' !! channel
       = (if bool_decide (c_users c ∖ {[source]} = ∅)
             && negb (TS6.is_permanent st c)
          then None else Some (removeuser source c)).
Proof.
  intros Hc. unfold TS6.part_channel, State.mbind. cbv beta.
  rewrite (channel_get_some _ _ _ Hc).
  unfold modify at 1. unfold P10.discard_channel, modify at 1.
  rewrite (channel_get_some _ _ (removeuser source c))
    by (cbn [channels set_users set_channels]; apply lookup_insert_eq).
  unfold State.get. cbv beta iota.
  replace (TS6.is_permanent _ (removeuser source c)) with (TS6.is_permanent st c)
    by reflexivity.
  change (c_users (removeuser source c)) with (c_users c ∖ {[source]}).
  destruct (bool_decide (c_users c ∖ {[source]} = ∅)),
    (TS6.is_permanent st c); cbn [negb orb andb]; unfold modify, ret;
    eexists; (split; [reflexivity|]); (split; [reflexivity|]);
    cbn [channels set_users set_channels];
    first [apply lookup_insert_eq | apply lookup_delete_eq].
Qed.

(** [handle_part] for one lower-case channel name is one round of the
    loop. *)
Lemma ts6_handle_part_one (st st' : Irc) (source command channel : string)
    (rest : list string) :
  toLower channel = channel -> Str.mem "," channel = false ->
  TS6.part_channel source channel st = (Ok tt, st') ->
  TS6.handle_part source command (channel :: rest) st
  = (Ok {| P10.pe_channels := [channel];
           P10.pe_text := match rest with r :: _ => r | [] => "" end |}, st').
Proof.
  intros Hlow Hcomma Hp.
  unfold TS6.handle_part, State.mbind, lift. cbn [item nth_error].
  rewrite Hlow, (split_without _ _ Hcomma). cbn [TS6.part_channels].
  unfold State.mbind. rewrite Hp. unfold ret. by destruct rest.
Qed.

Lemma p10_handle_part_one (st st' : Irc) (source command channel : string)
    (rest : list string) :
  toLower channel = channel -> Str.mem "," channel = false ->
  P10.part_channel source channel st = (Ok tt, st') ->
  P10.handle_part source command (channel :: rest) st
  = (Ok {| P10.pe_channels := [channel];
           P10.pe_text := match rest with r :: _ => r | [] => "" end |}, st').
Proof.
  intros Hlow Hcomma Hp.
  unfold P10.handle_part, State.mbind, lift. cbn [item nth_error].
  rewrite Hlow, (split_without _ _ Hcomma). cbn [P10.part_channels].
  unfold State.mbind. rewrite Hp. unfold ret. by destruct rest.
Qed.

(** A round of the TS6 loop never raises. *)
Lemma ts6_part_channel_total (st : Irc) (source channel : string) :
  exists st', TS6.part_channel source channel st = (Ok tt, st').
Proof.
  destruct (channels st !! channel) as [c|] eqn:Hc.
  - destruct (ts6_part_channel_spec st source channel c Hc) as (st' & Hp & _).
    by exists st'.
  - unfold TS6.part_channel, State.mbind. cbv beta.
    unfold channel_get at 1. rewrite Hc.
    unfold modify at 1. unfold P10.discard_channel, modify at 1.
    rewrite (channel_get_some _ _ (removeuser source (new_channel st)))
      by (cbn [channels set_users set_channels]; apply lookup_insert_eq).
    unfold State.get. cbv beta iota.
    match goal with |- context [if ?b then _ else _] => destruct b end;
      unfold modify, ret; by eexists.
Qed.

End PartMoreFacts.

Section PartAndKick.
Import StateFacts PartFacts PartMoreFacts KickFacts StrFacts LowerFacts Examples.

(** X6. In the TS6 module a PART removes the channel from the table exactly
    when the parting user was its last member and the channel does not
    carry the permanent mode; otherwise the channel stays, without the
    user and without the prefix modes the user held. Nothing is sent. *)
Theorem ts6_part_deletes_iff_empty_and_not_permanent
    (st : Irc) (source channel : string) (c : IrcChannel) :
  channels st !! channel = Some c ->
  toLower channel = channel ->
  Str.mem "," channel = false ->
  exists ev st',
    TS6.handle_part source "PART" [channel] st = (Ok ev, st')
    /\ (channels st' !! channel = None
        <-> c_users c ∖ {[source]} = ∅ /\ TS6.is_permanent st c = false)
    /\ (forall c', channels st' !! channel = Some c' -> c' = removeuser source c)
    /\ sent st' = sent st.
Proof.
  intros Hc Hlow Hcomma.
  destruct (ts6_part_channel_spec st source channel c Hc) as (st' & Hp & Hs & Hch).
  exists {| P10.pe_channels := [channel]; P10.pe_text := "" |}, st'.
  split; [by apply ts6_handle_part_one|].
  rewrite Hch. split; [|split; [|done]].
  - destruct (bool_decide_reflect (c_users c ∖ {[source]} = ∅)) as [He|Hne],
      (TS6.is_permanent st c); cbn [negb andb]; split; try done;
      intros [? ?]; done.
  - intros c'. by destruct (_ && _); intros [= <-].
Qed.

Lemma ts6_part_deletes_iff_empty_and_not_permanent_witness :
  exists ev st',
    TS6.handle_part "ABAAA" "PART" ["#c"] nefarious_irc = (Ok ev, st')
    /\ (channels st' !! "#c" = None
        <-> c_users permanent_channel ∖ {["ABAAA"]} = ∅
            /\ TS6.is_permanent nefarious_irc permanent_channel = false)
    /\ (forall c', channels st' !! "#c" = Some c'
                   -> c' = removeuser "ABAAA" permanent_channel)
    /\ sent st' = sent nefarious_irc.
Proof.
  apply (ts6_part_deletes_iff_empty_and_not_permanent nefarious_irc "ABAAA" "#c"
           permanent_channel); reflexivity.
Defined.

(** X7. An incoming KICK in the P10 module needs its three arguments: with
    channel, target and reason the target leaves the channel and a PART
    line of the target acknowledges the kick; with fewer arguments the
    handler raises [IndexError] before it changes or sends anything.
    (The TS6 handler takes a missing reason as the empty string.) *)
Theorem p10_handle_kick_acknowledges (st : Irc) (source command : string)
    (args : list string) :
  (forall channel target reason rest,
     args = channel :: target :: reason :: rest ->
     Str.mem "," channel = false ->
     exists st',
       P10.handle_kick source command args st
       = (Ok {| P10.ke_channel := toLower channel; P10.ke_target := target;
                P10.ke_text := reason |}, st')
       /\ sent st' = List.app (sent st)
                       [target ++ " L " ++ toLower channel ++ " :" ++ reason]
       /\ forall c', channels st' !! toLower channel = Some c' ->
                     target ∉ c_users c')
  /\ (length args < 3 ->
      P10.handle_kick source command args st = (Raise IndexError, st))
  /\ (forall ext channel target,
        args = [channel; target] -> Str.mem "," channel = false ->
        exists st',
          TS6.handle_kick ext source command args st
          = (Ok {| P10.ke_channel := toLower channel;
                   P10.ke_target := get_UID ext st target;
                   P10.ke_text := "" |}, st')).
Proof.
  split; [|split].
  - intros channel target reason rest -> Hcomma.
    destruct (p10_part_channel_removes st target (toLower channel))
      as (st' & Hp & Hs & Hm).
    unfold P10.handle_kick, State.mbind, lift. cbn [item nth_error].
    rewrite (p10_handle_part_one st st' target "KICK" (toLower channel) [reason]
               (toLower_idem _) ltac:(by rewrite toLower_comma) Hp).
    unfold P10.send_with_prefix, send, modify, ret. cbv beta iota.
    eexists. split; [reflexivity|]. cbn [sent set_sent channels].
    rewrite Hs. split; [reflexivity|exact Hm].
  - intros Hlen. unfold P10.handle_kick, State.mbind, lift.
    destruct args as [|a0 [|a1 [|a2 rest]]]; cbn [length] in Hlen; try lia;
      reflexivity.
  - intros ext channel target -> Hcomma.
    unfold TS6.handle_kick, State.mbind, lift, State.get. cbn [item nth_error].
    cbv beta iota.
    destruct (ts6_part_channel_total st (get_UID ext st target) (toLower channel))
      as [st' Hp].
    rewrite (ts6_handle_part_one st st' _ "KICK" (toLower channel) [""]
               (toLower_idem _) ltac:(by rewrite toLower_comma) Hp).
    unfold ret. by eexists.
Qed.

Lemma p10_handle_kick_acknowledges_witness :
  exists st',
    P10.handle_kick "XYAAA" "KICK" ["#C"; "ABAAA"; "bye"] nefarious_irc
    = (Ok {| P10.ke_channel := "#c"; P10.ke_target := "ABAAA";
             P10.ke_text := "bye" |}, st')
    /\ sent st' = ["ABAAA L #c :bye"]
    /\ forall c', channels st' !! "#c" = Some c' -> "ABAAA" ∉ c_users c'.
Proof.
  exact (proj1 (p10_handle_kick_acknowledges nefarious_irc "XYAAA" "KICK"
                  ["#C"; "ABAAA"; "bye"]) "#C" "ABAAA" "bye" [] eq_refl eq_refl).
Defined.

End PartAndKick.

Module JoinFacts.
  Import StateFacts PartFacts PartMoreFacts StrFacts LowerFacts P10More.

Lemma internal_client_user (st : Irc) (client : string) :
  isInternalClient st client = true ->
  exists u, users st !! client = Some u /\ isInternalServer st (u_server u) = true.
Proof.
  unfold isInternalClient, getServer.
  destruct (users st !! client) as [u|]; [|done]. cbn. by exists u.
Qed.

(** [self.channels[channel]] returns the entry and leaves it in the
    table. *)
Lemma channel_get_of (st : Irc) (ch : string) :
  exists st1, channel_get ch st = (Ok (channel_of st ch), st1)
    /\ channels st1 = <[ch := channel_of st ch]> (channels st)
    /\ users st1 = users st /\ servers st1 = servers st
    /\ sent st1 = sent st /\ clock st1 = clock st.
Proof.
  unfold channel_get, channel_of.
  destruct (channels st !! ch) as [c|] eqn:Hc; cbn [default]; eexists;
    (split; [reflexivity|]); repeat split.
  by rewrite insert_id.
Qed.

Lemma isInternalClient_ext (st st' : Irc) (client : string) :
  users st' = users st -> servers st' = servers st ->
  isInternalClient st' client = isInternalClient st client.
Proof.
  intros Hu Hs. unfold isInternalClient, getServer, isInternalServer.
  by rewrite Hu, Hs.
Qed.

(** Changing the channels of a user changes no answer of
    [isInternalClient]. *)
Lemma isInternalClient_channels (st st' : Irc) (client x : string)
    (u : IrcUser) (f : gset string -> gset string) :
  users st !! client = Some u ->
  users st' = <[client := set_u_channels f u]> (users st) ->
  servers st' = servers st ->
  isInternalClient st' x = isInternalClient st x.
Proof.
  intros Hu Hu' Hs. unfold isInternalClient, getServer, isInternalServer.
  rewrite Hu', Hs. destruct (decide (client = x)) as [->|Hne].
  - by rewrite lookup_insert_eq, Hu.
  - by rewrite lookup_insert_ne.
Qed.

(** The whole of [join] for an internal client. *)
Lemma join_run (st : Irc) (client channel : string) (u : IrcUser) :
  isInternalClient st client = true ->
  users st !! client = Some u ->
  exists st',
    join client channel st = (Ok tt, st')
    /\ sent st'
       = List.app (sent st)
           [client ++ " "
            ++ (if bool_decide (c_users (channel_of st (toLower channel)) = ∅)
                then "C " else "J ")
            ++ toLower channel ++ " "
            ++ Str.of_Z (c_ts (channel_of st (toLower channel)))]
    /\ channels st'
       = <[toLower channel :=
             set_c_users (fun s => s ∪ {[client]})
               (channel_of st (toLower channel))]> (channels st)
    /\ users st'
       = <[client := set_u_channels (fun s => s ∪ {[toLower channel]}) u]>
           (users st)
    /\ servers st' = servers st
    /\ clock st' = clock st.
Proof.
  intros Hint Hu. unfold join. set (ch := toLower channel).
  destruct (channel_get_of st ch) as (st1 & Hg & Hch1 & Hu1 & Hs1 & Hsent1 & Hck1).
  unfold State.mbind at 1. rewrite Hg.
  unfold State.mbind at 1. unfold State.get at 1. cbv beta iota.
  rewrite (isInternalClient_ext st st1 client Hu1 Hs1), Hint. cbn [negb].
  assert (Hc1 : channels st1 !! ch = Some (channel_of st ch))
    by (rewrite Hch1; apply lookup_insert_eq).
  unfold State.mbind at 1. rewrite (channel_get_some _ _ _ Hc1).
  set (line := client ++ " "
         ++ (if bool_decide (c_users (channel_of st ch) = ∅) then "C " else "J ")
         ++ ch ++ " " ++ Str.of_Z (c_ts (channel_of st ch))).
  assert (Hsend : (if bool_decide (c_users (channel_of st ch) = ∅)
                   then P10.send_with_prefix client
                          ("C " ++ ch ++ " " ++ Str.of_Z (c_ts (channel_of st ch)))
                   else P10.send_with_prefix client
                          ("J " ++ ch ++ " " ++ Str.of_Z (c_ts (channel_of st ch))))
                  st1
                  = (Ok tt, set_sent (fun l => List.app l [line]) st1)).
  { unfold line. by destruct (bool_decide _). }
  unfold State.mbind at 1. rewrite Hsend.
  unfold State.mbind at 1.
  rewrite (channel_get_some _ _ (channel_of st ch)) by done.
  unfold State.mbind at 1. unfold modify at 1.
  unfold State.mbind at 1. unfold user_get.
  cbn [users set_channels set_sent]. rewrite Hu1, Hu.
  unfold modify. eexists. split; [reflexivity|].
  cbn [sent channels users servers clock set_users set_channels set_sent].
  rewrite Hsent1, Hch1, Hu1, Hs1, Hck1.
  repeat split; try done. by rewrite insert_insert_eq.
Qed.

(** What one round of the P10 part loop does to the tables. *)
Lemma p10_part_channel_spec (st : Irc) (source channel : string) (c : IrcChannel) :
  channels st !! channel = Some c ->
  exists st', P10.part_channel source channel st = (Ok tt, st')
    /\ sent st' = sent st /\ servers st' = servers st /\ clock st' = clock st
    /\ channels st'
       = (if bool_decide (c_users c ∖ {[source]} = ∅)
          then delete channel (channels st)
          else <[channel := removeuser source c]> (channels st))
    /\ users st'
       = match users st !! source with
         | Some u => <[source := set_u_channels (fun s => s ∖ {[channel]}) u]>
                       (users st)
         | None => users st
         end.
Proof.
  intros Hc. unfold P10.part_channel, State.mbind. cbv beta.
  rewrite (channel_get_some _ _ _ Hc).
  unfold modify at 1. unfold P10.discard_channel, modify at 1.
  rewrite (channel_get_some _ _ (removeuser source c))
    by (cbn [channels set_users set_channels]; apply lookup_insert_eq).
  change (c_users (removeuser source c)) with (c_users c ∖ {[source]}).
  destruct (bool_decide (c_users c ∖ {[source]} = ∅)); unfold modify, ret;
    eexists; (split; [reflexivity|]);
    cbn [sent servers clock channels users set_users set_channels];
    repeat split.
  by rewrite delete_insert_eq.
Qed.

Lemma add_then_remove (s : gset string) (x : string) :
  x ∉ s -> (s ∪ {[x]}) ∖ {[x]} = s.
Proof.
  intros Hx. rewrite difference_union_distr_l_L, difference_diag_L.
  rewrite union_empty_r_L. apply difference_disjoint_L.
  by apply disjoint_singleton_r.
Qed.

Lemma set_u_channels_id (u : IrcUser) (f : gset string -> gset string) :
  f (u_channels u) = u_channels u -> set_u_channels f u = u.
Proof. intros H. destruct u. unfold set_u_channels. cbn in *. by rewrite H. Qed.

Lemma set_u_channels_twice (u : IrcUser) (f g : gset string -> gset string) :
  set_u_channels f (set_u_channels g u)
  = set_u_channels (fun s => f (g s)) u.
Proof. reflexivity. Qed.

End JoinFacts.

Section Join.
Import StateFacts PartFacts PartMoreFacts JoinFacts StrFacts LowerFacts P10More
  Examples.

(** X8. [join] by an internal client: the channel name is lower-cased; a
    channel without members (a new one included) is entered with a CREATE
    line, any other with a JOIN line, each carrying the timestamp of the
    channel; afterwards the client is a member of the channel and the
    channel is among the client's channels, the channel keeping its other
    members, its modes and its timestamp. *)
Theorem p10_join_creates_or_joins (st : Irc) (client channel : string) :
  isInternalClient st client = true ->
  exists u c' u' st',
    users st !! client = Some u
    /\ join client channel st = (Ok tt, st')
    /\ sent st'
       = List.app (sent st)
           [client ++ " "
            ++ (if bool_decide (c_users (channel_of st (toLower channel)) = ∅)
                then "C " else "J ")
            ++ toLower channel ++ " "
            ++ Str.of_Z (c_ts (channel_of st (toLower channel)))]
    /\ channels st' !! toLower channel = Some c'
    /\ c_users c' = c_users (channel_of st (toLower channel)) ∪ {[client]}
    /\ c_modes c' = c_modes (channel_of st (toLower channel))
    /\ c_ts c' = c_ts (channel_of st (toLower channel))
    /\ users st' !! client = Some u'
    /\ u_channels u' = u_channels u ∪ {[toLower channel]}
    /\ (forall ch, ch <> toLower channel -> channels st' !! ch = channels st !! ch)
    /\ (forall x, x <> client -> users st' !! x = users st !! x).
Proof.
  intros Hint. destruct (internal_client_user st client Hint) as (u & Hu & _).
  destruct (join_run st client channel u Hint Hu)
    as (st' & Hj & Hs & Hc & Hus & _).
  eexists u, _, _, st'. split; [done|]. split; [done|]. split; [done|].
  rewrite Hc, Hus. rewrite !lookup_insert_eq.
  repeat split; intros; by rewrite lookup_insert_ne.
Qed.

Lemma p10_join_creates_or_joins_witness :
  exists u c' u' st',
    users nefarious_irc !! "XYAAA" = Some u
    /\ join "XYAAA" "#New" nefarious_irc = (Ok tt, st')
    /\ sent st' = ["XYAAA C #new 1000"]
    /\ channels st' !! "#new" = Some c'
    /\ c_users c' = c_users (channel_of nefarious_irc "#new") ∪ {["XYAAA"]}
    /\ c_modes c' = c_modes (channel_of nefarious_irc "#new")
    /\ c_ts c' = c_ts (channel_of nefarious_irc "#new")
    /\ users st' !! "XYAAA" = Some u'
    /\ u_channels u' = u_channels u ∪ {["#new"]}
    /\ (forall ch, ch <> "#new" -> channels st' !! ch = channels nefarious_irc !! ch)
    /\ (forall x, x <> "XYAAA" -> users st' !! x = users nefarious_irc !! x).
Proof.
  exact (p10_join_creates_or_joins nefarious_irc "XYAAA" "#New" eq_refl).
Defined.

(** X9. A join followed by a part undoes itself: when an internal client
    joins a channel the table does not know and parts it again, the
    channel table and the user table are what they were, and the two
    lines sent are the CREATE and the PART of the client. *)
Theorem p10_join_then_part_restores (st : Irc) (client channel : string)
    (u : IrcUser) :
  isInternalClient st client = true ->
  users st !! client = Some u ->
  channels st !! toLower channel = None ->
  toLower channel ∉ u_channels u ->
  Str.mem "," channel = false ->
  exists st1 st2,
    join client channel st = (Ok tt, st1)
    /\ P10.part client channel None st1 = (Ok tt, st2)
    /\ channels st2 = channels st
    /\ users st2 = users st
    /\ servers st2 = servers st
    /\ sent st2
       = List.app (sent st)
           [client ++ " C " ++ toLower channel ++ " " ++ Str.of_Z (clock st);
            client ++ " L " ++ toLower channel].
Proof.
  intros Hint Hu Hnone Hnot Hcomma.
  destruct (join_run st client channel u Hint Hu)
    as (st1 & Hj & Hs1 & Hc1 & Hu1 & Hsv1 & Hck1).
  set (ch := toLower channel) in *.
  assert (Hof : channel_of st ch = new_channel st)
    by (unfold channel_of; by rewrite Hnone).
  rewrite Hof in Hs1, Hc1. cbn [c_users new_channel c_ts] in Hs1.
  rewrite bool_decide_eq_true_2 in Hs1 by done.
  exists st1.
  unfold P10.part. fold ch. unfold State.mbind at 1. unfold State.get at 1.
  cbv beta iota.
  rewrite (isInternalClient_channels st st1 client client u _ Hu Hu1 Hsv1).
  rewrite Hint. cbn [negb].
  unfold State.mbind at 1. unfold P10.send_with_prefix, send, modify at 1.
  set (st1' := set_sent (fun l => List.app l [client ++ " " ++ "L " ++ ch]) st1).
  assert (Hc1' : channels st1' !! ch
                 = Some (set_c_users (fun s => s ∪ {[client]}) (new_channel st)))
    by (cbn [st1' channels set_sent]; rewrite Hc1; apply lookup_insert_eq).
  destruct (p10_part_channel_spec st1' client ch _ Hc1')
    as (st2 & Hp & Hs2 & Hsv2 & _ & Hc2 & Hu2).
  unfold State.mbind at 1.
  rewrite (p10_handle_part_one st1' st2 client "PART" ch []
             (toLower_idem _) ltac:(by unfold ch; rewrite toLower_comma) Hp).
  unfold ret. exists st2. split; [done|]. split; [reflexivity|].
  split; [|split; [|split]].
  - rewrite Hc2. cbn [c_users set_c_users new_channel].
    rewrite bool_decide_eq_true_2
      by (apply add_then_remove, not_elem_of_empty).
    cbn [st1' channels set_sent]. rewrite Hc1. by apply delete_insert_id.
  - rewrite Hu2. cbn [st1' users set_sent]. rewrite Hu1, lookup_insert_eq.
    rewrite insert_insert_eq, set_u_channels_twice.
    rewrite set_u_channels_id by (by apply add_then_remove). by apply insert_id.
  - rewrite Hsv2. cbn [st1' servers set_sent]. done.
  - rewrite Hs2. cbn [st1' sent set_sent]. rewrite Hs1.
    by rewrite <- List.app_assoc.
Qed.

Lemma p10_join_then_part_restores_witness :
  exists st1 st2,
    join "XYAAA" "#New" nefarious_irc = (Ok tt, st1)
    /\ P10.part "XYAAA" "#New" None st1 = (Ok tt, st2)
    /\ channels st2 = channels nefarious_irc
    /\ users st2 = users nefarious_irc
    /\ servers st2 = servers nefarious_irc
    /\ sent st2 = ["XYAAA C #new 1000"; "XYAAA L #new"].
Proof.
  apply (p10_join_then_part_restores nefarious_irc "XYAAA" "#New"
           (user_on "XY" "XYAAA" "pylink" ∅));
    first [reflexivity | apply not_elem_of_empty].
Defined.

(** X10. [join] looks the channel up before it checks the client: for a
    client that is not an internal one it raises [LookupError] and sends
    nothing, but a channel name the table did not know is left in the
    table as an empty channel. The user table is untouched. *)
Theorem p10_join_outsider_leaves_channel_entry (st : Irc)
    (client channel : string) :
  isInternalClient st client = false ->
  exists st',
    join client channel st = (Raise LookupError, st')
    /\ sent st' = sent st
    /\ users st' = users st
    /\ channels st'
       = match channels st !! toLower channel with
         | Some _ => channels st
         | None => <[toLower channel := new_channel st]> (channels st)
         end.
Proof.
  intros Hint. unfold join, State.mbind, State.get, channel_get.
  destruct (channels st !! toLower channel) as [c|] eqn:Hc; cbv beta iota.
  - rewrite Hint. cbn [negb]. unfold raise. by eexists.
  - replace (isInternalClient _ client) with (isInternalClient st client)
      by reflexivity.
    rewrite Hint. cbn [negb]. unfold raise. by eexists.
Qed.

Lemma p10_join_outsider_leaves_channel_entry_witness :
  exists st',
    join "ABAAA" "#New" nefarious_irc = (Raise LookupError, st')
    /\ sent st' = []
    /\ users st' = users nefarious_irc
    /\ channels st' = <["#new" := new_channel nefarious_irc]>
                        (channels nefarious_irc).
Proof.
  exact (p10_join_outsider_leaves_channel_entry nefarious_irc "ABAAA" "#New"
           eq_refl).
Defined.

End Join.

Module HandleJoinFacts.
  Import StateFacts JoinFacts StrFacts LowerFacts P10More.

Lemma channel_of_ext (st st' : Irc) (ch : string) :
  channels st' !! ch = channels st !! ch -> clock st' = clock st ->
  channel_of st' ch = channel_of st ch.
Proof. intros Hc Hk. unfold channel_of, new_channel. by rewrite Hc, Hk. Qed.

(** One round of the [JOIN 0] loop. *)
Lemma leave_spec (st : Irc) (source ch : string) (u : IrcUser) :
  users st !! source = Some u ->
  exists st', leave source ch st = (Ok tt, st')
    /\ sent st' = sent st /\ servers st' = servers st /\ clock st' = clock st
    /\ channels st'
       = <[ch := set_c_users (fun s => s ∖ {[source]}) (channel_of st ch)]>
           (channels st)
    /\ users st'
       = <[source := set_u_channels (fun s => s ∖ {[ch]}) u]> (users st).
Proof.
  intros Hu. unfold leave.
  destruct (channel_get_of st ch) as (st1 & Hg & Hch1 & Hu1 & Hs1 & Hsent1 & Hck1).
  unfold State.mbind at 1. rewrite Hg.
  unfold State.mbind at 1. unfold modify at 1.
  unfold State.mbind at 1. unfold user_get.
  cbn [users set_channels]. rewrite Hu1, Hu. unfold modify.
  eexists. split; [reflexivity|].
  cbn [sent servers clock channels users set_users set_channels].
  rewrite Hsent1, Hs1, Hck1, Hch1, Hu1. repeat split; try done.
  by rewrite insert_insert_eq.
Qed.

(** The [JOIN 0] loop over a list of distinct channel names. *)
Lemma leave_all_spec (source : string) (l : list string) :
  forall (st : Irc) (u : IrcUser),
  users st !! source = Some u -> NoDup l ->
  exists st', leave_all source l st = (Ok tt, st')
    /\ sent st' = sent st /\ servers st' = servers st /\ clock st' = clock st
    /\ users st'
       = <[source := set_u_channels (fun _ => u_channels u ∖ list_to_set l) u]>
           (users st)
    /\ forall ch,
         channels st' !! ch
         = if bool_decide (ch ∈ l)
           then Some (set_c_users (fun s => s ∖ {[source]}) (channel_of st ch))
           else channels st !! ch.
Proof.
  induction l as [|c cs IH]; intros st u Hu Hnd.
  - exists st. cbn [leave_all]. split; [done|]. split; [done|].
    split; [done|]. split; [done|]. split.
    + rewrite set_u_channels_id, insert_id; [done..|].
      cbn [list_to_set]. apply difference_empty_L.
    + intros ch. by rewrite bool_decide_eq_false_2 by apply not_elem_of_nil.
  - apply NoDup_cons in Hnd as [Hc Hnd].
    destruct (leave_spec st source c u Hu)
      as (st1 & Hl & Hs1 & Hsv1 & Hck1 & Hch1 & Hu1).
    assert (Hu1' : users st1 !! source
                   = Some (set_u_channels (fun s => s ∖ {[c]}) u))
      by (rewrite Hu1; apply lookup_insert_eq).
    destruct (IH st1 _ Hu1' Hnd) as (st' & Hla & Hs' & Hsv' & Hck' & Hu' & Hch').
    exists st'. cbn [leave_all]. unfold State.mbind. rewrite Hl, Hla.
    split; [done|]. split; [congruence|]. split; [congruence|].
    split; [congruence|]. split.
    + rewrite Hu', Hu1, insert_insert_eq. f_equal.
      unfold set_u_channels. cbn [u_channels]. f_equal.
      cbn [list_to_set]. by rewrite difference_difference_l_L.
    + intros ch. rewrite Hch'.
      destruct (decide (ch = c)) as [->|Hne].
      * rewrite bool_decide_eq_false_2 by done.
        rewrite bool_decide_eq_true_2 by (apply elem_of_cons; by left).
        rewrite Hch1. apply lookup_insert_eq.
      * assert (Hsame : channels st1 !! ch = channels st !! ch)
          by (rewrite Hch1; by apply lookup_insert_ne).
        rewrite (channel_of_ext st st1 ch Hsame Hck1), Hsame.
        destruct (bool_decide_reflect (ch ∈ cs)) as [Hin|Hout].
        -- by rewrite bool_decide_eq_true_2 by (apply elem_of_cons; by right).
        -- rewrite bool_decide_eq_false_2; [done|].
           by intros [?|?]%elem_of_cons.
Qed.

End HandleJoinFacts.

Section HandleJoin.
Import StateFacts JoinFacts HandleJoinFacts StrFacts LowerFacts P10More Examples.

(** X11. A [JOIN 0] takes the user out of every channel it was in: the
    handler reports those channels, the user's channel set is empty
    afterwards and the user is a member of none of them. Only the member
    sets change: the channels stay in the table even when they are left
    empty, and keep their modes and prefix-mode lists. Nothing is
    sent. *)
Theorem p10_handle_join_zero_leaves_all (h : Helpers) (st : Irc)
    (source : string) (u : IrcUser) :
  users st !! source = Some u ->
  exists st' u',
    handle_join h source "JOIN" ["0"] st = (Ok (LeftAll (u_channels u)), st')
    /\ sent st' = sent st
    /\ users st' !! source = Some u'
    /\ u_channels u' = ∅
    /\ (forall ch, ch ∈ u_channels u ->
          channels st' !! ch
          = Some (set_c_users (fun s => s ∖ {[source]}) (channel_of st ch)))
    /\ (forall ch, ch ∉ u_channels u -> channels st' !! ch = channels st !! ch).
Proof.
  intros Hu.
  destruct (leave_all_spec source (elements (u_channels u)) st u Hu
              (NoDup_elements _))
    as (st' & Hla & Hs & _ & _ & Hus & Hch).
  exists st', (set_u_channels
                 (fun _ => u_channels u ∖ list_to_set (elements (u_channels u))) u).
  unfold handle_join, State.mbind, lift. cbn [nth_error item].
  cbv beta iota. cbn [String.eqb Ascii.eqb Bool.eqb andb].
  unfold user_get. rewrite Hu. rewrite Hla. unfold ret.
  split; [done|]. split; [done|].
  split; [rewrite Hus; apply lookup_insert_eq|].
  split.
  - cbn [u_channels set_u_channels]. rewrite list_to_set_elements_L.
    apply difference_diag_L.
  - split; intros ch Hin; rewrite Hch.
    + by rewrite bool_decide_eq_true_2 by (by apply elem_of_elements).
    + rewrite bool_decide_eq_false_2; [done|]. by rewrite elem_of_elements.
Qed.

Lemma p10_handle_join_zero_leaves_all_witness :
  exists st' u',
    handle_join {| isServerName := fun _ => true; conf_serverdesc := "";
                   updateTS3 := fun _ _ _ => ret tt |}
      "ABAAA" "JOIN" ["0"] nefarious_irc
    = (Ok (LeftAll {[ "#c" ]}), st')
    /\ sent st' = []
    /\ users st' !! "ABAAA" = Some u'
    /\ u_channels u' = ∅
    /\ (forall ch, ch ∈ ({[ "#c" ]} : gset string) ->
          channels st' !! ch
          = Some (set_c_users (fun s => s ∖ {["ABAAA"]})
                    (channel_of nefarious_irc ch)))
    /\ (forall ch, ch ∉ ({[ "#c" ]} : gset string) ->
          channels st' !! ch = channels nefarious_irc !! ch).
Proof.
  exact (p10_handle_join_zero_leaves_all _ nefarious_irc "ABAAA"
           (user_on "AB" "ABAAA" "alice" {[ "#c" ]}) eq_refl).
Defined.

(** X12. An incoming JOIN or CREATE without a timestamp makes the user a
    member of the lower-cased channel and adds the channel to the user's
    channels; the event carries the channel, the user, the modes of the
    channel and the current time, and nothing is sent. A user the table
    does not know makes the handler raise [KeyError], and a timestamp that
    is not an integer makes it raise [ValueError], in both cases before
    anything is changed. *)
Theorem p10_handle_join_adds_member (h : Helpers) (st : Irc)
    (source command channel : string) :
  (channel = "0" -> command <> "JOIN") ->
  (forall u, users st !! source = Some u ->
     exists st' c' u',
       handle_join h source command [channel] st
       = (Ok (Joined (toLower channel) [source]
                (c_modes (channel_of st (toLower channel))) (clock st)), st')
       /\ sent st' = sent st
       /\ channels st' !! toLower channel = Some c'
       /\ c_users c' = c_users (channel_of st (toLower channel)) ∪ {[source]}
       /\ users st' !! source = Some u'
       /\ u_channels u' = u_channels u ∪ {[toLower channel]})
  /\ (users st !! source = None ->
      handle_join h source command [channel] st = (Raise KeyError, st))
  /\ (forall ts, Text.int_of_str ts = Raise ValueError ->
      handle_join h source command [channel; ts] st = (Raise ValueError, st)).
Proof.
  intros Hzero.
  assert (Hbranch : String.eqb channel "0" && String.eqb command "JOIN" = false).
  { destruct (String.eqb_spec channel "0") as [->|]; [|done].
    destruct (String.eqb_spec command "JOIN") as [->|]; [|done].
    by destruct (Hzero eq_refl). }
  split; [|split].
  - intros u Hu. unfold handle_join, State.mbind, lift. cbn [nth_error item].
    cbv beta iota. rewrite Hbranch. unfold ret at 1. cbv beta iota.
    unfold user_get. rewrite Hu. unfold modify at 1.
    set (st1 := set_users _ st).
    destruct (channel_get_of st1 (toLower channel))
      as (st2 & Hg & Hch2 & Hu2 & Hs2 & Hsent2 & Hck2).
    rewrite Hg. unfold modify at 1.
    rewrite (channel_get_some _ _
               (set_c_users (fun s => s ∪ {[source]}) (channel_of st1 (toLower channel))))
      by (cbn [channels set_channels]; apply lookup_insert_eq).
    unfold State.get, ret. cbv beta iota.
    replace (channel_of st1 (toLower channel))
      with (channel_of st (toLower channel)) by reflexivity.
    eexists _, _, _. split.
    { cbn [c_modes set_c_users int_or clock set_channels]. by rewrite Hck2. }
    cbn [sent channels users set_channels]. rewrite Hsent2, Hu2.
    split; [done|]. split; [apply lookup_insert_eq|]. split; [done|].
    split; [cbn [st1 users set_users]; apply lookup_insert_eq|done].
  - intros Hu. unfold handle_join, State.mbind, lift. cbn [nth_error item].
    cbv beta iota. rewrite Hbranch. unfold ret at 1. cbv beta iota.
    unfold user_get. by rewrite Hu.
  - intros ts Hts. unfold handle_join, State.mbind, lift. cbn [nth_error].
    by rewrite Hts.
Qed.

Lemma p10_handle_join_adds_member_witness :
  exists st' c' u',
    handle_join {| isServerName := fun _ => true; conf_serverdesc := "";
                   updateTS3 := fun _ _ _ => ret tt |}
      "ABAAA" "JOIN" ["#New"] nefarious_irc
    = (Ok (Joined "#new" ["ABAAA"] ∅ 1000), st')
    /\ sent st' = []
    /\ channels st' !! "#new" = Some c'
    /\ c_users c' = c_users (channel_of nefarious_irc "#new") ∪ {["ABAAA"]}
    /\ users st' !! "ABAAA" = Some u'
    /\ u_channels u' = {[ "#c" ]} ∪ {[ "#new" ]}.
Proof.
  refine (proj1 (p10_handle_join_adds_member _ nefarious_irc "ABAAA" "JOIN" "#New" _)
            (user_on "AB" "ABAAA" "alice" {[ "#c" ]}) eq_refl).
  discriminate.
Defined.

End HandleJoin.

Module ReverseFacts.
  Import Base64 P10Sid P10IP Inet Str StrFacts Base64Facts InetFacts P10IPFacts
    DecimalFacts.

Lemma low_sextet_ext (x y : N) :
  (forall k, (k < 6)%N -> N.testbit x k = N.testbit y k) ->
  N.land x 63 = N.land y 63.
Proof.
  intros H. apply N.bits_inj. intros k.
  rewrite !N.land_spec. change 63%N with (N.ones 6). rewrite testbit_ones.
  destruct (N.ltb_spec k 6); [|by rewrite !andb_false_r].
  by rewrite H.
Qed.

Lemma below_6_cases (P : N -> Prop) :
  P 0%N -> P 1%N -> P 2%N -> P 3%N -> P 4%N -> P 5%N ->
  forall k, (k < 6)%N -> P k.
Proof.
  intros ? ? ? ? ? ? k Hk.
  assert (k = 0 \/ k = 1 \/ k = 2 \/ k = 3 \/ k = 4 \/ k = 5)%N as Hc by lia.
  repeat (destruct Hc as [->|Hc]; [assumption|]). by subst.
Qed.

Ltac low_sextet :=
  apply low_sextet_ext; apply below_6_cases; bits_at.

Lemma masked_byte_lt (x : N) : (N.land x 255 < 256)%N.
Proof. change 255%N with (N.ones 8). rewrite N.land_ones. by apply N.mod_lt. Qed.

Lemma sextet_is_masked (v : N) : (v < 64)%N -> v = N.land v 63.
Proof.
  intros H. change 63%N with (N.ones 6). rewrite N.land_ones.
  symmetry. by apply N.mod_small.
Qed.

(** The three bytes four sextets stand for. *)
Lemma sextets_of_bytes (w1 w2 w3 w4 : N) :
  let v1 := N.land w1 63 in let v2 := N.land w2 63 in
  let v3 := N.land w3 63 in let v4 := N.land w4 63 in
  let q := N.lor (N.shiftl v1 18) (N.lor (N.shiftl v2 12)
             (N.lor (N.shiftl v3 6) v4)) in
  let a := N.land (N.shiftr q 16) 255 in
  let b := N.land (N.shiftr q 8) 255 in
  let c := N.land q 255 in
  sextet (quantum a b c) 3 = v1 /\ sextet (quantum a b c) 2 = v2
  /\ sextet (quantum a b c) 1 = v3 /\ sextet (quantum a b c) 0 = v4.
Proof.
  cbv zeta. unfold sextet, quantum.
  change (6 * 3)%N with 18%N. change (6 * 2)%N with 12%N.
  change (6 * 1)%N with 6%N. change (6 * 0)%N with 0%N.
  repeat split.
  - transitivity (N.land (N.land w1 63) 63);
      [low_sextet|by rewrite <- N.land_assoc, N.land_diag].
  - transitivity (N.land (N.land w2 63) 63);
      [low_sextet|by rewrite <- N.land_assoc, N.land_diag].
  - transitivity (N.land (N.land w3 63) 63);
      [low_sextet|by rewrite <- N.land_assoc, N.land_diag].
  - transitivity (N.land (N.land w4 63) 63);
      [low_sextet|by rewrite <- N.land_assoc, N.land_diag].
Qed.

(** Every character of the P10 alphabet stands for six bits. *)
Lemma p10_char_enc (c : ascii) :
  p10_char c = true ->
  exists w, c = enc_char p10_altchars (N.land w 63).
Proof.
  intros Hc.
  exists (match std_val (translate p10_altchars c) with
          | Some v => v
          | None => 0%N
          end).
  destruct c as [[] [] [] [] [] [] [] []];
    first [discriminate Hc | vm_compute; reflexivity].
Qed.

Lemma first_of_four (c : ascii) :
  Str.mem c "ABCD" = true ->
  c = "A"%char \/ c = "B"%char \/ c = "C"%char \/ c = "D"%char.
Proof.
  cbn [Str.mem].
  destruct (Ascii.eqb_spec c "A") as [->|_]; [tauto|].
  destruct (Ascii.eqb_spec c "B") as [->|_]; [tauto|].
  destruct (Ascii.eqb_spec c "C") as [->|_]; [tauto|].
  destruct (Ascii.eqb_spec c "D") as [->|_]; [tauto|].
  intros H. discriminate H.
Qed.

(** Six characters of the P10 alphabet, with the two padding characters
    in front, are the Base64 text of six bytes; the first two bytes are
    zero when the first character is one of [A] to [D]. *)
Lemma six_chars_encode (e1 e2 e3 e4 e5 e6 : ascii) :
  p10_char e1 = true -> p10_char e2 = true -> p10_char e3 = true ->
  p10_char e4 = true -> p10_char e5 = true -> p10_char e6 = true ->
  exists x0 x1 a b c d,
    (x0 < 256)%N /\ (x1 < 256)%N /\ (a < 256)%N /\ (b < 256)%N
    /\ (c < 256)%N /\ (d < 256)%N
    /\ String "A" (String "A" (String e1 (String e2 (String e3
         (String e4 (String e5 (String e6 "")))))))
       = b64encode p10_altchars [x0; x1; a; b; c; d]
    /\ (Str.mem e1 "ABCD" = true -> x0 = 0%N /\ x1 = 0%N).
Proof.
  intros [w1 ->]%p10_char_enc [w2 ->]%p10_char_enc [w3 ->]%p10_char_enc
    [w4 ->]%p10_char_enc [w5 ->]%p10_char_enc [w6 ->]%p10_char_enc.
  destruct (sextets_of_bytes 0 0 w1 w2) as (Ha3 & Ha2 & Ha1 & Ha0).
  destruct (sextets_of_bytes w3 w4 w5 w6) as (Hb3 & Hb2 & Hb1 & Hb0).
  cbv zeta in *.
  eexists _, _, _, _, _, _.
  split; [apply masked_byte_lt|]. split; [apply masked_byte_lt|].
  split; [apply masked_byte_lt|]. split; [apply masked_byte_lt|].
  split; [apply masked_byte_lt|]. split; [apply masked_byte_lt|].
  split.
  - cbn [b64encode]. rewrite Ha3, Ha2, Ha1, Ha0, Hb3, Hb2, Hb1, Hb0.
    reflexivity.
  - intros Hfirst.
    assert (Hw : (N.land w1 63 = 0 \/ N.land w1 63 = 1
                  \/ N.land w1 63 = 2 \/ N.land w1 63 = 3)%N).
    { pose proof (SidEncodingFacts.sextet_mask_lt w1) as Hlt.
      apply first_of_four in Hfirst.
      destruct Hfirst as [H|[H|[H|H]]].
      - left. by apply (P10SidFacts.enc_char_inj _ 0%N Hlt).
      - right; left. by apply (P10SidFacts.enc_char_inj _ 1%N Hlt).
      - right; right; left. by apply (P10SidFacts.enc_char_inj _ 2%N Hlt).
      - right; right; right. by apply (P10SidFacts.enc_char_inj _ 3%N Hlt). }
    destruct Hw as [-> | [-> | [-> | ->]]]; split;
      (etransitivity; [|exact (N.land_0_l 255)]); low_byte.
Qed.

Lemma parse_octet_of_N (a : N) :
  (a < 256)%N -> parse_octet (of_N a) = Some a.
Proof.
  intros Ha.
  assert (Hc : forallb (fun n => match parse_octet (of_N (N.of_nat n)) with
                                 | Some v => (v =? N.of_nat n)%N
                                 | None => false
                                 end) (seq 0 256) = true)
    by (vm_compute; reflexivity).
  rewrite forallb_forall in Hc.
  specialize (Hc (N.to_nat a) ltac:(apply in_seq; lia)).
  rewrite N2Nat.id in Hc.
  destruct (parse_octet (of_N a)) as [v|]; [|discriminate].
  apply N.eqb_eq in Hc. by subst.
Qed.

Lemma of_N_no_dot (a : N) : mem "." (of_N a) = false.
Proof. apply digits_without; [done|]. apply of_N_spec. Qed.

(** A printed dotted quad is parsed back to its four bytes. *)
Lemma parse_ipv4_of_bytes (a b c d : N) :
  (a < 256)%N -> (b < 256)%N -> (c < 256)%N -> (d < 256)%N ->
  parse_ipv4 (of_N a ++ "." ++ of_N b ++ "." ++ of_N c ++ "." ++ of_N d)
  = Some [a; b; c; d].
Proof.
  intros Ha Hb Hc Hd. unfold parse_ipv4.
  change (of_N a ++ "." ++ of_N b ++ "." ++ of_N c ++ "." ++ of_N d)
    with (of_N a ++ String "." (of_N b ++ String "." (of_N c
            ++ String "." (of_N d)))).
  rewrite (split_at "." (of_N a)), (split_at "." (of_N b)),
    (split_at "." (of_N c)) by apply of_N_no_dot.
  rewrite split_without by apply of_N_no_dot.
  by rewrite !parse_octet_of_N.
Qed.

End ReverseFacts.

Section DecodeThenEncode.
Import Base64 P10Sid P10IP Inet Str StrFacts Base64Facts InetFacts P10IPFacts
  ReverseFacts.

(** X13. The IPv4 branch read the other way round: every string of six
    characters of the P10 alphabet decodes to a dotted quad, and encoding
    that address the way [spawnClient] does gives a string that decodes to
    the same address. The decoder drops the four high bits of the first
    character, so the encoding is the string itself when its first
    character is one of [A], [B], [C], [D]. *)
Theorem p10_ipv4_decode_then_encode (e : string) :
  String.length e = 6 ->
  Str.all p10_char e = true ->
  exists s e',
    decode_p10_ip e = Ok (Some s)
    /\ spawn_b64ip s = Ok e'
    /\ decode_p10_ip e' = Ok (Some s)
    /\ (Str.mem (match e with String c _ => c | "" => "A"%char end) "ABCD" = true
        -> e' = e).
Proof.
  intros Hlen Hall.
  destruct e as [|e1 [|e2 [|e3 [|e4 [|e5 [|e6 [|e7 e]]]]]]]; try discriminate Hlen.
  cbn [all] in Hall.
  apply andb_true_iff in Hall as [H1 Hall]. apply andb_true_iff in Hall as [H2 Hall].
  apply andb_true_iff in Hall as [H3 Hall]. apply andb_true_iff in Hall as [H4 Hall].
  apply andb_true_iff in Hall as [H5 Hall]. apply andb_true_iff in Hall as [H6 _].
  destruct (six_chars_encode e1 e2 e3 e4 e5 e6 H1 H2 H3 H4 H5 H6)
    as (x0 & x1 & a & b & c & d & Hx0 & Hx1 & Ha & Hb & Hc & Hd & Henc & Hzero).
  set (s := of_N a ++ "." ++ of_N b ++ "." ++ of_N c ++ "." ++ of_N d).
  exists s, (Str.drop 2 (b64encode p10_altchars [0; 0; a; b; c; d]%N)).
  assert (Hparse : parse_ipv4 s = Some [a; b; c; d])
    by (by apply parse_ipv4_of_bytes).
  split; [|split; [|split]].
  - unfold decode_p10_ip. cbn [String.length Nat.eqb].
    change ("AA" ++ ?x) with (String "A" (String "A" x)).
    rewrite Henc, b64_roundtrip_6 by done. reflexivity.
  - by apply spawn_b64ip_v4.
  - rewrite decode_v4 by done. reflexivity.
  - intros Hfirst. destruct (Hzero Hfirst) as [-> ->].
    rewrite <- Henc. reflexivity.
Qed.

Lemma p10_ipv4_decode_then_encode_witness :
  exists s e',
    decode_p10_ip "B]AAAB" = Ok (Some s)
    /\ spawn_b64ip s = Ok e'
    /\ decode_p10_ip e' = Ok (Some s)
    /\ (Str.mem "B" "ABCD" = true -> e' = "B]AAAB").
Proof.
  exact (p10_ipv4_decode_then_encode "B]AAAB" eq_refl eq_refl).
Defined.

End DecodeThenEncode.

Module AddressTextFacts.
  Import Base64 P10Sid P10IP Inet Str StrFacts Base64Facts InetFacts
    DecimalFacts AddressText.

Lemma digit_addr_char (c : ascii) : is_digit c = true -> addr_char c = true.
Proof. intros H. unfold addr_char. by rewrite H. Qed.

Lemma all_digits_addr (s : string) :
  all is_digit s = true -> all addr_char s = true.
Proof.
  induction s as [|c s IH]; [done|]. cbn [all].
  intros [Hc Hs]%andb_true_iff. by rewrite digit_addr_char, IH.
Qed.

Lemma of_N_addr (n : N) : all addr_char (of_N n) = true.
Proof. apply all_digits_addr, of_N_spec. Qed.

Lemma of_N_first (n : N) :
  exists c r, of_N n = String c r /\ is_digit c = true.
Proof.
  destruct (of_N_spec n) as (Hne & Hall & _).
  destruct (of_N n) as [|c r]; [done|].
  cbn [all] in Hall. apply andb_true_iff in Hall as [Hc _]. by exists c, r.
Qed.

Lemma inet_ntoa_text (bs : list N) (s : string) :
  inet_ntoa bs = Ok s ->
  all addr_char s = true
  /\ exists c r, s = String c r /\ is_digit c = true.
Proof.
  unfold inet_ntoa.
  destruct bs as [|a [|b [|c [|d [|? ?]]]]]; try discriminate.
  intros [= <-]. split.
  - rewrite !all_append, !of_N_addr. reflexivity.
  - destruct (of_N_first a) as (x & r & -> & Hx).
    rewrite append_cons. by eexists _, _.
Qed.

Lemma hex_char_plain (d : N) :
  (d < 16)%N ->
  addr_char (hex_char d) && negb (Ascii.eqb (hex_char d) ":") = true.
Proof.
  intros Hd. rewrite <- (N2Nat.id d).
  assert (Hk : N.to_nat d < 16) by lia.
  revert Hk. generalize (N.to_nat d). intros k Hk.
  do 16 (destruct k as [|k]; [by vm_compute|]). lia.
Qed.

Lemma hex_digits_plain (fuel : nat) :
  forall (n : N) (acc : string),
  all (fun c => addr_char c && negb (Ascii.eqb c ":")) acc = true ->
  all (fun c => addr_char c && negb (Ascii.eqb c ":")) (hex_digits fuel n acc)
  = true.
Proof.
  induction fuel as [|f IH]; intros n acc Hacc; [done|].
  cbn [hex_digits].
  assert (Hacc' : all (fun c => addr_char c && negb (Ascii.eqb c ":"))
                    (String (hex_char (n mod 16)) acc) = true).
  { cbn [all]. rewrite hex_char_plain by (by apply N.mod_lt). done. }
  destruct (n <? 16)%N; [done|]. by apply IH.
Qed.

Lemma hex_digits_nonempty (fuel : nat) (n : N) (acc : string) :
  acc <> "" -> hex_digits fuel n acc <> "".
Proof.
  revert n acc. induction fuel as [|f IH]; intros n acc Hacc; [done|].
  cbn [hex_digits]. destruct (n <? 16)%N; [done|]. by apply IH.
Qed.

Lemma all_weaken (p q : ascii -> bool) (s : string) :
  (forall c, p c = true -> q c = true) -> all p s = true -> all q s = true.
Proof.
  intros Hpq. induction s as [|c s IH]; [done|]. cbn [all].
  intros [Hc Hs]%andb_true_iff. by rewrite Hpq, IH.
Qed.

(** A group printed in hexadecimal: address text that does not start
    with a colon. *)
Lemma to_hex_text (n : N) :
  all addr_char (to_hex n) = true
  /\ exists c r, to_hex n = String c r /\ Ascii.eqb c ":" = false.
Proof.
  pose proof (hex_digits_plain (S (N.to_nat (N.log2 n))) n "" eq_refl) as H.
  fold (to_hex n) in H.
  assert (Hne : to_hex n <> "").
  { unfold to_hex. cbn [hex_digits]. destruct (n <? 16)%N; [done|].
    by apply hex_digits_nonempty. }
  split.
  - revert H. apply all_weaken. by intros c [? _]%andb_true_iff.
  - destruct (to_hex n) as [|c r]; [done|]. exists c, r. split; [done|].
    cbn [all] in H. apply andb_true_iff in H as [H _].
    apply andb_true_iff in H as [_ H]. by apply negb_true_iff.
Qed.

Lemma render_text (r : run) (ws0 bs : list N) (ws : list N) :
  forall i, all addr_char (render r ws0 bs i ws) = true.
Proof.
  induction ws as [|w ws IH]; intros i; [done|].
  cbn [render].
  destruct (in_run r i).
  - rewrite all_append, IH. by destruct (is_base r i).
  - rewrite all_append.
    assert (Hsep : all addr_char (if Nat.eqb i 0 then "" else ":") = true)
      by (by destruct (Nat.eqb i 0)).
    rewrite Hsep. cbn [andb].
    destruct (Nat.eqb i 6 && encapsulated r ws0).
    + destruct (inet_ntoa (skipn 12 bs)) as [s|e] eqn:Hs; [|done].
      by destruct (inet_ntoa_text _ _ Hs).
    + rewrite all_append, IH. by rewrite (proj1 (to_hex_text w)).
Qed.

Lemma render_nonempty (r : run) (ws0 bs : list N) (w : N) (ws : list N) :
  render r ws0 bs 0 (w :: ws) <> "".
Proof.
  cbn [render]. destruct (in_run r 0) eqn:Hin.
  - assert (Hb : is_base r 0 = true).
    { unfold in_run, is_base in *. destruct r as [[b l]|]; [|done].
      apply andb_true_iff in Hin as [Hle _]. apply Nat.leb_le in Hle.
      apply Nat.eqb_eq. lia. }
    by rewrite Hb.
  - cbn [Nat.eqb andb]. rewrite append_nil_l.
    destruct (to_hex_text w) as (_ & c & rest & -> & _). by rewrite append_cons.
Qed.

(** [inet_ntop] gives address text, and never the empty string. *)
Lemma inet_ntop6_text (bs : list N) (s : string) :
  inet_ntop6 bs = Ok s -> all addr_char s = true /\ s <> "".
Proof.
  unfold inet_ntop6. destruct (Nat.eqb (length bs) 16) eqn:Hlen; [|done].
  cbn [negb]. intros [= <-]. split.
  - rewrite all_append, render_text. by destruct (best_run _) as [[b l]|];
      [destruct (Nat.eqb (b + l) 8)|].
  - apply Nat.eqb_eq in Hlen.
    destruct bs as [|b0 [|b1 bs]]; try discriminate Hlen.
    cbn [words_of].
    match goal with
    | |- render ?r ?a ?b 0 (?w :: ?ws) ++ ?t <> "" =>
        pose proof (render_nonempty r a b w ws) as Hne;
        destruct (render r a b 0 (w :: ws)) as [|x rest];
          [by destruct Hne|rewrite append_cons; discriminate]
    end.
Qed.

End AddressTextFacts.

Section DecodedText.
Import P10IP Inet Str StrFacts Base64Facts AddressText AddressTextFacts.

(** X14. Whatever [decode_p10_ip] returns as an address is plain address
    text: it is not empty, it is made of digits, the letters [a] to [f],
    colons and dots only (so it holds no blank), and it does not begin
    with a colon, which is what the decoder's last step is there for: the
    address can stand as a parameter in the middle of an IRC line. *)
Theorem decode_p10_ip_gives_address_text (ip s : string) :
  decode_p10_ip ip = Ok (Some s) ->
  s <> ""
  /\ Str.startswith ":" s = false
  /\ Str.all addr_char s = true.
Proof.
  unfold decode_p10_ip. destruct (Nat.eqb (String.length ip) 6).
  - destruct (Base64.b64decode _ _) as [bs|]; [|done]. cbn [Py.bind].
    destruct (inet_ntoa (skipn 2 bs)) as [t|] eqn:Ht; [|done]. cbn [Py.bind].
    intros [= <-].
    destruct (inet_ntoa_text _ _ Ht) as (Hall & c & r & -> & Hc).
    split; [done|]. split; [|done].
    unfold startswith. cbn [String.prefix].
    destruct (ascii_dec ":" c) as [<-|]; [by vm_compute in Hc|done].
  - destruct (_ || _); [|done].
    destruct (if mem "_" ip then _ else _) as [[head tail]|]; [|done].
    cbn [Py.bind].
    destruct (decode_sections (chunks3 head) []) as [bh|]; [|done]. cbn [Py.bind].
    destruct (decode_sections (chunks3 tail) []) as [bt|]; [|done]. cbn [Py.bind].
    destruct (inet_ntop6 _) as [t|] eqn:Ht; [|done]. cbn [Py.bind].
    intros [= <-].
    destruct (inet_ntop6_text _ _ Ht) as [Hall Hne].
    destruct (startswith ":" t) eqn:Hst.
    + split; [done|]. split; [done|].
      change ("0" ++ t) with (String "0" t). cbn [all]. by rewrite Hall.
    + done.
Qed.

Lemma decode_p10_ip_gives_address_text_witness :
  "0::1" <> ""
  /\ Str.startswith ":" "0::1" = false
  /\ Str.all addr_char "0::1" = true.
Proof.
  apply (decode_p10_ip_gives_address_text "AAAAAAAAAAAAAAAAAAAAAAAB" "0::1").
  vm_compute. reflexivity.
Defined.

End DecodedText.

Module ModeFacts.
  Import StateFacts JoinFacts.

Lemma batch_count (n : nat) :
  0 < n -> (n + 11) / 12 = S ((n - 12 + 11) / 12).
Proof.
  intros Hn. destruct (Nat.le_gt_cases 12 n) as [Hge|Hlt].
  - replace (n + 11) with ((n - 12 + 11) + 1 * 12) by lia.
    rewrite Nat.div_add by lia. lia.
  - replace (n - 12 + 11) with 11 by lia.
    change (11 / 12) with 0.
    symmetry. apply (Nat.div_unique _ _ _ (n - 1)); lia.
Qed.

(** The [while modes[:12]] loop for a user target: one line for every
    batch of at most twelve modes. *)
Lemma mode_lines_user (ext : Externals) (numeric nick : string) (ts bufsize : Z)
    (fuel : nat) :
  forall (modes : list modepair) (st : Irc),
  length modes <= fuel ->
  exists (bs : list (list modepair)) (st' : Irc),
    P10.mode_lines ext fuel false numeric nick ts bufsize modes st = (Ok tt, st')
    /\ concat bs = modes
    /\ Forall (fun b => 0 < length b <= 12) bs
    /\ length bs = (length modes + 11) / 12
    /\ sent st'
       = List.app (sent st)
           ((fun b => numeric ++ " M " ++ nick ++ " " ++ joinModes ext b) <$> bs)
    /\ users st' = users st /\ channels st' = channels st
    /\ servers st' = servers st.
Proof.
  induction fuel as [|fuel IH]; intros modes st Hlen.
  - destruct modes; [|cbn in Hlen; lia].
    exists [], st. cbn [P10.mode_lines]. unfold ret.
    repeat split; try done. cbn [fmap list_fmap]. by rewrite List.app_nil_r.
  - destruct modes as [|m modes].
    { exists [], st. cbn [P10.mode_lines firstn]. unfold ret.
      repeat split; try done. cbn [fmap list_fmap]. by rewrite List.app_nil_r. }
    set (all := m :: modes) in *.
    assert (Hfirst : firstn 12 all = m :: firstn 11 modes) by reflexivity.
    destruct (IH (skipn 12 all)
                (set_sent (fun l => List.app l
                   [numeric ++ " " ++ "M " ++ nick ++ " "
                    ++ joinModes ext (firstn 12 all)]) st))
      as (bs & st' & Hrun & Hcat & Hall & Hcount & Hsent & Hu & Hc & Hs).
    { rewrite length_skipn. lia. }
    exists (firstn 12 all :: bs), st'.
    split.
    { cbn [P10.mode_lines]. rewrite Hfirst. rewrite <- Hfirst.
      unfold State.mbind at 1. unfold P10.send_with_prefix, send, modify at 1.
      exact Hrun. }
    split; [cbn [concat]; rewrite Hcat; apply firstn_skipn|].
    split.
    { constructor; [|done]. rewrite length_firstn. unfold all. cbn [length]. lia. }
    split.
    { cbn [length]. rewrite Hcount, length_skipn.
      symmetry. apply batch_count. unfold all. cbn [length]. lia. }
    split; [|done].
    rewrite Hsent. cbn [sent set_sent fmap list_fmap].
    by rewrite <- List.app_assoc.
Qed.

End ModeFacts.

Section ModeBatches.
Import StateFacts JoinFacts ModeFacts Examples.

(** X15. A mode change on a user is sent in batches of twelve: once the
    modes are applied, every mode of the list goes out exactly once and
    in order, at most twelve per line, each line being
    [<sender> M <nick of the target> <modes>]; a list of n modes takes
    the whole part of (n+11)/12 lines. A target that is neither a channel
    nor a known user fails the assertion before anything is applied or
    sent. *)
Theorem p10_mode_user_batches (ext : Externals) (st : Irc)
    (numeric target : string) (modes : list modepair) (ts : option Z) :
  isInternalClient st numeric || isInternalServer st numeric = true ->
  isChannel ext target = false ->
  (forall u st1,
     users st !! target = Some u ->
     applyModes ext target modes st = (Ok tt, st1) ->
     exists (bs : list (list modepair)) (st2 : Irc),
       P10.mode ext numeric target modes ts st = (Ok tt, st2)
       /\ concat bs = modes
       /\ Forall (fun b => 0 < length b <= 12) bs
       /\ length bs = (length modes + 11) / 12
       /\ sent st2
          = List.app (sent st1)
              ((fun b => numeric ++ " M " ++ u_nick u ++ " " ++ joinModes ext b)
                 <$> bs))
  /\ (users st !! target = None ->
      P10.mode ext numeric target modes ts st = (Raise AssertionError, st)).
Proof.
  intros Hint Hchan.
  assert (Hcheck : negb (isInternalClient st numeric)
                   && negb (isInternalServer st numeric) = false)
    by (destruct (isInternalClient st numeric), (isInternalServer st numeric);
        done).
  split.
  - intros u st1 Hu Happly.
    unfold P10.mode, State.mbind, State.get. cbv beta iota.
    rewrite Hcheck, Hchan, Hu. unfold ret at 1. cbv beta iota. rewrite Happly.
    destruct (mode_lines_user ext numeric (u_nick u) (int_or ts 0) 0
                (length modes) modes st1 (Nat.le_refl _))
      as (bs & st2 & Hrun & Hcat & Hall & Hcount & Hsent & _).
    by exists bs, st2.
  - intros Hu. unfold P10.mode, State.mbind, State.get. cbv beta iota.
    by rewrite Hcheck, Hchan, Hu.
Qed.

Lemma p10_mode_user_batches_witness :
  exists (bs : list (list modepair)) (st2 : Irc),
    P10.mode idle_ext "XYAAA" "ABAAA" (repeat ("+i", None) 13) None nefarious_irc
    = (Ok tt, st2)
    /\ concat bs = repeat ("+i", None) 13
    /\ Forall (fun b => 0 < length b <= 12) bs
    /\ length bs = 2
    /\ sent st2
       = List.app []
           ((fun b => "XYAAA" ++ " M " ++ "alice" ++ " " ++ joinModes idle_ext b)
              <$> bs).
Proof.
  exact (proj1 (p10_mode_user_batches idle_ext nefarious_irc "XYAAA" "ABAAA"
                  (repeat ("+i", None) 13) None eq_refl eq_refl)
           (user_on "AB" "ABAAA" "alice" {[ "#c" ]}) nefarious_irc
           eq_refl eq_refl).
Defined.

End ModeBatches.

Module SpawnFacts.
  Import StateFacts JoinFacts Inet Str StrFacts P10IP P10IPFacts InetFacts ExtLaws.

(** Text without a colon that is no dotted quad is no address. *)
Lemma partition_keeps_out (c sep : ascii) (s : string) :
  mem c s = false -> mem c (fst (partition sep s)) = false.
Proof.
  induction s as [|d s IH]; [done|]. cbn [mem partition].
  destruct (Ascii.eqb c d) eqn:Hcd; [done|]. intros Hs.
  destruct (Ascii.eqb d sep); [done|].
  destruct (partition sep s) as [a b]. cbn [fst mem] in *.
  rewrite Hcd. by apply IH.
Qed.

Lemma ip_address_rejects (ip : string) :
  parse_ipv4 ip = None -> mem ":" ip = false ->
  ip_address ip = Raise ValueError.
Proof.
  intros H4 Hc. unfold ip_address. rewrite H4.
  unfold parse_ipv6. destruct (mem "/" ip); [done|].
  unfold split_scope_id.
  pose proof (partition_keeps_out ":" "%" ip Hc) as Hp.
  destruct (partition "%" ip) as [addr [zone|]]; cbn [fst] in Hp.
  - destruct (is_empty zone || mem "%" zone); [done|].
    destruct (is_empty addr); [done|]. by rewrite (split_without _ _ Hp).
  - destruct (is_empty addr); [done|]. by rewrite (split_without _ _ Hp).
Qed.

(** [spawnClient] up to the encoding of the address: the user and the
    server's user list are in place, nothing is sent yet. *)
Lemma spawn_prefix (ext : Externals) (a : P10.spawn_args) (st st1 : Irc)
    (uid : string) (k : Irc -> result string -> result IrcUser * Irc) :
  quiet_apply ext ->
  isInternalServer st (str_or (P10.sa_server a) (sid st)) = true ->
  next_uid ext (str_or (P10.sa_server a) (sid st)) st = (Ok uid, st1) ->
  sent st1 = sent st -> servers st1 = servers st ->
  exists st3 s,
    sent st3 = sent st
    /\ servers st3 !! str_or (P10.sa_server a) (sid st) = Some s
    /\ uid ∈ s_users s /\ s_internal s = true
    /\ u_server <$> users st3 !! uid
       = Some (str_or (P10.sa_server a) (sid st))
    /\ P10.spawnClient ext a st
       = State.mbind (lift (spawn_b64ip (P10.sa_ip a)))
           (fun b64ip =>
              State.mbind
                (P10.send_with_prefix (str_or (P10.sa_server a) (sid st))
                   ("N " ++ P10.sa_nick a ++ " 1 "
                    ++ Str.of_Z (int_or (P10.sa_ts a) (clock st1)) ++ " "
                    ++ P10.sa_ident a ++ " " ++ P10.sa_host a ++ " "
                    ++ joinModes ext (P10.sa_modes a) ++ " " ++ b64ip ++ " "
                    ++ uid ++ " :"
                    ++ str_or (P10.sa_realname a) (conf_realname ext)))
                (fun _ => State.ret
                   {| u_nick := P10.sa_nick a;
                      u_ts := int_or (P10.sa_ts a) (clock st1);
                      u_uid := uid;
                      u_server := str_or (P10.sa_server a) (sid st);
                      u_ident := P10.sa_ident a; u_host := P10.sa_host a;
                      u_realhost := str_or (P10.sa_realhost a) (P10.sa_host a);
                      u_ip := P10.sa_ip a;
                      u_realname := str_or (P10.sa_realname a) (conf_realname ext);
                      u_channels := ∅; u_modes := ∅; u_away := "" |}))
           st3.
Proof.
  intros Hq Hint Hnext Hs1 Hsv1.
  set (server := str_or (P10.sa_server a) (sid st)) in *.
  unfold P10.spawnClient. fold server.
  unfold State.mbind at 1. unfold State.get at 1. cbv beta iota.
  fold server. rewrite Hint. cbn [negb].
  unfold State.mbind at 1. rewrite Hnext.
  unfold State.mbind at 1. unfold State.get at 1. cbv beta iota.
  unfold State.mbind at 1. unfold modify at 1.
  set (u := {| u_nick := P10.sa_nick a; u_ts := _; u_uid := uid |}).
  destruct (Hq uid (P10.sa_modes a) (set_users (insert uid u) st1))
    as (st2 & Happly & Hs2 & Hsv2 & Hu2).
  unfold State.mbind at 1. rewrite Happly.
  unfold State.mbind at 1. unfold State.get at 1. cbv beta iota.
  assert (Hsrv : exists s, servers st2 !! server = Some s /\ s_internal s = true).
  { rewrite Hsv2. cbn [servers set_users]. rewrite Hsv1.
    unfold isInternalServer in Hint.
    destruct (servers st !! server) as [s|]; [by exists s|done]. }
  destruct Hsrv as (s & Hsrv & Hsint). rewrite Hsrv.
  unfold State.mbind at 1. unfold modify at 1.
  eexists _, _. split; [|split; [|split; [|split; [|split; [|reflexivity]]]]].
  - cbn [sent set_servers]. rewrite Hs2. cbn [sent set_users]. done.
  - cbn [servers set_servers]. apply lookup_insert_eq.
  - cbn [s_users]. apply elem_of_union_r. by apply elem_of_singleton.
  - done.
  - cbn [users set_servers]. rewrite Hu2. cbn [users set_users].
    by rewrite lookup_insert_eq.
Qed.

End SpawnFacts.

Section SpawnClient.
Import StateFacts JoinFacts SpawnFacts Inet Str StrFacts P10IP P10IPFacts
  InetFacts ExtLaws Examples.

(** X16. [spawnClient] registers the client before it looks at the
    address: when the address is no dotted quad and holds no colon,
    [ip_address] raises [ValueError] once the user object is stored and
    the UID is in the user list of its server, and before the
    introduction is sent. The call fails, nothing goes out on the wire,
    and the state keeps a client the network never heard of. *)
Theorem p10_spawnClient_bad_ip_keeps_user (ext : Externals)
    (a : P10.spawn_args) (st st1 : Irc) (uid : string) :
  quiet_apply ext ->
  isInternalServer st (str_or (P10.sa_server a) (sid st)) = true ->
  next_uid ext (str_or (P10.sa_server a) (sid st)) st = (Ok uid, st1) ->
  sent st1 = sent st -> servers st1 = servers st ->
  parse_ipv4 (P10.sa_ip a) = None ->
  Str.mem ":" (P10.sa_ip a) = false ->
  exists st3 s,
    P10.spawnClient ext a st = (Raise ValueError, st3)
    /\ sent st3 = sent st
    /\ uid ∈ dom (users st3)
    /\ servers st3 !! str_or (P10.sa_server a) (sid st) = Some s
    /\ uid ∈ s_users s.
Proof.
  intros Hq Hint Hnext Hs1 Hsv1 H4 Hcolon.
  destruct (spawn_prefix ext a st st1 uid (fun st r => (Raise ValueError, st))
              Hq Hint Hnext Hs1 Hsv1)
    as (st3 & s & Hsent & Hsrv & Hin & _ & Huser & ->).
  exists st3, s. split.
  - unfold State.mbind, lift, spawn_b64ip.
    by rewrite (ip_address_rejects _ H4 Hcolon).
  - split; [done|]. split; [|done].
    apply elem_of_dom. destruct (users st3 !! uid); [done|discriminate].
Qed.

Lemma p10_spawnClient_bad_ip_keeps_user_witness :
  exists st3 s,
    P10.spawnClient idle_ext
      {| P10.sa_nick := "bot"; P10.sa_ident := "bot"; P10.sa_host := "example";
         P10.sa_realhost := None; P10.sa_modes := []; P10.sa_server := None;
         P10.sa_ip := "foo"; P10.sa_realname := None; P10.sa_ts := None |}
      nefarious_irc = (Raise ValueError, st3)
    /\ sent st3 = sent nefarious_irc
    /\ "XYAAB" ∈ dom (users st3)
    /\ servers st3 !! "XY" = Some s
    /\ "XYAAB" ∈ s_users s.
Proof.
  apply (p10_spawnClient_bad_ip_keeps_user idle_ext
           {| P10.sa_nick := "bot"; P10.sa_ident := "bot";
              P10.sa_host := "example"; P10.sa_realhost := None;
              P10.sa_modes := []; P10.sa_server := None; P10.sa_ip := "foo";
              P10.sa_realname := None; P10.sa_ts := None |}
           nefarious_irc nefarious_irc "XYAAB").
  - intros x m st. exists st. repeat split.
  - reflexivity.
  - reflexivity.
  - reflexivity.
  - reflexivity.
  - reflexivity.
  - reflexivity.
Defined.

(** X17. [spawnClient] with a dotted quad: the call returns the new user
    with the UID the generator gave, sends one [N] line from the spawning
    server, and the address field of that line decodes back to the address
    the client was spawned with. The new client counts as an internal
    client afterwards. *)
Theorem p10_spawnClient_sends_decodable_ip (ext : Externals)
    (a : P10.spawn_args) (st st1 : Irc) (uid : string) (o : list N) :
  quiet_apply ext ->
  isInternalServer st (str_or (P10.sa_server a) (sid st)) = true ->
  next_uid ext (str_or (P10.sa_server a) (sid st)) st = (Ok uid, st1) ->
  sent st1 = sent st -> servers st1 = servers st ->
  parse_ipv4 (P10.sa_ip a) = Some o ->
  exists st' u e,
    P10.spawnClient ext a st = (Ok u, st')
    /\ u_uid u = uid /\ u_ip u = P10.sa_ip a
    /\ u_server u = str_or (P10.sa_server a) (sid st)
    /\ sent st'
       = List.app (sent st)
           [str_or (P10.sa_server a) (sid st) ++ " N " ++ P10.sa_nick a ++ " 1 "
            ++ Str.of_Z (int_or (P10.sa_ts a) (clock st1)) ++ " "
            ++ P10.sa_ident a ++ " " ++ P10.sa_host a ++ " "
            ++ joinModes ext (P10.sa_modes a) ++ " " ++ e ++ " " ++ uid ++ " :"
            ++ str_or (P10.sa_realname a) (conf_realname ext)]
    /\ String.length e = 6
    /\ decode_p10_ip e = Ok (Some (P10.sa_ip a))
    /\ isInternalClient st' uid = true.
Proof.
  intros Hq Hint Hnext Hs1 Hsv1 H4.
  destruct (spawn_prefix ext a st st1 uid (fun st r => (Raise ValueError, st))
              Hq Hint Hnext Hs1 Hsv1)
    as (st3 & s & Hsent & Hsrv & Hin & Hsint & Huser & ->).
  destruct (parse_ipv4_print _ _ H4)
    as (x & y & z & w & -> & Hx & Hy & Hz & Hw & Hprint).
  eexists _, _,
    (Str.drop 2 (Base64.b64encode P10Sid.p10_altchars [0; 0; x; y; z; w]%N)).
  split.
  - unfold State.mbind at 1. unfold lift.
    rewrite (spawn_b64ip_v4 _ x y z w H4).
    unfold State.mbind, P10.send_with_prefix, send, modify, State.ret.
    reflexivity.
  - cbn [u_uid u_ip u_server sent set_sent]. rewrite Hsent.
    split; [done|]. split; [done|]. split; [done|].
    split; [reflexivity|].
    split; [reflexivity|]. split.
    + rewrite decode_v4 by done. by rewrite Hprint.
    + unfold isInternalClient, getServer. cbn [users set_sent].
      rewrite Huser. cbn [fmap option_fmap option_map].
      unfold isInternalServer. cbn [servers set_sent]. by rewrite Hsrv.
Qed.

Lemma p10_spawnClient_sends_decodable_ip_witness :
  exists st' u e,
    P10.spawnClient idle_ext
      {| P10.sa_nick := "bot"; P10.sa_ident := "bot"; P10.sa_host := "example";
         P10.sa_realhost := None; P10.sa_modes := []; P10.sa_server := None;
         P10.sa_ip := "192.0.2.7"; P10.sa_realname := None; P10.sa_ts := None |}
      nefarious_irc = (Ok u, st')
    /\ u_uid u = "XYAAB" /\ u_ip u = "192.0.2.7"
    /\ u_server u = "XY"
    /\ sent st'
       = List.app (sent nefarious_irc)
           ["XY" ++ " N " ++ "bot" ++ " 1 " ++ Str.of_Z 1000 ++ " "
            ++ "bot" ++ " " ++ "example" ++ " " ++ "+" ++ " " ++ e ++ " "
            ++ "XYAAB" ++ " :" ++ "PyLink"]
    /\ String.length e = 6
    /\ decode_p10_ip e = Ok (Some "192.0.2.7")
    /\ isInternalClient st' "XYAAB" = true.
Proof.
  apply (p10_spawnClient_sends_decodable_ip idle_ext
           {| P10.sa_nick := "bot"; P10.sa_ident := "bot";
              P10.sa_host := "example"; P10.sa_realhost := None;
              P10.sa_modes := []; P10.sa_server := None;
              P10.sa_ip := "192.0.2.7"; P10.sa_realname := None;
              P10.sa_ts := None |}
           nefarious_irc nefarious_irc "XYAAB" [192; 0; 2; 7]%N).
  - intros x m st. exists st. repeat split.
  - reflexivity.
  - reflexivity.
  - reflexivity.
  - reflexivity.
  - reflexivity.
Defined.

End SpawnClient.

Module SpawnServerFacts.
  Import P10Server.

(** The loop over [self.servers.values()] finds every entry of the
    table. *)
Lemma name_taken_false (st : Irc) (name : string) :
  name_taken st name = false ->
  forall k v, servers st !! k = Some v -> s_name v <> name.
Proof.
  unfold name_taken. intros H k v Hk Hn.
  assert (Hin : In v (snd <$> map_to_list (servers st))).
  { apply list_elem_of_In, list_elem_of_fmap. exists (k, v).
    split; [done|]. by apply elem_of_map_to_list. }
  assert (Ht : existsb (fun s => String.eqb name (s_name s))
                 (snd <$> map_to_list (servers st)) = true).
  { apply existsb_exists. exists v. split; [done|].
    apply String.eqb_eq. done. }
  congruence.
Qed.

(** Adding a server under a fresh SID and a fresh name keeps the table
    and the uniqueness of names. *)
Lemma insert_fresh_server (st st' : Irc) (sid : string) (srv : IrcServer) :
  servers st' = <[sid := srv]> (servers st) ->
  servers st !! sid = None ->
  (forall k v, servers st !! k = Some v -> s_name v <> s_name srv) ->
  (forall k v, servers st !! k = Some v -> servers st' !! k = Some v)
  /\ (names_unique st -> names_unique st').
Proof.
  intros Hs Hfresh Hname. split.
  - intros k v Hk. rewrite Hs. rewrite lookup_insert_ne; [done|].
    intros ->. congruence.
  - intros Hu a b x y. rewrite Hs.
    destruct (decide (a = sid)) as [->|Ha];
      destruct (decide (b = sid)) as [->|Hb]; [done| | |].
    + rewrite lookup_insert_eq, lookup_insert_ne by done.
      intros [= <-] Hy Hn. exfalso. by apply (Hname b y).
    + rewrite lookup_insert_eq, lookup_insert_ne by done.
      intros Hx [= <-] Hn. exfalso. by apply (Hname a x).
    + rewrite !lookup_insert_ne by done. apply Hu.
Qed.

End SpawnServerFacts.

Section SpawnServer.
Import P10Sid P10SidFacts SpawnServerFacts Examples Links.

(** X18. P10 [spawnServer] without a SID takes the next one of the
    generator. While the range lasts, the call either registers the server
    under that SID (an internal server with the lower-cased name, announced
    by one [SERVER] line from the uplink) or raises [ValueError] and leaves
    the network state alone; the assertion on the length cannot fail. In
    both cases the generator has moved on, so a refused call uses up its
    SID. Once the range is used up the call raises [ProtocolError] and
    changes nothing. *)
Theorem p10_spawnServer_takes_next_sid (h : Helpers) (name : string)
    (uplink desc : option string) (p : P10Server.Protocol) :
  let g := P10Server.sidgen p in
  let st := P10Server.irc p in
  let sid := sid_of (Z.to_N (currentnum g)) in
  let up := str_or uplink (State.sid st) in
  let d := str_or desc (str_or (serverdata st !! "serverdesc")
                          (conf_serverdesc h)) in
  let r := P10Server.spawnServer h name None uplink desc p in
  ((maxnum g < currentnum g)%Z -> r = (Raise ProtocolError, p))
  /\ ((0 <= currentnum g <= maxnum g)%Z -> (maxnum g < 2 ^ 32)%Z ->
      currentnum (P10Server.sidgen (snd r)) = (currentnum g + 1)%Z
      /\ P10Server.start_ts (snd r) = P10Server.start_ts p
      /\ (fst r = Raise ValueError /\ P10Server.irc (snd r) = st
          \/ fst r = Ok sid
             /\ servers st !! sid = None
             /\ servers (P10Server.irc (snd r))
                = <[sid := P10Server.new_server up (Text.lower name) d]>
                    (servers st)
             /\ isInternalServer (P10Server.irc (snd r)) sid = true
             /\ sent (P10Server.irc (snd r))
                = List.app (sent st)
                    [up ++ " SERVER " ++ Text.lower name ++ " 1 "
                     ++ Str.of_Z (P10Server.start_ts p) ++ " "
                     ++ Str.of_Z (clock st) ++ " P10 " ++ sid ++ "]]] +h6 :"
                     ++ d])).
Proof.
  intros g st sid up d r. split.
  - intros Hout. subst r. unfold P10Server.spawnServer.
    fold g. rewrite (next_sid_exhausted g Hout). by destruct p.
  - intros Hin Hmax. subst r. unfold P10Server.spawnServer. fold g st.
    rewrite (next_sid_ok g Hin Hmax). fold sid. cbv zeta.
    replace (String.length sid) with 2 by (symmetry; apply sid_of_length).
    cbn [Nat.eqb negb].
    fold up d.
    destruct (bool_decide (sid ∈ dom (servers st))) eqn:Hdom;
      [cbn; split; [lia|]; split; [done|]; by left|].
    destruct (P10Server.name_taken st (Text.lower name));
      [cbn; split; [lia|]; split; [done|]; by left|].
    destruct (isInternalServer st up);
      [|cbn; split; [lia|]; split; [done|]; by left].
    destruct (isServerName h (Text.lower name));
      [|cbn; split; [lia|]; split; [done|]; by left].
    cbn [negb fst snd P10Server.sidgen P10Server.irc P10Server.start_ts advance
         currentnum].
    split; [lia|]. split; [done|]. right. split; [done|].
    apply bool_decide_eq_false in Hdom.
    split; [by apply not_elem_of_dom|]. split; [done|].
    split; [|reflexivity].
    unfold isInternalServer. cbn [servers set_servers set_sent].
    by rewrite lookup_insert_eq.
Qed.

Lemma p10_spawnServer_takes_next_sid_witness :
  currentnum (P10Server.sidgen
    (snd (P10Server.spawnServer plain_helpers "Relay.Example" None None None
            p10_link))) = 1%Z
  /\ P10Server.start_ts
       (snd (P10Server.spawnServer plain_helpers "Relay.Example" None None None
               p10_link)) = 900%Z
  /\ (fst (P10Server.spawnServer plain_helpers "Relay.Example" None None None
             p10_link) = Raise ValueError
      /\ P10Server.irc
           (snd (P10Server.spawnServer plain_helpers "Relay.Example" None None
                   None p10_link)) = nefarious_irc
      \/ fst (P10Server.spawnServer plain_helpers "Relay.Example" None None None
                p10_link) = Ok "AA"
         /\ servers nefarious_irc !! "AA" = None
         /\ servers (P10Server.irc
               (snd (P10Server.spawnServer plain_helpers "Relay.Example" None
                       None None p10_link)))
            = <["AA" := P10Server.new_server "XY" "relay.example"
                          "PyLink Server"]> (servers nefarious_irc)
         /\ isInternalServer
              (P10Server.irc
                 (snd (P10Server.spawnServer plain_helpers "Relay.Example" None
                         None None p10_link))) "AA" = true
         /\ sent (P10Server.irc
               (snd (P10Server.spawnServer plain_helpers "Relay.Example" None
                       None None p10_link)))
            = ["XY SERVER relay.example 1 900 1000 P10 AA]]] +h6 :PyLink Server"]).
Proof.
  apply (proj2 (p10_spawnServer_takes_next_sid plain_helpers "Relay.Example"
                  None None p10_link)).
  - cbn. lia.
  - reflexivity.
Defined.

(** X19. TS6 [spawnServer] needs its SID from the caller: without one it
    asks the generator, whose [next_sid] raises [AttributeError], and
    nothing is changed. With a SID of three characters that is not in
    use, a name that is not in use, an internal uplink and a valid name,
    the call registers an internal server and announces it with one [SID]
    line from the uplink. *)
Theorem ts6_spawnServer_needs_explicit_sid (h : Helpers) (name : string)
    (uplink desc : option string) (p : TS6More.Protocol) :
  let st := TS6More.irc p in
  let up := str_or uplink (State.sid st) in
  let d := str_or desc (str_or (serverdata st !! "serverdesc")
                          (conf_serverdesc h)) in
  TS6More.spawnServer h name None uplink desc p = (Raise AttributeError, p)
  /\ forall sid : string,
       String.length sid = 3 ->
       servers st !! sid = None ->
       P10Server.name_taken st (Text.lower name) = false ->
       isInternalServer st up = true ->
       isServerName h (Text.lower name) = true ->
       exists p',
         TS6More.spawnServer h name (Some sid) uplink desc p = (Ok sid, p')
         /\ TS6More.sidgen p' = TS6More.sidgen p
         /\ servers (TS6More.irc p')
            = <[sid := P10Server.new_server up (Text.lower name) d]>
                (servers st)
         /\ isInternalServer (TS6More.irc p') sid = true
         /\ sent (TS6More.irc p')
            = List.app (sent st)
                [":" ++ up ++ " SID " ++ Text.lower name ++ " 1 " ++ sid
                 ++ " :" ++ d].
Proof.
  intros st up d. split.
  - unfold TS6More.spawnServer, TS6Sid.next_sid.
    rewrite TS6SidFacts.next_sid_loop_raises. by destruct p.
  - intros sid Hlen Hfresh Hname Hup Hvalid.
    unfold TS6More.spawnServer. fold st up d.
    rewrite Hlen. cbn [Nat.eqb negb].
    rewrite bool_decide_eq_false_2 by (by apply not_elem_of_dom).
    rewrite Hname, Hup, Hvalid. cbn [negb].
    eexists. split; [reflexivity|].
    cbn [TS6More.sidgen TS6More.irc servers set_servers set_sent sent].
    split; [done|]. split; [done|]. split; [|reflexivity].
    unfold isInternalServer. cbn [servers set_servers set_sent].
    by rewrite lookup_insert_eq.
Qed.

Lemma ts6_spawnServer_needs_explicit_sid_witness :
  exists p',
    TS6More.spawnServer plain_helpers "Relay.Example" (Some "9PZ") None None
      ts6_link = (Ok "9PZ", p')
    /\ TS6More.sidgen p' = TS6More.sidgen ts6_link
    /\ servers (TS6More.irc p')
       = <["9PZ" := P10Server.new_server "XY" "relay.example"
                      "PyLink Server"]> (servers nefarious_irc)
    /\ isInternalServer (TS6More.irc p') "9PZ" = true
    /\ sent (TS6More.irc p') = [":XY SID relay.example 1 9PZ :PyLink Server"].
Proof.
  apply (proj2 (ts6_spawnServer_needs_explicit_sid plain_helpers
                  "Relay.Example" None None ts6_link) "9PZ");
    reflexivity.
Defined.

(** X20. [spawnServer] never replaces or drops an entry of the server
    table, and it keeps the names of the table distinct, in both protocols
    and whatever the outcome: a call that raises leaves the network state
    as it was, and a call that returns a SID has added one internal
    server under a SID that was free, attached to an internal uplink. *)
Theorem spawnServer_keeps_server_table (h : Helpers) (name : string)
    (sid uplink desc : option string) :
  (forall p : P10Server.Protocol,
     let r := P10Server.spawnServer h name sid uplink desc p in
     let st := P10Server.irc p in
     let st' := P10Server.irc (snd r) in
     (forall k v, servers st !! k = Some v -> servers st' !! k = Some v)
     /\ (P10Server.names_unique st -> P10Server.names_unique st')
     /\ (forall e, fst r = Raise e -> st' = st)
     /\ (forall s, fst r = Ok s ->
           servers st !! s = None
           /\ exists srv, servers st' !! s = Some srv
                /\ s_internal srv = true
                /\ isInternalServer st (s_uplink srv) = true))
  /\ (forall p : TS6More.Protocol,
        let r := TS6More.spawnServer h name sid uplink desc p in
        let st := TS6More.irc p in
        let st' := TS6More.irc (snd r) in
        (forall k v, servers st !! k = Some v -> servers st' !! k = Some v)
        /\ (P10Server.names_unique st -> P10Server.names_unique st')
        /\ (forall e, fst r = Raise e -> st' = st)
        /\ (forall s, fst r = Ok s ->
              servers st !! s = None
              /\ exists srv, servers st' !! s = Some srv
                   /\ s_internal srv = true
                   /\ isInternalServer st (s_uplink srv) = true)).
Proof.
  split.
  - intros p r st st'. subst r st'. unfold P10Server.spawnServer. fold st.
    destruct (match sid with
              | Some s => (Ok s, P10Server.sidgen p)
              | None => next_sid (P10Server.sidgen p)
              end) as [[s|e] g]; [|by cbn].
    cbv zeta.
    destruct (Nat.eqb (String.length s) 2); [|by cbn].
    destruct (bool_decide (s ∈ dom (servers st))) eqn:Hdom; [by cbn|].
    destruct (P10Server.name_taken st (Text.lower name)) eqn:Hname; [by cbn|].
    destruct (isInternalServer st (str_or uplink (State.sid st))) eqn:Hup;
      [|by cbn].
    destruct (isServerName h (Text.lower name)); [|by cbn].
    cbn [negb fst snd P10Server.irc].
    apply bool_decide_eq_false in Hdom.
    assert (Hfresh : servers st !! s = None) by (by apply not_elem_of_dom).
    match goal with
    | |- context [set_servers (insert s ?srv) ?x] =>
        destruct (insert_fresh_server st (set_servers (insert s srv) x) s srv
                    eq_refl Hfresh) as [Hkeep Huniq]
    end.
    { cbn [s_name P10Server.new_server]. intros k v Hk.
      exact (name_taken_false st _ Hname k v Hk). }
    split; [done|]. split; [done|]. split; [done|].
    intros s' [= <-]. split; [done|].
    eexists. cbn [servers set_servers set_sent].
    rewrite lookup_insert_eq. split; [reflexivity|]. by cbn.
  - intros p r st st'. subst r st'. unfold TS6More.spawnServer. fold st.
    destruct (match sid with
              | Some s => (Ok s, TS6More.sidgen p)
              | None => TS6Sid.next_sid (TS6More.sidgen p)
              end) as [[s|e] g]; [|by cbn].
    cbv zeta.
    destruct (Nat.eqb (String.length s) 3); [|by cbn].
    destruct (bool_decide (s ∈ dom (servers st))) eqn:Hdom; [by cbn|].
    destruct (P10Server.name_taken st (Text.lower name)) eqn:Hname; [by cbn|].
    destruct (isInternalServer st (str_or uplink (State.sid st))) eqn:Hup;
      [|by cbn].
    destruct (isServerName h (Text.lower name)); [|by cbn].
    cbn [negb fst snd TS6More.irc].
    apply bool_decide_eq_false in Hdom.
    assert (Hfresh : servers st !! s = None) by (by apply not_elem_of_dom).
    match goal with
    | |- context [set_servers (insert s ?srv) ?x] =>
        destruct (insert_fresh_server st (set_servers (insert s srv) x) s srv
                    eq_refl Hfresh) as [Hkeep Huniq]
    end.
    { cbn [s_name P10Server.new_server]. intros k v Hk.
      exact (name_taken_false st _ Hname k v Hk). }
    split; [done|]. split; [done|]. split; [done|].
    intros s' [= <-]. split; [done|].
    eexists. cbn [servers set_servers set_sent].
    rewrite lookup_insert_eq. split; [reflexivity|]. by cbn.
Qed.

Lemma spawnServer_keeps_server_table_witness :
  P10Server.names_unique
    (P10Server.irc
       (snd (P10Server.spawnServer plain_helpers "Relay.Example" None None None
               p10_link)))
  /\ P10Server.names_unique
       (TS6More.irc
          (snd (TS6More.spawnServer plain_helpers "Relay.Example" (Some "9PZ")
                  None None ts6_link))).
Proof.
  assert (Hu : P10Server.names_unique nefarious_irc).
  { intros a b x y Ha Hb Hn. cbn [servers nefarious_irc] in Ha, Hb.
    apply lookup_insert_Some in Ha as [[<- <-]|[? Ha]];
      apply lookup_insert_Some in Hb as [[<- <-]|[? Hb]]; try done.
    - apply lookup_singleton_Some in Hb as [<- <-]. discriminate Hn.
    - apply lookup_singleton_Some in Ha as [<- <-]. discriminate Hn.
    - apply lookup_singleton_Some in Ha as [<- <-].
      apply lookup_singleton_Some in Hb as [<- <-]. done. }
  pose proof (spawnServer_keeps_server_table plain_helpers "Relay.Example"
                None None None) as [H10 _].
  pose proof (spawnServer_keeps_server_table plain_helpers "Relay.Example"
                (Some "9PZ") None None) as [_ H6].
  split.
  - exact (proj1 (proj2 (H10 p10_link)) Hu).
  - exact (proj1 (proj2 (H6 ts6_link)) Hu).
Defined.

End SpawnServer.

Module TopicFacts.
  Import StateFacts.

(** Reading the old topic of a channel and storing a new one: the entry
    of the table is the old entry, or a fresh channel, with the topic
    replaced. *)
Lemma store_topic (st : Irc) (ch text : string) {A}
    (k : string -> M A) :
  State.mbind (channel_get ch) (fun c =>
    State.mbind (channel_get ch) (fun c' =>
      State.mbind (modify (set_channels (insert ch (set_c_topic text c'))))
        (fun _ => k (c_topic c)))) st
  = k (c_topic (channel_of st ch))
      (set_channels (insert ch (set_c_topic text (channel_of st ch))) st).
Proof.
  unfold State.mbind, channel_get, channel_of, modify.
  destruct (channels st !! ch) as [c|] eqn:Hc; cbn [default].
  - by rewrite Hc.
  - cbn [channels set_channels]. rewrite lookup_insert_eq.
    f_equal. unfold set_channels. cbn. by rewrite insert_insert_eq.
Qed.

End TopicFacts.

Section Topic.
Import StateFacts TopicFacts P10More.

(** X21. The P10 [handle_topic] takes the last argument as the topic and
    stores it (marking the topic as set, and creating the channel when the
    table does not have it) before it reads the setter. With the channel
    as its only argument the handler has by then made the channel argument
    itself the topic, and raises [IndexError]; with no argument it raises
    [IndexError] and changes nothing. Otherwise the event carries the
    lower-cased channel, the second argument as setter, the new topic and
    the topic the channel had before. *)
Theorem p10_handle_topic_stores_last_argument (st : Irc)
    (source command a0 : string) (rest : list string) :
  let ch := toLower a0 in
  let text := List.last (a0 :: rest) "" in
  handle_topic source command (a0 :: rest) st
  = (match rest with
     | setter :: _ =>
         Ok {| te_channel := ch; te_setter := setter; te_text := text;
               te_oldtopic := c_topic (channel_of st ch) |}
     | [] => Raise IndexError
     end,
     set_channels (insert ch (set_c_topic text (channel_of st ch))) st)
  /\ handle_topic source command [] st = (Raise IndexError, st).
Proof.
  intros ch text. split; [|reflexivity].
  unfold handle_topic.
  change (State.mbind (lift (item (a0 :: rest) 0)) ?k st) with (k a0 st).
  cbv beta. fold ch text.
  rewrite (store_topic st ch text
             (fun old => State.mbind (lift (item (a0 :: rest) 1))
                (fun setter => State.ret
                   {| te_channel := ch; te_setter := setter; te_text := text;
                      te_oldtopic := old |}))).
  by destruct rest.
Qed.

(** X22. The TS6 [handle_topic] takes the second argument as the topic,
    whatever follows it, and reads it before it touches the channel: with
    fewer than two arguments it raises [IndexError] and changes nothing.
    Otherwise the topic of the lower-cased channel is replaced and marked
    as set, and the event names the sender as setter and carries the old
    topic. *)
Theorem ts6_handle_topic_stores_second_argument (st : Irc)
    (numeric command : string) (args : list string) :
  TS6More.handle_topic numeric command args st
  = match args with
    | a0 :: text :: _ =>
        (Ok {| te_channel := toLower a0; te_setter := numeric;
               te_text := text;
               te_oldtopic := c_topic (channel_of st (toLower a0)) |},
         set_channels (insert (toLower a0)
                         (set_c_topic text (channel_of st (toLower a0)))) st)
    | _ => (Raise IndexError, st)
    end.
Proof.
  destruct args as [|a0 [|text rest]]; [reflexivity|reflexivity|].
  unfold TS6More.handle_topic.
  change (State.mbind (lift (item (a0 :: text :: rest) 0)) ?k st)
    with (k a0 st).
  cbv beta.
  change (State.mbind (lift (item (a0 :: text :: rest) 1)) ?k st)
    with (k text st).
  cbv beta.
  exact (store_topic st (toLower a0) text
           (fun old => State.ret
              {| te_channel := toLower a0; te_setter := numeric;
                 te_text := text; te_oldtopic := old |})).
Qed.

End Topic.

Section NickAndSave.
Import StateFacts TS6More Examples.

(** X23. The TS6 [handle_nick] changes the nick before it reads the
    timestamp: for a known user and a first argument, a missing second
    argument raises [IndexError] and one that is no integer raises
    [ValueError], in both cases with the new nick already stored and the
    old timestamp kept. With an integer the user gets the new nick and
    the timestamp, and the event carries both nicks. An unknown sender
    raises [KeyError], and no argument at all [IndexError], with nothing
    changed. *)
Theorem ts6_handle_nick_renames_before_timestamp (st : Irc)
    (numeric command : string) (args : list string) :
  (users st !! numeric = None ->
   handle_nick numeric command args st = (Raise KeyError, st))
  /\ (forall u, users st !! numeric = Some u ->
      handle_nick numeric command args st
      = match args with
        | [] => (Raise IndexError, st)
        | newnick :: more =>
            let renamed :=
              set_users (insert numeric (set_u_nick newnick (u_ts u) u)) st in
            match more with
            | [] => (Raise IndexError, renamed)
            | a1 :: _ =>
                match Text.int_of_str a1 with
                | Raise e => (Raise e, renamed)
                | Ok ts =>
                    (Ok {| ne_newnick := newnick; ne_oldnick := u_nick u;
                           ne_ts := ts |},
                     set_users (insert numeric (set_u_nick newnick ts u)) st)
                end
            end
        end).
Proof.
  split.
  - intros Hu. unfold handle_nick, State.mbind, user_get. by rewrite Hu.
  - intros u Hu. unfold handle_nick.
    unfold State.mbind at 1. unfold user_get at 1. rewrite Hu.
    destruct args as [|newnick more]; [reflexivity|].
    change (State.mbind (lift (item (newnick :: more) 0)) ?k st)
      with (k newnick st).
    cbv beta. unfold State.mbind at 1. unfold modify at 1.
    destruct more as [|a1 more]; [reflexivity|].
    change (State.mbind (lift (item (newnick :: a1 :: more) 1)) ?k ?s)
      with (k a1 s).
    cbv beta zeta. unfold State.mbind at 1. unfold lift at 1.
    destruct (Text.int_of_str a1) as [ts|e]; [|reflexivity].
    unfold State.mbind, user_get, modify, State.ret.
    cbn [users set_users]. rewrite lookup_insert_eq.
    f_equal. unfold set_users. cbn. by rewrite insert_insert_eq.
Qed.

Lemma ts6_handle_nick_renames_before_timestamp_witness :
  handle_nick "ABAAA" "NICK" ["alice2"; "soon"] nefarious_irc
  = (Raise ValueError,
     set_users (insert "ABAAA"
                  (set_u_nick "alice2" 0 (user_on "AB" "ABAAA" "alice" {[ "#c" ]})))
       nefarious_irc).
Proof.
  exact (proj2 (ts6_handle_nick_renames_before_timestamp nefarious_irc
                  "ABAAA" "NICK" ["alice2"; "soon"])
           (user_on "AB" "ABAAA" "alice" {[ "#c" ]}) eq_refl).
Defined.

(** X24. [handle_save] gives the saved user its UID as nick and the
    timestamp 100, and reports the nick the user had. After a nick change
    this undoes the change: the user a [NICK] renamed carries its UID as
    nick once it is saved, and the event of the save names the nick the
    change had given. An unknown target raises [KeyError] and a missing
    argument [IndexError], with nothing changed. *)
Theorem ts6_handle_save_resets_nick (st : Irc) (numeric command : string) :
  handle_save numeric command [] st = (Raise IndexError, st)
  /\ (forall user rest, users st !! user = None ->
      handle_save numeric command (user :: rest) st = (Raise KeyError, st))
  /\ (forall user rest u, users st !! user = Some u ->
      handle_save numeric command (user :: rest) st
      = (Ok {| se_target := user; se_ts := 100; se_oldnick := u_nick u |},
         set_users (insert user (set_u_nick user 100 u)) st))
  /\ (forall user u newnick tsarg ts, users st !! user = Some u ->
      Text.int_of_str tsarg = Ok ts ->
      State.mbind (handle_nick user "NICK" [newnick; tsarg])
        (fun _ => handle_save numeric command [user]) st
      = (Ok {| se_target := user; se_ts := 100; se_oldnick := newnick |},
         set_users (insert user (set_u_nick user 100 u)) st)).
Proof.
  assert (Hsave : forall st0 user rest u, users st0 !! user = Some u ->
            handle_save numeric command (user :: rest) st0
            = (Ok {| se_target := user; se_ts := 100; se_oldnick := u_nick u |},
               set_users (insert user (set_u_nick user 100 u)) st0)).
  { intros st0 user rest u Hu. unfold handle_save.
    change (State.mbind (lift (item (user :: rest) 0)) ?k st0) with (k user st0).
    cbv beta. unfold State.mbind, user_get, modify, State.ret. rewrite Hu.
    cbn [users set_users]. rewrite lookup_insert_eq.
    f_equal. unfold set_users. cbn. by rewrite insert_insert_eq. }
  split; [reflexivity|]. split; [|split].
  - intros user rest Hu. unfold handle_save.
    change (State.mbind (lift (item (user :: rest) 0)) ?k st) with (k user st).
    cbv beta. unfold State.mbind, user_get. by rewrite Hu.
  - intros user rest u Hu. by apply Hsave.
  - intros user u newnick tsarg ts Hu Hts.
    unfold State.mbind at 1.
    replace (handle_nick user "NICK" [newnick; tsarg] st)
      with (Ok {| ne_newnick := newnick; ne_oldnick := u_nick u; ne_ts := ts |},
            set_users (insert user (set_u_nick newnick ts u)) st).
    + rewrite (Hsave _ user [] (set_u_nick newnick ts u))
        by (cbn [users set_users]; apply lookup_insert_eq).
      f_equal. unfold set_users. cbn. by rewrite insert_insert_eq.
    + unfold handle_nick.
      unfold State.mbind at 1. unfold user_get at 1. rewrite Hu.
      change (State.mbind (lift (item [newnick; tsarg] 0)) ?k st)
        with (k newnick st).
      cbv beta. unfold State.mbind at 1. unfold modify at 1.
      change (State.mbind (lift (item [newnick; tsarg] 1)) ?k ?s)
        with (k tsarg s).
      cbv beta. unfold State.mbind at 1. unfold lift at 1. rewrite Hts.
      unfold State.mbind, user_get, modify, State.ret.
      cbn [users set_users]. rewrite lookup_insert_eq.
      f_equal. unfold set_users. cbn. by rewrite insert_insert_eq.
Qed.

Lemma ts6_handle_save_resets_nick_witness :
  State.mbind (handle_nick "ABAAA" "NICK" ["alice2"; "1433728673"])
    (fun _ => handle_save "AB" "SAVE" ["ABAAA"]) nefarious_irc
  = (Ok {| se_target := "ABAAA"; se_ts := 100; se_oldnick := "alice2" |},
     set_users (insert "ABAAA"
                  (set_u_nick "ABAAA" 100
                     (user_on "AB" "ABAAA" "alice" {[ "#c" ]})))
       nefarious_irc).
Proof.
  exact (proj2 (proj2 (proj2 (ts6_handle_save_resets_nick nefarious_irc
                                "AB" "SAVE")))
           "ABAAA" (user_on "AB" "ABAAA" "alice" {[ "#c" ]}) "alice2"
           "1433728673" 1433728673%Z eq_refl eq_refl).
Defined.

End NickAndSave.

Module SlashFacts.
  Import Relay Str StrFacts Base64Facts RelayFacts.

Lemma mem_append (c : ascii) (s t : string) :
  mem c (s ++ t) = mem c s || mem c t.
Proof.
  induction s as [|d s IH]; [done|]. rewrite append_cons. cbn [mem].
  destruct (Ascii.eqb c d); [done|]. exact IH.
Qed.

Lemma mem_take (c : ascii) (n : nat) (s : string) :
  mem c s = false -> mem c (take n s) = false.
Proof.
  revert s. induction n as [|n IH]; intros [|d s]; cbn [take mem]; try done.
  destruct (Ascii.eqb c d); [done|]. apply IH.
Qed.

Lemma mem_upto (c : ascii) (i : Z) (s : string) :
  mem c s = false -> mem c (upto i s) = false.
Proof. intros H. unfold upto. destruct (0 <=? i)%Z; by apply mem_take. Qed.

Lemma mem_replaced (a b : ascii) (s : string) :
  a <> b -> mem a (replace_char a b s) = false.
Proof.
  intros Hne. induction s as [|c s IH]; [done|]. cbn [replace_char mem].
  destruct (Ascii.eqb_spec c a) as [->|Hc].
  - destruct (Ascii.eqb_spec a b); [done|exact IH].
  - destruct (Ascii.eqb_spec a c) as [->|_]; [done|exact IH].
Qed.

(** On charybdis neither the separator nor the nick keeps a slash. *)
Lemma effective_no_slash (irc : Network) (s : string) :
  protoname irc = "charybdis" -> mem "/" (effective irc s) = false.
Proof.
  intros Hp. unfold effective. rewrite Hp. cbn [String.eqb].
  replace ("charybdis" =? "charybdis") with true by reflexivity.
  by apply mem_replaced.
Qed.

Lemma tag_with_no_slash (irc : Network) (netname sep nick : string) :
  mem "/" netname = false -> mem "/" sep = false -> mem "/" nick = false ->
  mem "/" (tag_with irc netname sep nick) = false.
Proof.
  intros Hn Hs Hk. unfold tag_with.
  rewrite !mem_append, Hn, Hs, !orb_false_r.
  apply mem_upto, mem_upto.
  destruct (starts_with_digit nick); [|done].
  rewrite mem_append. by rewrite Hk.
Qed.

(** The loop returns the nick it was given or one a nested call made. *)
Lemma retry_loop_keeps (P : string -> Prop) (irc : Network) (sep : string)
    (again : string -> result string) (n : nat) :
  (forall s r, again s = Ok r -> P r) ->
  forall nick r, P nick -> retry_loop irc sep again n nick = Ok r -> P r.
Proof.
  intros Hagain. induction n as [|n IH]; intros nick r Hnick;
    cbn [retry_loop]; destruct (truthy (nickToUid irc nick)).
  - discriminate.
  - destruct (_ <=? _)%Z; [|discriminate]. by intros [= <-].
  - destruct (last_char sep); [|discriminate].
    destruct (again _) as [nick'|] eqn:Ha; [|discriminate].
    apply IH. by apply (Hagain _ _ Ha).
  - destruct (_ <=? _)%Z; [|discriminate]. by intros [= <-].
Qed.

End SlashFacts.

Section CharybdisNicks.
Import Relay Str StrFacts RelayFacts SlashFacts RelayNets.

(** X25. On a charybdis network [normalizeNick] returns no nick with a
    slash in it, whatever separator it is called with and however many
    nested calls it takes, as long as the name of the source network has
    none: the slashes of the nick and of the separator become bars. The
    network name goes into the nick as it is. *)
Theorem normalizeNick_charybdis_has_no_slash (fuel : nat) (irc : Network)
    (netname nick sep r : string) :
  protoname irc = "charybdis" ->
  Str.mem "/" netname = false ->
  normalizeNick fuel irc netname nick sep = Ok r ->
  Str.mem "/" r = false.
Proof.
  intros Hp Hn. revert sep r.
  induction fuel as [|fuel IH]; intros sep r; [discriminate|].
  cbn [normalizeNick]. unfold tagged.
  apply (retry_loop_keeps (fun x => mem "/" x = false)).
  - intros s x. apply IH.
  - apply tag_with_no_slash; [done|by apply effective_no_slash..].
Qed.

Lemma normalizeNick_charybdis_has_no_slash_witness :
  normalizeNick 5 charybdis_net "net" "a/b" "/" = Ok "a|b||net"
  /\ Str.mem "/" "a|b||net" = false.
Proof.
  split; [reflexivity|].
  exact (normalizeNick_charybdis_has_no_slash 5 charybdis_net "net" "a/b" "/"
           "a|b||net" eq_refl eq_refl eq_refl).
Defined.

End CharybdisNicks.

Module RelayDBFacts.
  Import RelayDB LowerFacts.

Lemma lower_idem (s : string) : Text.lower (Text.lower s) = Text.lower s.
Proof. exact (toLower_idem s). Qed.

(** ** Keys *)

Lemma keys_change (db : database) (key : chanpair) (f : dbentry -> dbentry) :
  (change db key f).*1 = db.*1.
Proof.
  induction db as [|[k e] db IH]; [done|]. cbn [change].
  destruct (bool_decide (k = key)); cbn; [done|]. by rewrite IH.
Qed.

Lemma has_key_change (db : database) (key : chanpair)
    (f : dbentry -> dbentry) (pair : chanpair) :
  has_key (change db key f) pair = has_key db pair.
Proof. unfold has_key. by rewrite keys_change. Qed.

Lemma lookup_has_key (db : database) (key : chanpair) :
  has_key db key = bool_decide (is_Some (lookup db key)).
Proof.
  unfold has_key. induction db as [|[k e] db IH]; cbn [lookup fmap list_fmap].
  - rewrite bool_decide_eq_false_2 by (apply not_elem_of_nil).
    by rewrite bool_decide_eq_false_2 by (by intros [? ?]).
  - destruct (decide (k = key)) as [->|Hne].
    + rewrite (bool_decide_eq_true_2 (key = key)) by done.
      rewrite bool_decide_eq_true_2 by (cbn; apply elem_of_cons; by left).
      by rewrite bool_decide_eq_true_2 by (by eexists).
    + rewrite (bool_decide_eq_false_2 (k = key)) by done.
      rewrite <- IH. apply bool_decide_ext. cbn. rewrite elem_of_cons.
      split; [intros [?|?]; [congruence|done]|by right].
Qed.

(** ** Holders of a pair *)

Lemma first_holder_none (db : database) (pair : chanpair) :
  first_holder db pair = None -> holders db pair = [].
Proof.
  unfold holders. induction db as [|[k e] db IH]; [done|].
  cbn [first_holder List.filter snd].
  destruct (bool_decide (pair ∈ links e)); [done|]. exact IH.
Qed.

Lemma first_holder_some (db : database) (pair key : chanpair) :
  first_holder db pair = Some key -> holders db pair <> [].
Proof.
  unfold holders. induction db as [|[k e] db IH]; [done|].
  cbn [first_holder List.filter snd].
  destruct (bool_decide (pair ∈ links e)); [done|]. exact IH.
Qed.

Lemma below_refl (db : database) : below db db.
Proof. induction db; constructor; [done|done]. Qed.

Lemma below_keys (db' db : database) : below db' db -> db'.*1 = db.*1.
Proof.
  induction 1 as [|[k' e'] [k e] ? ? [Hk _] _ IH]; [done|].
  cbn in *. by rewrite Hk, IH.
Qed.

Lemma below_holders (db' db : database) (pair : chanpair) :
  below db' db -> length (holders db' pair) <= length (holders db pair).
Proof.
  unfold holders.
  induction 1 as [|[k' e'] [k e] ? ? [_ Hl] _ IH]; [done|].
  cbn [List.filter snd] in *.
  destruct (bool_decide (pair ∈ links e')) eqn:H'.
  - apply bool_decide_eq_true in H'.
    rewrite bool_decide_eq_true_2 by (by apply Hl). cbn. lia.
  - destruct (bool_decide (pair ∈ links e)); cbn; lia.
Qed.

Lemma below_exclusive (db' db : database) :
  below db' db -> exclusive db -> exclusive db'.
Proof.
  intros Hb Hx pair. specialize (Hx pair).
  pose proof (below_holders _ _ pair Hb).
  unfold has_key in *. rewrite (below_keys _ _ Hb). lia.
Qed.

Lemma delete_sublist (db : database) (key : chanpair) :
  sublist (delete db key) db.
Proof.
  induction db as [|[k e] db IH]; [done|]. cbn [delete].
  destruct (bool_decide (k = key)); [apply sublist_cons; reflexivity|].
  by apply sublist_skip.
Qed.

Lemma delete_exclusive (db : database) (key : chanpair) :
  exclusive db -> exclusive (delete db key).
Proof.
  intros Hx pair. specialize (Hx pair).
  pose proof (delete_sublist db key) as Hsub.
  assert (Hh : length (holders (delete db key) pair)
               <= length (holders db pair)).
  { unfold holders. clear Hx.
    induction Hsub as [|[k e] ? ? _ IH|[k e] ? ? _ IH]; [done| |];
      cbn [List.filter snd]; destruct (bool_decide (pair ∈ links e));
      cbn [length]; lia. }
  assert (Hk : has_key (delete db key) pair = true -> has_key db pair = true).
  { unfold has_key. intros H%bool_decide_eq_true. apply bool_decide_eq_true.
    eapply elem_of_sublist; [exact H|]. by apply fmap_sublist. }
  destruct (has_key (delete db key) pair).
  - rewrite Hk in Hx by done. lia.
  - destruct (has_key db pair); lia.
Qed.

(** ** Adding a link and taking it away *)

Lemma add_then_drop (s : gset chanpair) (pair : chanpair) :
  pair ∉ s -> (s ∪ {[pair]}) ∖ {[pair]} = s.
Proof.
  intros H. rewrite difference_union_distr_l_L, difference_diag_L.
  rewrite union_empty_r_L. apply difference_disjoint_L.
  by apply disjoint_singleton_r.
Qed.

Lemma drop_below (s : gset chanpair) (pair : chanpair) : s ∖ {[pair]} ⊆ s.
Proof. by apply subseteq_difference_l. Qed.

Lemma add_elsewhere (s : gset chanpair) (pair q : chanpair) :
  q <> pair -> q ∈ s ∪ {[pair]} <-> q ∈ s.
Proof.
  intros Hne. rewrite elem_of_union, elem_of_singleton.
  split; [intros [?|?]; [done|congruence]|by left].
Qed.

Lemma with_links_id (e : dbentry) (f : gset chanpair -> gset chanpair) :
  f (links e) = links e -> with_links f e = e.
Proof. intros H. destruct e. unfold with_links. cbn in *. by rewrite H. Qed.

Lemma change_elsewhere (db : database) (key pair : chanpair)
    (f : dbentry -> dbentry) :
  (forall e, pair ∈ links (f e) <-> pair ∈ links e) ->
  first_holder (change db key f) pair = first_holder db pair
  /\ length (holders (change db key f) pair) = length (holders db pair).
Proof.
  intros Hf. unfold holders.
  induction db as [|[k e] db [IH1 IH2]]; [done|].
  cbn [change]. destruct (bool_decide (k = key));
    cbn [first_holder List.filter snd].
  - rewrite (bool_decide_ext _ _ (Hf e)).
    by destruct (bool_decide (pair ∈ links e)).
  - destruct (bool_decide (pair ∈ links e)); cbn [length]; by rewrite ?IH1, ?IH2.
Qed.

Lemma change_add_link (db : database) (key pair : chanpair) (e0 : dbentry) :
  lookup db key = Some e0 ->
  first_holder db pair = None ->
  first_holder (change db key (with_links (fun s => s ∪ {[pair]}))) pair
  = Some key
  /\ length (holders (change db key (with_links (fun s => s ∪ {[pair]}))) pair)
     = 1
  /\ unlink_first (change db key (with_links (fun s => s ∪ {[pair]}))) pair
     = Some db.
Proof.
  unfold holders. induction db as [|[k e] db IH]; [done|].
  cbn [lookup first_holder change].
  destruct (bool_decide (pair ∈ links e)) eqn:Hin; [done|].
  apply bool_decide_eq_false in Hin.
  destruct (bool_decide (k = key)) eqn:Hk.
  - apply bool_decide_eq_true in Hk as ->. intros _ Hnone.
    cbn [first_holder unlink_first List.filter snd links with_links].
    rewrite bool_decide_eq_true_2
      by (apply elem_of_union_r; by apply elem_of_singleton).
    split; [done|]. split.
    + cbn [length]. pose proof (first_holder_none _ _ Hnone) as Hh.
      unfold holders in Hh. by rewrite Hh.
    + f_equal. f_equal. f_equal. destruct e as [c l b]. unfold with_links.
      cbn in *. f_equal. by apply add_then_drop.
  - intros Hl Hnone. destruct (IH Hl Hnone) as (IH1 & IH2 & IH3).
    cbn [first_holder unlink_first List.filter snd].
    rewrite bool_decide_eq_false_2 by done.
    split; [done|]. split; [done|]. by rewrite IH3.
Qed.

Lemma unlink_first_below (db db' : database) (pair : chanpair) :
  unlink_first db pair = Some db' -> below db' db.
Proof.
  revert db'. induction db as [|[k e] db IH]; intros db'; [done|].
  cbn [unlink_first]. destruct (bool_decide (pair ∈ links e)).
  - intros [= <-]. constructor; [|apply below_refl].
    split; [done|]. cbn. apply drop_below.
  - destruct (unlink_first db pair) as [r|]; [|done]. intros [= <-].
    constructor; [done|]. by apply IH.
Qed.

Lemma unlink_first_none (db : database) (pair : chanpair) :
  first_holder db pair = None -> unlink_first db pair = None.
Proof.
  induction db as [|[k e] db IH]; [done|]. cbn [first_holder unlink_first].
  destruct (bool_decide (pair ∈ links e)); [done|]. intros H.
  by rewrite (IH H).
Qed.

Lemma store_existing_below (db : database) (key : chanpair) (e : dbentry) :
  has_key db key = true -> links e = ∅ -> below (store db key e) db.
Proof.
  unfold has_key. intros Hk He. apply bool_decide_eq_true in Hk.
  induction db as [|[k e'] db IH]; [by apply elem_of_nil in Hk|].
  cbn [store]. destruct (bool_decide (k = key)) eqn:Heq.
  - constructor; [|apply below_refl]. split; [done|]. cbn.
    rewrite He. apply empty_subseteq.
  - apply bool_decide_eq_false in Heq. constructor; [done|]. apply IH.
    cbn in Hk. apply elem_of_cons in Hk as [?|?]; [congruence|done].
Qed.

Lemma store_new (db : database) (key : chanpair) (e : dbentry) :
  has_key db key = false -> store db key e = List.app db [(key, e)].
Proof.
  unfold has_key. intros Hk. apply bool_decide_eq_false in Hk.
  induction db as [|[k e'] db IH]; [done|]. cbn [store].
  rewrite bool_decide_eq_false_2 by (intros ->; apply Hk; cbn; apply elem_of_cons; by left).
  cbn. f_equal. apply IH. intros H. apply Hk. cbn. apply elem_of_cons. by right.
Qed.

Lemma lookup_store (db : database) (key : chanpair) (e : dbentry) :
  lookup (store db key e) key = Some e
  /\ has_key (store db key e) key = true
  /\ forall other, other <> key ->
       lookup (store db key e) other = lookup db other.
Proof.
  split; [|split].
  - induction db as [|[k e'] db IH]; cbn [store lookup].
    + by rewrite bool_decide_eq_true_2.
    + destruct (bool_decide (k = key)) eqn:Hk; cbn [lookup]; by rewrite Hk.
  - unfold has_key. apply bool_decide_eq_true.
    induction db as [|[k e'] db IH]; cbn [store].
    + cbn. apply elem_of_cons. by left.
    + destruct (bool_decide (k = key)) eqn:Hk; cbn; apply elem_of_cons.
      * apply bool_decide_eq_true in Hk. by left.
      * by right.
  - intros other Hne. induction db as [|[k e'] db IH]; cbn [store lookup].
    + by rewrite bool_decide_eq_false_2.
    + destruct (bool_decide (k = key)) eqn:Hk; cbn [lookup].
      * apply bool_decide_eq_true in Hk as ->.
        by rewrite bool_decide_eq_false_2.
      * by rewrite IH.
Qed.

(** ** The loops of the owner's [delink] *)

Lemma delink_links_below (w : World) (remote : string)
    (todo : list chanpair) :
  forall e, links (snd (fst (delink_links w remote todo e))) ⊆ links e.
Proof.
  induction todo as [|l todo IH]; intros e; [done|]. cbn [delink_links].
  destruct (String.eqb (fst l) remote); [|apply IH].
  destruct (bool_decide (remote ∈ w_networks w)); [|cbn; apply drop_below].
  destruct (removeChannel w remote (snd l)); [|cbn; apply drop_below].
  specialize (IH (with_links (fun s => s ∖ {[l]}) e)).
  destruct (delink_links w remote todo _) as [[o e2] evs2].
  cbn in *. etransitivity; [exact IH|apply drop_below].
Qed.

Lemma delink_all_below (w : World) (remote : string) (db : database) :
  below (snd (fst (delink_all w remote db))) db.
Proof.
  induction db as [|[k e] db IH]; [constructor|]. cbn [delink_all].
  pose proof (delink_links_below w remote (w_iter w (links e)) e) as Hl.
  destruct (delink_links w remote (w_iter w (links e)) e) as [[o e'] evs].
  destruct o as [err|].
  - cbn. constructor; [done|apply below_refl].
  - destruct (delink_all w remote db) as [[o2 rest'] evs2]. cbn in *.
    by constructor.
Qed.

Lemma delink_links_done (w : World) (remote : string) (chans : list string)
    (todo : list chanpair) :
  w_autojoin w remote = Some chans ->
  remote ∈ w_networks w ->
  forall e, exists evs,
    delink_links w remote todo e
    = (None,
       with_links (fun s => s ∖ list_to_set
                     (List.filter (fun l => String.eqb (fst l) remote) todo))
         e,
       evs).
Proof.
  intros Hauto Hnet. induction todo as [|l todo IH]; intros e.
  - exists []. cbn [delink_links List.filter list_to_set]. f_equal. f_equal.
    symmetry. apply with_links_id. apply difference_empty_L.
  - cbn [delink_links List.filter].
    destruct (String.eqb (fst l) remote); [|apply IH].
    rewrite bool_decide_eq_true_2 by done.
    unfold removeChannel. rewrite Hauto.
    destruct (IH (with_links (fun s => s ∖ {[l]}) e)) as [evs ->].
    eexists. f_equal. f_equal. unfold with_links. cbn. f_equal.
    apply difference_difference_l_L.
Qed.

Lemma delink_all_done (w : World) (remote : string) (chans : list string)
    (db : database) :
  w_autojoin w remote = Some chans ->
  remote ∈ w_networks w ->
  (forall s, w_iter w s ≡ₚ elements s) ->
  exists evs,
    delink_all w remote db
    = (None,
       (fun kv => (fst kv,
                   with_links (filter (fun l => fst l <> remote)) (snd kv)))
         <$> db,
       evs).
Proof.
  intros Hauto Hnet Hiter. induction db as [|[k e] db [evs2 IH]].
  - by exists [].
  - cbn [delink_all].
    destruct (delink_links_done w remote chans (w_iter w (links e))
                Hauto Hnet e) as [evs ->].
    rewrite IH. eexists. cbn. f_equal. f_equal. f_equal. f_equal.
    unfold with_links. f_equal. apply set_eq. intros x.
    rewrite elem_of_difference, elem_of_list_to_set, elem_of_filter.
    rewrite list_elem_of_In, filter_In, <- list_elem_of_In.
    rewrite (Hiter (links e)), elem_of_elements.
    destruct (String.eqb_spec (fst x) remote); intuition congruence.
Qed.

End RelayDBFacts.

Section RelayCommands.
Import RelayDB RelayDBFacts RelayExamples.

(** X26. [link] never raises, and it changes the database only when it
    answers [Done.]: then the local channel belonged to no relay before,
    the relay named by the remote network and channel exists, and
    [findRelay] now finds that relay for the local channel. What
    [findRelay] says of every other channel is as before. Every other
    answer is one error message and leaves the database as it was. *)
Theorem relay_link_registers_channel (w : World) (net source a0 a1 : string)
    (more : list string) (db : database) :
  let channel := Text.lower a1 in
  let remotenet := Text.lower a0 in
  let localchan := match more with
                   | a2 :: _ => Text.lower a2
                   | [] => channel
                   end in
  let r := link w net source (a0 :: a1 :: more) db in
  raised r = None
  /\ (In (Msg net source "Done." []) (events r) ->
      findRelay db (net, localchan) = None
      /\ has_key db (remotenet, channel) = true
      /\ findRelay (db_after r) (net, localchan) = Some (remotenet, channel)
      /\ events r = [JoinClient net localchan; Msg net source "Done." []]
      /\ forall pair, pair <> (net, localchan) ->
           findRelay (db_after r) pair = findRelay db pair)
  /\ (~ In (Msg net source "Done." []) (events r) ->
      db_after r = db /\ exists format a, events r = [Msg net source format a]).
Proof.
  intros channel remotenet localchan r. subst r. unfold link.
  fold channel remotenet localchan.
  assert (Herr : forall format a,
            format <> "Done." ->
            let r := reply db net source format a in
            raised r = None
            /\ (In (Msg net source "Done." []) (events r) ->
                findRelay db (net, localchan) = None
                /\ has_key db (remotenet, channel) = true
                /\ findRelay (db_after r) (net, localchan)
                   = Some (remotenet, channel)
                /\ events r = [JoinClient net localchan; Msg net source "Done." []]
                /\ forall pair, pair <> (net, localchan) ->
                     findRelay (db_after r) pair = findRelay db pair)
            /\ (~ In (Msg net source "Done." []) (events r) ->
                db_after r = db
                /\ exists format a, events r = [Msg net source format a])).
  { intros format a Hne. cbn. split; [done|]. split.
    - intros [[= H _]|[]]. by destruct Hne.
    - intros _. split; [done|]. by eexists _, _. }
  destruct (w_isChannel w channel); [|by apply Herr].
  destruct (w_isChannel w localchan); [|by apply Herr].
  destruct (bool_decide (source ∈ w_members w net localchan)); [|by apply Herr].
  destruct (w_isOper w net source); [|by apply Herr].
  destruct (bool_decide (remotenet ∈ w_networks w)); [|by apply Herr].
  cbn [negb].
  destruct (has_key db (net, localchan)) eqn:Hkey; [by apply Herr|].
  destruct (first_holder db (net, localchan)) eqn:Hhold; [by apply Herr|].
  destruct (lookup db (remotenet, channel)) as [e0|] eqn:Hlook;
    [|by apply Herr].
  cbn [raised events db_after initializeChannel List.app].
  split; [done|]. split.
  - intros _.
    destruct (change_add_link db (remotenet, channel) (net, localchan) e0
                Hlook Hhold) as (Hfirst & _ & _).
    split; [unfold findRelay; by rewrite Hkey|].
    split; [rewrite lookup_has_key, Hlook; by apply bool_decide_eq_true_2|].
    split; [unfold findRelay; by rewrite has_key_change, Hkey|].
    split; [done|].
    intros pair Hne. unfold findRelay. rewrite has_key_change.
    destruct (has_key db pair); [done|].
    apply change_elsewhere. intros e. cbn. by apply add_elsewhere.
  - intros Hnot. exfalso. apply Hnot. right. by left.
Qed.

Lemma relay_link_registers_channel_witness :
  findRelay home_db ("netb", "#guest") = None
  /\ findRelay
       (db_after (link two_nets "netb" "42XAAAAAA" ["NetA"; "#Home"; "#Guest"]
                    home_db))
       ("netb", "#guest")
     = Some ("neta", "#home").
Proof.
  pose proof (relay_link_registers_channel two_nets "netb" "42XAAAAAA"
                "NetA" "#Home" ["#Guest"] home_db) as (_ & H & _).
  destruct H as (H1 & _ & H3 & _).
  - right. left. reflexivity.
  - split; [exact H1|exact H3].
Defined.

(** X27. [link], [destroy] and [delink] keep every channel in one relay
    at most: if no channel pair is the name of one relay and a link of
    another, or a link of two relays, then the same holds of the database
    the command leaves, whatever its arguments and its outcome. [create]
    keeps this too when the channel it is given is not linked to a
    relay. *)
Theorem relay_commands_keep_channels_exclusive (w : World)
    (net source : string) (args : list string) (db : database) :
  exclusive db ->
  exclusive (db_after (link w net source args db))
  /\ exclusive (db_after (destroy w net source args db))
  /\ exclusive (db_after (delink w net source args db))
  /\ (match args with
      | a0 :: _ => first_holder db (net, Text.lower a0) = None
      | [] => True
      end -> exclusive (db_after (create w net source args db))).
Proof.
  intros Hx. split; [|split; [|split]].
  - unfold link. destruct args as [|a0 [|a1 more]]; [done|done|].
    set (channel := Text.lower a1). set (remotenet := Text.lower a0).
    set (localchan := match more with
                      | a2 :: _ => Text.lower a2
                      | [] => channel
                      end).
    destruct (w_isChannel w channel); [|done].
    destruct (w_isChannel w localchan); [|done].
    destruct (bool_decide (source ∈ w_members w net localchan)); [|done].
    destruct (w_isOper w net source); [|done].
    destruct (bool_decide (remotenet ∈ w_networks w)); [|done].
    cbn [negb].
    destruct (has_key db (net, localchan)) eqn:Hkey; [done|].
    destruct (first_holder db (net, localchan)) eqn:Hhold; [done|].
    destruct (lookup db (remotenet, channel)) as [e0|] eqn:Hlook; [|done].
    cbn [db_after]. intros pair. rewrite has_key_change.
    destruct (decide (pair = (net, localchan))) as [->|Hne].
    + destruct (change_add_link db (remotenet, channel) (net, localchan) e0
                  Hlook Hhold) as (_ & Hone & _).
      rewrite Hkey. refine (eq_ind_r (fun n => n + 0 <= 1) _ Hone). lia.
    + rewrite (proj2 (change_elsewhere db (remotenet, channel) pair
                        (with_links (fun s => s ∪ {[(net, localchan)]}))
                        ltac:(intros e; cbn; by apply add_elsewhere))).
      apply Hx.
  - unfold destroy. destruct args as [|a0 rest]; [done|].
    destruct (w_isChannel w (Text.lower a0)); [|done].
    destruct (w_isOper w net source); [|done]. cbn [negb].
    destruct (has_key db (net, Text.lower a0)); [|done].
    destruct (removeChannel w net (Text.lower a0)); cbn [db_after];
      by apply delete_exclusive.
  - unfold delink. destruct args as [|a0 more]; [done|].
    destruct (w_isOper w net source); [|done].
    destruct (w_isChannel w (Text.lower a0)); [|done]. cbn [negb].
    destruct (has_key db (net, Text.lower a0)).
    + destruct more as [|a1 more]; [done|].
      pose proof (delink_all_below w (Text.lower a1) db) as Hb.
      destruct (delink_all w (Text.lower a1) db) as [[o db'] evs].
      cbn [fst snd] in Hb.
      destruct o; cbn [db_after]; by apply (below_exclusive _ db).
    + destruct (unlink_first db (net, Text.lower a0)) as [db'|] eqn:Hu;
        [|done].
      pose proof (unlink_first_below _ _ _ Hu) as Hb.
      destruct (removeChannel w net (Text.lower a0)); cbn [db_after];
        by apply (below_exclusive _ db).
  - unfold create. destruct args as [|a0 rest]; [done|]. intros Hfree.
    destruct (w_isChannel w (Text.lower a0)); [|done].
    destruct (bool_decide (source ∈ w_members w net (Text.lower a0))); [|done].
    destruct (w_isOper w net source); [|done]. cbn [negb db_after].
    destruct (has_key db (net, Text.lower a0)) eqn:Hkey.
    + apply (below_exclusive _ db); [|done]. by apply store_existing_below.
    + rewrite store_new by done. intros pair. specialize (Hx pair).
      unfold holders, has_key in *. rewrite List.filter_app, length_app.
      cbn [List.filter snd fresh_entry links].
      rewrite (bool_decide_eq_false_2 (pair ∈ (∅ : gset chanpair)))
        by apply not_elem_of_empty.
      cbn [length]. rewrite fmap_app. cbn [fmap list_fmap fst].
      destruct (decide (pair = (net, Text.lower a0))) as [->|Hne].
      * pose proof (first_holder_none _ _ Hfree) as Hh. unfold holders in Hh.
        rewrite Hh. cbn [length].
        destruct (bool_decide (_ ∈ List.app _ _)); lia.
      * rewrite (bool_decide_ext (pair ∈ List.app db.*1 [(net, Text.lower a0)])
                   (pair ∈ db.*1)); [lia|].
        rewrite elem_of_app, list_elem_of_singleton.
        split; [intros [?|?]; [done|congruence]|by left].
Qed.

Lemma relay_commands_keep_channels_exclusive_witness :
  exclusive
    (db_after (link two_nets "netb" "42XAAAAAA" ["NetA"; "#Home"; "#Guest"]
                 home_db)).
Proof.
  apply (relay_commands_keep_channels_exclusive two_nets "netb" "42XAAAAAA"
           ["NetA"; "#Home"; "#Guest"] home_db).
  intros pair. unfold holders, home_db. cbn [List.filter snd fresh_entry links].
  rewrite (bool_decide_eq_false_2 (pair ∈ (∅ : gset chanpair)))
    by apply not_elem_of_empty.
  cbn [length]. destruct (has_key _ pair); lia.
Defined.

(** X28. [create] starts the relay afresh: for an operator who is in the
    channel, the entry of the channel is a new one without links, whatever
    the database held under that name, so a relay that exists loses its
    links; the other entries stay. The command does not look whether the
    channel is linked to a relay: when it is, and is no relay itself, the
    channel is afterwards the name of one relay and a link of another. *)
Theorem relay_create_starts_afresh (w : World) (net source a0 : string)
    (rest : list string) (db : database) :
  let channel := Text.lower a0 in
  let r := create w net source (a0 :: rest) db in
  w_isChannel w channel = true ->
  source ∈ w_members w net channel ->
  w_isOper w net source = true ->
  raised r = None
  /\ events r = [JoinClient net channel; Msg net source "Done." []]
  /\ lookup (db_after r) (net, channel) = Some (fresh_entry net)
  /\ findRelay (db_after r) (net, channel) = Some (net, channel)
  /\ (forall other, other <> (net, channel) ->
        lookup (db_after r) other = lookup db other)
  /\ (has_key db (net, channel) = false ->
      first_holder db (net, channel) <> None ->
      ~ exclusive (db_after r)).
Proof.
  intros channel r Hchan Hin Hoper. subst r. unfold create. fold channel.
  rewrite Hchan, Hoper, bool_decide_eq_true_2 by done.
  cbn [negb raised events db_after initializeChannel List.app].
  destruct (lookup_store db (net, channel) (fresh_entry net))
    as (Hl & Hk & Ho).
  split; [done|]. split; [done|]. split; [done|].
  split; [unfold findRelay; by rewrite Hk|]. split; [done|].
  intros Hnew Hheld Hx. specialize (Hx (net, channel)). rewrite Hk in Hx.
  rewrite store_new in Hx by done.
  unfold holders in Hx. rewrite List.filter_app, length_app in Hx.
  destruct (first_holder db (net, channel)) as [key|] eqn:Hf; [|done].
  pose proof (first_holder_some _ _ _ Hf) as Hne. unfold holders in Hne.
  destruct (List.filter _ db); [done|]. cbn [length] in Hx. lia.
Qed.

Lemma relay_create_starts_afresh_witness :
  lookup (db_after (create two_nets "neta" "42XAAAAAA" ["#Home"] linked_db))
    ("neta", "#home")
  = Some (fresh_entry "neta")
  /\ lookup (db_after (create two_nets "neta" "42XAAAAAA" ["#Home"] linked_db))
       ("neta", "#other")
     = lookup linked_db ("neta", "#other").
Proof.
  pose proof (relay_create_starts_afresh two_nets "neta" "42XAAAAAA" "#Home"
                [] linked_db eq_refl) as H.
  destruct H as (_ & _ & H3 & _ & H5 & _).
  - by apply elem_of_singleton.
  - reflexivity.
  - split; [exact H3|]. apply H5. discriminate.
Defined.

(** X29. [delink] from a channel that is a link takes the link out of the
    first relay that holds it, and so undoes [link]: after a [link] that
    answered [Done.], a [delink] of the local channel by the same operator
    leaves the database the [link] found, also when the call then raises
    [KeyError] because the network has no list of channels to stay in.
    For a channel that is neither a relay nor a link, [delink] by an
    operator raises [UnboundLocalError], with no answer sent and the
    database as it was. *)
Theorem relay_delink_undoes_link (w : World) (net source : string)
    (db : database) :
  (forall a0 a1 more,
     let channel := Text.lower a1 in
     let localchan := match more with
                      | a2 :: _ => Text.lower a2
                      | [] => channel
                      end in
     let linked := db_after (link w net source (a0 :: a1 :: more) db) in
     In (Msg net source "Done." [])
        (events (link w net source (a0 :: a1 :: more) db)) ->
     db_after (delink w net source [localchan] linked) = db
     /\ raised (delink w net source [localchan] linked)
        = match w_autojoin w net with
          | Some _ => None
          | None => Some (Exn KeyError)
          end)
  /\ (forall a0 more,
        w_isOper w net source = true ->
        w_isChannel w (Text.lower a0) = true ->
        findRelay db (net, Text.lower a0) = None ->
        delink w net source (a0 :: more) db
        = {| raised := Some UnboundLocalError; db_after := db; events := [] |}).
Proof.
  split.
  - intros a0 a1 more channel localchan linked. subst linked. unfold link.
    fold channel localchan.
    assert (Herr : forall format a, format <> "Done." ->
              ~ In (Msg net source "Done." [])
                  (events (reply db net source format a))).
    { intros format a Hne [[= H _]|[]]. by destruct Hne. }
    destruct (w_isChannel w channel); [|by intros ?%Herr].
    destruct (w_isChannel w localchan) eqn:Hchan; [|by intros ?%Herr].
    destruct (bool_decide (source ∈ w_members w net localchan));
      [|by intros ?%Herr].
    destruct (w_isOper w net source) eqn:Hoper; [|by intros ?%Herr].
    destruct (bool_decide (Text.lower a0 ∈ w_networks w)); [|by intros ?%Herr].
    cbn [negb].
    destruct (has_key db (net, localchan)) eqn:Hkey; [by intros ?%Herr|].
    destruct (first_holder db (net, localchan)) eqn:Hhold; [by intros ?%Herr|].
    destruct (lookup db (Text.lower a0, channel)) as [e0|] eqn:Hlook;
      [|by intros ?%Herr].
    intros _. cbn [db_after]. unfold delink.
    assert (Hlc : Text.lower localchan = localchan).
    { subst localchan channel. destruct more; apply lower_idem. }
    rewrite Hlc, Hoper, Hchan, has_key_change, Hkey. cbn [negb].
    destruct (change_add_link db (Text.lower a0, channel) (net, localchan) e0
                Hlook Hhold) as (_ & _ & Hundo).
    match goal with
    | |- context [unlink_first ?d ?p] =>
        replace (unlink_first d p) with (Some db) by (symmetry; exact Hundo)
    end.
    unfold removeChannel. by destruct (w_autojoin w net).
  - intros a0 more Hoper Hchan Hfree. unfold delink.
    rewrite Hoper, Hchan. cbn [negb]. unfold findRelay in Hfree.
    destruct (has_key db (net, Text.lower a0)); [done|].
    by rewrite (unlink_first_none _ _ Hfree).
Qed.

Lemma relay_delink_undoes_link_witness :
  db_after (delink two_nets "netb" "42XAAAAAA" ["#guest"]
              (db_after (link two_nets "netb" "42XAAAAAA"
                           ["NetA"; "#Home"; "#Guest"] home_db)))
  = home_db
  /\ delink two_nets "netb" "42XAAAAAA" ["#Nowhere"] home_db
     = {| raised := Some UnboundLocalError; db_after := home_db;
          events := [] |}.
Proof.
  pose proof (relay_delink_undoes_link two_nets "netb" "42XAAAAAA" home_db)
    as [H1 H2].
  split.
  - apply (H1 "NetA" "#Home" ["#Guest"]). right. left. reflexivity.
  - apply (H2 "#Nowhere" []); reflexivity.
Defined.

(** X30. [delink] from the channel a relay is named after, with a network
    named, goes through the whole database: it takes the links of that
    network out of every relay, not only out of the relay of the channel,
    and leaves the links of the other networks. This is the outcome when
    the network is known and has a list of channels to stay in; the
    command then answers [Done.]. *)
Theorem relay_owner_delink_clears_network (w : World) (net source a0 a1 : string)
    (more chans : list string) (db : database) :
  let channel := Text.lower a0 in
  let remote := Text.lower a1 in
  let r := delink w net source (a0 :: a1 :: more) db in
  w_isOper w net source = true ->
  w_isChannel w channel = true ->
  has_key db (net, channel) = true ->
  remote ∈ w_networks w ->
  w_autojoin w remote = Some chans ->
  (forall s, w_iter w s ≡ₚ elements s) ->
  raised r = None
  /\ db_after r
     = (fun kv => (fst kv,
                   with_links (filter (fun l => fst l <> remote)) (snd kv)))
         <$> db
  /\ (forall key e l, (key, e) ∈ db_after r -> l ∈ links e -> fst l <> remote)
  /\ List.last (events r) (Msg net source "" []) = Msg net source "Done." [].
Proof.
  intros channel remote r Hoper Hchan Hkey Hnet Hauto Hiter. subst r.
  unfold delink. fold channel remote. rewrite Hoper, Hchan, Hkey. cbn [negb].
  destruct (delink_all_done w remote chans db Hauto Hnet Hiter) as [evs ->].
  cbn [raised db_after events].
  split; [done|]. split; [done|]. split.
  - intros key e l [[k0 e0] [[= -> ->] _]]%list_elem_of_fmap.
    cbn [links with_links snd]. intros Hl%elem_of_filter. by destruct Hl.
  - by rewrite last_last.
Qed.

Lemma relay_owner_delink_clears_network_witness :
  db_after (delink two_nets "neta" "42XAAAAAA" ["#Home"; "NetB"] linked_db)
  = (fun kv => (fst kv,
                with_links (filter (fun l => fst l <> "netb")) (snd kv)))
      <$> linked_db.
Proof.
  pose proof (relay_owner_delink_clears_network two_nets "neta" "42XAAAAAA"
                "#Home" "NetB" [] [] linked_db eq_refl eq_refl) as H.
  destruct H as (_ & H2 & _).
  - reflexivity.
  - vm_compute. reflexivity.
  - reflexivity.
  - intros s. reflexivity.
  - exact H2.
Defined.

End RelayCommands.
